(** * Package assembly and distribution engine: a shallow embedding

    The Go sources embedded here are
      - [src/extensions/bigbang/bigbang.go]      (module [bigbang]),
      - [src/cmd/generate.go]                    (module [generate]),
      - [src/pkg/packager/creator/normal.go]     (module [creator]),
      - [src/pkg/packager/oras.go]               (module [packager]),
      - the composer's OCI file                  (module [composer]),
      - the spinners of [src/pkg/message]        (module [message]).

    Go values are modelled as the code has them: [string] for Go strings
    (byte sequences), [Z] for [int] with the 64-bit bounds written out,
    records for structs, lists for slices, [gmap string _] for the
    file system and the content store.  Calls that leave the program
    (network, git, helm, the YAML codec) are fields of a record of
    collaborators, so every definition still computes once the
    collaborators are given. *)

From Stdlib Require Import ZArith List String Ascii Lia Bool DecimalString.
From stdpp Require Import base option list strings gmap.

Import ListNotations.
Local Open Scope string_scope.
Local Open Scope list_scope.
Local Open Scope Z_scope.

(** ** Go runtime pieces shared by all packages *)

Module go.

(** Go's [error] values: [errors.New]/[fmt.Errorf] without [%w] build a
    leaf, [fmt.Errorf("...: %w", err)] wraps a cause. *)
Inductive error : Type :=
| New (msg : string)
| Wrap (prefix : string) (cause : error).

(** [err.Error()] *)
Fixpoint Error (e : error) : string :=
  match e with
  | New msg => msg
  | Wrap prefix cause => prefix +:+ Error cause
  end.

(** [errors.Unwrap] applied until the leaf. *)
Fixpoint rootCause (e : error) : error :=
  match e with
  | New msg => New msg
  | Wrap _ cause => rootCause cause
  end.

(** A Go function returning [(T, error)] with the usual convention. *)
Inductive result (T : Type) : Type :=
| Ok (v : T)
| Err (e : error).
Arguments Ok {T} v.
Arguments Err {T} e.

Definition is_ok {T} (r : result T) : bool :=
  match r with Ok _ => true | Err _ => false end.

(** *** [strings.Split] at a one-byte separator (the only use in the
    sources): the pieces between the separators, [n+1] pieces for [n]
    separators, so the empty string gives one empty piece. *)
Fixpoint splitByte (sep : ascii) (cur : string) (s : string) : list string :=
  match s with
  | EmptyString => [cur]
  | String c rest =>
      if Ascii.eqb c sep
      then cur :: splitByte sep EmptyString rest
      else splitByte sep (cur +:+ String c EmptyString) rest
  end.

Definition strings_Split (s : string) (sep : ascii) : list string :=
  splitByte sep EmptyString s.

(** *** [strconv.Atoi] on a 64-bit platform *)

Inductive NumError : Type := ErrSyntax | ErrRange.

Definition byteVal (c : ascii) : Z := Z.of_N (N_of_ascii c).

(** [ch -= '0'; ch > 9] on a byte is false exactly for '0'..'9'. *)
Definition isDigit (c : ascii) : bool := (48 <=? byteVal c) && (byteVal c <=? 57).

Definition digit (c : ascii) : Z := byteVal c - 48.

Definition maxUint64 : Z := 2 ^ 64 - 1.
Definition maxInt64 : Z := 2 ^ 63 - 1.
Definition minInt64 : Z := - 2 ^ 63.

(** The loop of Atoi's fast path: [n = n*10 + int(ch)], a syntax error
    at the first byte that is not a digit. *)
Fixpoint atoiLoop (s : string) (n : Z) : option Z :=
  match s with
  | EmptyString => Some n
  | String ch rest =>
      if isDigit ch then atoiLoop rest (n * 10 + digit ch) else None
  end.

(** The loop of [ParseUint(s, 10, 64)]: the first byte that is not a
    digit is a syntax error with value 0; when the next digit would
    overflow the loop returns [maxUint64] and a range error at once,
    without looking at the bytes that follow. *)
Fixpoint parseUintLoop (s : string) (n : Z) : Z * option NumError :=
  match s with
  | EmptyString => (n, None)
  | String c rest =>
      if negb (isDigit c) then (0, Some ErrSyntax)
      else if maxUint64 / 10 + 1 <=? n then (maxUint64, Some ErrRange)
      else if maxUint64 <? n * 10 + digit c then (maxUint64, Some ErrRange)
      else parseUintLoop rest (n * 10 + digit c)
  end.

Definition ParseUint (s : string) : Z * option NumError :=
  match s with
  | EmptyString => (0, Some ErrSyntax)
  | _ => parseUintLoop s 0
  end.

(** [ParseInt(s, 10, 0)] *)
Definition ParseInt (s : string) : Z * option NumError :=
  match s with
  | EmptyString => (0, Some ErrSyntax)
  | String c0 rest =>
      let neg := Ascii.eqb c0 "-" in
      let digits := if Ascii.eqb c0 "+" || neg then rest else s in
      match ParseUint digits with
      | (_, Some ErrSyntax) => (0, Some ErrSyntax)
      | (un, _) =>
          if negb neg && (2 ^ 63 <=? un) then (maxInt64, Some ErrRange)
          else if neg && (2 ^ 63 <? un) then (minInt64, Some ErrRange)
          else (if neg then - un else un, None)
      end
  end.

(** [strconv.Atoi]: the fast path for 1..18 bytes, [ParseInt] for the
    rest.  The value is returned together with the error, and callers
    that drop the error keep the value. *)
Definition Atoi (s : string) : Z * option NumError :=
  match s with
  | EmptyString => ParseInt s
  | String c0 rest =>
      if (String.length s <? 19)%nat then
        let signed := Ascii.eqb c0 "-" || Ascii.eqb c0 "+" in
        let digits := if signed then rest else s in
        if signed && (String.length digits <? 1)%nat then (0, Some ErrSyntax)
        else
          match atoiLoop digits 0 with
          | None => (0, Some ErrSyntax)
          | Some n => (if Ascii.eqb c0 "-" then - n else n, None)
          end
      else ParseInt s
  end.

(** [major, _ := strconv.Atoi(s)] *)
Definition AtoiValue (s : string) : Z := fst (Atoi s).

(** *** [filepath.Ext] where the path separator is the slash

    The loop of [Ext] runs from the last byte towards the first, stops
    with the empty string at a separator, and returns the suffix that
    starts at the first dot it meets.  [before] holds the bytes not yet
    visited, the nearest first; [suffix] the bytes already passed. *)
Fixpoint extLoop (before : list ascii) (suffix : string) : string :=
  match before with
  | [] => ""
  | c :: before' =>
      if Ascii.eqb c "/" then ""
      else if Ascii.eqb c "." then String c suffix
      else extLoop before' (String c suffix)
  end.

Definition filepath_Ext (path : string) : string :=
  extLoop (rev (list_ascii_of_string path)) "".

End go.

Export go(error, result, Ok, Err).

(** ** Computations with effects

    A Go function that calls out of the program is a function of the
    world it runs in.  Its outcome is the returned value or error, the
    world it leaves behind, and the calls it made, in order. *)

Module eff.
Section Effects.
Context {World Event : Type}.

Record outcome (A : Type) : Type :=
Outcome { out : result A; world : World; trace : list Event }.
Arguments Outcome {A} _ _ _.
Arguments out {A} _.
Arguments world {A} _.
Arguments trace {A} _.

Definition M (A : Type) : Type := World -> outcome A.

Definition ret {A} (a : A) : M A := fun w => Outcome (Ok a) w [].

(** [return err] *)
Definition fail {A} (e : error) : M A := fun w => Outcome (Err e) w [].

(** Sequencing with Go's [if err != nil { return err }]. *)
Definition bind {A B} (m : M A) (k : A -> M B) : M B := fun w =>
let r := m w in
match out r with
| Err e => Outcome (Err e) (world r) (trace r)
| Ok a =>
    let r' := k a (world r) in
    Outcome (out r') (world r') (trace r ++ trace r')
end.

(** [if err := m; err != nil { return wrap(err) }] *)
Definition wrapErr {A} (wrap : error -> error) (m : M A) : M A := fun w =>
let r := m w in
match out r with
| Err e => Outcome (Err (wrap e)) (world r) (trace r)
| Ok a => r
end.

(** [x, err := m] with the error kept as a value: never returns early. *)
Definition attempt {A} (m : M A) : M (result A) := fun w =>
let r := m w in Outcome (Ok (out r)) (world r) (trace r).

(** [if err := m; err != nil { handler(); return wrap(err) }] *)
Definition onError {A} (m : M A) (handler : M unit) (wrap : error -> error) : M A :=
fun w =>
  let r := m w in
  match out r with
  | Ok a => r
  | Err e =>
      let r' := handler (world r) in
      Outcome (Err (wrap e)) (world r') (trace r ++ trace r')
  end.

(** A read of the world. *)
Definition read {A} (f : World -> A) : M A := fun w => Outcome (Ok (f w)) w [].

(** A change of the world that cannot fail, recorded in the trace. *)
Definition update (ev : Event) (f : World -> World) : M unit :=
fun w => Outcome (Ok tt) (f w) [ev].

(** A call to a collaborator that the trace does not record. *)
Definition lift {A} (f : World -> result A * World) : M A :=
fun w => let '(r, w') := f w in Outcome r w' [].

(** One call to a collaborator, recorded in the trace with its outcome. *)
Definition call {A} (ev : bool -> Event) (f : World -> result A * World) : M A :=
fun w => let '(r, w') := f w in Outcome r w' [ev (go.is_ok r)].

(** A trace entry for something that cannot fail and leaves the world
  as it is. *)
Definition emit (ev : Event) : M unit := fun w => Outcome (Ok tt) w [ev].

(** [for i, x := range l { body }], starting at index [i]. *)
Fixpoint forRange {A} (body : nat -> A -> M unit) (i : nat) (l : list A) : M unit :=
match l with
| [] => ret tt
| x :: rest => bind (body i x) (fun _ => forRange body (S i) rest)
end.

(** The same loop with a value threaded through (a slice appended to,
  a map filled in). *)
Fixpoint foldRange {A B} (body : nat -> B -> A -> M B) (i : nat) (acc : B) (l : list A)
: M B :=
match l with
| [] => ret acc
| x :: rest => bind (body i acc x) (fun acc' => foldRange body (S i) acc' rest)
end.

(** *** Vocabulary for statements about traces *)

(** The outcome [r] with the trace [t] in front. *)
Definition after {A} (t : list Event) (r : outcome A)
: outcome A :=
Outcome (out r) (world r) (t ++ trace r).

Definition traceAll {A} (P : Event -> Prop) (m : M A) : Prop :=
forall w, Forall P (trace (m w)).

(** [res] picks the calls of interest and [bad] the failed ones among
    them.  A trace is [quiet] when no call of interest follows a failed
    one. *)
Section Quiet.
Variables res bad : Event -> bool.

Definition silent (t : list Event) : Prop := Forall (fun ev => res ev = false) t.
Definition clean (t : list Event) : Prop := Forall (fun ev => bad ev = false) t.

Inductive quiet : list Event -> Prop :=
| quiet_nil : quiet []
| quiet_cons ev t : (bad ev = true -> silent t) -> quiet t -> quiet (ev :: t).

(** A computation is [Good] when its trace is quiet and, if it returns
    without error, no call of interest failed on the way. *)
Definition Good {A} (m : M A) : Prop :=
  forall w, quiet (trace (m w))
            /\ (go.is_ok (out (m w)) = true -> clean (trace (m w))).

End Quiet.

End Effects.
End eff.

Arguments eff.Outcome {World Event A} _ _ _.
Arguments eff.out {World Event A} _.
Arguments eff.world {World Event A} _.
Arguments eff.trace {World Event A} _.

Notation "'let*' x ':=' m 'in' k" := (eff.bind m (fun x => k))
  (at level 10, x pattern, m at level 100, k at level 200).
Notation "'run' m 'in' k" := (eff.bind m (fun _ => k))
  (at level 10, m at level 100, k at level 200).

(** ** The data model ([src/types], [src/types/extensions]), restricted
    to the fields the embedded functions read or write. *)

Module types.

Module BigBang.
Record t : Type := mk
  { Version : string; Repo : string; ValuesFiles : list string; SkipFlux : bool }.
Definition setRepo (r : string) (b : t) : t :=
  mk (Version b) r (ValuesFiles b) (SkipFlux b).
End BigBang.

Module ZarfFile.
Record t : Type := mk
  { Source : string; Shasum : string; Target : string;
    Executable : bool; Symlinks : list string; ExtractPath : string }.
End ZarfFile.

Module ZarfDataInjection.
Record t : Type := mk
  { Source : string; TargetPath : string; TargetSelector : string }.
End ZarfDataInjection.

Module ZarfManifest.
Record t : Type := mk
  { Name : string; Namespace : string; Files : list string;
    KustomizeAllowAnyDirectory : bool; Kustomizations : list string }.
End ZarfManifest.

Module ZarfChart.
Record t : Type := mk
  { Name : string; Version : string; URL : string; GitPath : string;
    Namespace : string; ValuesFiles : list string }.
End ZarfChart.

Module ZarfComponentAction.
Record t : Type := mk { Description : string; Cmd : string }.
End ZarfComponentAction.

Module ZarfComponentActionSet.
Record t : Type := mk
  { Defaults : string;
    Before : list ZarfComponentAction.t;
    After : list ZarfComponentAction.t;
    OnSuccess : list ZarfComponentAction.t;
    OnFailure : list ZarfComponentAction.t }.
End ZarfComponentActionSet.

Module ZarfComponentImport.
Record t : Type := mk { ComponentName : string; Path : string; URL : string }.
End ZarfComponentImport.

Module ZarfComponent.
Record t : Type := mk
  { Name : string;
    Import : ZarfComponentImport.t;
    Files : list ZarfFile.t;
    Charts : list ZarfChart.t;
    Manifests : list ZarfManifest.t;
    Images : list string;
    Repos : list string;
    DataInjections : list ZarfDataInjection.t;
    OnCreate : ZarfComponentActionSet.t;      (* Actions.OnCreate *)
    ExtBigBang : BigBang.t;                   (* Extensions.BigBang *)
    DeprecatedCosignKeyPath : string }.
Definition setManifests (v : list ZarfManifest.t) (c : t) : t :=
  mk (Name c) (Import c) (Files c) (Charts c) v (Images c) (Repos c)
     (DataInjections c) (OnCreate c) (ExtBigBang c) (DeprecatedCosignKeyPath c).
Definition setImages (v : list string) (c : t) : t :=
  mk (Name c) (Import c) (Files c) (Charts c) (Manifests c) v (Repos c)
     (DataInjections c) (OnCreate c) (ExtBigBang c) (DeprecatedCosignKeyPath c).
Definition setRepos (v : list string) (c : t) : t :=
  mk (Name c) (Import c) (Files c) (Charts c) (Manifests c) (Images c) v
     (DataInjections c) (OnCreate c) (ExtBigBang c) (DeprecatedCosignKeyPath c).
Definition setExtBigBang (v : BigBang.t) (c : t) : t :=
  mk (Name c) (Import c) (Files c) (Charts c) (Manifests c) (Images c) (Repos c)
     (DataInjections c) (OnCreate c) v (DeprecatedCosignKeyPath c).
End ZarfComponent.

Module ZarfMetadata.
Record t : Type := mk
  { Name : string; Description : string; Version : string;
    Architecture : string; AggregateChecksum : string }.
Definition setName (v : string) (m : t) : t :=
  mk v (Description m) (Version m) (Architecture m) (AggregateChecksum m).
Definition setAggregateChecksum (v : string) (m : t) : t :=
  mk (Name m) (Description m) (Version m) (Architecture m) v.
End ZarfMetadata.

Module ZarfBuildData.
Record t : Type := mk
  { Architecture : string; Differential : bool; Migrations : list string }.
Definition setMigrations (v : list string) (b : t) : t :=
  mk (Architecture b) (Differential b) v.
End ZarfBuildData.

Module ZarfPackageVariable.
Record t : Type := mk { Name : string; Default : string }.
End ZarfPackageVariable.

Module ZarfPackageConstant.
Record t : Type := mk { Name : string; Value : string }.
End ZarfPackageConstant.

Module ZarfPackage.
Record t : Type := mk
  { Kind : string;
    Metadata : ZarfMetadata.t;
    Build : ZarfBuildData.t;
    Components : list ZarfComponent.t;
    Variables : list ZarfPackageVariable.t;
    Constants : list ZarfPackageConstant.t }.
Definition setKind (v : string) (p : t) : t :=
  mk v (Metadata p) (Build p) (Components p) (Variables p) (Constants p).
Definition setComponents (v : list ZarfComponent.t) (p : t) : t :=
  mk (Kind p) (Metadata p) (Build p) v (Variables p) (Constants p).
Definition setMetadata (v : ZarfMetadata.t) (p : t) : t :=
  mk (Kind p) v (Build p) (Components p) (Variables p) (Constants p).
Definition setBuild (v : ZarfBuildData.t) (p : t) : t :=
  mk (Kind p) (Metadata p) v (Components p) (Variables p) (Constants p).
(** [types.ZarfPackage{}] *)
Definition zero : t :=
  mk "" (ZarfMetadata.mk "" "" "" "" "") (ZarfBuildData.mk "" false []) [] [] [].
End ZarfPackage.

Module DifferentialData.
Record t : Type := mk
  { DifferentialPackagePath : string;
    DifferentialPackageVersion : string;
    DifferentialImages : list string;
    DifferentialRepos : list string }.
End DifferentialData.

Module ZarfCreateOptions.
Record t : Type := mk
  { SkipSBOM : bool;
    Output : string;
    RegistryOverrides : list (string * string);
    DifferentialData : DifferentialData.t }.
End ZarfCreateOptions.

Module PackagerConfig.
Record t : Type := mk
  { CreateOpts : ZarfCreateOptions.t; Pkg : ZarfPackage.t }.
End PackagerConfig.

Module ComponentPaths.
Record t : Type := mk
  { Base : string; Temp : string; Files : string; Charts : string;
    Values : string; Repos : string; Manifests : string;
    DataInjections : string }.
End ComponentPaths.

End types.

(** ** Helpers of [src/pkg/utils/helpers] *)

Module helpers.

(** Modelled from the spec: [helpers.Unique] is not among the embedded
    sources.  The spec asks for "one deduplicated ordered set (...
    first-seen order preserved for determinism)": an element is kept
    where it is first seen and dropped at every later occurrence. *)
Fixpoint uniqueFrom {T} `{EqDecision T} (seen : list T) (s : list T) : list T :=
  match s with
  | [] => []
  | x :: rest =>
      if bool_decide (x ∈ seen) then uniqueFrom seen rest
      else x :: uniqueFrom (x :: seen) rest
  end.

Definition Unique {T} `{EqDecision T} (s : list T) : list T := uniqueFrom [] s.

Section Retry.
Context {World Event A : Type}.
(** [time.Sleep] and the logger handed to [Retry]. *)
Variable time_Sleep : Z -> @eff.M World Event unit.
Variable logger : string -> @eff.M World Event unit.

(** Modelled from the spec: [helpers.Retry] is not among the embedded
    sources.  The spec has the call "retried up to a fixed bound (3
    attempts, fixed backoff of 5s) before the whole assembly fails":
    [fn] is attempted until it succeeds, at most [retries] times, with
    a sleep of [delay] between one attempt and the next; when the last
    attempt fails, its error is the result.  [none] stands for the
    values [fn] leaves untouched when it is never called. *)
Fixpoint Retry (fn : @eff.M World Event A) (retries : nat) (delay : Z) (none : A)
  : @eff.M World Event A :=
  match retries with
  | O => eff.ret none
  | S remaining =>
      match remaining with
      | O => fn
      | S _ =>
          let* r := eff.attempt fn in
          match r with
          | Ok a => eff.ret a
          | Err e =>
              run logger (go.Error e) in
              run time_Sleep delay in
              Retry fn remaining delay none
          end
      end
  end.
End Retry.

End helpers.

(** ** [src/extensions/bigbang/bigbang.go] *)

Module bigbang.

Import types.

Definition bb : string := "bigbang".
Definition bbRepo : string := "https://repo1.dso.mil/big-bang/bigbang.git".

(** [isValidVersion]: three dot-separated parts, of which the first two
    are read with [strconv.Atoi], the errors dropped. *)
Definition isValidVersion (version : string) : bool :=
  match go.strings_Split version "." with
  | [p0; p1; _] =>
      let major := go.AtoiValue p0 in
      let minor := go.AtoiValue p1 in
      (1 <=? major) && (52 <=? minor)
  | _ => false
  end.

Section Run.
Context {World : Type}.

(** What [Run] calls outside this file. *)
Record Collaborators : Type :=
  { utils_CreateDirectory : string -> Z -> World -> result unit * World;
    getFlux : BigBang.t -> World -> result (ZarfManifest.t * list string) * World;
    path_Join : string -> string -> string;
    helm_DownloadChartFromGit : ZarfChart.t -> string -> string -> World -> World;
    helm_TemplateChart : ZarfChart.t -> string -> World -> result string * World;
    os_RemoveAll : string -> World -> World;
    findURLs : string -> list string;
    helm_FindImagesForChartRepo : string -> string -> World -> result (list string) * World;
    addBigBangManifests : string -> BigBang.t -> World -> result ZarfManifest.t * World }.

Variable X : Collaborators.

(** The loop [for _, r := range c.Repos] of [Run]: the images of each
    repo are appended to [c.Images]; the first failure returns. *)
Fixpoint findImages (repos : list string) (c : ZarfComponent.t) (w : World)
  : (ZarfComponent.t * option error) * World :=
  match repos with
  | [] => ((c, None), w)
  | r :: rest =>
      match helm_FindImagesForChartRepo X r "chart" w with
      | (Err e, w1) => ((c, Some (go.Wrap "unable to find images for chart repo: " e)), w1)
      | (Ok images, w1) =>
          findImages rest (ZarfComponent.setImages (ZarfComponent.Images c ++ images) c) w1
      end
  end.

Definition Run (tmpPaths : ComponentPaths.t) (c : ZarfComponent.t) (w : World)
  : (ZarfComponent.t * option error) * World :=
  match utils_CreateDirectory X (ComponentPaths.Charts tmpPaths) 448 w with
  | (Err e, w1) => ((c, Some (go.Wrap "unable to create charts directory: " e)), w1)
  | (Ok _, w1) =>
  match utils_CreateDirectory X (ComponentPaths.Manifests tmpPaths) 448 w1 with
  | (Err e, w2) => ((c, Some (go.Wrap "unable to create manifests directory: " e)), w2)
  | (Ok _, w2) =>
  let cfg := ZarfComponent.ExtBigBang c in
  (* Make sure the version is valid. *)
  if negb (isValidVersion (BigBang.Version cfg)) then
    ((c, Some (go.New ("invalid version: " +:+ BigBang.Version cfg
                        +:+ ", must be at least 1.52.0"))), w2)
  else
  (* cfg points into c: the default repo is written through. *)
  let cfg := if String.eqb (BigBang.Repo cfg) "" then BigBang.setRepo bbRepo cfg else cfg in
  let c := ZarfComponent.setExtBigBang cfg c in
  let flux :=
    if negb (BigBang.SkipFlux cfg) then
      match getFlux X cfg w2 with
      | (Err e, w3) => ((c, Some e), w3)
      | (Ok (fluxManifest, images), w3) =>
          let c := ZarfComponent.setManifests (ZarfComponent.Manifests c ++ [fluxManifest]) c in
          ((ZarfComponent.setImages (ZarfComponent.Images c ++ images) c, None), w3)
      end
    else ((c, None), w2) in
  match flux with
  | ((c, Some e), w3) => ((c, Some e), w3)
  | ((c, None), w3) =>
  let chart := ZarfChart.mk bb (BigBang.Version cfg) (BigBang.Repo cfg) "./chart" bb
                 (BigBang.ValuesFiles cfg) in
  let chartPath := path_Join X (ComponentPaths.Base tmpPaths) bb in
  let w4 := helm_DownloadChartFromGit X chart (ComponentPaths.Charts tmpPaths) chartPath w3 in
  let '(template, w5) := helm_TemplateChart X chart (ComponentPaths.Charts tmpPaths) w4 in
  let w6 := os_RemoveAll X chartPath w5 in
  match template with
  | Err e => ((c, Some (go.Wrap "unable to template BigBang Chart: " e)), w6)
  | Ok template =>
  let bbRepo := BigBang.Repo cfg +:+ "@" +:+ BigBang.Version cfg in
  let c := ZarfComponent.setRepos (ZarfComponent.Repos c ++ [bbRepo]) c in
  let c := ZarfComponent.setRepos (ZarfComponent.Repos c ++ findURLs X template) c in
  match findImages (ZarfComponent.Repos c) c w6 with
  | ((c, Some e), w7) => ((c, Some e), w7)
  | ((c, None), w7) =>
  let c := ZarfComponent.setImages (helpers.Unique (ZarfComponent.Images c)) c in
  match addBigBangManifests X (ComponentPaths.Manifests tmpPaths) cfg w7 with
  | (Err e, w8) => ((c, Some e), w8)
  | (Ok manifest, w8) =>
      ((ZarfComponent.setManifests (ZarfComponent.Manifests c ++ [manifest]) c, None), w8)
  end end end end end end.

End Run.

(** A sample run: no world, every collaborator succeeds. *)
Definition allSucceed : @Collaborators unit :=
  {| utils_CreateDirectory := fun _ _ w => (Ok tt, w);
     getFlux := fun _ w => (Ok (ZarfManifest.mk "flux" "flux" [] false [], []), w);
     path_Join := fun a b => a +:+ "/" +:+ b;
     helm_DownloadChartFromGit := fun _ _ _ w => w;
     helm_TemplateChart := fun _ _ w => (Ok "", w);
     os_RemoveAll := fun _ w => w;
     findURLs := fun _ => [];
     helm_FindImagesForChartRepo := fun _ _ w => (Ok [], w);
     addBigBangManifests := fun _ _ w => (Ok (ZarfManifest.mk bb bb [] false []), w) |}.

Definition sampleComponent (version : string) : ZarfComponent.t :=
  ZarfComponent.mk "bigbang" (ZarfComponentImport.mk "" "" "") [] [] [] [] [] []
    (ZarfComponentActionSet.mk "" [] [] [] [])
    (BigBang.mk version "" [] false) "".

Definition samplePaths : ComponentPaths.t :=
  ComponentPaths.mk "tmp" "tmp/temp" "tmp/files" "tmp/charts" "tmp/values"
    "tmp/repos" "tmp/manifests" "tmp/data".

(** *** The two helpers of [Run] that bigbang.go defines itself

    [Run] above reaches [findURLs] and [addBigBangManifests] through its
    collaborators; here they are as the file has them. *)

Module impl.

(** [fluxSrcCtrl.GitRepositoryRef] and the part of
    [fluxSrcCtrl.GitRepository] that [findURLs] reads.  [Spec.Reference]
    is a pointer: [None] is nil. *)
Record GitRepositoryRef : Type := mkRef
  { Branch : string; Tag : string; SemVer : string; Commit : string }.

Record GitRepository : Type := mkGitRepository
  { Kind : string; URL : string; Reference : option GitRepositoryRef }.

(** The dereference of a nil pointer ends the program. *)
Definition nilDereference : error :=
  go.New "runtime error: invalid memory address or nil pointer dereference".

(** [fluxHelmCtrl.ValuesReference] *)
Record ValuesReference : Type := mkValuesReference
  { RefKind : string; RefName : string }.

Inductive Event : Type :=
| EvValuesFile (path : string) (ok : bool)
| EvWriteFile (path : string) (bytes : string) (ok : bool).

(** The path of a file that was written. *)
Definition written (ev : Event) : option string :=
  match ev with
  | EvWriteFile path _ true => Some path
  | _ => None
  end.

Section Helpers.
Context {World Doc : Type}.

Record Collaborators : Type :=
  { utils_SplitYAMLToString : string -> list string;
    yaml_Unmarshal : string -> result GitRepository;
    path_Join : string -> string -> string;
    yaml_Marshal : Doc -> result string;
    utils_WriteFile : string -> string -> World -> result unit * World;
    (* the manifests of this package *)
    manifestGitRepo : BigBang.t -> Doc;
    manifestZarfCredentials : Doc;
    manifestValuesFile : string -> World -> result Doc * World;
    manifestHelmRelease : list ValuesReference -> Doc;
    secret_Name : Doc -> string }.                 (* data.Name *)

Variable Y : Collaborators.

(** The switch of [findURLs]: the first of commit, semver, tag and
    branch that is set, and "master" when none is. *)
Definition refOf (reference : GitRepositoryRef) : string :=
  if negb (String.eqb (Commit reference) "") then Commit reference
  else if negb (String.eqb (SemVer reference) "") then SemVer reference
  else if negb (String.eqb (Tag reference) "") then Tag reference
  else if negb (String.eqb (Branch reference) "") then Branch reference
  else "master".

(** The loop of [findURLs] over the resources of the template. *)
Fixpoint findURLsIn (yamls : list string) (urls : list string) : result (list string) :=
  match yamls with
  | [] => Ok urls
  | y :: rest =>
      (* Parse the resource into a shallow GitRepository object. *)
      match yaml_Unmarshal Y y with
      | Err _ => findURLsIn rest urls
      | Ok s =>
          (* If the resource is a GitRepository, parse it for the URL and tag. *)
          if String.eqb (Kind s) "GitRepository" && negb (String.eqb (URL s) "") then
            match Reference s with
            | None => Err nilDereference
            | Some reference =>
                (* Append the URL and tag to the list. *)
                findURLsIn rest (urls ++ [URL s +:+ "@" +:+ refOf reference])
            end
          else findURLsIn rest urls
      end
  end.

Definition findURLs (t : string) : result (list string) :=
  (* Break the template into separate resources. *)
  let yamls := utils_SplitYAMLToString Y t in
  findURLsIn yamls [].

(** [addBigBangManifests] fills in the variable [manifest], which it
    returns with or without an error: the manifest is part of the
    state. *)
Abbreviation State := (ZarfManifest.t * World)%type.
Abbreviation M := (@eff.M State Event).

(** [manifest.Files = append(manifest.Files, path)] *)
Definition appendFile (path : string) : M unit :=
  fun s =>
    let manifest := fst s in
    eff.Outcome (Ok tt)
      (ZarfManifest.mk (ZarfManifest.Name manifest) (ZarfManifest.Namespace manifest)
         (ZarfManifest.Files manifest ++ [path])
         (ZarfManifest.KustomizeAllowAnyDirectory manifest)
         (ZarfManifest.Kustomizations manifest), snd s) [].

(** Helper function to marshal and write a manifest and add it to the
    component. *)
Definition addManifest (manifestDir : string) (name : string) (data : Doc) : M unit :=
  let path := path_Join Y manifestDir name in
  match yaml_Marshal Y data with
  | Err e => eff.fail e
  | Ok out =>
      run eff.call (EvWriteFile path out)
            (fun s => let '(r, w) := utils_WriteFile Y path out (snd s) in (r, (fst s, w))) in
      appendFile path
  end.

(** Loop through the valuesFrom list and create a manifest for each. *)
Definition addValuesManifests (manifestDir : string) (valuesFiles : list string)
    (hrValues : list ValuesReference) : M (list ValuesReference) :=
  eff.foldRange
    (fun _ hrValues path =>
       let* data :=
         eff.call (EvValuesFile path)
           (fun s => let '(r, w) := manifestValuesFile Y path (snd s) in (r, (fst s, w))) in
       let path := secret_Name Y data +:+ ".yaml" in
       run addManifest manifestDir path data in
       (* Add it to the list of valuesFrom for the HelmRelease *)
       eff.ret (hrValues ++ [mkValuesReference "Secret" (secret_Name Y data)]))
    0%nat hrValues valuesFiles.

Definition addBigBangManifestsFrom (manifestDir : string) (cfg : BigBang.t) : M unit :=
  (* Create the GitRepository manifest. *)
  run addManifest manifestDir "gitrepository.yaml" (manifestGitRepo Y cfg) in
  (* Create the zarf-credentials secret manifest. *)
  run addManifest manifestDir "zarf-credentials.yaml" (manifestZarfCredentials Y) in
  (* Create the list of values manifests starting with zarf-credentials. *)
  let hrValues := [mkValuesReference "Secret" "zarf-credentials"] in
  let* hrValues := addValuesManifests manifestDir (BigBang.ValuesFiles cfg) hrValues in
  addManifest manifestDir "helmrepository.yaml" (manifestHelmRelease Y hrValues).

(** [addBigBangManifests]: the manifest starts with the name and the
    namespace set; the outcome holds the manifest returned (in its
    state) and the error, if any. *)
Definition addBigBangManifests (manifestDir : string) (cfg : BigBang.t) (w : World)
  : eff.outcome unit :=
  addBigBangManifestsFrom manifestDir cfg (ZarfManifest.mk bb bb [] false [], w).

(** The files listed in the manifest are the files written, in order,
    and its name and namespace stay as they are. *)
Definition filesFollow {A} (m : M A) : Prop :=
  forall s,
    ZarfManifest.Files (fst (eff.world (m s)))
    = ZarfManifest.Files (fst s) ++ omap written (eff.trace (m s))
    /\ ZarfManifest.Name (fst (eff.world (m s))) = ZarfManifest.Name (fst s)
    /\ ZarfManifest.Namespace (fst (eff.world (m s))) = ZarfManifest.Namespace (fst s).

(** The names of the files of a BigBang manifest whose values secrets
    are called [names]. *)
Definition manifestNames (names : list string) : list string :=
  ["gitrepository.yaml"; "zarf-credentials.yaml"]
  ++ map (fun name => name +:+ ".yaml") names
  ++ ["helmrepository.yaml"].

(** The valuesFrom list of the HelmRelease for these secrets. *)
Definition valuesFrom (names : list string) : list ValuesReference :=
  mkValuesReference "Secret" "zarf-credentials"
  :: map (mkValuesReference "Secret") names.

End Helpers.

Arguments Collaborators World Doc : clear implicits.

(** A sample: a template is a list of lines, each "kind url commit tag";
    documents are their own YAML; the values file at a path holds a
    secret named after the path. *)
Definition sampleDoc (line : string) : result GitRepository :=
  match go.strings_Split line " " with
  | [kind; url; commit; tag] => Ok (mkGitRepository kind url (Some (mkRef "" tag "" commit)))
  | _ => Err (go.New "yaml: unmarshal errors")
  end.

Definition sampleHelpers : Collaborators (gmap string string) string :=
  {| utils_SplitYAMLToString := fun t => go.strings_Split t ";";
     yaml_Unmarshal := sampleDoc;
     path_Join := fun a b => a +:+ "/" +:+ b;
     yaml_Marshal := fun doc => Ok doc;
     utils_WriteFile := fun path bytes w => (Ok tt, <[path := bytes]> w);
     manifestGitRepo := fun cfg => "GitRepository " +:+ BigBang.Repo cfg;
     manifestZarfCredentials := "Secret zarf-credentials";
     manifestValuesFile := fun path w => (Ok path, w);
     manifestHelmRelease := fun refs =>
       "HelmRelease " +:+ String.concat "," (map RefName refs);
     secret_Name := fun doc => doc |}.

End impl.

End bigbang.

(** ** [src/cmd/generate.go]: the [generate package] command *)

Module generate.

Import types.

(** What [os.Stat] reports about the destination: found, or an error
    that [errors.Is(err, os.ErrNotExist)] accepts, or any other error. *)
Inductive StatError : Type :=
| ErrNotExist (e : error)
| StatFailed (e : error).

Inductive Event : Type :=
| EvStat (path : string) (ok : bool)
| EvReadYaml (path : string) (ok : bool)
| EvWriteYaml (path : string) (pkg : ZarfPackage.t) (mode : Z) (ok : bool).

Definition isWrite (ev : Event) : bool :=
  match ev with EvWriteYaml _ _ _ _ => true | _ => false end.

Section Cmd.
Context {World : Type}.

Record Collaborators : Type :=
  { os_Stat : string -> World -> option StatError;
    (* utils.ReadYaml(path, &pkg): decodes the file into [pkg] *)
    utils_ReadYaml : string -> ZarfPackage.t -> World -> result ZarfPackage.t * World;
    utils_WriteYaml : string -> ZarfPackage.t -> Z -> World -> result unit * World }.

Variable X : Collaborators.

Abbreviation M := (@eff.M World Event).

Definition stat (dest : string) : M (option StatError) :=
  eff.call (EvStat dest)
    (fun w => (Ok (os_Stat X dest w), w)).

(** The [Run] function of [generatePackageCmd].  [message.Fatal] and
    [message.Fatalf] end the process: that is the [Err] outcome.
    [filePath] is [config.GenerateOptions.FilePath]; [cobra.ExactArgs(1)]
    has checked [args] before [Run] is entered. *)
Definition generatePackageCmd_Run (filePath : string) (args : list string) : M unit :=
  match args with
  | [name] =>
      let dest := if String.eqb filePath "" then "zarf.yaml" else filePath in
      let* err := stat dest in
      let packageToGenerate := ZarfPackage.zero in
      let* packageToGenerate :=
        match err with
        | None =>
            (* Specified zarf file exists *)
            let* loaded :=
              eff.call (EvReadYaml dest) (utils_ReadYaml X dest packageToGenerate) in
            eff.ret (ZarfPackage.setMetadata
                       (ZarfMetadata.setName name (ZarfPackage.Metadata loaded)) loaded)
        | Some (ErrNotExist _) =>
            (* Specified zarf file does not exist *)
            let p := ZarfPackage.setMetadata
                       (ZarfMetadata.setName name (ZarfPackage.Metadata packageToGenerate))
                       packageToGenerate in
            eff.ret (ZarfPackage.setKind "ZarfPackageConfig" p)
        | Some (StatFailed e) =>
            eff.fail (go.Wrap "Unkown error when checking for specified zarf file: " e)
        end in
      eff.call (EvWriteYaml dest packageToGenerate 420)   (* 0644 *)
        (utils_WriteYaml X dest packageToGenerate 420)
  | _ => eff.fail (go.New "accepts 1 arg(s)")
  end.

(** The destination of the command. *)
Definition destOf (filePath : string) : string :=
  if String.eqb filePath "" then "zarf.yaml" else filePath.

End Cmd.

(** A sample file store: path to decoded document; every write succeeds. *)
Definition store : @Collaborators (gmap string ZarfPackage.t) :=
  {| os_Stat := fun p w =>
       match w !! p with Some _ => None | None => Some (ErrNotExist (go.New "no such file")) end;
     utils_ReadYaml := fun p _ w =>
       match w !! p with
       | Some pkg => (Ok pkg, w)
       | None => (Err (go.New "no such file"), w)
       end;
     utils_WriteYaml := fun p pkg _ w => (Ok tt, <[p := pkg]> w) |}.

Definition samplePackage : ZarfPackage.t :=
  ZarfPackage.mk "ZarfInitConfig"
    (ZarfMetadata.mk "old" "a package" "1.2.3" "amd64" "")
    (ZarfBuildData.mk "amd64" false [])
    [] [ZarfPackageVariable.mk "V" "1"] [ZarfPackageConstant.mk "C" "2"].

End generate.

(** ** The file system, as far as the assembler looks at it

    One node per path: a regular file with its bytes and permission bits,
    or a directory with its permission bits. *)

Module os.

Inductive node : Type :=
| File (content : string) (mode : Z)
| Dir (mode : Z).

Definition modeOf (n : node) : Z :=
  match n with File _ m => m | Dir m => m end.

Definition withMode (m : Z) (n : node) : node :=
  match n with File c _ => File c m | Dir _ => Dir m end.

Abbreviation FS := (gmap string node).

(** Modelled from the spec: [utils.IsDir] is not among the embedded
    sources; it holds when the path exists and is a directory. *)
Definition IsDir (fs : FS) (path : string) : bool :=
  match fs !! path with Some (Dir _) => true | _ => false end.

(** [os.Chmod]: the permission bits of the node at [path], nothing else. *)
Definition Chmod (path : string) (mode : Z) (fs : FS) : result FS :=
  match fs !! path with
  | Some n => Ok (<[path := withMode mode n]> fs)
  | None => Err (go.New ("chmod " +:+ path +:+ ": no such file or directory"))
  end.

(** [os.ReadFile] *)
Definition ReadFile (fs : FS) (path : string) : result string :=
  match fs !! path with
  | Some (File content _) => Ok content
  | Some (Dir _) => Err (go.New ("read " +:+ path +:+ ": is a directory"))
  | None => Err (go.New ("open " +:+ path +:+ ": no such file or directory"))
  end.

(** Permission bits written in octal digits, as in the sources. *)
Definition perm (u g o : Z) : Z := u * 64 + g * 8 + o.

(** [os.Stat], as far as the callers look: the size and the kind.  The
    size of a directory is whatever the platform says ([dirSize]). *)
Record FileInfo : Type := mkFileInfo { Size : Z; IsDirectory : bool }.

Definition Stat (dirSize : Z) (fs : FS) (path : string) : option FileInfo :=
  match fs !! path with
  | Some (File content _) => Some (mkFileInfo (Z.of_nat (String.length content)) false)
  | Some (Dir _) => Some (mkFileInfo dirSize true)
  | None => None
  end.

(** [os.Create]: an existing file is truncated, a missing one is made
    with [newMode]; a directory cannot be opened for writing.  [allowed]
    stands for what the flat store does not show (the parent directory,
    permissions). *)
Definition Create (allowed : bool) (newMode : Z) (path : string) (fs : FS) : result FS :=
  match fs !! path with
  | Some (Dir _) => Err (go.New ("open " +:+ path +:+ ": is a directory"))
  | Some (File _ mode) =>
      if allowed then Ok (<[path := File "" mode]> fs)
      else Err (go.New ("open " +:+ path +:+ ": permission denied"))
  | None =>
      if allowed then Ok (<[path := File "" newMode]> fs)
      else Err (go.New ("open " +:+ path +:+ ": no such file or directory"))
  end.

(** [file.Write] on a file just created: the bytes become its content. *)
Definition Write (allowed : bool) (path : string) (bytes : string) (fs : FS) : result FS :=
  match fs !! path with
  | Some (File _ mode) =>
      if allowed then Ok (<[path := File bytes mode]> fs)
      else Err (go.New ("write " +:+ path +:+ ": no space left on device"))
  | _ => Err (go.New ("write " +:+ path +:+ ": bad file descriptor"))
  end.

End os.

(** [strconv.Itoa] on a loop index. *)
Definition Itoa (i : nat) : string := NilEmpty.string_of_uint (Nat.to_uint i).

(** ** [src/pkg/transform]: parsed image references *)

Module transform.

Record Image : Type := mkImage
  { Host : string; Name : string; Path : string; Tag : string;
    Digest : string; Reference : string; TagOrDigest : string }.

#[global] Instance Image_eq_dec : EqDecision Image.
Proof. solve_decision. Defined.

End transform.

(** ** [src/internal/packager/images] *)

Module images.

Record ImageConfig : Type := mkImageConfig
  { ImagesPath : string;
    ImageList : list transform.Image;
    Insecure : bool;
    Architectures : list string;
    RegistryOverrides : list (string * string) }.

Record ImgInfo : Type := mkImgInfo
  { RefInfo : transform.Image;
    Img : string;              (* the pulled v1.Image, by its digest *)
    HasImageLayers : bool }.

End images.

(** ** [src/pkg/layout] *)

Module layout.

Record ComponentSBOM : Type := mkComponentSBOM
  { Files : list string; Component : types.ComponentPaths.t }.

End layout.

(** ** [src/pkg/packager/creator/normal.go] *)

Module creator.

Import types.

(** The calls the creator makes, as they appear in a trace; [ok] is
    whether the call returned a nil error. *)
Inductive Event : Type :=
| EvCreatePaths (component : string) (ok : bool)
| EvActions (defaults : string) (actions : list ZarfComponentAction.t) (ok : bool)
| EvPackageChart (chart : ZarfChart.t) (ok : bool)
| EvDownload (src dst : string) (ok : bool)
| EvExtract (archive path dir : string) (ok : bool)
| EvCopy (src dst : string) (ok : bool)
| EvRename (old new : string) (ok : bool)
| EvSHAsMatch (path expected : string) (ok : bool)
| EvChmod (path : string) (mode : Z) (ok : bool)
| EvKustomize (path dst : string) (ok : bool)
| EvGitPull (url dir : string) (ok : bool)
| EvAddImages
| EvPullAll (imgConfig : images.ImageConfig) (ok : bool)
| EvWarn (msg : string)
| EvSleep (nanoseconds : Z)
| EvAddV1Image (img : string) (ok : bool)
| EvAddSBOMs
| EvCatalog (images : list transform.Image) (ok : bool).

(** The content resolvers of the assembly path: download, archive
    extraction, local copy, git. *)
Definition isResolver (ev : Event) : bool :=
  match ev with
  | EvDownload _ _ _ | EvExtract _ _ _ _ | EvCopy _ _ _ | EvGitPull _ _ _ => true
  | _ => false
  end.

Definition failedResolver (ev : Event) : bool :=
  match ev with
  | EvDownload _ _ ok | EvExtract _ _ _ ok | EvCopy _ _ ok | EvGitPull _ _ ok => negb ok
  | _ => false
  end.

Definition isPull (ev : Event) : bool :=
  match ev with EvPullAll _ _ => true | _ => false end.

(** The attempts and the pauses of a trace, in order. *)
Inductive step : Type := Pull | Sleep (nanoseconds : Z).

Definition stepOf (ev : Event) : option step :=
  match ev with
  | EvPullAll _ _ => Some Pull
  | EvSleep d => Some (Sleep d)
  | _ => None
  end.

Definition steps (t : list Event) : list step := omap stepOf t.

(** [time.Second], in nanoseconds. *)
Definition time_Second : Z := 1000000000.

Section Creator.
Context {Env : Type}.

(** The world of the creator: the files on disk, and everything else
    (registries, git servers, the package layout being filled). *)
Record World : Type := mkWorld { fs : os.FS; env : Env }.

Definition setFS (f : os.FS) (w : World) : World := mkWorld f (env w).

Abbreviation M := (@eff.M World Event).
Abbreviation ext A := (World -> result A * World).

(** The configuration being loaded is written to through pointers by
    the helpers of [LoadPackageDefinition]; there the state is the
    pair of [pc.cfg] and the world. *)
Abbreviation LoadState := (PackagerConfig.t * World)%type.

Record Collaborators : Type :=
  { (* Go's standard library *)
    filepath_Join : list string -> string;
    filepath_Base : string -> string;
    filepath_Dir : string -> string;
    strconv_Quote : string -> string;
    sha256_Sum : string -> string;
    os_Rename : string -> string -> ext unit;
    time_Sleep : Z -> World -> World;
    (* constants and message formats of [layout], [lang], [config] *)
    layout_FilesDir : string;
    layout_DataInjectionsDir : string;
    layout_ManifestsDir : string;
    lang_ErrFileNameExtract : string -> string -> string;
    lang_ErrDownloading : string -> string -> string;
    lang_ErrFileExtract : string -> string -> string -> string;
    lang_ErrWritingFile : string -> string -> string;
    lang_PkgCreateErrDifferentialSameVersion : string;
    lang_PkgCreateErrDifferentialNoVersion : string;
    config_Insecure : bool;
    (* the rest of the repository and its libraries *)
    Components_Create : ZarfComponent.t -> ext ComponentPaths.t;
    actions_Run : PackagerConfig.t -> string -> list ZarfComponentAction.t -> ext unit;
    helm_PackageChart : ZarfChart.t -> string -> string -> ext unit;
    helpers_IsURL : string -> bool;
    helpers_ExtractBasePathFromURL : string -> result string;
    utils_DownloadToFile : string -> string -> string -> ext unit;
    utils_CreatePathAndCopy : string -> string -> ext unit;
    utils_RecursiveFileList : string -> World -> list string;
    archiver_Extract : string -> string -> string -> ext unit;
    kustomize_Build : string -> string -> bool -> ext unit;
    git_Pull : string -> string -> ext unit;
    transform_ParseImageRef : string -> result transform.Image;
    AddImages : World -> World;
    Images_Base : World -> string;
    images_PullAll : images.ImageConfig -> ext (list images.ImgInfo);
    Images_AddV1Image : string -> ext unit;
    AddSBOMs : World -> World;
    sbom_Catalog : gmap string layout.ComponentSBOM -> list transform.Image -> ext unit;
    (* the helpers of LoadPackageDefinition *)
    setPackageMetadata : LoadState -> (ZarfPackage.t * option error) * LoadState;
    ComposeComponents : ZarfPackage.t -> LoadState -> result (ZarfPackage.t * list string) * LoadState;
    FillActiveTemplate : ZarfPackage.t -> LoadState -> result (ZarfPackage.t * list string) * LoadState;
    processExtensions : ZarfPackage.t -> LoadState -> result ZarfPackage.t * LoadState;
    loadDifferentialData : LoadState -> result DifferentialData.t * LoadState;
    removeCopiesFromDifferentialPackage :
      ZarfPackage.t -> DifferentialData.t -> LoadState -> result ZarfPackage.t * LoadState }.

Variable X : Collaborators.

(** *** LoadPackageDefinition *)

Definition LoadPackageDefinition : @eff.M LoadState Event (ZarfPackage.t * list string) :=
  let* (configuredPkg, err) := eff.lift (fun s => let '(r, s') := setPackageMetadata X s in (Ok r, s')) in
  run (match err with
       | Some e => eff.emit (EvWarn (go.Error e))
       | None => eff.ret tt
       end) in
  (* Compose components into a single zarf.yaml file *)
  let* (composedPkg, composeWarnings) := eff.lift (ComposeComponents X configuredPkg) in
  let warnings := composeWarnings in
  (* After components are composed, template the active package. *)
  let* (composedPkg, templateWarnings) :=
    eff.wrapErr (go.Wrap "unable to fill values in template: ")
      (eff.lift (FillActiveTemplate X composedPkg)) in
  let warnings := warnings ++ templateWarnings in
  (* After templates are filled process any create extensions *)
  let* extendedPkg := eff.lift (processExtensions X composedPkg) in
  (* If we are creating a differential package, remove duplicate images and repos. *)
  let* differential :=
    eff.read (fun s => ZarfBuildData.Differential (ZarfPackage.Build (PackagerConfig.Pkg (fst s)))) in
  if differential then
    let* diffData := eff.lift (loadDifferentialData X) in
    let* differentialPackageVersion :=
      eff.read (fun s => DifferentialData.DifferentialPackageVersion
                           (ZarfCreateOptions.DifferentialData (PackagerConfig.CreateOpts (fst s)))) in
    let* version :=
      eff.read (fun s => ZarfMetadata.Version (ZarfPackage.Metadata (PackagerConfig.Pkg (fst s)))) in
    let versionsMatch := String.eqb differentialPackageVersion version in
    if versionsMatch then
      eff.fail (go.New (lang_PkgCreateErrDifferentialSameVersion X))
    else
      let noVersionSet := String.eqb differentialPackageVersion "" || String.eqb version "" in
      if noVersionSet then
        eff.fail (go.New (lang_PkgCreateErrDifferentialNoVersion X))
      else
        let* diffPkg := eff.lift (removeCopiesFromDifferentialPackage X extendedPkg diffData) in
        eff.ret (diffPkg, [])
  else
    eff.ret (extendedPkg, warnings).

(** *** addComponent *)

Definition runActions (cfg : PackagerConfig.t) (defaults : string)
    (actions : list ZarfComponentAction.t) : M unit :=
  eff.call (EvActions defaults actions) (actions_Run X cfg defaults actions).

Definition download (src dst cosignKeyPath : string) : M unit :=
  eff.call (EvDownload src dst) (utils_DownloadToFile X src dst cosignKeyPath).

Definition extract (archive path dir : string) : M unit :=
  eff.call (EvExtract archive path dir) (archiver_Extract X archive path dir).

Definition copy (src dst : string) : M unit :=
  eff.call (EvCopy src dst) (utils_CreatePathAndCopy X src dst).

(** Modelled from the spec: [utils.SHAsMatch] is not among the embedded
    sources.  The spec has it "compute the content hash and fail with
    an integrity error if it does not match the declared value". *)
Definition SHAsMatch (path expected : string) : M unit :=
  eff.call (EvSHAsMatch path expected)
    (fun w =>
       match os.ReadFile (fs w) path with
       | Err e => (Err e, w)
       | Ok content =>
           let sha := sha256_Sum X content in
           if String.eqb sha expected then (Ok tt, w)
           else (Err (go.New ("expected sha256 of " +:+ path +:+ " to be "
                                +:+ expected +:+ ", found " +:+ sha)), w)
       end).

(** [os.Chmod] on the file system of the world. *)
Definition chmod (path : string) (mode : Z) : M unit :=
  eff.call (EvChmod path mode)
    (fun w =>
       match os.Chmod path mode (fs w) with
       | Ok fs' => (Ok tt, setFS fs' w)
       | Err e => (Err e, w)
       end).

(** The destination of the file entry [filesIdx] of a component. *)
Definition fileDst (componentPaths : ComponentPaths.t) (filesIdx : nat)
    (file : ZarfFile.t) : string :=
  let rel := filepath_Join X [layout_FilesDir X; Itoa filesIdx;
                              filepath_Base X (ZarfFile.Target file)] in
  filepath_Join X [ComponentPaths.Base componentPaths; rel].

(** The first part of the body of the files loop: bring the source to
    [dst] (download, extract, or copy; then move an extracted entry
    into place). *)
Definition materializeFile (component : ZarfComponent.t)
    (componentPaths : ComponentPaths.t) (filesIdx : nat) (file : ZarfFile.t) : M unit :=
  let dst := fileDst componentPaths filesIdx file in
  let destinationDir := filepath_Dir X dst in
  run (if helpers_IsURL X (ZarfFile.Source file) then
         if negb (String.eqb (ZarfFile.ExtractPath file) "") then
           (* get the compressedFileName from the source *)
           match helpers_ExtractBasePathFromURL X (ZarfFile.Source file) with
           | Err e =>
               eff.fail (go.New (lang_ErrFileNameExtract X (ZarfFile.Source file) (go.Error e)))
           | Ok compressedFileName =>
               let compressedFile :=
                 filepath_Join X [ComponentPaths.Temp componentPaths; compressedFileName] in
               (* If the file is an archive, download it to the componentPath.Temp *)
               run eff.wrapErr
                     (fun e => go.New (lang_ErrDownloading X (ZarfFile.Source file) (go.Error e)))
                     (download (ZarfFile.Source file) compressedFile
                               (ZarfComponent.DeprecatedCosignKeyPath component)) in
               eff.wrapErr
                 (fun e => go.New (lang_ErrFileExtract X (ZarfFile.ExtractPath file)
                                     compressedFileName (go.Error e)))
                 (extract compressedFile (ZarfFile.ExtractPath file) destinationDir)
           end
         else
           eff.wrapErr
             (fun e => go.New (lang_ErrDownloading X (ZarfFile.Source file) (go.Error e)))
             (download (ZarfFile.Source file) dst
                       (ZarfComponent.DeprecatedCosignKeyPath component))
       else
         if negb (String.eqb (ZarfFile.ExtractPath file) "") then
           eff.wrapErr
             (fun e => go.New (lang_ErrFileExtract X (ZarfFile.ExtractPath file)
                                 (ZarfFile.Source file) (go.Error e)))
             (extract (ZarfFile.Source file) (ZarfFile.ExtractPath file) destinationDir)
         else
           eff.wrapErr
             (go.Wrap ("unable to copy file " +:+ ZarfFile.Source file +:+ ": "))
             (copy (ZarfFile.Source file) dst)) in
  if negb (String.eqb (ZarfFile.ExtractPath file) "") then
    (* Make sure dst reflects the actual file or directory. *)
    let updatedExtractedFileOrDir :=
      filepath_Join X [destinationDir; ZarfFile.ExtractPath file] in
    if negb (String.eqb updatedExtractedFileOrDir dst) then
      eff.wrapErr (fun e => go.New (lang_ErrWritingFile X dst (go.Error e)))
        (eff.call (EvRename updatedExtractedFileOrDir dst)
                  (os_Rename X updatedExtractedFileOrDir dst))
    else eff.ret tt
  else eff.ret tt.

(** The second part: the checksum gate, then the final mode. *)
Definition sealFile (componentPaths : ComponentPaths.t) (filesIdx : nat)
    (file : ZarfFile.t) : M unit :=
  let dst := fileDst componentPaths filesIdx file in
  (* Abort packaging on invalid shasum (if one is specified). *)
  run (if negb (String.eqb (ZarfFile.Shasum file) "") then
         SHAsMatch dst (ZarfFile.Shasum file)
       else eff.ret tt) in
  let* isDir := eff.read (fun w => os.IsDir (fs w) dst) in
  run eff.attempt
        (if ZarfFile.Executable file || isDir
         then chmod dst (os.perm 7 0 0)
         else chmod dst (os.perm 6 0 0)) in
  eff.ret tt.

(** The body of [for filesIdx, file := range component.Files]. *)
Definition addFile (component : ZarfComponent.t) (componentPaths : ComponentPaths.t)
    (filesIdx : nat) (file : ZarfFile.t) : M unit :=
  run materializeFile component componentPaths filesIdx file in
  sealFile componentPaths filesIdx file.

Definition addDataInjection (component : ZarfComponent.t)
    (componentPaths : ComponentPaths.t) (dataIdx : nat) (data : ZarfDataInjection.t) : M unit :=
  let rel := filepath_Join X [layout_DataInjectionsDir X; Itoa dataIdx;
                              filepath_Base X (ZarfDataInjection.TargetPath data)] in
  let dst := filepath_Join X [ComponentPaths.Base componentPaths; rel] in
  if helpers_IsURL X (ZarfDataInjection.Source data) then
    eff.wrapErr
      (fun e => go.New (lang_ErrDownloading X (ZarfDataInjection.Source data) (go.Error e)))
      (download (ZarfDataInjection.Source data) dst
                (ZarfComponent.DeprecatedCosignKeyPath component))
  else
    eff.wrapErr
      (fun e => go.New ("unable to copy data injection "
                          +:+ ZarfDataInjection.Source data +:+ ": " +:+ go.Error e))
      (copy (ZarfDataInjection.Source data) dst).

Definition addManifest (component : ZarfComponent.t)
    (componentPaths : ComponentPaths.t) (manifest : ZarfManifest.t) : M unit :=
  run eff.forRange
        (fun fileIdx path =>
           let rel := filepath_Join X
                        [layout_ManifestsDir X;
                         ZarfManifest.Name manifest +:+ "-" +:+ Itoa fileIdx +:+ ".yaml"] in
           let dst := filepath_Join X [ComponentPaths.Base componentPaths; rel] in
           (* Copy manifests without any processing. *)
           if helpers_IsURL X path then
             eff.wrapErr (fun e => go.New (lang_ErrDownloading X path (go.Error e)))
               (download path dst (ZarfComponent.DeprecatedCosignKeyPath component))
           else
             eff.wrapErr (go.Wrap ("unable to copy manifest " +:+ path +:+ ": "))
               (copy path dst))
        0%nat (ZarfManifest.Files manifest) in
  eff.forRange
    (fun kustomizeIdx path =>
       (* Generate manifests from kustomizations and place in the package. *)
       let kname := "kustomization-" +:+ ZarfManifest.Name manifest +:+ "-"
                      +:+ Itoa kustomizeIdx +:+ ".yaml" in
       let rel := filepath_Join X [layout_ManifestsDir X; kname] in
       let dst := filepath_Join X [ComponentPaths.Base componentPaths; rel] in
       eff.wrapErr (go.Wrap ("unable to build kustomization " +:+ path +:+ ": "))
         (eff.call (EvKustomize path dst)
            (kustomize_Build X path dst (ZarfManifest.KustomizeAllowAnyDirectory manifest))))
    0%nat (ZarfManifest.Kustomizations manifest).

(** [addComponent].  The progress spinners are display only and are
    left out. *)
Definition addComponent (cfg : PackagerConfig.t) (component : ZarfComponent.t) : M unit :=
  let* componentPaths :=
    eff.call (EvCreatePaths (ZarfComponent.Name component)) (Components_Create X component) in
  let onCreate := ZarfComponent.OnCreate component in
  run eff.wrapErr (go.Wrap "unable to run component before action: ")
        (runActions cfg (ZarfComponentActionSet.Defaults onCreate)
                    (ZarfComponentActionSet.Before onCreate)) in
  (* If any helm charts are defined, process them. *)
  run eff.forRange
        (fun _ chart =>
           eff.call (EvPackageChart chart)
             (helm_PackageChart X chart (ComponentPaths.Charts componentPaths)
                                (ComponentPaths.Values componentPaths)))
        0%nat (ZarfComponent.Charts component) in
  run eff.forRange (addFile component componentPaths) 0%nat (ZarfComponent.Files component) in
  run eff.forRange (addDataInjection component componentPaths) 0%nat
        (ZarfComponent.DataInjections component) in
  (* Iterate over all manifests. *)
  run eff.forRange (fun _ manifest => addManifest component componentPaths manifest) 0%nat
        (ZarfComponent.Manifests component) in
  (* Load all specified git repos. *)
  run eff.forRange
        (fun _ url =>
           eff.wrapErr (go.Wrap ("unable to pull git repo " +:+ url +:+ ": "))
             (eff.call (EvGitPull url (ComponentPaths.Repos componentPaths))
                       (git_Pull X url (ComponentPaths.Repos componentPaths))))
        0%nat (ZarfComponent.Repos component) in
  eff.wrapErr (go.Wrap "unable to run component after action: ")
    (runActions cfg (ZarfComponentActionSet.Defaults onCreate)
                (ZarfComponentActionSet.After onCreate)).

(** *** getFilesToSBOM *)

Definition appendSBOMFiles (files : list string) (path : string) : M (list string) :=
  eff.read (fun w =>
              if os.IsDir (fs w) path
              then files ++ utils_RecursiveFileList X path w
              else files ++ [path]).

Definition getFilesToSBOM (component : ZarfComponent.t) : M layout.ComponentSBOM :=
  let* componentPaths :=
    eff.call (EvCreatePaths (ZarfComponent.Name component)) (Components_Create X component) in
  let* files :=
    eff.foldRange
      (fun filesIdx files file =>
         appendSBOMFiles files
           (filepath_Join X [ComponentPaths.Files componentPaths; Itoa filesIdx;
                             filepath_Base X (ZarfFile.Target file)]))
      0%nat [] (ZarfComponent.Files component) in
  let* files :=
    eff.foldRange
      (fun dataIdx files data =>
         appendSBOMFiles files
           (filepath_Join X [ComponentPaths.DataInjections componentPaths; Itoa dataIdx;
                             filepath_Base X (ZarfDataInjection.TargetPath data)]))
      0%nat files (ZarfComponent.DataInjections component) in
  eff.ret (layout.mkComponentSBOM files componentPaths).

(** *** Assemble *)

(** The closure [onFailure]: the failure actions run, their own error
    is only logged. *)
Definition onFailure (cfg : PackagerConfig.t) (onCreate : ZarfComponentActionSet.t) : M unit :=
  run eff.attempt
        (runActions cfg (ZarfComponentActionSet.Defaults onCreate)
                    (ZarfComponentActionSet.OnFailure onCreate)) in
  eff.ret tt.

(** Combine all component images into a single entry for efficient
    layer reuse: the inner loop over [component.Images]. *)
Definition collectImages (imageList : list transform.Image) (images : list string)
  : M (list transform.Image) :=
  eff.foldRange
    (fun _ imageList src =>
       match transform_ParseImageRef X src with
       | Err e => eff.fail (go.Wrap ("failed to create ref for image " +:+ src +:+ ": ") e)
       | Ok refInfo => eff.ret (imageList ++ [refInfo])
       end)
    0%nat imageList images.

(** The body of [for _, component := range pc.cfg.Pkg.Components]; the
    variables [imageList] and [componentSBOMs] of [Assemble] are
    threaded through. *)
Definition assembleComponent (cfg : PackagerConfig.t)
    (acc : list transform.Image * gmap string layout.ComponentSBOM)
    (component : ZarfComponent.t)
  : M (list transform.Image * gmap string layout.ComponentSBOM) :=
  let '(imageList, componentSBOMs) := acc in
  let onCreate := ZarfComponent.OnCreate component in
  run eff.onError (addComponent cfg component) (onFailure cfg onCreate)
        (go.Wrap ("unable to add component "
                    +:+ strconv_Quote X (ZarfComponent.Name component) +:+ ": ")) in
  run eff.onError
        (runActions cfg (ZarfComponentActionSet.Defaults onCreate)
                    (ZarfComponentActionSet.OnSuccess onCreate))
        (onFailure cfg onCreate)
        (go.Wrap "unable to run component success action: ") in
  let* componentSBOMs :=
    if negb (ZarfCreateOptions.SkipSBOM (PackagerConfig.CreateOpts cfg)) then
      let* componentSBOM :=
        eff.wrapErr (go.Wrap "unable to create component SBOM: ")
          (getFilesToSBOM component) in
      eff.ret (if (0 <? length (layout.Files componentSBOM))%nat
               then <[ZarfComponent.Name component := componentSBOM]> componentSBOMs
               else componentSBOMs)
    else eff.ret componentSBOMs in
  let* imageList := collectImages imageList (ZarfComponent.Images component) in
  eff.ret (imageList, componentSBOMs).

Definition sleep (d : Z) : M unit := eff.update (EvSleep d) (time_Sleep X d).

(** [message.Warnf], the logger given to [Retry]. *)
Definition warnf (msg : string) : M unit := eff.emit (EvWarn msg).

(** The closure [doPull]; [dst.Images.Base] is read when it runs. *)
Definition doPull (cfg : PackagerConfig.t) (imageList : list transform.Image)
  : M (list images.ImgInfo) :=
  let* imagesPath := eff.read (Images_Base X) in
  let imgConfig :=
    images.mkImageConfig imagesPath imageList (config_Insecure X)
      [ZarfMetadata.Architecture (ZarfPackage.Metadata (PackagerConfig.Pkg cfg));
       ZarfBuildData.Architecture (ZarfPackage.Build (PackagerConfig.Pkg cfg))]
      (ZarfCreateOptions.RegistryOverrides (PackagerConfig.CreateOpts cfg)) in
  eff.call (EvPullAll imgConfig) (images_PullAll X imgConfig).

(** The loop over the pulled images: each is added to the layout, the
    layer-bearing ones are kept for the SBOM. *)
Definition addPulled (pulled : list images.ImgInfo) : M (list transform.Image) :=
  eff.foldRange
    (fun _ sbomImageList imgInfo =>
       run eff.call (EvAddV1Image (images.Img imgInfo))
             (Images_AddV1Image X (images.Img imgInfo)) in
       eff.ret (if images.HasImageLayers imgInfo
                then sbomImageList ++ [images.RefInfo imgInfo]
                else sbomImageList))
    0%nat [] pulled.

(** Ignore SBOM creation if the flag is set. *)
Definition catalog (cfg : PackagerConfig.t)
    (componentSBOMs : gmap string layout.ComponentSBOM)
    (sbomImageList : list transform.Image) : M unit :=
  if ZarfCreateOptions.SkipSBOM (PackagerConfig.CreateOpts cfg) then eff.ret tt
  else
    run eff.update EvAddSBOMs (AddSBOMs X) in
    eff.wrapErr (go.Wrap "unable to create an SBOM catalog for the package: ")
      (eff.call (EvCatalog sbomImageList) (sbom_Catalog X componentSBOMs sbomImageList)).

Definition Assemble (cfg : PackagerConfig.t) : M unit :=
  let* (imageList, componentSBOMs) :=
    eff.foldRange (fun _ => assembleComponent cfg) 0%nat ([], ∅)
      (ZarfPackage.Components (PackagerConfig.Pkg cfg)) in
  let imageList := helpers.Unique imageList in
  (* Images are handled separately from other component assets. *)
  let* sbomImageList :=
    if (0 <? length imageList)%nat then
      run eff.update EvAddImages (AddImages X) in
      let* pulled :=
        eff.wrapErr (go.Wrap "unable to pull images after 3 attempts: ")
          (helpers.Retry sleep warnf (doPull cfg imageList) 3 (5 * time_Second) []) in
      addPulled pulled
    else eff.ret [] in
  catalog cfg componentSBOMs sbomImageList.

(** *** Vocabulary for the statements about the creator *)

Definition diffVersionOf (s : LoadState) : string :=
  DifferentialData.DifferentialPackageVersion
    (ZarfCreateOptions.DifferentialData (PackagerConfig.CreateOpts (fst s))).

Definition versionOf (s : LoadState) : string :=
  ZarfMetadata.Version (ZarfPackage.Metadata (PackagerConfig.Pkg (fst s))).

Definition differentialOf (s : LoadState) : bool :=
  ZarfBuildData.Differential (ZarfPackage.Build (PackagerConfig.Pkg (fst s))).

(** The stages before the differential branch succeed from [s], hand
    over [extendedPkg] and leave the state [s1]. *)
Definition stagesSucceed (s : LoadState)
    (extendedPkg : ZarfPackage.t) (s1 : LoadState) : Prop :=
  exists configuredPkg err sa composedPkg composeWarnings sb filledPkg templateWarnings sc,
    setPackageMetadata X s = ((configuredPkg, err), sa)
    /\ ComposeComponents X configuredPkg sa = (Ok (composedPkg, composeWarnings), sb)
    /\ FillActiveTemplate X composedPkg sb = (Ok (filledPkg, templateWarnings), sc)
    /\ processExtensions X filledPkg sc = (Ok extendedPkg, s1).

(** The claim as the specification words it: with the differential
    flag set, equal versions give the same-version error, an empty
    version on either side gives the no-version error, and only two
    distinct non-empty versions reach the removal of copies. *)
Definition differential_as_stated (s : LoadState) : Prop :=
  forall extendedPkg s1 diffData s2,
    stagesSucceed s extendedPkg s1 ->
    differentialOf s1 = true ->
    loadDifferentialData X s1 = (Ok diffData, s2) ->
    (diffVersionOf s2 = versionOf s2 ->
     eff.out (LoadPackageDefinition s)
     = Err (go.New (lang_PkgCreateErrDifferentialSameVersion X)))
    /\ (diffVersionOf s2 = "" \/ versionOf s2 = "" ->
        eff.out (LoadPackageDefinition s)
        = Err (go.New (lang_PkgCreateErrDifferentialNoVersion X))).

(** [addComponent] up to the loop over the files ... *)
Definition beforeFiles (cfg : PackagerConfig.t) (component : ZarfComponent.t)
  : M ComponentPaths.t :=
  let* componentPaths :=
    eff.call (EvCreatePaths (ZarfComponent.Name component)) (Components_Create X component) in
  let onCreate := ZarfComponent.OnCreate component in
  run eff.wrapErr (go.Wrap "unable to run component before action: ")
        (runActions cfg (ZarfComponentActionSet.Defaults onCreate)
                    (ZarfComponentActionSet.Before onCreate)) in
  run eff.forRange
        (fun _ chart =>
           eff.call (EvPackageChart chart)
             (helm_PackageChart X chart (ComponentPaths.Charts componentPaths)
                                (ComponentPaths.Values componentPaths)))
        0%nat (ZarfComponent.Charts component) in
  eff.ret componentPaths.

(** ... and after it. *)
Definition afterFiles (cfg : PackagerConfig.t) (component : ZarfComponent.t)
    (componentPaths : ComponentPaths.t) : M unit :=
  let onCreate := ZarfComponent.OnCreate component in
  run eff.forRange (addDataInjection component componentPaths) 0%nat
        (ZarfComponent.DataInjections component) in
  run eff.forRange (fun _ manifest => addManifest component componentPaths manifest) 0%nat
        (ZarfComponent.Manifests component) in
  run eff.forRange
        (fun _ url =>
           eff.wrapErr (go.Wrap ("unable to pull git repo " +:+ url +:+ ": "))
             (eff.call (EvGitPull url (ComponentPaths.Repos componentPaths))
                       (git_Pull X url (ComponentPaths.Repos componentPaths))))
        0%nat (ZarfComponent.Repos component) in
  eff.wrapErr (go.Wrap "unable to run component after action: ")
    (runActions cfg (ZarfComponentActionSet.Defaults onCreate)
                (ZarfComponentActionSet.After onCreate)).

(** The mode the assembler asks for. *)
Definition finalMode (file : ZarfFile.t) (isDir : bool) : Z :=
  if ZarfFile.Executable file || isDir then os.perm 7 0 0 else os.perm 6 0 0.

Definition chmodFS (path : string) (mode : Z) (f : os.FS) : os.FS :=
  match f !! path with
  | Some n => <[path := os.withMode mode n]> f
  | None => f
  end.

(** Every declared reference parsed, in order; [None] if one fails. *)
Fixpoint parseAll (srcs : list string) : option (list transform.Image) :=
  match srcs with
  | [] => Some []
  | src :: rest =>
      match transform_ParseImageRef X src, parseAll rest with
      | Ok ref, Some refs => Some (ref :: refs)
      | _, _ => None
      end
  end.

Definition declaredImages (components : list ZarfComponent.t) : list string :=
  concat (map ZarfComponent.Images components).

(** Which calls mention which image list. *)
Definition pullsOnly (imageList : list transform.Image) (ev : Event) : Prop :=
  forall imgConfig ok, ev = EvPullAll imgConfig ok -> images.ImageList imgConfig = imageList.

(** The calls that assembling one component can make. *)
Definition ofComponent (ev : Event) : bool :=
  match ev with
  | EvCreatePaths _ _ | EvActions _ _ _ | EvPackageChart _ _ | EvDownload _ _ _
  | EvExtract _ _ _ _ | EvCopy _ _ _ | EvRename _ _ _ | EvSHAsMatch _ _ _
  | EvChmod _ _ _ | EvKustomize _ _ _ | EvGitPull _ _ _ => true
  | _ => false
  end.

Definition pullConfig (cfg : PackagerConfig.t) (imageList : list transform.Image)
    (w : World) : images.ImageConfig :=
  images.mkImageConfig (Images_Base X w) imageList (config_Insecure X)
    [ZarfMetadata.Architecture (ZarfPackage.Metadata (PackagerConfig.Pkg cfg));
     ZarfBuildData.Architecture (ZarfPackage.Build (PackagerConfig.Pkg cfg))]
    (ZarfCreateOptions.RegistryOverrides (PackagerConfig.CreateOpts cfg)).

(** What [Assemble] still does once the images are pulled. *)
Definition finish (cfg : PackagerConfig.t) (sb : gmap string layout.ComponentSBOM)
    (pulled : list images.ImgInfo) : M unit :=
  let* sbomImageList := addPulled pulled in
  catalog cfg sb sbomImageList.

Definition components (cfg : PackagerConfig.t) :
    M (list transform.Image * gmap string layout.ComponentSBOM) :=
  eff.foldRange (fun _ => assembleComponent cfg) 0%nat ([], ∅)
    (ZarfPackage.Components (PackagerConfig.Pkg cfg)).

Definition backoff : Z := 5 * time_Second.

(** The schedules a retried pull can follow. *)
Definition schedules : list (list step) :=
  [ [];
    [Pull];
    [Pull; Sleep 5000000000; Pull];
    [Pull; Sleep 5000000000; Pull; Sleep 5000000000; Pull] ].

(** The calls that serve the images of a package ... *)
Definition isImageWork (ev : Event) : bool :=
  match ev with
  | EvAddImages | EvPullAll _ _ | EvSleep _ | EvAddV1Image _ _ => true
  | _ => false
  end.

(** ... and those that serve its SBOM. *)
Definition isSBOMWork (ev : Event) : bool :=
  match ev with
  | EvAddSBOMs | EvCatalog _ _ => true
  | _ => false
  end.

(** A download is of a URL and a copy is of something else. *)
Definition bySource (ev : Event) : Prop :=
  match ev with
  | EvDownload src _ _ => helpers_IsURL X src = true
  | EvCopy src _ _ => helpers_IsURL X src = false
  | _ => True
  end.

(** The calls that bracket a component: its paths and its actions. *)
Definition isBracket (ev : Event) : bool :=
  match ev with
  | EvCreatePaths _ _ | EvActions _ _ _ => true
  | _ => false
  end.

(** The error [Assemble] returns for a component that could not be
    added, and for one whose success actions failed. *)
Definition addError (component : ZarfComponent.t) (e : error) : error :=
  go.Wrap ("unable to add component "
             +:+ strconv_Quote X (ZarfComponent.Name component) +:+ ": ") e.

Definition successError (e : error) : error :=
  go.Wrap "unable to run component success action: " e.

(** The failure actions of a component, run from [w]: the call as the
    trace shows it, and the world it leaves. *)
Definition failureActions (cfg : PackagerConfig.t) (component : ZarfComponent.t) (w : World)
  : result unit * World :=
  let onCreate := ZarfComponent.OnCreate component in
  actions_Run X cfg (ZarfComponentActionSet.Defaults onCreate)
    (ZarfComponentActionSet.OnFailure onCreate) w.

Definition EvFailureActions (cfg : PackagerConfig.t) (component : ZarfComponent.t)
    (w : World) : Event :=
  let onCreate := ZarfComponent.OnCreate component in
  EvActions (ZarfComponentActionSet.Defaults onCreate)
    (ZarfComponentActionSet.OnFailure onCreate)
    (go.is_ok (fst (failureActions cfg component w))).

(** The warning that [LoadPackageDefinition] prints for an error of
    [setPackageMetadata]. *)
Definition metadataWarning (err : option error) : list Event :=
  match err with
  | Some e => [EvWarn (go.Error e)]
  | None => []
  end.

End Creator.

Arguments World Env : clear implicits.
Arguments Collaborators Env : clear implicits.

(** *** Output *)

(** The fields of [pc.cfg.CreateOpts] that only [Output] reads. *)
Record OutputOptions : Type := mkOutputOptions
  { SigningKeyPath : string;
    SigningKeyPassword : string;
    MaxPackageSizeMB : Z;
    ViewSBOM : bool;
    SBOMOutputDir : string }.

(** The calls of [Output], as they appear in a trace. *)
Inductive OutputEvent : Type :=
| EvArchive (component : ZarfComponent.t) (ok : bool)
| EvChecksums (ok : bool)
| EvWriteYaml (path : string) (pkg : ZarfPackage.t) (mode : Z) (ok : bool)
| EvSign (keyPath password : string) (ok : bool)
| EvReference (output : string) (ok : bool)
| EvNewRemote (ref : string) (ok : bool)
| EvPublish (remote : string) (pkg : ZarfPackage.t) (ok : bool)
| EvHorizontalRule
| EvTitle (title help : string)
| EvZarfCommand (text : string)
| EvRemove (path : string)
| EvArchivePackage (name : string) (maxPackageSizeMB : Z) (ok : bool)
| EvUnarchiveSBOMs (ok : bool)
| EvOutputSBOMFiles (sbomDir outputDir name : string) (ok : bool)
| EvViewSBOMFiles (sbomDir : string).

Definition isWriteYaml (ev : OutputEvent) : bool :=
  match ev with EvWriteYaml _ _ _ _ => true | _ => false end.

Definition isSign (ev : OutputEvent) : bool :=
  match ev with EvSign _ _ _ => true | _ => false end.

(** Publishing to a registry, with the hints printed after it ... *)
Definition isPublishing (ev : OutputEvent) : bool :=
  match ev with
  | EvReference _ _ | EvNewRemote _ _ | EvPublish _ _ _
  | EvHorizontalRule | EvTitle _ _ | EvZarfCommand _ => true
  | _ => false
  end.

(** ... and making a local tarball. *)
Definition isTarball (ev : OutputEvent) : bool :=
  match ev with
  | EvRemove _ | EvArchivePackage _ _ _ => true
  | _ => false
  end.

Definition isSBOMOutput (ev : OutputEvent) : bool :=
  match ev with
  | EvUnarchiveSBOMs _ | EvOutputSBOMFiles _ _ _ _ | EvViewSBOMFiles _ => true
  | _ => false
  end.

Section Output.
Context {Env : Type}.

(** [Output] writes to [pc.cfg.Pkg] and only reads [pc.cfg.CreateOpts]:
    the package is part of the state, the options are parameters. *)
Abbreviation OutputState := (ZarfPackage.t * World Env)%type.
Abbreviation MO := (@eff.M OutputState OutputEvent).

Record OutputCollaborators : Type :=
  { (* the package layout [dst] *)
    Components_Archive : ZarfComponent.t -> bool -> World Env -> result unit * World Env;
    dst_ZarfYAML : string;
    SignPackage : string -> string -> World Env -> result unit * World Env;
    ArchivePackage : string -> Z -> World Env -> result unit * World Env;
    SBOMs_Unarchive : World Env -> result unit * World Env;
    SBOMs_Path : World Env -> string;
    (* the rest of the repository *)
    generateChecksums : World Env -> result string * World Env;
    deprecated_ScriptsToActionsMigrated : string;
    deprecated_PluralizeSetVariable : string;
    utils_WriteYaml : string -> ZarfPackage.t -> Z -> World Env -> result unit * World Env;
    utils_GetPackageName : ZarfPackage.t -> DifferentialData.t -> string;
    helpers_IsOCIURL : string -> bool;
    helpers_OCIURLPrefix : string;
    oci_ReferenceFromMetadata : string -> ZarfMetadata.t -> ZarfBuildData.t -> result string;
    oci_NewOrasRemote : string -> World Env -> result string * World Env;
    remote_PublishPackage : string -> ZarfPackage.t -> World Env -> result unit * World Env;
    remote_Reference_String : string -> string;
    output_Insecure : bool;                   (* config.CommonOptions.Insecure *)
    sbom_OutputSBOMFiles : string -> string -> string -> World Env -> result string * World Env;
    sbom_ViewSBOMFiles : string -> World Env -> World Env;
    (* Go's standard library *)
    output_Join : string -> string -> string;  (* filepath.Join *)
    os_Remove : string -> World Env -> World Env }.

Variable Y : OutputCollaborators.

(** A call that leaves the package alone. *)
Definition onWorld {A} (f : World Env -> result A * World Env)
  : OutputState -> result A * OutputState :=
  fun s => let '(r, w) := f (snd s) in (r, (fst s, w)).

(** An assignment to a field of [pc.cfg.Pkg]. *)
Definition setPkg (f : ZarfPackage.t -> ZarfPackage.t) : MO unit :=
  fun s => eff.Outcome (Ok tt) (f (fst s), snd s) [].

(** [Output] is embedded in its five parts, in the order of the source. *)

(** Process the component directories into compressed tarballs. *)
Definition archiveComponents : MO unit :=
  let* components := eff.read (fun s => ZarfPackage.Components (fst s)) in
  eff.forRange
    (fun _ component =>
       (* Make the component a tar archive *)
       eff.wrapErr (fun e => go.New ("unable to archive component: " +:+ go.Error e))
         (eff.call (EvArchive component) (onWorld (Components_Archive Y component true))))
    0%nat components.

(** Calculate all the checksums, record them and the migrations, and
    save the transformed config. *)
Definition writeConfig : MO unit :=
  let* checksumChecksum :=
    eff.wrapErr (go.Wrap "unable to generate checksums for the package: ")
      (eff.call EvChecksums (onWorld (generateChecksums Y))) in
  run setPkg (fun pkg =>
                ZarfPackage.setMetadata
                  (ZarfMetadata.setAggregateChecksum checksumChecksum
                     (ZarfPackage.Metadata pkg)) pkg) in
  (* Record the migrations that will be ran on the package. *)
  run setPkg (fun pkg =>
                ZarfPackage.setBuild
                  (ZarfBuildData.setMigrations
                     [deprecated_ScriptsToActionsMigrated Y; deprecated_PluralizeSetVariable Y]
                     (ZarfPackage.Build pkg)) pkg) in
  (* Save the transformed config. *)
  let* pkg := eff.read fst in
  eff.wrapErr (go.Wrap "unable to write zarf.yaml: ")
    (eff.call (EvWriteYaml (dst_ZarfYAML Y) pkg (os.perm 4 0 0))
       (onWorld (utils_WriteYaml Y (dst_ZarfYAML Y) pkg (os.perm 4 0 0)))).

(** Sign the config file if a key was provided. *)
Definition signConfig (more : OutputOptions) : MO unit :=
  if negb (String.eqb (SigningKeyPath more) "") then
    eff.call (EvSign (SigningKeyPath more) (SigningKeyPassword more))
      (onWorld (SignPackage Y (SigningKeyPath more) (SigningKeyPassword more)))
  else eff.ret tt.

(** Create a remote ref + client for the package (if output is OCI)
    then publish the package to the remote; otherwise create the
    package tarball. *)
Definition publishOrArchive (createOpts : ZarfCreateOptions.t) (more : OutputOptions)
  : MO unit :=
  let output := ZarfCreateOptions.Output createOpts in
  if helpers_IsOCIURL Y output then
    let* pkg := eff.read fst in
    let* ref :=
      eff.call (EvReference output)
        (fun s => (oci_ReferenceFromMetadata Y output (ZarfPackage.Metadata pkg)
                     (ZarfPackage.Build pkg), s)) in
    let* remote := eff.call (EvNewRemote ref) (onWorld (oci_NewOrasRemote Y ref)) in
    run eff.wrapErr (go.Wrap "unable to publish package: ")
          (eff.call (EvPublish remote pkg) (onWorld (remote_PublishPackage Y remote pkg))) in
    run eff.emit EvHorizontalRule in
    let flags := if output_Insecure Y then "--insecure" else "" in
    run eff.emit (EvTitle "To inspect/deploy/pull:" "") in
    let url := helpers_OCIURLPrefix Y +:+ remote_Reference_String Y remote in
    run eff.emit (EvZarfCommand ("package inspect " +:+ url +:+ " " +:+ flags)) in
    run eff.emit (EvZarfCommand ("package deploy " +:+ url +:+ " " +:+ flags)) in
    eff.emit (EvZarfCommand ("package pull " +:+ url +:+ " " +:+ flags))
  else
    (* Use the output path if the user specified it. *)
    let* pkg := eff.read fst in
    let packageName :=
      output_Join Y output
        (utils_GetPackageName Y pkg (ZarfCreateOptions.DifferentialData createOpts)) in
    (* Try to remove the package if it already exists. *)
    run eff.update (EvRemove packageName)
          (fun s => (fst s, os_Remove Y packageName (snd s))) in
    (* Create the package tarball. *)
    eff.wrapErr (go.Wrap "unable to archive package: ")
      (eff.call (EvArchivePackage packageName (MaxPackageSizeMB more))
         (onWorld (ArchivePackage Y packageName (MaxPackageSizeMB more)))).

(** Output the SBOM files into a directory if specified. *)
Definition outputSBOMs (more : OutputOptions) : MO unit :=
  if ViewSBOM more || negb (String.eqb (SBOMOutputDir more) "") then
    let outputSBOM := SBOMOutputDir more in
    run eff.wrapErr (go.Wrap "unable to unarchive SBOMs: ")
          (eff.call EvUnarchiveSBOMs (onWorld (SBOMs_Unarchive Y))) in
    let* sbomDir := eff.read (fun s => SBOMs_Path Y (snd s)) in
    let* sbomDir :=
      if negb (String.eqb outputSBOM "") then
        let* name := eff.read (fun s => ZarfMetadata.Name (ZarfPackage.Metadata (fst s))) in
        eff.call (EvOutputSBOMFiles sbomDir outputSBOM name)
          (onWorld (sbom_OutputSBOMFiles Y sbomDir outputSBOM name))
      else eff.ret sbomDir in
    if ViewSBOM more then
      eff.update (EvViewSBOMFiles sbomDir)
        (fun s => (fst s, sbom_ViewSBOMFiles Y sbomDir (snd s)))
    else eff.ret tt
  else eff.ret tt.

Definition Output (createOpts : ZarfCreateOptions.t) (more : OutputOptions) : MO unit :=
  run archiveComponents in
  run writeConfig in
  run signConfig more in
  run publishOrArchive createOpts more in
  outputSBOMs more.

(** A part of [Output] that leaves [pc.cfg.Pkg] as it is. *)
Definition keepsPkg {A} (m : MO A) : Prop :=
  forall s, fst (eff.world (m s)) = fst s.

(** The package as [Output] writes it: the checksum of the checksums
    and the migrations recorded, the rest as it was. *)
Definition sealed (checksumChecksum : string) (pkg : ZarfPackage.t) : ZarfPackage.t :=
  ZarfPackage.mk (ZarfPackage.Kind pkg)
    (ZarfMetadata.mk (ZarfMetadata.Name (ZarfPackage.Metadata pkg))
       (ZarfMetadata.Description (ZarfPackage.Metadata pkg))
       (ZarfMetadata.Version (ZarfPackage.Metadata pkg))
       (ZarfMetadata.Architecture (ZarfPackage.Metadata pkg))
       checksumChecksum)
    (ZarfBuildData.mk (ZarfBuildData.Architecture (ZarfPackage.Build pkg))
       (ZarfBuildData.Differential (ZarfPackage.Build pkg))
       [deprecated_ScriptsToActionsMigrated Y; deprecated_PluralizeSetVariable Y])
    (ZarfPackage.Components pkg) (ZarfPackage.Variables pkg) (ZarfPackage.Constants pkg).

End Output.

Arguments OutputCollaborators Env : clear implicits.

(** *** A sample set of collaborators

    Small stand-ins on which the definitions above can be run: paths
    are joined with a slash, the digest of a file is its content behind
    a prefix, there is no network for single downloads or git, local
    copies copy one node, and the registry fails as many pulls as the
    number kept in the world says. *)

Definition sampleBase (p : string) : string :=
  List.last (go.strings_Split p "/") "".

Definition sampleDir (p : string) : string :=
  String.concat "/" (List.removelast (go.strings_Split p "/")).

Definition sampleImage (s : string) : transform.Image :=
  transform.mkImage "docker.io" ("library/" +:+ s) ("library/" +:+ s) "" ""
    ("docker.io/library/" +:+ s) "".

Definition sampleStrip (old : DifferentialData.t) (c : ZarfComponent.t) : ZarfComponent.t :=
  ZarfComponent.setRepos
    (List.filter (fun r => negb (bool_decide (r ∈ DifferentialData.DifferentialRepos old)))
                 (ZarfComponent.Repos c))
    (ZarfComponent.setImages
       (List.filter (fun i => negb (bool_decide (i ∈ DifferentialData.DifferentialImages old)))
                    (ZarfComponent.Images c))
       c).

Definition sample : Collaborators nat :=
  {| filepath_Join := String.concat "/";
     filepath_Base := sampleBase;
     filepath_Dir := sampleDir;
     strconv_Quote := fun s => "'" +:+ s +:+ "'";
     sha256_Sum := fun content => "sha256:" +:+ content;
     os_Rename := fun old new w =>
       match fs w !! old with
       | Some n => (Ok tt, setFS (<[new := n]> (delete old (fs w))) w)
       | None => (Err (go.New "no such file or directory"), w)
       end;
     time_Sleep := fun _ w => w;
     layout_FilesDir := "files";
     layout_DataInjectionsDir := "data";
     layout_ManifestsDir := "manifests";
     lang_ErrFileNameExtract := fun src e => "unable to get the file name from " +:+ src +:+ ": " +:+ e;
     lang_ErrDownloading := fun src e => "failed to download " +:+ src +:+ ": " +:+ e;
     lang_ErrFileExtract := fun path archive e =>
       "failed to extract " +:+ path +:+ " from " +:+ archive +:+ ": " +:+ e;
     lang_ErrWritingFile := fun dst e => "failed to write file " +:+ dst +:+ ": " +:+ e;
     lang_PkgCreateErrDifferentialSameVersion := "same version";
     lang_PkgCreateErrDifferentialNoVersion := "no version set";
     config_Insecure := false;
     Components_Create := fun c w =>
       let base := "pkg/" +:+ ZarfComponent.Name c in
       (Ok (ComponentPaths.mk base (base +:+ "/temp") (base +:+ "/files")
              (base +:+ "/charts") (base +:+ "/values") (base +:+ "/repos")
              (base +:+ "/manifests") (base +:+ "/data")), w);
     actions_Run := fun _ _ _ w => (Ok tt, w);
     helm_PackageChart := fun _ _ _ w => (Ok tt, w);
     helpers_IsURL := fun s => String.prefix "http" s;
     helpers_ExtractBasePathFromURL := fun s => Ok (sampleBase s);
     utils_DownloadToFile := fun src _ _ w => (Err (go.New ("no route to " +:+ src)), w);
     utils_CreatePathAndCopy := fun src dst w =>
       match fs w !! src with
       | Some n => (Ok tt, setFS (<[dst := n]> (fs w)) w)
       | None => (Err (go.New ("open " +:+ src +:+ ": no such file or directory")), w)
       end;
     utils_RecursiveFileList := fun _ _ => [];
     archiver_Extract := fun archive _ _ w => (Err (go.New ("cannot read " +:+ archive)), w);
     kustomize_Build := fun _ _ _ w => (Ok tt, w);
     git_Pull := fun url _ w => (Err (go.New ("no route to " +:+ url)), w);
     transform_ParseImageRef := fun s =>
       if String.eqb s "" then Err (go.New "invalid reference format")
       else Ok (sampleImage s);
     AddImages := fun w => w;
     Images_Base := fun _ => "pkg/images";
     images_PullAll := fun imgConfig w =>
       match env w with
       | S failures =>
           (Err (go.New ("failed to pull image "
                           +:+ String.concat ", "
                                 (map transform.Reference (images.ImageList imgConfig)))),
            mkWorld (fs w) failures)
       | O =>
           (Ok (map (fun i => images.mkImgInfo i (transform.Reference i) true)
                    (images.ImageList imgConfig)), w)
       end;
     Images_AddV1Image := fun _ w => (Ok tt, w);
     AddSBOMs := fun w => w;
     sbom_Catalog := fun _ _ w => (Ok tt, w);
     setPackageMetadata := fun s => ((PackagerConfig.Pkg (fst s), None), s);
     ComposeComponents := fun p s => (Ok (p, []), s);
     FillActiveTemplate := fun p s => (Ok (p, []), s);
     processExtensions := fun p s => (Ok p, s);
     loadDifferentialData := fun s =>
       (Ok (ZarfCreateOptions.DifferentialData (PackagerConfig.CreateOpts (fst s))), s);
     removeCopiesFromDifferentialPackage := fun p old s =>
       (Ok (ZarfPackage.setComponents (map (sampleStrip old) (ZarfPackage.Components p)) p), s)
  |}.

Definition sampleComponent (name : string) (files : list ZarfFile.t)
    (images repos : list string) : ZarfComponent.t :=
  ZarfComponent.mk name (ZarfComponentImport.mk "" "" "") files [] [] images repos []
    (ZarfComponentActionSet.mk "" [] [] [] []) (BigBang.mk "" "" [] false) "".

(** A disk with one local file, mode 0644, and a registry that fails
    the given number of pulls. *)
Definition sampleWorld (failures : nat) : World nat :=
  mkWorld {["a.txt" := os.File "hi" (os.perm 6 4 4)]} failures.

Definition sampleFile (shasum : string) (executable : bool) : ZarfFile.t :=
  ZarfFile.mk "a.txt" shasum "a.txt" executable [] "".

Definition samplePaths (name : string) : ComponentPaths.t :=
  let base := "pkg/" +:+ name in
  ComponentPaths.mk base (base +:+ "/temp") (base +:+ "/files")
    (base +:+ "/charts") (base +:+ "/values") (base +:+ "/repos")
    (base +:+ "/manifests") (base +:+ "/data").

(** A package configuration with the given versions and components. *)
Definition sampleConfig (differential : bool) (diffVersion version : string)
    (components : list ZarfComponent.t) : PackagerConfig.t :=
  PackagerConfig.mk
    (ZarfCreateOptions.mk false "" []
       (DifferentialData.mk "old.tar.zst" diffVersion ["a:1"] []))
    (ZarfPackage.mk "ZarfPackageConfig"
       (ZarfMetadata.mk "sample" "" version "amd64" "")
       (ZarfBuildData.mk "amd64" differential [])
       components [] []).

Definition overlapping : list ZarfComponent.t :=
  [sampleComponent "app" [] ["a:1"; "b:2"] []].

Definition isChecksumEvent (ev : Event) : bool :=
  match ev with EvSHAsMatch _ _ _ => true | _ => false end.

(** [sub] occurs in [s]. *)
Definition substring (sub s : string) : Prop := exists a b, s = a +:+ sub +:+ b.

Definition pullError : error :=
  go.New "failed to pull image docker.io/library/a:1, docker.io/library/b:2, docker.io/library/c:3".

(** The same stand-ins with a registry whose error does not say which
    image it was about, and an SBOM catalog that fails. *)
Definition sampleBroken : Collaborators nat :=
  {| filepath_Join := filepath_Join sample;
     filepath_Base := filepath_Base sample;
     filepath_Dir := filepath_Dir sample;
     strconv_Quote := strconv_Quote sample;
     sha256_Sum := sha256_Sum sample;
     os_Rename := os_Rename sample;
     time_Sleep := time_Sleep sample;
     layout_FilesDir := layout_FilesDir sample;
     layout_DataInjectionsDir := layout_DataInjectionsDir sample;
     layout_ManifestsDir := layout_ManifestsDir sample;
     lang_ErrFileNameExtract := lang_ErrFileNameExtract sample;
     lang_ErrDownloading := lang_ErrDownloading sample;
     lang_ErrFileExtract := lang_ErrFileExtract sample;
     lang_ErrWritingFile := lang_ErrWritingFile sample;
     lang_PkgCreateErrDifferentialSameVersion := lang_PkgCreateErrDifferentialSameVersion sample;
     lang_PkgCreateErrDifferentialNoVersion := lang_PkgCreateErrDifferentialNoVersion sample;
     config_Insecure := config_Insecure sample;
     Components_Create := Components_Create sample;
     actions_Run := actions_Run sample;
     helm_PackageChart := helm_PackageChart sample;
     helpers_IsURL := helpers_IsURL sample;
     helpers_ExtractBasePathFromURL := helpers_ExtractBasePathFromURL sample;
     utils_DownloadToFile := utils_DownloadToFile sample;
     utils_CreatePathAndCopy := utils_CreatePathAndCopy sample;
     utils_RecursiveFileList := utils_RecursiveFileList sample;
     archiver_Extract := archiver_Extract sample;
     kustomize_Build := kustomize_Build sample;
     git_Pull := git_Pull sample;
     transform_ParseImageRef := transform_ParseImageRef sample;
     AddImages := AddImages sample;
     Images_Base := Images_Base sample;
     images_PullAll := fun imgConfig w =>
       match env w with
       | S failures => (Err (go.New "connection reset by peer"), mkWorld (fs w) failures)
       | O =>
           (Ok (map (fun i => images.mkImgInfo i (transform.Reference i) true)
                    (images.ImageList imgConfig)), w)
       end;
     Images_AddV1Image := Images_AddV1Image sample;
     AddSBOMs := AddSBOMs sample;
     sbom_Catalog := fun _ _ w => (Err (go.New "no space left on device"), w);
     setPackageMetadata := setPackageMetadata sample;
     ComposeComponents := ComposeComponents sample;
     FillActiveTemplate := FillActiveTemplate sample;
     processExtensions := processExtensions sample;
     loadDifferentialData := loadDifferentialData sample;
     removeCopiesFromDifferentialPackage := removeCopiesFromDifferentialPackage sample |}.

(** The claim as the specification words it, for a run whose first two
    pulls fail: when the third pull succeeds [Assemble] succeeds, and
    when it fails [Assemble] returns an error that names an image of the
    list. *)
Definition pull_retry_as_stated {Env : Type} (X : Collaborators Env)
    (cfg : PackagerConfig.t) (w : World Env) : Prop :=
  forall imgs sb e1 w1' e2 w2' r3 w3',
    eff.out (components X cfg w) = Ok (imgs, sb) ->
    imgs <> [] ->
    let imageList := helpers.Unique imgs in
    let w1 := AddImages X (eff.world (components X cfg w)) in
    images_PullAll X (pullConfig X cfg imageList w1) w1 = (Err e1, w1') ->
    let w2 := time_Sleep X backoff w1' in
    images_PullAll X (pullConfig X cfg imageList w2) w2 = (Err e2, w2') ->
    let w3 := time_Sleep X backoff w2' in
    images_PullAll X (pullConfig X cfg imageList w3) w3 = (r3, w3') ->
    match r3 with
    | Ok _ => eff.out (Assemble X cfg w) = Ok tt
    | Err _ =>
        exists e image,
          eff.out (Assemble X cfg w) = Err e
          /\ In image imageList
          /\ substring (transform.Reference image) (go.Error e)
    end.

(** Stand-ins for [Output]: everything succeeds, the checksum of the
    checksums is a fixed string, an output that starts with oci:// is a
    registry. *)
Definition sampleOutput : OutputCollaborators nat :=
  {| Components_Archive := fun _ _ w => (Ok tt, w);
     dst_ZarfYAML := "pkg/zarf.yaml";
     SignPackage := fun _ _ w => (Ok tt, w);
     ArchivePackage := fun _ _ w => (Ok tt, w);
     SBOMs_Unarchive := fun w => (Ok tt, w);
     SBOMs_Path := fun _ => "pkg/sboms";
     generateChecksums := fun w => (Ok "cafe", w);
     deprecated_ScriptsToActionsMigrated := "scripts-to-actions";
     deprecated_PluralizeSetVariable := "pluralize-set-variable";
     utils_WriteYaml := fun _ _ _ w => (Ok tt, w);
     utils_GetPackageName := fun pkg _ =>
       "zarf-package-" +:+ ZarfMetadata.Name (ZarfPackage.Metadata pkg) +:+ ".tar.zst";
     helpers_IsOCIURL := fun s => String.prefix "oci://" s;
     helpers_OCIURLPrefix := "oci://";
     oci_ReferenceFromMetadata := fun output meta _ =>
       Ok (output +:+ "/" +:+ ZarfMetadata.Name meta);
     oci_NewOrasRemote := fun ref w => (Ok ref, w);
     remote_PublishPackage := fun _ _ w => (Ok tt, w);
     remote_Reference_String := fun remote => remote;
     output_Insecure := false;
     sbom_OutputSBOMFiles := fun _ out _ w => (Ok out, w);
     sbom_ViewSBOMFiles := fun _ w => w;
     output_Join := fun a b => a +:+ "/" +:+ b;
     os_Remove := fun _ w => w |}.

Definition sampleOutputOptions : OutputOptions := mkOutputOptions "" "" 0 false "".

Definition twoComponents : PackagerConfig.t :=
  sampleConfig false "" "1.0.0"
    [sampleComponent "one" [] ["a:1"; "b:2"; "a:1"] [];
     sampleComponent "two" [] ["c:3"] []].

End creator.

(** ** [src/pkg/packager/oras.go] *)

Module packager.

(** ZarfLayerMediaType<Extension> is the media type for Zarf layers. *)
Definition ZarfLayerMediaTypeTarZstd : string := "application/vnd.zarf.layer.v1.tar+zstd".
Definition ZarfLayerMediaTypeTarGzip : string := "application/vnd.zarf.layer.v1.tar+gzip".
Definition ZarfLayerMediaTypeYaml : string := "application/vnd.zarf.layer.v1.yaml".
Definition ZarfLayerMediaTypeJSON : string := "application/vnd.zarf.layer.v1.json".
Definition ZarfLayerMediaTypeTxt : string := "application/vnd.zarf.layer.v1.txt".
Definition ZarfLayerMediaTypeUnknown : string := "application/vnd.zarf.layer.v1.unknown".

(** [parseZarfLayerMediaType]: the media type is read off the extension
    of the file name. *)
Definition parseZarfLayerMediaType (filename : string) : string :=
  let ext := go.filepath_Ext filename in
  if String.eqb ext ".zst" then ZarfLayerMediaTypeTarZstd
  else if String.eqb ext ".gz" then ZarfLayerMediaTypeTarGzip
  else if String.eqb ext ".yaml" then ZarfLayerMediaTypeYaml
  else if String.eqb ext ".json" then ZarfLayerMediaTypeJSON
  else if String.eqb ext ".txt" then ZarfLayerMediaTypeTxt
  else ZarfLayerMediaTypeUnknown.

(** The six media types. *)
Definition layerMediaTypes : list string :=
  [ZarfLayerMediaTypeTarZstd; ZarfLayerMediaTypeTarGzip; ZarfLayerMediaTypeYaml;
   ZarfLayerMediaTypeJSON; ZarfLayerMediaTypeTxt; ZarfLayerMediaTypeUnknown].

(** No byte of [s] is a dot or a slash. *)
Definition plainName (s : string) : Prop :=
  Forall (fun c => c <> "."%char /\ c <> "/"%char) (list_ascii_of_string s).

(** [ocispec.Descriptor] *)
Record Descriptor : Type := mkDescriptor
  { MediaType : string; Digest : string; Size : Z; Annotations : gmap string string }.

Definition ocispec_AnnotationTitle : string := "org.opencontainers.image.title".
Definition ocispec_MediaTypeArtifactManifest : string :=
  "application/vnd.oci.artifact.manifest.v1+json".

(** [layer.Annotations[ocispec.AnnotationTitle]]: a missing key reads as
    the empty string. *)
Definition title (layer : Descriptor) : string :=
  default "" (Annotations layer !! ocispec_AnnotationTitle).

(** [registry.Reference] *)
Record Reference : Type := mkReference
  { Registry : string; Repository : string; Ref : string }.

(** [remote.Repository], as far as [orasRemote] fills it in. *)
Record Repo : Type := mkRepo
  { Target : string; PlainHTTP : bool; Client : string; Scopes : list string }.

Inductive Event : Type :=
| EvMkdir (path : string) (mode : Z)
| EvResolve (reference : string) (ok : bool)
| EvFetch (target : Descriptor) (ok : bool)
| EvMkdirAll (path : string) (mode : Z)
| EvCreate (path : string) (ok : bool)
| EvWrite (path : string) (bytes : string) (ok : bool).

Definition isFetchOf (layer : Descriptor) (ev : Event) : Prop :=
  exists ok, ev = EvFetch layer ok.

(** What follows the first colon of a digest ([strings.Index] and the
    slice [d[i+1:]] of the digest library), if there is a colon. *)
Fixpoint afterSeparator (d : string) : option string :=
  match d with
  | EmptyString => None
  | String c rest => if Ascii.eqb c ":" then Some rest else afterSeparator rest
  end.

(** [s[:n]]: Go panics when [n] is more than the length. *)
Definition sliceTo (n : nat) (s : string) : result string :=
  if (n <=? String.length s)%nat then Ok (String.substring 0 n s)
  else Err (go.New ("runtime error: slice bounds out of range [:" +:+ Itoa n
                      +:+ "] with length " +:+ Itoa (String.length s))).

Section Pull.
Context {Net : Type}.

(** The disk and the registry side. *)
Record World : Type := mkWorld { fs : os.FS; net : Net }.

Definition setFS (f : os.FS) (w : World) : World := mkWorld f (net w).

Abbreviation M := (@eff.M World Event).

Record Collaborators : Type :=
  { (* Go's standard library and the platform *)
    filepath_Join : string -> string -> string;
    filepath_Dir : string -> string;
    os_Mkdir : string -> Z -> os.FS -> os.FS;
    os_MkdirAll : string -> Z -> os.FS -> os.FS;
    os_dirSize : Z;
    os_newFileMode : Z;
    os_canCreate : World -> string -> bool;
    os_canWrite : World -> string -> string -> bool;
    json_Unmarshal_Manifest : string -> result (list Descriptor);   (* manifest.Layers *)
    json_Unmarshal_Artifact : string -> result (list Descriptor);   (* artifact.Blobs *)
    (* oras-go *)
    remote_NewRepository : string -> result string;
    repo_Resolve : Repo -> string -> World -> result Descriptor * World;
    content_FetchAll : Repo -> Descriptor -> World -> result string * World;
    strconv_Quote : string -> string;                               (* %q *)
    (* this package *)
    Reference_String : Reference -> string;
    isPlainHTTP : string -> bool;
    orasAuthClient : Reference -> World -> result string * World }.

Variable X : Collaborators.

(** [orasCtxWithScopes]: the pull and push scopes of the repository. *)
Definition orasCtxWithScopes (ref : Reference) : list string :=
  ["repository:" +:+ Repository ref +:+ ":pull,push"].

Definition orasRemote (ref : Reference) : M Repo :=
  (* patch docker.io to registry-1.docker.io *)
  let ref := if String.eqb (Registry ref) "docker.io"
             then mkReference "registry-1.docker.io" (Repository ref) (Ref ref)
             else ref in
  let ctx := orasCtxWithScopes ref in
  match remote_NewRepository X (Reference_String X ref) with
  | Err e => eff.fail e
  | Ok target =>
      let plainHTTP := isPlainHTTP X (Registry ref) in
      let* authClient := eff.lift (orasAuthClient X ref) in
      eff.ret (mkRepo target plainHTTP authClient ctx)
  end.

(** [Digest.Hex]: the encoded part of the digest.  The digest library
    panics on a digest without a colon. *)
Definition Digest_Hex (d : string) : result string :=
  match afterSeparator d with
  | Some encoded => Ok encoded
  | None => Err (go.New ("no ':' separator in digest " +:+ strconv_Quote X d))
  end.

(** [layer.Digest.Hex()[:12]], the argument of the three messages of
    the loop. *)
Definition shortDigest (layer : Descriptor) : result string :=
  match Digest_Hex (Digest layer) with
  | Ok encoded => sliceTo 12 encoded
  | Err e => Err e
  end.

(** A message of the loop ([message.SuccessF], [spinner.Updatef] on the
    caller's spinner): it only prints, so what is kept of it is the
    panic of its argument, which ends the pull like an error. *)
Definition printed (argument : result string) : M unit :=
  match argument with
  | Ok _ => eff.ret tt
  | Err e => eff.fail e
  end.

(** The body of [for _, layer := range layers]. *)
Definition pullLayer (repo : Repo) (out : string) (layer : Descriptor) : M unit :=
  let path := filepath_Join X out (title layer) in
  (* if the file exists and the size matches, skip it *)
  let* info := eff.read (fun w => os.Stat (os_dirSize X) (fs w) path) in
  let skip := match info with
              | Some info => os.Size info =? Size layer
              | None => false
              end in
  if skip then
    (* message.SuccessF("%s %s", layer.Digest.Hex()[:12], title); continue *)
    printed (shortDigest layer)
  else
    (* spinner.Updatef("%s %s", layer.Digest.Hex()[:12], title) *)
    run printed (shortDigest layer) in
    let* layerContent := eff.call (EvFetch layer) (content_FetchAll X repo layer) in
    let parent := filepath_Dir X path in
    run (if negb (String.eqb parent ".")
         then eff.update (EvMkdirAll parent (os.perm 7 5 5))
                (fun w => setFS (os_MkdirAll X parent (os.perm 7 5 5) (fs w)) w)
         else eff.ret tt) in
    run eff.call (EvCreate path)
          (fun w =>
             match os.Create (os_canCreate X w path) (os_newFileMode X) path (fs w) with
             | Ok fs' => (Ok tt, setFS fs' w)
             | Err e => (Err e, w)
             end) in
    run eff.call (EvWrite path layerContent)
          (fun w =>
             match os.Write (os_canWrite X w path layerContent) path layerContent (fs w) with
             | Ok fs' => (Ok tt, setFS fs' w)
             | Err e => (Err e, w)
             end) in
    (* message.SuccessF("%s %s", layer.Digest.Hex()[:12], title) *)
    printed (shortDigest layer).

(** The part of [pullOCIZarfPackage] before the loop: the repository and
    the layers of the manifest or artifact. *)
Definition resolveLayers (ref : Reference) (out : string) : M (Repo * list Descriptor) :=
  run eff.update (EvMkdir out (os.perm 7 5 5))
        (fun w => setFS (os_Mkdir X out (os.perm 7 5 5) (fs w)) w) in
  let* repo := orasRemote ref in
  (* get the manifest descriptor *)
  let* descriptor := eff.call (EvResolve (Ref ref)) (repo_Resolve X repo (Ref ref)) in
  (* get the manifest itself *)
  let* pulled := eff.call (EvFetch descriptor) (content_FetchAll X repo descriptor) in
  (* if the manifest is an artifact, unmarshal it as an artifact
     otherwise, unmarshal it as a manifest *)
  if String.eqb (MediaType descriptor) ocispec_MediaTypeArtifactManifest then
    match json_Unmarshal_Artifact X pulled with
    | Err e => eff.fail e
    | Ok blobs => eff.ret (repo, blobs)
    end
  else
    match json_Unmarshal_Manifest X pulled with
    | Err e => eff.fail e
    | Ok layers => eff.ret (repo, layers)
    end.

Definition pullOCIZarfPackage (ref : Reference) (out : string) : M unit :=
  let* (repo, layers) := resolveLayers ref out in
  (* get the layers *)
  eff.forRange (fun _ layer => pullLayer repo out layer) 0%nat layers.

(** *** Vocabulary for the statements about a pull *)

Definition pathOf (out : string) (layer : Descriptor) : string :=
  filepath_Join X out (title layer).

(** The layer is already there: a node at its path whose size is the
    descriptor's. *)
Definition present (w : World) (out : string) (layer : Descriptor) : bool :=
  match os.Stat (os_dirSize X) (fs w) (pathOf out layer) with
  | Some info => os.Size info =? Size layer
  | None => false
  end.

(** The disk just before the file is created. *)
Definition prepared (out : string) (layer : Descriptor) (w : World) : World :=
  if negb (String.eqb (filepath_Dir X (pathOf out layer)) ".")
  then setFS (os_MkdirAll X (filepath_Dir X (pathOf out layer)) (os.perm 7 5 5) (fs w)) w
  else w.

(** The claim as the specification words it, for a layer whose turn has
    come with the world at [w]: a layer that is present at the size of
    its descriptor is skipped, and every other layer is fetched. *)
Definition pull_layer_as_stated (repo : Repo) (out : string) (layer : Descriptor)
    (w : World) : Prop :=
  (present w out layer = true -> pullLayer repo out layer w = eff.Outcome (Ok tt) w [])
  /\ (present w out layer = false ->
      exists ok t, eff.trace (pullLayer repo out layer w) = EvFetch layer ok :: t).

End Pull.

Arguments World Net : clear implicits.
Arguments Collaborators Net : clear implicits.

(** *** A sample registry: the blobs by digest; every blob it has can
    be fetched, its one manifest lists one layer, paths are joined with a
    slash. *)
Definition sampleDigest : string :=
  "sha256:2cf24dba5fb0a30e26e83b2ac5b9e29e1b161e5c1fa7425e73043362938b9824".

Definition sampleLayer : Descriptor :=
  mkDescriptor "application/vnd.zarf.layer.v1.yaml" sampleDigest 5
    {[ocispec_AnnotationTitle := "zarf.yaml"]}.

(** A layer as a manifest can list it, with a digest of three
    characters after the colon. *)
Definition shortLayer : Descriptor :=
  mkDescriptor "application/vnd.zarf.layer.v1.yaml" "sha256:abc" 5
    {[ocispec_AnnotationTitle := "zarf.yaml"]}.

Definition sampleManifest : Descriptor :=
  mkDescriptor "application/vnd.oci.image.manifest.v1+json" "sha256:manifest" 2 ∅.

Definition sampleRegistry : Collaborators (gmap string string) :=
  {| filepath_Join := fun a b => a +:+ "/" +:+ b;
     filepath_Dir := fun _ => "out";
     os_Mkdir := fun p mode f => match f !! p with Some _ => f | None => <[p := os.Dir mode]> f end;
     os_MkdirAll := fun p mode f => match f !! p with Some _ => f | None => <[p := os.Dir mode]> f end;
     os_dirSize := 4096;
     os_newFileMode := os.perm 6 4 4;
     os_canCreate := fun _ _ => true;
     os_canWrite := fun _ _ _ => true;
     json_Unmarshal_Manifest := fun _ => Ok [sampleLayer];
     json_Unmarshal_Artifact := fun _ => Ok [sampleLayer];
     remote_NewRepository := fun s => Ok s;
     repo_Resolve := fun _ _ w => (Ok sampleManifest, w);
     content_FetchAll := fun _ d w =>
       match net w !! Digest d with
       | Some bytes => (Ok bytes, w)
       | None => (Err (go.New ("not found: " +:+ Digest d)), w)
       end;
     strconv_Quote := fun s => "'" +:+ s +:+ "'";
     Reference_String := fun r => Registry r +:+ "/" +:+ Repository r +:+ ":" +:+ Ref r;
     isPlainHTTP := fun _ => false;
     orasAuthClient := fun _ w => (Ok "anonymous", w) |}.

Definition sampleRef : Reference := mkReference "registry" "pkg" "1".

Definition sampleRepo : Repo :=
  mkRepo "registry/pkg:1" false "anonymous" ["repository:pkg:pull,push"].

Definition sampleBlobs : gmap string string :=
  {["sha256:manifest" := "{}"; sampleDigest := "hello"; "sha256:abc" := "hello"]}.

End packager.

(** ** The composer: import chains and remote skeletons *)

Module composer.

Import types.

(** A node of the chain: the component and where its files are found
    relative to the head of the chain. *)
Record Node : Type := mkNode
  { Component : ZarfComponent.t; relativeToHead : string }.

Definition ImportOf (n : Node) : ZarfComponentImport.t := ZarfComponent.Import (Component n).

(** Modelled from the spec: [Node.ImportName] is not among the embedded
    sources.  The spec has an import directive carry an "optional
    component-name override": the override when it is set, the
    component's own name otherwise. *)
Definition ImportName (n : Node) : string :=
  if String.eqb (ZarfComponentImport.ComponentName (ImportOf n)) ""
  then ZarfComponent.Name (Component n)
  else ZarfComponentImport.ComponentName (ImportOf n).

(** The doubly-linked chain, seen from its tail: [prevs] is [tail.prev],
    [tail.prev.prev], ... up to the head.  [remote] is the cached client
    ([nil] until a remote is first used), kept by its URL. *)
Record ImportChain : Type := mkChain
  { tail : Node; prevs : list Node; remote : option string }.

Definition setRemote (r : option string) (ic : ImportChain) : ImportChain :=
  mkChain (tail ic) (prevs ic) r.

(** [ic.tail.relativeToHead = rel] *)
Definition setTailRelativeToHead (rel : string) (ic : ImportChain) : ImportChain :=
  mkChain (mkNode (Component (tail ic)) rel) (prevs ic) (remote ic).

(** The nodes from the head to the tail. *)
Definition nodes (ic : ImportChain) : list Node := rev (prevs ic) ++ [tail ic].

(** [ContainsOCIImport]: only the 2nd to last node may have a remote
    import. *)
Definition ContainsOCIImport (ic : ImportChain) : bool :=
  match prevs ic with
  | prev :: _ => negb (String.eqb (ZarfComponentImport.URL (ImportOf prev)) "")
  | [] => false
  end.

Inductive Event : Type :=
| EvNewRemote (url : string) (ok : bool)
| EvResolveRoot (url : string) (ok : bool)
| EvFetchRoot (url : string) (ok : bool)
| EvLocate (path : string) (desc : packager.Descriptor)
| EvCreateDirectory (path : string) (ok : bool)
| EvStoreNew (path : string) (ok : bool)
| EvExists (desc : packager.Descriptor) (ok : bool)
| EvCopy (desc : packager.Descriptor) (ok : bool)
| EvUnarchive (tarball dir : string) (ok : bool)
| EvLoadLocal (path : string) (ok : bool)
| EvLoadRemote (url : string) (ok : bool).

Definition isCopyOf (digest : string) (ev : Event) : bool :=
  match ev with
  | EvCopy desc _ => String.eqb (packager.Digest desc) digest
  | _ => false
  end.

Section Composer.
Context {Env Manifest : Type}.

(** The chain being resolved, the digests present in the blob store of
    the cache, and the rest (the registry, the cache directories). *)
Record World : Type := mkWorld { chain : ImportChain; blobs : gset string; env : Env }.

Definition setChain (ic : ImportChain) (w : World) : World := mkWorld ic (blobs w) (env w).
Definition setEnv (e : Env) (w : World) : World := mkWorld (chain w) (blobs w) e.
Definition addBlob (digest : string) (w : World) : World :=
  mkWorld (chain w) ({[digest]} ∪ blobs w) (env w).

Abbreviation M := (@eff.M World Event).

Record Collaborators : Type :=
  { filepath_Join : list string -> string;
    filepath_Rel : string -> string -> result string;
    strconv_Quote : string -> string;
    os_Getwd : Env -> result string;
    sha256_Hex : string -> string;
    Digest_Encoded : string -> string;
    layout_ComponentsDir : string;
    config_GetAbsCachePath : string;
    oci_IsEmptyDescriptor : packager.Descriptor -> bool;
    ocizarf_NewZarfOrasRemote : string -> Env -> result unit * Env;
    remote_ResolveRoot : string -> Env -> result unit * Env;
    remote_FetchRoot : string -> Env -> result Manifest * Env;
    manifest_Locate : Manifest -> string -> packager.Descriptor;
    utils_CreateDirectory : string -> Z -> Env -> result unit * Env;
    ocistore_New : string -> Env -> result unit * Env;
    (* an I/O failure of store.Exists, if any *)
    store_ExistsError : packager.Descriptor -> Env -> option error;
    (* the transfer of remote.CopyWithProgress, registry side *)
    remote_Transfer : string -> packager.Descriptor -> Env -> result unit * Env;
    archiver_Unarchive : string -> string -> Env -> result unit * Env;
    (* loading the package an import points at *)
    loadLocalPackage : string -> Env -> result ZarfPackage.t * Env;
    loadRemoteSkeleton : string -> Env -> result ZarfPackage.t * Env }.

Variable X : Collaborators.

(** A call that only touches the outside world. *)
Definition outside {A} (ev : bool -> Event) (f : Env -> result A * Env) : M A :=
  eff.call ev (fun w => let '(r, e) := f (env w) in (r, setEnv e w)).

(** [getRemote]: the client is made once and kept on the chain. *)
Definition getRemote (url : string) : M string :=
  let* cached := eff.read (fun w => remote (chain w)) in
  match cached with
  | Some r => eff.ret r
  | None =>
      let* made := eff.attempt (outside (EvNewRemote url) (ocizarf_NewZarfOrasRemote X url)) in
      match made with
      | Err e =>
          (* ic.remote is assigned the nil client *)
          fun w => eff.Outcome (Err e) (setChain (setRemote None (chain w)) w) []
      | Ok _ =>
          run (fun w => eff.Outcome (Ok tt) (setChain (setRemote (Some url) (chain w)) w) []) in
          run eff.wrapErr
                (go.Wrap ("published skeleton package for " +:+ strconv_Quote X url
                            +:+ " does not exist: "))
                (outside (EvResolveRoot url) (remote_ResolveRoot X url)) in
          eff.ret url
      end
  end.

(** [store.Exists]: the digest is in the blob store. *)
Definition storeExists (desc : packager.Descriptor) : M bool :=
  eff.call (EvExists desc)
    (fun w =>
       match store_ExistsError X desc (env w) with
       | Some e => (Err e, w)
       | None => (Ok (bool_decide (packager.Digest desc ∈ blobs w)), w)
       end).

(** [remote.CopyWithProgress] of one descriptor into the store: when the
    transfer succeeds the blob is in the store. *)
Definition copyToStore (remote : string) (desc : packager.Descriptor) : M unit :=
  eff.call (EvCopy desc)
    (fun w =>
       match remote_Transfer X remote desc (env w) with
       | (Ok _, e) => (Ok tt, addBlob (packager.Digest desc) (setEnv e w))
       | (Err err, e) => (Err err, setEnv e w)
       end).

(** The part of [fetchOCISkeleton] that decides where the component is
    kept in the cache and makes sure its tarball is there: the tarball
    path (none for an empty descriptor) and the directory. *)
Definition ensureCached (cache remote url name : string)
    (componentDesc : packager.Descriptor) : M (string * string) :=
  (* if there is not a tarball to fetch, create a directory named based upon
     the import url and the component name *)
  if oci_IsEmptyDescriptor X componentDesc then
    let id := sha256_Hex X (url +:+ name) in
    eff.ret ("", filepath_Join X [cache; "dirs"; id])
  else
    let encoded := Digest_Encoded X (packager.Digest componentDesc) in
    let tb := filepath_Join X [cache; "blobs"; "sha256"; encoded] in
    let dir := filepath_Join X [cache; "dirs"; encoded] in
    run outside (EvStoreNew cache) (ocistore_New X cache) in
    (* ensure the tarball is in the cache *)
    let* exists_ := storeExists componentDesc in
    run (if negb exists_ then copyToStore remote componentDesc else eff.ret tt) in
    eff.ret (tb, dir).

(** [fetchOCISkeleton].  The progress bar that runs beside the copy is
    display only and is left out. *)
Definition fetchOCISkeleton : M unit :=
  let* ic := eff.read chain in
  if negb (ContainsOCIImport ic) then eff.ret tt
  else
    match prevs ic with
    | [] => eff.ret tt      (* excluded by ContainsOCIImport *)
    | node :: _ =>
        let url := ZarfComponentImport.URL (ImportOf node) in
        let* remote := getRemote url in
        let* manifest := outside (EvFetchRoot remote) (remote_FetchRoot X remote) in
        let name := ImportName node in
        let componentPath := filepath_Join X [layout_ComponentsDir X; name +:+ ".tar"] in
        let componentDesc := manifest_Locate X manifest componentPath in
        run eff.emit (EvLocate componentPath componentDesc) in
        let cache := filepath_Join X [config_GetAbsCachePath X; "oci"] in
        run outside (EvCreateDirectory cache) (utils_CreateDirectory X cache (os.perm 7 0 0)) in
        let* (tb, dir) := ensureCached cache remote url name componentDesc in
        run outside (EvCreateDirectory dir) (utils_CreateDirectory X dir (os.perm 7 0 0)) in
        let* cwd := eff.lift (fun w => (os_Getwd X (env w), w)) in
        let* rel := eff.lift (fun w => (filepath_Rel X cwd dir, w)) in
        (* the tail node is the only node whose relativeToHead is based solely upon cwd<->cache
           contrary to the other nodes, which are based upon the previous node *)
        run (fun w => eff.Outcome (Ok tt)
                        (setChain (setTailRelativeToHead rel (chain w)) w) []) in
        if oci_IsEmptyDescriptor X componentDesc then
          (* nothing was fetched, nothing to extract *)
          eff.ret tt
        else
          outside (EvUnarchive tb dir) (archiver_Unarchive X tb dir)
    end.

(** *** Building the chain *)

Definition ErrNestedRemoteImport : error :=
  go.New "nested remote import: a component imported from a remote package imports from a remote package".

Definition ErrImportFromRemote : error :=
  go.New "a component imported from a remote package imports from a local path".

Definition ErrImportDefinition : error :=
  go.New "an import names both a local path and a remote url".

Definition ErrImportDepth : error :=
  go.New "the import chain is too deep".

Definition findComponent (name : string) (pkg : ZarfPackage.t) : option ZarfComponent.t :=
  List.find (fun c => String.eqb (ZarfComponent.Name c) name) (ZarfPackage.Components pkg).

(** The node before [prevs] was reached through a remote import. *)
Definition afterRemote (prevs : list Node) : bool :=
  match prevs with
  | prev :: _ => negb (String.eqb (ZarfComponentImport.URL (ImportOf prev)) "")
  | [] => false
  end.

(** Modelled from the spec: the construction of the chain
    ([NewImportChain]) is not among the embedded sources.  The spec has
    it "walk the import graph depth-first, building an ordered chain of
    nodes", each import being a "local relative path or OCI reference
    + optional component-name override", and "enforce the
    single-remote-import-at-tail invariant (...) any deeper nesting of
    remote imports is a hard configuration error, not silently
    truncated"; "remote imports terminate the chain".  The walk stops at
    a node that imports nothing; a node reached through a remote import
    must import nothing; otherwise the imported package is loaded, the
    component looked up by its import name, and the walk goes on from
    it.  [fuel] bounds the number of imports followed. *)
Fixpoint resolveFrom (fuel : nat) (prevs : list Node) (node : Node) : M ImportChain :=
  let import := ImportOf node in
  let isLocal := negb (String.eqb (ZarfComponentImport.Path import) "") in
  let isRemote := negb (String.eqb (ZarfComponentImport.URL import) "") in
  if negb isLocal && negb isRemote then
    (* the end of the chain: this node imports nothing *)
    eff.ret (mkChain node prevs None)
  else if afterRemote prevs && isRemote then eff.fail ErrNestedRemoteImport
  else if afterRemote prevs then eff.fail ErrImportFromRemote
  else if isLocal && isRemote then eff.fail ErrImportDefinition
  else
    match fuel with
    | O => eff.fail ErrImportDepth
    | S fuel' =>
        let* pkg :=
          if isRemote
          then outside (EvLoadRemote (ZarfComponentImport.URL import))
                 (loadRemoteSkeleton X (ZarfComponentImport.URL import))
          else outside (EvLoadLocal (ZarfComponentImport.Path import))
                 (loadLocalPackage X (ZarfComponentImport.Path import)) in
        match findComponent (ImportName node) pkg with
        | None =>
            eff.fail (go.New ("component " +:+ ImportName node
                                +:+ " not found in the imported package"))
        | Some c => resolveFrom fuel' (node :: prevs) (mkNode c "")
        end
    end.

Definition NewImportChain (fuel : nat) (head : ZarfComponent.t) : M ImportChain :=
  resolveFrom fuel [] (mkNode head "").

(** *** Vocabulary for the statements about the cache and the chain *)

(** What matters of a run for the cache: whether it succeeded, the blob
    store it leaves, and the descriptors it located and copied. *)
Definition relevant (ev : Event) : bool :=
  match ev with EvCopy _ _ | EvLocate _ _ => true | _ => false end.

Definition isCopy (ev : Event) : bool :=
  match ev with EvCopy _ _ => true | _ => false end.

Definition view {A} (r : @eff.outcome World Event A) : bool * gset string * list Event :=
  (go.is_ok (eff.out r), blobs (eff.world r), List.filter relevant (eff.trace r)).

(** A step that neither touches the store nor locates or copies. *)
Definition still {A} (m : M A) : Prop :=
  forall w, blobs (eff.world (m w)) = blobs w /\ List.filter relevant (eff.trace (m w)) = [].

(** How [ensureCached] treats the descriptor [d], from a store [B]:
    the store only grows; the only call of interest is at most one copy
    of [d], made only when [d] is not empty and not in the store; after
    success a non-empty [d] is in the store, by exactly one successful
    copy if it was not there before. *)
Definition cached (B : gset string) (d : packager.Descriptor)
    (v : bool * gset string * list Event) : Prop :=
  let '(ok, B', t) := v in
  B ⊆ B'
  /\ (t = [] \/ (exists b, t = [EvCopy d b]
                          /\ (packager.Digest d ∉ B) /\ oci_IsEmptyDescriptor X d = false))
  /\ (packager.Digest d ∈ B -> t = [])
  /\ (ok = true -> oci_IsEmptyDescriptor X d = false ->
      (packager.Digest d ∈ B') /\ (packager.Digest d ∉ B -> t = [EvCopy d true])).

(** What a run of [fetchOCISkeleton] shows: nothing of interest and the
    store untouched, or one located descriptor and what [ensureCached]
    did for it. *)
Definition resolved (B : gset string) (v : bool * gset string * list Event) : Prop :=
  let '(ok, B', t) := v in
  (t = [] /\ B' = B)
  \/ (exists p d t', t = EvLocate p d :: t' /\ cached B d (ok, B', t')).

Definition urlOf (n : Node) : string := ZarfComponentImport.URL (ImportOf n).

Definition remoteFree (n : Node) : Prop := urlOf n = "".

(** Every node before [tail.prev] is free of remote imports. *)
Definition settled (prevs : list Node) : Prop := Forall remoteFree (List.tl prevs).

(** [fetchOCISkeleton] from the creation of the cache directory on: the
    component is settled in the cache and the tail of the chain is
    pointed at it. *)
Definition settle (url remote name : string) (componentDesc : packager.Descriptor) : M unit :=
  let cache := filepath_Join X [config_GetAbsCachePath X; "oci"] in
  run outside (EvCreateDirectory cache) (utils_CreateDirectory X cache (os.perm 7 0 0)) in
  let* (tb, dir) := ensureCached cache remote url name componentDesc in
  run outside (EvCreateDirectory dir) (utils_CreateDirectory X dir (os.perm 7 0 0)) in
  let* cwd := eff.lift (fun w => (os_Getwd X (env w), w)) in
  let* rel := eff.lift (fun w => (filepath_Rel X cwd dir, w)) in
  run (fun w => eff.Outcome (Ok tt)
                  (setChain (setTailRelativeToHead rel (chain w)) w) []) in
  if oci_IsEmptyDescriptor X componentDesc then eff.ret tt
  else outside (EvUnarchive tb dir) (archiver_Unarchive X tb dir).

(** [fetchOCISkeleton] for a chain whose node before the tail is
    [node], up to that point. *)
Definition locate (node : Node) : M unit :=
  let url := ZarfComponentImport.URL (ImportOf node) in
  let* remote := getRemote url in
  let* manifest := outside (EvFetchRoot remote) (remote_FetchRoot X remote) in
  let name := ImportName node in
  let componentPath := filepath_Join X [layout_ComponentsDir X; name +:+ ".tar"] in
  let componentDesc := manifest_Locate X manifest componentPath in
  run eff.emit (EvLocate componentPath componentDesc) in
  settle url remote name componentDesc.

Definition isLocate (ev : Event) : bool :=
  match ev with EvLocate _ _ => true | _ => false end.

(** A step that leaves the nodes of the chain as they are, apart from
    where the tail is found. *)
Definition keepsNodes {A} (m : M A) : Prop :=
  forall w,
    prevs (chain (eff.world (m w))) = prevs (chain w)
    /\ Component (tail (chain (eff.world (m w)))) = Component (tail (chain w)).

(** A step that leaves the whole chain as it is. *)
Definition keepsChain {A} (m : M A) : Prop :=
  forall w, chain (eff.world (m w)) = chain w.

(** The calls that touch the blob store or unpack from it. *)
Definition isStoreWork (ev : Event) : bool :=
  match ev with
  | EvStoreNew _ _ | EvExists _ _ | EvCopy _ _ | EvUnarchive _ _ _ => true
  | _ => false
  end.

(** The error of [getRemote] for a skeleton that cannot be resolved. *)
Definition notPublished (url : string) (e : error) : error :=
  go.Wrap ("published skeleton package for " +:+ strconv_Quote X url
             +:+ " does not exist: ") e.

(** The directory of the cache for a component without a tarball. *)
Definition emptyDir (url name : string) : string :=
  filepath_Join X [filepath_Join X [config_GetAbsCachePath X; "oci"]; "dirs";
                   sha256_Hex X (url +:+ name)].

End Composer.

Arguments World Env : clear implicits.
Arguments Collaborators Env Manifest : clear implicits.

(** *** A sample registry that counts its transfers

    The outside world is the number of transfers made so far; a manifest
    is the list of its paths with their descriptors; the one published
    skeleton has the component "base". *)

Definition emptyDescriptor : packager.Descriptor := packager.mkDescriptor "" "" 0 ∅.

Definition baseTarball : packager.Descriptor :=
  packager.mkDescriptor "application/vnd.zarf.layer.v1.tar" "sha256:base" 42 ∅.

Definition importing (name componentName path url : string) : ZarfComponent.t :=
  ZarfComponent.mk name (ZarfComponentImport.mk componentName path url) [] [] [] [] [] []
    (ZarfComponentActionSet.mk "" [] [] [] []) (BigBang.mk "" "" [] false) "".

Definition packageOf (components : list ZarfComponent.t) : ZarfPackage.t :=
  ZarfPackage.mk "ZarfPackageConfig" (ZarfMetadata.mk "skeleton" "" "1" "" "")
    (ZarfBuildData.mk "" false []) components [] [].

Definition sampleComposer : Collaborators nat (list (string * packager.Descriptor)) :=
  {| filepath_Join := String.concat "/";
     filepath_Rel := fun _ dir => Ok dir;
     strconv_Quote := fun s => "'" +:+ s +:+ "'";
     os_Getwd := fun _ => Ok ".";
     sha256_Hex := fun s => "id-of-" +:+ s;
     Digest_Encoded := fun digest => digest;
     layout_ComponentsDir := "components";
     config_GetAbsCachePath := "cache";
     oci_IsEmptyDescriptor := fun d =>
       String.eqb (packager.Digest d) "" && (packager.Size d =? 0);
     ocizarf_NewZarfOrasRemote := fun _ n => (Ok tt, n);
     remote_ResolveRoot := fun _ n => (Ok tt, n);
     remote_FetchRoot := fun _ n => (Ok [("components/base.tar", baseTarball)], n);
     manifest_Locate := fun m path =>
       match List.find (fun entry => String.eqb (fst entry) path) m with
       | Some entry => snd entry
       | None => emptyDescriptor
       end;
     utils_CreateDirectory := fun _ _ n => (Ok tt, n);
     ocistore_New := fun _ n => (Ok tt, n);
     store_ExistsError := fun _ _ => None;
     remote_Transfer := fun _ _ n => (Ok tt, S n);
     archiver_Unarchive := fun _ _ n => (Ok tt, n);
     loadLocalPackage := fun path n =>
       if String.eqb path "sub"
       then (Ok (packageOf [importing "x" "base" "" "oci://registry/skeleton:1"]), n)
       else (Err (go.New ("open " +:+ path +:+ "/zarf.yaml: no such file or directory")), n);
     loadRemoteSkeleton := fun url n =>
       if String.eqb url "oci://registry/skeleton:1"
       then (Ok (packageOf [importing "base" "" "" "oci://registry/other:1"]), n)
       else if String.eqb url "oci://registry/plain:1"
       then (Ok (packageOf [importing "base" "" "" ""]), n)
       else (Err (go.New ("not found: " +:+ url)), n) |}.

(** The chain of a component "x" that imports "base" from the skeleton. *)
Definition sampleChain : ImportChain :=
  mkChain (mkNode (importing "base" "" "" "") "")
          [mkNode (importing "x" "base" "" "oci://registry/plain:1") ""]
          None.

End composer.

(** ** The spinners of [src/pkg/message]

    A multispinner keeps one row per task.  Its rows are the state; the
    messages printed beside it are the trace.  The goroutine that
    redraws the area calls [renderText] again and again; each method is
    embedded as one sequential step. *)

Module message.

(** The frames of a spinner. *)
Definition sequence : list string :=
  ["  ⠋ "; "  ⠙ "; "  ⠹ "; "  ⠸ "; "  ⠼ "; "  ⠴ "; "  ⠦ "; "  ⠧ "; "  ⠇ "; "  ⠏ "].

(** [MultiSpinnerRow] *)
Record MultiSpinnerRow : Type := mkRow { Status : string; Text : string }.

(** What the package prints. *)
Inductive Event : Type :=
| EvSuccessf (format : string)
| EvWarn (text : string)
| EvWarnf (format : string)
| EvInfo (text : string).

Definition isWarning (ev : Event) : bool :=
  match ev with EvWarn _ | EvWarnf _ => true | _ => false end.

(** The line feed that [strings.Join] puts between the rows. *)
Definition newline : string := String (ascii_of_nat 10) EmptyString.

(** Go's panic for [s[i]] outside [0 <= i < len(s)]. *)
Definition indexOutOfRange (i : Z) (len : nat) : error :=
  go.New ("runtime error: index out of range [" +:+ (if i <? 0 then "-" else "")
            +:+ Itoa (Z.abs_nat i) +:+ "]"
            +:+ (if i <? 0 then "" else " with length " +:+ Itoa len)).

Section MultiSpinner.

(** [pterm]'s colours, the two package variables computed from them, the
    global [NoProgress], and the text of the timer when row [idx] is
    rendered. *)
Variable FgLightGreen_Sprint : string -> string.
Variable FgLightRed_Sprint : string -> string.
Variable NoProgress : bool.
Variable timer : nat -> string.

(** RowStatusSuccess is the success status for a row. *)
Definition RowStatusSuccess : string := FgLightGreen_Sprint "  ✔ ".

(** RowStatusError is the error status for a row. *)
Definition RowStatusError : string := FgLightRed_Sprint "  ✖ ".

Abbreviation M := (@eff.M (list MultiSpinnerRow) Event).

(** The inner loop of [renderText]: the frame after the first frame
    that equals the status; [i] is the index of the head of [frames]. *)
Fixpoint nextFrame (i : nat) (frames : list string) (status : string) : string :=
  match frames with
  | [] => status
  | s :: rest =>
      if String.eqb s status
      then nth ((i + 1) mod length sequence) sequence ""
      else nextFrame (S i) rest status
  end.

(** The line of one row: the status it had when the loop reached it,
    its text, and the timer unless the row is finished. *)
Definition renderRow (idx : nat) (row : MultiSpinnerRow) : string :=
  let timer :=
    if negb (String.eqb (Status row) RowStatusSuccess)
       && negb (String.eqb (Status row) RowStatusError)
    then timer idx else "" in
  Status row +:+ " " +:+ Text row +:+ timer.

(** The outer loop of [renderText] from row [idx] on: the rows as it
    leaves them and the lines it has made. *)
Fixpoint renderRows (idx : nat) (rows : list MultiSpinnerRow)
  : list MultiSpinnerRow * list string :=
  match rows with
  | [] => ([], [])
  | row :: rest =>
      let advanced := mkRow (nextFrame 0 sequence (Status row)) (Text row) in
      let '(rest', lines) := renderRows (S idx) rest in
      (advanced :: rest', renderRow idx row :: lines)
  end.

(** [renderText] renders the rows into a string to be used by
    pterm.AreaPrinter. *)
Definition renderText (rows : list MultiSpinnerRow) : list MultiSpinnerRow * string :=
  let '(rows', outputRows) := renderRows 0 rows in
  (rows', String.concat newline outputRows).

(** The rows after [renderText] has run [n] times. *)
Fixpoint rendered (n : nat) (rows : list MultiSpinnerRow) : list MultiSpinnerRow :=
  match n with
  | O => rows
  | S n' => rendered n' (fst (renderText rows))
  end.

(** [Update] updates the rows of the multispinner. *)
Definition Update (rows : list MultiSpinnerRow) : M unit :=
  run (if NoProgress then
         let* current := eff.read (fun rows => rows) in
         run eff.forRange
               (fun i row =>
                  match rows !! i with
                  | None => eff.fail (indexOutOfRange (Z.of_nat i) (length rows))
                  | Some new =>
                      if negb (String.eqb (Status row) (Status new)) then
                        if String.eqb (Status new) RowStatusError
                        then eff.emit (EvSuccessf (Text new))
                        else if String.eqb (Status new) RowStatusError
                        then eff.emit (EvWarn (Text new))
                        else eff.ret tt
                      else eff.ret tt
                  end)
               0%nat current in
         eff.forRange (fun _ new => eff.emit (EvInfo (Text new))) (length current)
           (drop (length current) rows)
       else eff.ret tt) in
  fun _ => eff.Outcome (Ok tt) rows [].

(** [NewMultiSpinnerRow] creates a new row for a multispinner. *)
Definition NewMultiSpinnerRow (text : string) : MultiSpinnerRow :=
  mkRow (nth 0 sequence "") text.

(** [m.rows[index]] as the target of an assignment. *)
Definition rowAt (index : Z) (rows : list MultiSpinnerRow) : result MultiSpinnerRow :=
  if index <? 0 then Err (indexOutOfRange index (length rows))
  else match rows !! Z.to_nat index with
       | Some row => Ok row
       | None => Err (indexOutOfRange index (length rows))
       end.

(** [m.rows[index].Status = status; m.rows[index].Text = text] *)
Definition setRow (index : Z) (status text : string) : M unit :=
  fun rows => eff.Outcome (Ok tt) (<[Z.to_nat index := mkRow status text]> rows) [].

(** [RowSuccess] sets the status of a row to success. *)
Definition RowSuccess (index : Z) : M unit :=
  let* rows := eff.read (fun rows => rows) in
  match rowAt index rows with
  | Err e => eff.fail e
  | Ok row =>
      let text := FgLightGreen_Sprint (Text row) in
      run setRow index RowStatusSuccess text in
      if NoProgress then eff.emit (EvSuccessf text) else eff.ret tt
  end.

(** [RowError] sets the status of a row to error. *)
Definition RowError (index : Z) : M unit :=
  let* rows := eff.read (fun rows => rows) in
  match rowAt index rows with
  | Err e => eff.fail e
  | Ok row =>
      let text := FgLightRed_Sprint (Text row) in
      run setRow index RowStatusError text in
      if NoProgress then eff.emit (EvWarnf text) else eff.ret tt
  end.

(** [GetContent] returns the current rows of the multispinner. *)
Definition GetContent : M (list MultiSpinnerRow) := eff.read (fun rows => rows).

End MultiSpinner.

(** Colours as ANSI escape sequences, for running the definitions. *)
Definition escape : string := String (ascii_of_nat 27) EmptyString.
Definition green (s : string) : string := escape +:+ "[92m" +:+ s +:+ escape +:+ "[0m".
Definition red (s : string) : string := escape +:+ "[91m" +:+ s +:+ escape +:+ "[0m".

Definition sampleRows : list MultiSpinnerRow :=
  [mkRow "  ⠹ " "pulling a"; mkRow (green "  ✔ ") (green "pulling b")].

End message.

(** * Properties *)

(** ** Laws of the effect combinators *)

Module eff_facts.
Section Facts.
Context {World Event : Type}.

Local Abbreviation after := (@eff.after World Event _).
Local Abbreviation traceAll := (@eff.traceAll World Event _).
Abbreviation M := (@eff.M World Event).

Lemma after_nil {A} (r : @eff.outcome World Event A) : after [] r = r.
Proof. destruct r. reflexivity. Qed.

Lemma bind_ok {A B} (m : M A) (k : A -> M B) (w : World) (a : A) :
eff.out (m w) = Ok a ->
eff.bind m k w = after (eff.trace (m w)) (k a (eff.world (m w))).
Proof. intros H. unfold eff.bind, after. rewrite H. reflexivity. Qed.

Lemma bind_err {A B} (m : M A) (k : A -> M B) (w : World) (e : error) :
eff.out (m w) = Err e ->
eff.bind m k w = eff.Outcome (Err e) (eff.world (m w)) (eff.trace (m w)).
Proof. intros H. unfold eff.bind. rewrite H. reflexivity. Qed.

Lemma bind_eq_ok {A B} (m : M A) (k : A -> M B) (w w' : World) (a : A) (t : list Event) :
m w = eff.Outcome (Ok a) w' t -> eff.bind m k w = after t (k a w').
Proof. intros H. unfold eff.bind, after. rewrite H. reflexivity. Qed.

Lemma bind_eq_err {A B} (m : M A) (k : A -> M B) (w w' : World) (e : error)
  (t : list Event) :
m w = eff.Outcome (Err e) w' t -> eff.bind m k w = eff.Outcome (Err e) w' t.
Proof. intros H. unfold eff.bind. rewrite H. reflexivity. Qed.

Lemma lift_eq {A} (f : World -> result A * World) (w w' : World) (r : result A) :
f w = (r, w') -> @eff.lift World Event A f w = eff.Outcome r w' [].
Proof. intros H. unfold eff.lift. rewrite H. reflexivity. Qed.

Lemma call_eq {A} (ev : bool -> Event) (f : World -> result A * World)
  (w w' : World) (r : result A) :
f w = (r, w') -> eff.call ev f w = eff.Outcome r w' [ev (go.is_ok r)].
Proof. intros H. unfold eff.call. rewrite H. reflexivity. Qed.

Lemma wrapErr_eq_ok {A} (wrap : error -> error) (m : M A) (w w' : World) (a : A)
  (t : list Event) :
m w = eff.Outcome (Ok a) w' t -> eff.wrapErr wrap m w = eff.Outcome (Ok a) w' t.
Proof. intros H. unfold eff.wrapErr. rewrite H. reflexivity. Qed.

Lemma wrapErr_eq_err {A} (wrap : error -> error) (m : M A) (w w' : World) (e : error)
  (t : list Event) :
m w = eff.Outcome (Err e) w' t ->
eff.wrapErr wrap m w = eff.Outcome (Err (wrap e)) w' t.
Proof. intros H. unfold eff.wrapErr. rewrite H. reflexivity. Qed.

Lemma attempt_eq {A} (m : M A) (w w' : World) (r : result A) (t : list Event) :
  m w = eff.Outcome r w' t -> eff.attempt m w = eff.Outcome (Ok r) w' t.
Proof. intros H. unfold eff.attempt. rewrite H. reflexivity. Qed.

Lemma outcome_eta {A} (r : @eff.outcome World Event A) :
r = eff.Outcome (eff.out r) (eff.world r) (eff.trace r).
Proof. destruct r. reflexivity. Qed.

Lemma bind_bind {A B C} (m : M A) (f : A -> M B) (g : B -> M C) (w : World) :
eff.bind (eff.bind m f) g w = eff.bind m (fun a => eff.bind (f a) g) w.
Proof.
unfold eff.bind. destruct (eff.out (m w)); cbn; [|reflexivity].
destruct (eff.out (f v (eff.world (m w)))); cbn; [|reflexivity].
rewrite app_assoc. reflexivity.
Qed.

Lemma bind_ext {A B} (m : M A) (k1 k2 : A -> M B) (w : World) :
(forall a w', k1 a w' = k2 a w') -> eff.bind m k1 w = eff.bind m k2 w.
Proof. intros H. unfold eff.bind. destruct (eff.out (m w)); [rewrite H|]; reflexivity. Qed.

Lemma ret_bind {A B} (a : A) (k : A -> M B) (w : World) :
eff.bind (eff.ret a) k w = k a w.
Proof. unfold eff.bind, eff.ret. cbn. destruct (k a w). reflexivity. Qed.

Lemma bind_out_err {A B} (m : M A) (k : A -> M B) (w : World) (e : error) :
eff.out (m w) = Err e -> eff.out (eff.bind m k w) = Err e.
Proof. intros H. rewrite (bind_err _ _ _ _ H). reflexivity. Qed.

Lemma forRange_app {A} (body : nat -> A -> M unit) (l1 l2 : list A) :
forall (i : nat) (w : World),
  eff.forRange body i (l1 ++ l2) w
  = eff.bind (eff.forRange body i l1)
             (fun _ => eff.forRange body (i + length l1) l2) w.
Proof.
induction l1 as [|x l1 IH]; intros i w; cbn [app eff.forRange length].
- unfold eff.bind, eff.ret. cbn. rewrite Nat.add_0_r.
  destruct (eff.forRange body i l2 w). reflexivity.
- unfold eff.bind at 1 3. destruct (eff.out (body i x w)) as [[]|e] eqn:Hb.
  + rewrite IH. replace (S i + length l1)%nat with (i + S (length l1))%nat by lia.
    unfold eff.bind. rewrite Hb. cbn.
    destruct (eff.out (eff.forRange body (S i) l1 _)); cbn; [|reflexivity].
    rewrite app_assoc. reflexivity.
  + unfold eff.bind. rewrite Hb. reflexivity.
Qed.

Lemma foldRange_app {A B} (body : nat -> B -> A -> M B) (l1 l2 : list A) :
forall (i : nat) (acc : B) (w : World),
  eff.foldRange body i acc (l1 ++ l2) w
  = eff.bind (eff.foldRange body i acc l1)
             (fun acc' => eff.foldRange body (i + length l1) acc' l2) w.
Proof.
induction l1 as [|x l1 IH]; intros i acc w; cbn [app eff.foldRange length].
- rewrite ret_bind, Nat.add_0_r. reflexivity.
- rewrite bind_bind. apply bind_ext. intros acc' w'.
  rewrite IH. replace (S i + length l1)%nat with (i + S (length l1))%nat by lia.
  reflexivity.
Qed.

(** A computation that returns without error has run both halves. *)
Lemma bind_ok_split {A B} (m : M A) (k : A -> M B) (w : World) (b : B) :
eff.out (eff.bind m k w) = Ok b ->
exists a, eff.out (m w) = Ok a
          /\ eff.out (k a (eff.world (m w))) = Ok b
          /\ eff.world (eff.bind m k w) = eff.world (k a (eff.world (m w)))
          /\ eff.trace (eff.bind m k w)
             = eff.trace (m w) ++ eff.trace (k a (eff.world (m w))).
Proof.
unfold eff.bind. destruct (eff.out (m w)) as [a|e]; cbn; [|discriminate].
intros H. exists a. auto.
Qed.

Lemma bind_cong {A B} (m1 m2 : M A) (k1 k2 : A -> M B) (w : World) :
m1 w = m2 w -> (forall a w', k1 a w' = k2 a w') -> eff.bind m1 k1 w = eff.bind m2 k2 w.
Proof.
intros Hm Hk. unfold eff.bind. rewrite Hm.
destruct (eff.out (m2 w)); [rewrite Hk|]; reflexivity.
Qed.

Lemma out_ok_eq {A} (m : M A) (w : World) (a : A) :
eff.out (m w) = Ok a -> m w = eff.Outcome (Ok a) (eff.world (m w)) (eff.trace (m w)).
Proof. intros H. rewrite <- H. apply outcome_eta. Qed.

Lemma out_err_eq {A} (m : M A) (w : World) (e : error) :
eff.out (m w) = Err e -> m w = eff.Outcome (Err e) (eff.world (m w)) (eff.trace (m w)).
Proof. intros H. rewrite <- H. apply outcome_eta. Qed.

Lemma onError_ok {A} (m : M A) (handler : M unit) (wrap : error -> error) (w : World) (a : A) :
eff.out (m w) = Ok a ->
eff.onError m handler wrap w = eff.Outcome (Ok a) (eff.world (m w)) (eff.trace (m w)).
Proof. intros H. unfold eff.onError. rewrite H. apply out_ok_eq, H. Qed.

Lemma bind_out_ok_inv {A B} (m : M A) (k : A -> M B) (w : World) (b : B) :
eff.out (eff.bind m k w) = Ok b ->
exists a, eff.out (m w) = Ok a /\ eff.out (k a (eff.world (m w))) = Ok b.
Proof.
unfold eff.bind. destruct (eff.out (m w)) as [a|e]; cbn; [eauto | discriminate].
Qed.

Lemma bind_trace_prefix {A B} (m : M A) (k : A -> M B) (w : World) :
eff.trace (m w) `prefix_of` eff.trace (eff.bind m k w).
Proof.
unfold eff.bind. destruct (eff.out (m w)); cbn; [|reflexivity].
apply prefix_app_r. reflexivity.
Qed.

Lemma wrapErr_trace {A} (wrap : error -> error) (m : M A) (w : World) :
eff.trace (eff.wrapErr wrap m w) = eff.trace (m w).
Proof. unfold eff.wrapErr. destruct (eff.out (m w)); reflexivity. Qed.

Lemma Retry_trace_prefix {A} (sleep : Z -> M unit) (logger : string -> M unit)
  (fn : M A) (remaining : nat) (delay : Z) (none : A) (w : World) :
eff.trace (fn w)
  `prefix_of` eff.trace (helpers.Retry sleep logger fn (S remaining) delay none w).
Proof.
cbn [helpers.Retry]. destruct remaining; [reflexivity|].
etransitivity; [|apply bind_trace_prefix]. reflexivity.
Qed.

(** *** Properties of every call a computation makes *)

Section TraceAll.
Variable P : Event -> Prop.

Lemma traceAll_ret {A} (a : A) : traceAll P (eff.ret a).
Proof. intros w. constructor. Qed.

Lemma traceAll_fail {A} (e : error) : traceAll P (@eff.fail World Event A e).
Proof. intros w. constructor. Qed.

Lemma traceAll_read {A} (f : World -> A) : traceAll P (eff.read f).
Proof. intros w. constructor. Qed.

Lemma traceAll_lift {A} (f : World -> result A * World) : traceAll P (eff.lift f).
Proof. intros w. unfold eff.lift. destruct (f w). constructor. Qed.

Lemma traceAll_emit (ev : Event) : P ev -> traceAll P (eff.emit ev).
Proof. intros H w. repeat constructor. exact H. Qed.

Lemma traceAll_update (ev : Event) (f : World -> World) :
P ev -> traceAll P (eff.update ev f).
Proof. intros H w. repeat constructor. exact H. Qed.

Lemma traceAll_call {A} (ev : bool -> Event) (f : World -> result A * World) :
(forall b, P (ev b)) -> traceAll P (eff.call ev f).
Proof. intros H w. unfold eff.call. destruct (f w). repeat constructor. apply H. Qed.

Lemma traceAll_bind {A B} (m : M A) (k : A -> M B) :
traceAll P m -> (forall a, traceAll P (k a)) -> traceAll P (eff.bind m k).
Proof.
intros Hm Hk w. unfold eff.bind. specialize (Hm w).
destruct (eff.out (m w)); cbn; [|exact Hm].
apply Forall_app. split; [exact Hm | apply Hk].
Qed.

Lemma traceAll_wrapErr {A} (wrap : error -> error) (m : M A) :
traceAll P m -> traceAll P (eff.wrapErr wrap m).
Proof.
intros Hm w. unfold eff.wrapErr. specialize (Hm w).
destruct (eff.out (m w)); exact Hm.
Qed.

Lemma traceAll_attempt {A} (m : M A) : traceAll P m -> traceAll P (eff.attempt m).
Proof. intros Hm w. exact (Hm w). Qed.

Lemma traceAll_onError {A} (m : M A) (handler : M unit) (wrap : error -> error) :
traceAll P m -> traceAll P handler -> traceAll P (eff.onError m handler wrap).
Proof.
intros Hm Hh w. unfold eff.onError. specialize (Hm w).
destruct (eff.out (m w)); cbn; [exact Hm|].
apply Forall_app. split; [exact Hm | apply Hh].
Qed.

Lemma traceAll_forRange {A} (body : nat -> A -> M unit) (l : list A) :
(forall i x, traceAll P (body i x)) -> forall i, traceAll P (eff.forRange body i l).
Proof.
intros Hbody. induction l as [|x l IH]; intros i; cbn [eff.forRange].
- apply traceAll_ret.
- apply traceAll_bind; [apply Hbody | intros _; apply IH].
Qed.

Lemma traceAll_foldRange {A B} (body : nat -> B -> A -> M B) (l : list A) :
(forall i acc x, traceAll P (body i acc x)) ->
forall i acc, traceAll P (eff.foldRange body i acc l).
Proof.
intros Hbody. induction l as [|x l IH]; intros i acc; cbn [eff.foldRange].
- apply traceAll_ret.
- apply traceAll_bind; [apply Hbody | intros acc'; apply IH].
Qed.

Lemma traceAll_Retry {A} (sleep : Z -> M unit) (logger : string -> M unit)
  (fn : M A) (retries : nat) (delay : Z) (none : A) :
(forall d, traceAll P (sleep d)) -> (forall msg, traceAll P (logger msg)) ->
traceAll P fn ->
traceAll P (helpers.Retry sleep logger fn retries delay none).
Proof.
intros Hsleep Hlog Hfn. induction retries as [|remaining IH]; cbn [helpers.Retry].
- apply traceAll_ret.
- destruct remaining as [|k]; [exact Hfn|].
  apply traceAll_bind; [apply traceAll_attempt, Hfn|].
  intros [a|e]; [apply traceAll_ret|].
  apply traceAll_bind; [apply Hlog|]. intros _.
  apply traceAll_bind; [apply Hsleep|]. intros _. exact IH.
Qed.
End TraceAll.

(** *** No second try after a failure

    [res] picks the calls of interest and [bad] the failed ones among
    them.  A trace is [quiet] when no call of interest follows a failed
    one. *)

Section Quiet.
Variables res bad : Event -> bool.

Local Abbreviation silent := (eff.silent res).
Local Abbreviation clean := (eff.clean bad).
Local Abbreviation quiet := (eff.quiet res bad).
Local Abbreviation quiet_nil := (eff.quiet_nil res bad).
Local Abbreviation quiet_cons := (eff.quiet_cons res bad).
Local Abbreviation Good := (@eff.Good World Event res bad _).

Hypothesis bad_res : forall ev, bad ev = true -> res ev = true.

Lemma silent_clean t : silent t -> clean t.
Proof.
  intros H. eapply Forall_impl; [exact H|].
  intros ev Hres. destruct (bad ev) eqn:Hbad; [|reflexivity].
  apply bad_res in Hbad. congruence.
Qed.

Lemma clean_quiet t : clean t -> quiet t.
Proof.
  induction 1 as [|ev t Hev _ IH]; constructor; [|exact IH].
  intros Hbad. congruence.
Qed.

Lemma quiet_app_clean t1 t2 : clean t1 -> quiet t2 -> quiet (t1 ++ t2).
Proof.
  intros H1 H2. induction H1 as [|ev t Hev _ IH]; cbn; [exact H2|].
  constructor; [|exact IH]. intros Hbad. congruence.
Qed.

Lemma quiet_app_silent t1 t2 : quiet t1 -> silent t2 -> quiet (t1 ++ t2).
Proof.
  intros H1 H2. induction H1 as [|ev t Hev _ IH]; cbn.
  - apply clean_quiet, silent_clean, H2.
  - constructor; [|exact IH]. intros Hbad. apply Forall_app. split; [apply Hev, Hbad | exact H2].
Qed.

Lemma quiet_split t :
  quiet t ->
  forall pre ev post, t = pre ++ ev :: post -> bad ev = true -> silent post.
Proof.
  induction 1 as [|ev0 t Hev0 Ht IH]; intros pre ev post Heq Hbad.
  - destruct pre; discriminate.
  - destruct pre as [|p pre]; cbn in Heq; injection Heq as -> ->.
    + apply Hev0, Hbad.
    + eapply IH; [reflexivity | exact Hbad].
Qed.

Lemma Good_silent {A} (m : M A) : traceAll (fun ev => res ev = false) m -> Good m.
Proof.
  intros H w. split; [apply clean_quiet|intros _]; apply silent_clean, H.
Qed.

Lemma Good_call {A} (ev : bool -> Event) (f : World -> result A * World) :
  bad (ev true) = false -> Good (eff.call ev f).
Proof.
  intros Hev w. unfold eff.call. destruct (f w) as [r w']. cbn. split.
  - constructor; [intros _; constructor | constructor].
  - intros Hok. rewrite Hok. repeat constructor. exact Hev.
Qed.

Lemma Good_bind {A B} (m : M A) (k : A -> M B) :
  Good m -> (forall a, Good (k a)) -> Good (eff.bind m k).
Proof.
  intros Hm Hk w. unfold eff.bind. destruct (Hm w) as [Hq Hc].
  destruct (eff.out (m w)) as [a|e]; cbn.
  - destruct (Hk a (eff.world (m w))) as [Hq' Hc']. split.
    + apply quiet_app_clean; [apply Hc; reflexivity | exact Hq'].
    + intros Hok. apply Forall_app. split; [apply Hc; reflexivity | apply Hc', Hok].
  - split; [exact Hq | intros [=]].
Qed.

Lemma Good_wrapErr {A} (wrap : error -> error) (m : M A) : Good m -> Good (eff.wrapErr wrap m).
Proof.
  intros Hm w. unfold eff.wrapErr. destruct (Hm w) as [Hq Hc].
  destruct (eff.out (m w)) eqn:Hout; cbn [eff.out eff.trace go.is_ok].
  - split; [exact Hq | rewrite Hout; exact Hc].
  - split; [exact Hq | intros [=]].
Qed.

Lemma Good_onError {A} (m : M A) (handler : M unit) (wrap : error -> error) :
  Good m -> traceAll (fun ev => res ev = false) handler -> Good (eff.onError m handler wrap).
Proof.
  intros Hm Hh w. unfold eff.onError. destruct (Hm w) as [Hq Hc].
  destruct (eff.out (m w)) eqn:Hout; cbn [eff.out eff.trace go.is_ok].
  - split; [exact Hq | rewrite Hout; exact Hc].
  - split; [|intros [=]]. apply quiet_app_silent; [exact Hq | apply Hh].
Qed.

Lemma Good_forRange {A} (body : nat -> A -> M unit) (l : list A) :
  (forall i x, Good (body i x)) -> forall i, Good (eff.forRange body i l).
Proof.
  intros Hbody. induction l as [|x l IH]; intros i; cbn [eff.forRange].
  - apply Good_silent, traceAll_ret.
  - apply Good_bind; [apply Hbody | intros _; apply IH].
Qed.

Lemma Good_foldRange {A B} (body : nat -> B -> A -> M B) (l : list A) :
  (forall i acc x, Good (body i acc x)) -> forall i acc, Good (eff.foldRange body i acc l).
Proof.
  intros Hbody. induction l as [|x l IH]; intros i acc; cbn [eff.foldRange].
  - apply Good_silent, traceAll_ret.
  - apply Good_bind; [apply Hbody | intros acc'; apply IH].
Qed.

End Quiet.

End Facts.

(** Decompose a [traceAll] goal along the combinators. *)
Ltac trace_all :=
repeat
  (intros;
   match goal with
   | |- eff.traceAll _ (eff.bind _ _) => apply traceAll_bind
   | |- eff.traceAll _ (eff.wrapErr _ _) => apply traceAll_wrapErr
   | |- eff.traceAll _ (eff.attempt _) => apply traceAll_attempt
   | |- eff.traceAll _ (eff.onError _ _ _) => apply traceAll_onError
   | |- eff.traceAll _ (eff.forRange _ _ _) => apply traceAll_forRange
   | |- eff.traceAll _ (eff.foldRange _ _ _ _) => apply traceAll_foldRange
   | |- eff.traceAll _ (helpers.Retry _ _ _ _ _ _) => apply traceAll_Retry
   | |- eff.traceAll _ (eff.ret _) => apply traceAll_ret
   | |- eff.traceAll _ (eff.fail _) => apply traceAll_fail
   | |- eff.traceAll _ (eff.read _) => apply traceAll_read
   | |- eff.traceAll _ (eff.lift _) => apply traceAll_lift
   | |- eff.traceAll _ (eff.emit _) => apply traceAll_emit
   | |- eff.traceAll _ (eff.update _ _) => apply traceAll_update
   | |- eff.traceAll _ (eff.call _ _) => apply traceAll_call
   | |- eff.traceAll _ (if ?b then _ else _) => destruct b
   | |- eff.traceAll _ (match ?x with _ => _ end) => destruct x
   end).

(** The same, remembering which way each test went. *)
Ltac trace_cases :=
repeat
  (intros;
   match goal with
   | |- eff.traceAll _ (eff.bind _ _) => apply traceAll_bind
   | |- eff.traceAll _ (eff.wrapErr _ _) => apply traceAll_wrapErr
   | |- eff.traceAll _ (eff.attempt _) => apply traceAll_attempt
   | |- eff.traceAll _ (eff.onError _ _ _) => apply traceAll_onError
   | |- eff.traceAll _ (eff.forRange _ _ _) => apply traceAll_forRange
   | |- eff.traceAll _ (eff.foldRange _ _ _ _) => apply traceAll_foldRange
   | |- eff.traceAll _ (helpers.Retry _ _ _ _ _ _) => apply traceAll_Retry
   | |- eff.traceAll _ (eff.ret _) => apply traceAll_ret
   | |- eff.traceAll _ (eff.fail _) => apply traceAll_fail
   | |- eff.traceAll _ (eff.read _) => apply traceAll_read
   | |- eff.traceAll _ (eff.lift _) => apply traceAll_lift
   | |- eff.traceAll _ (eff.emit _) => apply traceAll_emit
   | |- eff.traceAll _ (eff.update _ _) => apply traceAll_update
   | |- eff.traceAll _ (eff.call _ _) => apply traceAll_call
   | |- eff.traceAll _ (if ?b then _ else _) => destruct b eqn:?
   | |- eff.traceAll _ (match ?x with _ => _ end) => destruct x eqn:?
   end).

(** Decompose a [Good] goal along the combinators; computations whose
    error is swallowed must be silent. *)
Ltac good_all Hbr :=
  repeat
    (intros;
     match goal with
     | |- eff.Good _ _ (eff.bind _ _) => apply Good_bind
     | |- eff.Good _ _ (eff.wrapErr _ _) => apply Good_wrapErr
     | |- eff.Good _ _ (eff.onError _ _ _) => apply (Good_onError _ _ Hbr)
     | |- eff.Good _ _ (eff.forRange _ _ _) => apply (Good_forRange _ _ Hbr)
     | |- eff.Good _ _ (eff.foldRange _ _ _ _) => apply (Good_foldRange _ _ Hbr)
     | |- eff.Good _ _ (eff.call _ _) => apply Good_call
     | |- eff.Good _ _ (eff.attempt _) => apply (Good_silent _ _ Hbr)
     | |- eff.Good _ _ (helpers.Retry _ _ _ _ _ _) => apply (Good_silent _ _ Hbr)
     | |- eff.Good _ _ (eff.ret _) => apply (Good_silent _ _ Hbr)
     | |- eff.Good _ _ (eff.fail _) => apply (Good_silent _ _ Hbr)
     | |- eff.Good _ _ (eff.read _) => apply (Good_silent _ _ Hbr)
     | |- eff.Good _ _ (eff.emit _) => apply (Good_silent _ _ Hbr)
     | |- eff.Good _ _ (eff.update _ _) => apply (Good_silent _ _ Hbr)
     | |- eff.Good _ _ (if ?b then _ else _) => destruct b
     | |- eff.Good _ _ (match ?x with _ => _ end) => destruct x
     end).

End eff_facts.

(** ** First-seen deduplication *)

Module unique_facts.
Section Unique.
Context {T : Type} `{EqDecision T}.
Implicit Types (s seen : list T) (x : T).

Lemma elem_of_uniqueFrom seen s x :
x ∈ helpers.uniqueFrom seen s <-> x ∈ s /\ x ∉ seen.
Proof.
revert seen. induction s as [|y s IH]; intros seen; cbn.
- rewrite elem_of_nil. tauto.
- case_bool_decide as Hy.
  + rewrite IH, elem_of_cons. split; [tauto|].
    intros [[->|Hin] Hnot]; [contradiction|tauto].
  + rewrite !elem_of_cons, IH, elem_of_cons.
    destruct (decide (x = y)) as [->|Hne]; tauto.
Qed.

Lemma NoDup_uniqueFrom seen s : NoDup (helpers.uniqueFrom seen s).
Proof.
revert seen. induction s as [|y s IH]; intros seen; cbn.
- constructor.
- case_bool_decide; [apply IH|].
  constructor; [|apply IH].
  rewrite elem_of_uniqueFrom, elem_of_cons. tauto.
Qed.

Lemma sublist_uniqueFrom seen s : sublist (helpers.uniqueFrom seen s) s.
Proof.
revert seen. induction s as [|y s IH]; intros seen; cbn.
- constructor.
- case_bool_decide; [apply sublist_cons, IH | apply sublist_skip, IH].
Qed.

Lemma uniqueFrom_snoc seen s x :
helpers.uniqueFrom seen (s ++ [x])
= helpers.uniqueFrom seen s ++ (if bool_decide (x ∈ seen ++ s) then [] else [x]).
Proof.
revert seen. induction s as [|y s IH]; intros seen; cbn.
- rewrite app_nil_r. case_bool_decide; reflexivity.
- case_bool_decide as Hy.
  + rewrite IH. f_equal. apply (f_equal (fun b : bool => if b then [] else [x])).
    apply bool_decide_ext. rewrite !elem_of_app, elem_of_cons.
    split; [tauto|]. intros [?|[->|?]]; tauto.
  + cbn. rewrite IH. do 2 f_equal.
    apply (f_equal (fun b : bool => if b then [] else [x])).
    apply bool_decide_ext. rewrite !elem_of_app, !elem_of_cons. tauto.
Qed.

(** The four facts that pin [Unique] down: no duplicates, the same
  elements, the order of the input, and an element joins at the end
  exactly when it has not been seen. *)
Lemma NoDup_Unique s : NoDup (helpers.Unique s).
Proof. apply NoDup_uniqueFrom. Qed.

Lemma elem_of_Unique s x : x ∈ helpers.Unique s <-> x ∈ s.
Proof. unfold helpers.Unique. rewrite elem_of_uniqueFrom, elem_of_nil. tauto. Qed.

Lemma sublist_Unique s : sublist (helpers.Unique s) s.
Proof. apply sublist_uniqueFrom. Qed.

Lemma Unique_snoc s x :
helpers.Unique (s ++ [x])
= if bool_decide (x ∈ s) then helpers.Unique s else helpers.Unique s ++ [x].
Proof.
unfold helpers.Unique. rewrite uniqueFrom_snoc. cbn.
case_bool_decide; [apply app_nil_r | reflexivity].
Qed.

(** First-seen order: what a prefix of the input yields is a prefix of
  what the whole input yields. *)
Lemma Unique_app_prefix s1 s2 : helpers.Unique s1 `prefix_of` helpers.Unique (s1 ++ s2).
Proof.
induction s2 as [|x s2 IH] using rev_ind.
- rewrite app_nil_r. reflexivity.
- rewrite app_assoc, Unique_snoc. case_bool_decide; [exact IH|].
  etransitivity; [exact IH|]. apply prefix_app_r. reflexivity.
Qed.

End Unique.
End unique_facts.

(** ** The BigBang extension *)

Module bigbang_spec.

Import types bigbang.

Lemma Atoi_syntax_zero (s : string) :
  snd (go.Atoi s) = Some go.ErrSyntax -> go.AtoiValue s = 0.
Proof.
  unfold go.AtoiValue, go.Atoi, go.ParseInt.
  destruct s as [|c0 rest]; [reflexivity|].
  destruct (_ <? _)%nat.
  - destruct (_ && _); [reflexivity|].
    destruct (go.atoiLoop _ 0); [discriminate | reflexivity].
  - destruct (go.ParseUint _) as [un [[]|]]; simpl; try reflexivity;
      repeat (destruct (_ && _); simpl; try discriminate).
Qed.

(** C9.  [isValidVersion] accepts a version exactly when it has three
    dot-separated parts, the first reads (with [strconv.Atoi], errors
    dropped) as an integer at least 1 and the second as an integer at
    least 52; a part on which [Atoi] reports a syntax error reads as 0.
    So "2.0.0", which is greater than 1.52.0, is refused, and [Run]
    returns the "must be at least 1.52.0" error for every refused
    version once its two directories exist. *)
Theorem isValidVersion_major_and_minor
    {World : Type} (X : @Collaborators World)
    (tmpPaths : ComponentPaths.t) (c : ZarfComponent.t) (w w1 w2 : World)
    (Hcharts : utils_CreateDirectory X (ComponentPaths.Charts tmpPaths) 448 w = (Ok tt, w1))
    (Hmanifests : utils_CreateDirectory X (ComponentPaths.Manifests tmpPaths) 448 w1 = (Ok tt, w2)) :
  (forall version : string,
      isValidVersion version = true <->
      exists p0 p1 p2,
        go.strings_Split version "." = [p0; p1; p2]
        /\ 1 <= go.AtoiValue p0 /\ 52 <= go.AtoiValue p1)
  /\ (forall part, snd (go.Atoi part) = Some go.ErrSyntax -> go.AtoiValue part = 0)
  /\ isValidVersion "2.0.0" = false
  /\ (isValidVersion (BigBang.Version (ZarfComponent.ExtBigBang c)) = false ->
      Run X tmpPaths c w =
        ((c, Some (go.New ("invalid version: "
                             +:+ BigBang.Version (ZarfComponent.ExtBigBang c)
                             +:+ ", must be at least 1.52.0"))), w2)).
Proof.
  repeat split.
  - unfold isValidVersion.
    destruct (go.strings_Split version ".") as [|p0 [|p1 [|p2 [|p3 l]]]];
      try discriminate.
    intros H. apply andb_true_iff in H as [H0 H1].
    exists p0, p1, p2. split; [reflexivity|]. split; lia.
  - intros (p0 & p1 & p2 & Hsplit & H0 & H1).
    unfold isValidVersion. rewrite Hsplit.
    apply andb_true_iff. split; lia.
  - apply Atoi_syntax_zero.
  - intros Hbad. unfold Run. rewrite Hcharts, Hmanifests, Hbad. reflexivity.
Qed.

Lemma isValidVersion_major_and_minor_witness :
  isValidVersion "1.52.0" = true
  /\ isValidVersion "2.0.0" = false
  /\ Run allSucceed samplePaths (sampleComponent "2.0.0") tt =
       ((sampleComponent "2.0.0",
         Some (go.New "invalid version: 2.0.0, must be at least 1.52.0")), tt).
Proof.
  destruct (isValidVersion_major_and_minor allSucceed samplePaths (sampleComponent "2.0.0")
              tt tt tt eq_refl eq_refl) as (Hiff & _ & H2 & Hrun).
  split; [|split].
  - apply Hiff. exists "1", "52", "0". repeat split; vm_compute; discriminate.
  - exact H2.
  - apply Hrun. reflexivity.
Defined.

(** *** What a successful [Run] returns *)

Section Success.
Context {World : Type} (X : @Collaborators World).

Lemma findImages_ok repos :
  forall c w c' w',
    findImages X repos c w = ((c', None), w') ->
    exists perRepo,
      Forall2 (fun r images =>
                 exists wa wb, helm_FindImagesForChartRepo X r "chart" wa = (Ok images, wb))
        repos perRepo
      /\ c' = ZarfComponent.setImages (ZarfComponent.Images c ++ concat perRepo) c.
Proof.
  induction repos as [|r repos IH]; intros c w c' w'; cbn [findImages].
  - intros [= <- <-]. exists []. split; [constructor|].
    cbn [concat]. rewrite app_nil_r. destruct c. reflexivity.
  - destruct (helm_FindImagesForChartRepo X r "chart" w) as [[images|e] w1] eqn:Hfind;
      [|discriminate].
    intros H. apply IH in H as (perRepo & Hall & ->). exists (images :: perRepo).
    split; [constructor; [exists w, w1; exact Hfind | exact Hall]|].
    cbn. rewrite <- app_assoc. reflexivity.
Qed.

End Success.

(** X12.  When [Run] returns without error, the version was accepted and
    both directories were created.  The component it returns is the one
    it was given with four fields changed.  Its BigBang configuration
    has the default repository written in when none was given.  Its
    manifests are followed by the manifest that [getFlux] returned,
    unless flux is skipped, and by the manifest that
    [addBigBangManifests] returned.  Its repositories are followed by
    the BigBang repository at the configured version and by what
    [findURLs] makes of the template that [TemplateChart] returned.  Its
    images are followed by the images of flux and by the images found
    for each of these repositories in turn, with duplicates removed; so
    the list has no duplicates and still holds every image the
    component had. *)
Theorem Run_success
    {World : Type} (X : @Collaborators World)
    (tmpPaths : ComponentPaths.t) (c c' : ZarfComponent.t) (w w' : World)
    (Hrun : Run X tmpPaths c w = ((c', None), w')) :
  let given := ZarfComponent.ExtBigBang c in
  let repo := if String.eqb (BigBang.Repo given) "" then bbRepo else BigBang.Repo given in
  let cfg := BigBang.mk (BigBang.Version given) repo (BigBang.ValuesFiles given)
               (BigBang.SkipFlux given) in
  let chart := ZarfChart.mk bb (BigBang.Version given) repo "./chart" bb
                 (BigBang.ValuesFiles given) in
  let chartPath := path_Join X (ComponentPaths.Base tmpPaths) bb in
  isValidVersion (BigBang.Version given) = true
  /\ NoDup (ZarfComponent.Images c')
  /\ (forall image, image ∈ ZarfComponent.Images c -> image ∈ ZarfComponent.Images c')
  /\ exists w1 w2 fluxManifests fluxImages w3 template w5 perRepo w7 manifest,
       utils_CreateDirectory X (ComponentPaths.Charts tmpPaths) 448 w = (Ok tt, w1)
       /\ utils_CreateDirectory X (ComponentPaths.Manifests tmpPaths) 448 w1 = (Ok tt, w2)
       /\ (if BigBang.SkipFlux given
           then fluxManifests = [] /\ fluxImages = [] /\ w3 = w2
           else exists fluxManifest,
                  getFlux X cfg w2 = (Ok (fluxManifest, fluxImages), w3)
                  /\ fluxManifests = [fluxManifest])
       /\ helm_TemplateChart X chart (ComponentPaths.Charts tmpPaths)
            (helm_DownloadChartFromGit X chart (ComponentPaths.Charts tmpPaths) chartPath w3)
          = (Ok template, w5)
       /\ let repos := ZarfComponent.Repos c
                       ++ (repo +:+ "@" +:+ BigBang.Version given) :: findURLs X template in
          let before :=
            ZarfComponent.mk (ZarfComponent.Name c) (ZarfComponent.Import c)
              (ZarfComponent.Files c) (ZarfComponent.Charts c)
              (ZarfComponent.Manifests c ++ fluxManifests)
              (ZarfComponent.Images c ++ fluxImages) repos
              (ZarfComponent.DataInjections c) (ZarfComponent.OnCreate c)
              cfg (ZarfComponent.DeprecatedCosignKeyPath c) in
          Forall2 (fun r images =>
                     exists wa wb,
                       helm_FindImagesForChartRepo X r "chart" wa = (Ok images, wb))
            repos perRepo
          /\ findImages X repos before (os_RemoveAll X chartPath w5)
             = ((ZarfComponent.setImages
                   (ZarfComponent.Images before ++ concat perRepo) before, None), w7)
          /\ addBigBangManifests X (ComponentPaths.Manifests tmpPaths) cfg w7
             = (Ok manifest, w')
          /\ c' = ZarfComponent.mk (ZarfComponent.Name c) (ZarfComponent.Import c)
                    (ZarfComponent.Files c) (ZarfComponent.Charts c)
                    (ZarfComponent.Manifests c ++ fluxManifests ++ [manifest])
                    (helpers.Unique
                       (ZarfComponent.Images c ++ fluxImages ++ concat perRepo))
                    repos
                    (ZarfComponent.DataInjections c) (ZarfComponent.OnCreate c)
                    cfg (ZarfComponent.DeprecatedCosignKeyPath c).
Proof.
  intros given repo cfg chart chartPath. revert Hrun. unfold Run.
  destruct (utils_CreateDirectory X _ 448 w) as [[[]|e] w1] eqn:Hcharts; [|discriminate].
  destruct (utils_CreateDirectory X _ 448 w1) as [[[]|e] w2] eqn:Hmanifests; [|discriminate].
  fold given.
  destruct (isValidVersion (BigBang.Version given)) eqn:Hvalid; cbn [negb]; [|discriminate].
  assert (Hcfg : (if String.eqb (BigBang.Repo given) ""
                  then BigBang.setRepo bbRepo given else given) = cfg).
  { unfold cfg, repo. destruct (String.eqb (BigBang.Repo given) ""); [reflexivity|].
    destruct given; reflexivity. }
  rewrite Hcfg. cbv zeta.
  change (BigBang.SkipFlux cfg) with (BigBang.SkipFlux given).
  change (BigBang.Version cfg) with (BigBang.Version given).
  change (BigBang.Repo cfg) with repo.
  change (BigBang.ValuesFiles cfg) with (BigBang.ValuesFiles given).
  fold chart. fold chartPath.
  assert (Hflux : exists fluxManifests fluxImages w3 r,
             (if negb (BigBang.SkipFlux given) then
                match getFlux X cfg w2 with
                | (Err e, w3) => ((ZarfComponent.setExtBigBang cfg c, Some e), w3)
                | (Ok (fluxManifest, images), w3) =>
                    ((ZarfComponent.setImages
                        (ZarfComponent.Images
                           (ZarfComponent.setManifests
                              (ZarfComponent.Manifests (ZarfComponent.setExtBigBang cfg c)
                               ++ [fluxManifest]) (ZarfComponent.setExtBigBang cfg c))
                         ++ images)
                        (ZarfComponent.setManifests
                           (ZarfComponent.Manifests (ZarfComponent.setExtBigBang cfg c)
                            ++ [fluxManifest]) (ZarfComponent.setExtBigBang cfg c)), None), w3)
                end
              else ((ZarfComponent.setExtBigBang cfg c, None), w2))
             = ((ZarfComponent.mk (ZarfComponent.Name c) (ZarfComponent.Import c)
                   (ZarfComponent.Files c) (ZarfComponent.Charts c)
                   (ZarfComponent.Manifests c ++ fluxManifests)
                   (ZarfComponent.Images c ++ fluxImages) (ZarfComponent.Repos c)
                   (ZarfComponent.DataInjections c) (ZarfComponent.OnCreate c)
                   cfg (ZarfComponent.DeprecatedCosignKeyPath c), r), w3)
             /\ (r = None ->
                 if BigBang.SkipFlux given
                 then fluxManifests = [] /\ fluxImages = [] /\ w3 = w2
                 else exists fluxManifest,
                        getFlux X cfg w2 = (Ok (fluxManifest, fluxImages), w3)
                        /\ fluxManifests = [fluxManifest])).
  { destruct (BigBang.SkipFlux given) eqn:Hskip; cbn [negb].
    - exists [], [], w2, None. split; [|intros _; repeat split].
      rewrite !app_nil_r. reflexivity.
    - destruct (getFlux X cfg w2) as [[[fluxManifest images]|e] w3].
      + exists [fluxManifest], images, w3, None. split; [reflexivity|].
        intros _. exists fluxManifest. split; reflexivity.
      + exists [], [], w3, (Some e). split; [|discriminate].
        rewrite !app_nil_r. reflexivity. }
  destruct Hflux as (fluxManifests & fluxImages & w3 & r & Hflux & Hr).
  rewrite Hflux. clear Hflux.
  destruct r as [e|]; [discriminate|]. specialize (Hr eq_refl).
  destruct (helm_TemplateChart X chart _ _) as [[template|e] w5] eqn:Htemplate; [|discriminate].
  cbn [ZarfComponent.Repos ZarfComponent.setRepos].
  rewrite <- app_assoc. cbn [app].
  match goal with
  | |- context [findImages X ?repos ?c2 ?w6] =>
      destruct (findImages X repos c2 w6) as [[c3 [e|]] w7] eqn:Himages; [discriminate|]
  end.
  destruct (findImages_ok X _ _ _ _ _ Himages) as (perRepo & Hfound & Hc3). subst c3.
  destruct (addBigBangManifests X _ cfg w7) as [[manifest|e] w8] eqn:Hadd; [|discriminate].
  intros [= <- <-].
  cbn [ZarfComponent.Images ZarfComponent.Repos ZarfComponent.Manifests
       ZarfComponent.setImages ZarfComponent.setRepos ZarfComponent.setManifests
       ZarfComponent.ExtBigBang ZarfComponent.Name ZarfComponent.Import ZarfComponent.Files
       ZarfComponent.Charts ZarfComponent.DataInjections ZarfComponent.OnCreate
       ZarfComponent.DeprecatedCosignKeyPath] in *.
  split; [reflexivity|].
  split; [apply unique_facts.NoDup_Unique|].
  split.
  { intros image Hin. apply unique_facts.elem_of_Unique.
    rewrite !elem_of_app. auto. }
  exists w1, w2, fluxManifests, fluxImages, w3, template, w5, perRepo, w7, manifest.
  split; [reflexivity|]. split; [exact Hmanifests|]. split; [exact Hr|].
  split; [exact Htemplate|]. cbv zeta.
  split; [exact Hfound|]. split; [exact Himages|]. split; [exact Hadd|].
  rewrite <- !app_assoc. reflexivity.
Qed.

Lemma Run_success_witness :
  let c' := fst (fst (Run allSucceed samplePaths (sampleComponent "1.52.0") tt)) in
  NoDup (ZarfComponent.Images c')
  /\ ZarfComponent.Repos c' = ["https://repo1.dso.mil/big-bang/bigbang.git@1.52.0"]
  /\ length (ZarfComponent.Manifests c') = 2%nat.
Proof.
  intros c'.
  destruct (Run_success allSucceed samplePaths (sampleComponent "1.52.0") c' tt tt eq_refl)
    as (_ & Hnodup & _ & w1 & w2 & fluxManifests & fluxImages & w3 & template & w5 & perRepo
        & w7 & manifest & _ & _ & Hflux & _ & _ & _ & _ & Hc').
  cbn in Hflux. destruct Hflux as (fluxManifest & _ & ->).
  split; [exact Hnodup|]. rewrite Hc'. split; reflexivity.
Defined.

(** *** The repositories referenced by the template *)

Section URLs.
Context {World Doc : Type} (Y : impl.Collaborators World Doc).

(** What one resource of the template contributes. *)
Lemma findURLsIn_ok yamls :
  forall acc urls,
    impl.findURLsIn Y yamls acc = Ok urls ->
    exists found,
      urls = acc ++ found
      /\ (length found <= length yamls)%nat
      /\ (forall y s reference,
            y ∈ yamls -> impl.yaml_Unmarshal Y y = Ok s ->
            impl.Kind s = "GitRepository" -> impl.URL s <> "" ->
            impl.Reference s = Some reference ->
            (impl.URL s +:+ "@" +:+ impl.refOf reference) ∈ found)
      /\ (forall url,
            url ∈ found ->
            exists y s reference,
              y ∈ yamls /\ impl.yaml_Unmarshal Y y = Ok s
              /\ impl.Kind s = "GitRepository" /\ impl.URL s <> ""
              /\ impl.Reference s = Some reference
              /\ url = impl.URL s +:+ "@" +:+ impl.refOf reference).
Proof.
  induction yamls as [|y yamls IH]; intros acc urls; cbn [impl.findURLsIn].
  - intros [= <-]. exists []. rewrite app_nil_r.
    split; [reflexivity|]. split; [reflexivity|].
    split; [intros ? ? ? Hin; inversion Hin | intros ? Hin; inversion Hin].
  - destruct (impl.yaml_Unmarshal Y y) as [s|e] eqn:Hparse.
    + destruct (String.eqb_spec (impl.Kind s) "GitRepository") as [Hkind|Hkind];
        destruct (String.eqb_spec (impl.URL s) "") as [Hurl|Hurl]; cbn [andb negb].
      2:{ destruct (impl.Reference s) as [reference|] eqn:Href; [|discriminate].
          intros H. apply IH in H as (found & -> & Hlen & Hall & Honly).
          exists ((impl.URL s +:+ "@" +:+ impl.refOf reference) :: found).
          split; [rewrite <- app_assoc; reflexivity|]. split; [cbn; lia|]. split.
          - intros y' s' reference' Hin Hparse' Hkind' Hurl' Href'.
            apply elem_of_cons in Hin as [->|Hin].
            + rewrite Hparse in Hparse'. injection Hparse' as <-.
              rewrite Href in Href'. injection Href' as <-. left.
            + right. eapply Hall; eassumption.
          - intros url Hin. apply elem_of_cons in Hin as [->|Hin].
            + exists y, s, reference. split; [left|]. auto.
            + destruct (Honly url Hin) as (y' & s' & r' & Hy' & Hrest).
              exists y', s', r'. split; [right; exact Hy' | exact Hrest]. }
      all: intros H; apply IH in H as (found & -> & Hlen & Hall & Honly);
        exists found; split; [reflexivity|]; split; [cbn; lia|]; split;
        [ intros y' s' reference' Hin Hparse' Hkind' Hurl' Href';
          apply elem_of_cons in Hin as [->|Hin];
          [ rewrite Hparse in Hparse'; injection Hparse' as <-; contradiction
          | eapply Hall; eassumption ]
        | intros url Hin; destruct (Honly url Hin) as (y' & s' & r' & Hy' & Hrest);
          exists y', s', r'; split; [right; exact Hy' | exact Hrest] ].
    + intros H. apply IH in H as (found & -> & Hlen & Hall & Honly).
      exists found. split; [reflexivity|]. split; [cbn; lia|]. split.
      * intros y' s' reference' Hin Hparse' Hkind' Hurl' Href'.
        apply elem_of_cons in Hin as [->|Hin]; [congruence|].
        eapply Hall; eassumption.
      * intros url Hin. destruct (Honly url Hin) as (y' & s' & r' & Hy' & Hrest).
        exists y', s', r'. split; [right; exact Hy' | exact Hrest].
Qed.

(** The entries in the order of the resources, one for each resource
    that contributes. *)
Lemma findURLsIn_exact yamls :
  forall acc urls,
    impl.findURLsIn Y yamls acc = Ok urls ->
    urls
    = acc ++ omap (fun y =>
                     match impl.yaml_Unmarshal Y y with
                     | Ok s =>
                         if String.eqb (impl.Kind s) "GitRepository"
                            && negb (String.eqb (impl.URL s) "")
                         then option_map
                                (fun reference =>
                                   impl.URL s +:+ "@" +:+ impl.refOf reference)
                                (impl.Reference s)
                         else None
                     | Err _ => None
                     end) yamls.
Proof.
  induction yamls as [|y yamls IH]; intros acc urls; cbn [impl.findURLsIn].
  - intros [= <-]. rewrite app_nil_r. reflexivity.
  - match goal with
    | |- context [omap ?f (y :: yamls)] =>
        change (omap f (y :: yamls))
          with (match f y with Some url => url :: omap f yamls | None => omap f yamls end)
    end.
    cbv beta.
    destruct (impl.yaml_Unmarshal Y y) as [s|e].
    + destruct (String.eqb (impl.Kind s) "GitRepository" && negb (String.eqb (impl.URL s) "")).
      * destruct (impl.Reference s) as [reference|]; [|discriminate].
        intros H. apply IH in H. rewrite H, <- app_assoc. reflexivity.
      * apply IH.
    + apply IH.
Qed.

Lemma findURLsIn_err yamls :
  forall acc e,
    impl.findURLsIn Y yamls acc = Err e ->
    e = impl.nilDereference
    /\ exists y s,
         y ∈ yamls /\ impl.yaml_Unmarshal Y y = Ok s
         /\ impl.Kind s = "GitRepository" /\ impl.URL s <> ""
         /\ impl.Reference s = None.
Proof.
  induction yamls as [|y yamls IH]; intros acc e; cbn [impl.findURLsIn]; [discriminate|].
  assert (Hrest : forall acc',
             impl.findURLsIn Y yamls acc' = Err e ->
             e = impl.nilDereference
             /\ exists y0 s,
                  y0 ∈ y :: yamls /\ impl.yaml_Unmarshal Y y0 = Ok s
                  /\ impl.Kind s = "GitRepository" /\ impl.URL s <> ""
                  /\ impl.Reference s = None).
  { intros acc' H. apply IH in H as (-> & y0 & s & Hin & Hrest).
    split; [reflexivity|]. exists y0, s. split; [right; exact Hin | exact Hrest]. }
  destruct (impl.yaml_Unmarshal Y y) as [s|e'] eqn:Hparse; [|apply Hrest].
  destruct (String.eqb_spec (impl.Kind s) "GitRepository") as [Hkind|Hkind];
    destruct (String.eqb_spec (impl.URL s) "") as [Hurl|Hurl]; cbn [andb negb];
    try apply Hrest.
  destruct (impl.Reference s) as [reference|] eqn:Href; [apply Hrest|].
  intros [= <-]. split; [reflexivity|].
  exists y, s. split; [left|]. auto.
Qed.

Lemma refOf_priority (reference : impl.GitRepositoryRef) :
  (impl.Commit reference <> "" -> impl.refOf reference = impl.Commit reference)
  /\ (impl.Commit reference = "" -> impl.SemVer reference <> "" ->
      impl.refOf reference = impl.SemVer reference)
  /\ (impl.Commit reference = "" -> impl.SemVer reference = "" ->
      impl.Tag reference <> "" -> impl.refOf reference = impl.Tag reference)
  /\ (impl.Commit reference = "" -> impl.SemVer reference = "" ->
      impl.Tag reference = "" -> impl.Branch reference <> "" ->
      impl.refOf reference = impl.Branch reference)
  /\ (impl.Commit reference = "" -> impl.SemVer reference = "" ->
      impl.Tag reference = "" -> impl.Branch reference = "" ->
      impl.refOf reference = "master").
Proof.
  unfold impl.refOf.
  destruct (String.eqb_spec (impl.Commit reference) "");
    destruct (String.eqb_spec (impl.SemVer reference) "");
    destruct (String.eqb_spec (impl.Tag reference) "");
    destruct (String.eqb_spec (impl.Branch reference) "");
    cbn [negb]; repeat split; intros; congruence.
Qed.

End URLs.

(** X13.  The list that [findURLs] returns is made of the resources of
    the template in their order: each resource that parses as a
    GitRepository with a URL gives one entry url@ref, a resource as
    often as it occurs, and every other resource (one that does not
    parse included) gives none.  The ref is the commit when one is set,
    else the semver range, else the tag, else the branch, and "master"
    when none of the four is set.  The only way for [findURLs] to stop
    is a GitRepository with a URL and no ref at all, on which the nil
    reference is dereferenced. *)
Theorem findURLs_entries
    {World Doc : Type} (Y : impl.Collaborators World Doc) (t : string) :
  let yamls := impl.utils_SplitYAMLToString Y t in
  let entry := fun y =>
    match impl.yaml_Unmarshal Y y with
    | Ok s =>
        if String.eqb (impl.Kind s) "GitRepository" && negb (String.eqb (impl.URL s) "")
        then option_map (fun reference => impl.URL s +:+ "@" +:+ impl.refOf reference)
               (impl.Reference s)
        else None
    | Err _ => None
    end in
  (forall urls,
      impl.findURLs Y t = Ok urls ->
      urls = omap entry yamls
      /\ (forall y s reference,
            y ∈ yamls -> impl.yaml_Unmarshal Y y = Ok s ->
            impl.Kind s = "GitRepository" -> impl.URL s <> "" ->
            impl.Reference s = Some reference ->
            (impl.URL s +:+ "@" +:+ impl.refOf reference) ∈ urls)
      /\ (forall url,
            url ∈ urls ->
            exists y s reference,
              y ∈ yamls /\ impl.yaml_Unmarshal Y y = Ok s
              /\ impl.Kind s = "GitRepository" /\ impl.URL s <> ""
              /\ impl.Reference s = Some reference
              /\ url = impl.URL s +:+ "@" +:+ impl.refOf reference))
  /\ (forall e,
        impl.findURLs Y t = Err e ->
        e = impl.nilDereference
        /\ exists y s,
             y ∈ yamls /\ impl.yaml_Unmarshal Y y = Ok s
             /\ impl.Kind s = "GitRepository" /\ impl.URL s <> ""
             /\ impl.Reference s = None)
  /\ (forall reference,
        (impl.Commit reference <> "" -> impl.refOf reference = impl.Commit reference)
        /\ (impl.Commit reference = "" -> impl.SemVer reference <> "" ->
            impl.refOf reference = impl.SemVer reference)
        /\ (impl.Commit reference = "" -> impl.SemVer reference = "" ->
            impl.Tag reference <> "" -> impl.refOf reference = impl.Tag reference)
        /\ (impl.Commit reference = "" -> impl.SemVer reference = "" ->
            impl.Tag reference = "" -> impl.Branch reference <> "" ->
            impl.refOf reference = impl.Branch reference)
        /\ (impl.Commit reference = "" -> impl.SemVer reference = "" ->
            impl.Tag reference = "" -> impl.Branch reference = "" ->
            impl.refOf reference = "master")).
Proof.
  intros yamls entry. split; [|split].
  - intros urls H. unfold impl.findURLs in H. fold yamls in H.
    split; [exact (findURLsIn_exact Y yamls [] urls H)|].
    apply findURLsIn_ok in H as (found & -> & Hlen & Hall & Honly).
    cbn [app]. auto.
  - intros e H. unfold impl.findURLs in H. fold yamls in H.
    exact (findURLsIn_err Y yamls [] e H).
  - apply refOf_priority.
Qed.

Lemma findURLs_entries_witness :
  "https://git.example/a.git@abc123"
  ∈ ["https://git.example/a.git@abc123"; "https://git.example/b.git@master";
     "https://git.example/a.git@abc123"].
Proof.
  destruct (findURLs_entries impl.sampleHelpers
              "GitRepository https://git.example/a.git abc123 v1;not yaml;HelmRelease x  ;GitRepository https://git.example/b.git  ;GitRepository https://git.example/a.git abc123 v1")
    as [Hok _].
  destruct (Hok ["https://git.example/a.git@abc123"; "https://git.example/b.git@master";
                 "https://git.example/a.git@abc123"]
              eq_refl) as (_ & Hall & _).
  apply (Hall "GitRepository https://git.example/a.git abc123 v1"
              (impl.mkGitRepository "GitRepository" "https://git.example/a.git"
                 (Some (impl.mkRef "" "v1" "" "abc123")))
              (impl.mkRef "" "v1" "" "abc123")).
  - vm_compute. left.
  - reflexivity.
  - reflexivity.
  - discriminate.
  - reflexivity.
Defined.

(** *** The manifests written for BigBang *)

Section Manifests.
Context {World Doc : Type} (Y : impl.Collaborators World Doc).

Local Abbreviation filesFollow := (@impl.filesFollow World _).
Local Abbreviation M := (@eff.M (ZarfManifest.t * World) impl.Event).

Lemma filesFollow_bind {A B} (m : M A) (k : A -> M B) :
  filesFollow m -> (forall a, filesFollow (k a)) -> filesFollow (eff.bind m k).
Proof.
  intros Hm Hk s. unfold eff.bind. destruct (Hm s) as (Hfiles & Hname & Hns).
  destruct (eff.out (m s)) as [a|e]; cbn [eff.world eff.trace]; [|auto].
  destruct (Hk a (eff.world (m s))) as (Hfiles' & Hname' & Hns').
  rewrite Hfiles', Hfiles, Hname', Hname, Hns', Hns, omap_app, app_assoc. auto.
Qed.

Lemma filesFollow_ret {A} (a : A) : filesFollow (eff.ret a).
Proof. intros s. cbn. rewrite app_nil_r. auto. Qed.

Lemma filesFollow_fail {A} (e : error) :
  filesFollow (@eff.fail (ZarfManifest.t * World) impl.Event A e).
Proof. intros s. cbn. rewrite app_nil_r. auto. Qed.

Lemma addManifest_eq manifestDir name data (s : ZarfManifest.t * World) :
  let path := impl.path_Join Y manifestDir name in
  match impl.yaml_Marshal Y data with
  | Err e => impl.addManifest Y manifestDir name data s = eff.Outcome (Err e) s []
  | Ok out =>
      match impl.utils_WriteFile Y path out (snd s) with
      | (Ok _, w) =>
          impl.addManifest Y manifestDir name data s
          = eff.Outcome (Ok tt)
              (ZarfManifest.mk (ZarfManifest.Name (fst s)) (ZarfManifest.Namespace (fst s))
                 (ZarfManifest.Files (fst s) ++ [path])
                 (ZarfManifest.KustomizeAllowAnyDirectory (fst s))
                 (ZarfManifest.Kustomizations (fst s)), w)
              [impl.EvWriteFile path out true]
      | (Err e, w) =>
          impl.addManifest Y manifestDir name data s
          = eff.Outcome (Err e) (fst s, w) [impl.EvWriteFile path out false]
      end
  end.
Proof.
  intros path. unfold impl.addManifest. fold path.
  destruct (impl.yaml_Marshal Y data) as [out|e]; [|reflexivity].
  unfold eff.bind, eff.call, impl.appendFile.
  destruct (impl.utils_WriteFile Y path out (snd s)) as [[[]|e] w]; reflexivity.
Qed.

Lemma filesFollow_addManifest manifestDir name data :
  filesFollow (impl.addManifest Y manifestDir name data).
Proof.
  intros s. pose proof (addManifest_eq manifestDir name data s) as H. cbv zeta in H.
  destruct (impl.yaml_Marshal Y data) as [out|e].
  - destruct (impl.utils_WriteFile Y _ out (snd s)) as [[[]|e] w]; rewrite H; cbn;
      rewrite ?app_nil_r; auto.
  - rewrite H. cbn. rewrite app_nil_r. auto.
Qed.

Lemma filesFollow_values path :
  filesFollow
    (eff.call (impl.EvValuesFile path)
       (fun s : ZarfManifest.t * World =>
          let '(r, w) := impl.manifestValuesFile Y path (snd s) in (r, (fst s, w)))).
Proof.
  intros s. unfold eff.call.
  destruct (impl.manifestValuesFile Y path (snd s)) as [r w]. cbn.
  rewrite app_nil_r. auto.
Qed.

Lemma filesFollow_loop manifestDir valuesFiles :
  forall i hrValues,
    filesFollow
      (eff.foldRange
         (fun (_ : nat) hrValues path =>
            let* data :=
              eff.call (impl.EvValuesFile path)
                (fun s : ZarfManifest.t * World =>
                   let '(r, w) := impl.manifestValuesFile Y path (snd s) in (r, (fst s, w))) in
            let path := impl.secret_Name Y data +:+ ".yaml" in
            run impl.addManifest Y manifestDir path data in
            eff.ret (hrValues ++ [impl.mkValuesReference "Secret" (impl.secret_Name Y data)]))
         i hrValues valuesFiles).
Proof.
  induction valuesFiles as [|path valuesFiles IH]; intros i hrValues; cbn [eff.foldRange].
  - apply filesFollow_ret.
  - apply filesFollow_bind; [|intros; apply IH].
    apply filesFollow_bind; [apply filesFollow_values|]. intros data. cbv zeta.
    apply filesFollow_bind; [apply filesFollow_addManifest|]. intros. apply filesFollow_ret.
Qed.

Lemma filesFollow_all manifestDir cfg :
  filesFollow (impl.addBigBangManifestsFrom Y manifestDir cfg).
Proof.
  unfold impl.addBigBangManifestsFrom, impl.addValuesManifests.
  apply filesFollow_bind; [apply filesFollow_addManifest|]. intros _.
  apply filesFollow_bind; [apply filesFollow_addManifest|]. intros _. cbv zeta.
  apply filesFollow_bind; [apply filesFollow_loop|]. intros hrValues.
  apply filesFollow_addManifest.
Qed.

(** A successful [addManifest]. *)
Lemma addManifest_ok manifestDir name data (s : ZarfManifest.t * World) :
  eff.out (impl.addManifest Y manifestDir name data s) = Ok tt ->
  exists out,
    impl.yaml_Marshal Y data = Ok out
    /\ eff.trace (impl.addManifest Y manifestDir name data s)
       = [impl.EvWriteFile (impl.path_Join Y manifestDir name) out true].
Proof.
  pose proof (addManifest_eq manifestDir name data s) as H. cbv zeta in H.
  destruct (impl.yaml_Marshal Y data) as [out|e].
  - destruct (impl.utils_WriteFile Y _ out (snd s)) as [[[]|e] w]; rewrite H; cbn;
      [eauto | discriminate].
  - rewrite H. discriminate.
Qed.

(** A call of [manifestValuesFile] that succeeds. *)
Lemma valuesFile_ok path (s : ZarfManifest.t * World) data :
  eff.out (eff.call (impl.EvValuesFile path)
             (fun s : ZarfManifest.t * World =>
                let '(r, w) := impl.manifestValuesFile Y path (snd s) in
                (r, (fst s, w))) s) = Ok data ->
  (exists w2, impl.manifestValuesFile Y path (snd s) = (Ok data, w2))
  /\ eff.trace (eff.call (impl.EvValuesFile path)
                  (fun s : ZarfManifest.t * World =>
                     let '(r, w) := impl.manifestValuesFile Y path (snd s) in
                     (r, (fst s, w))) s)
     = [impl.EvValuesFile path true].
Proof.
  unfold eff.call. destruct (impl.manifestValuesFile Y path (snd s)) as [[d|e] w2]; cbn;
    [|discriminate].
  intros [= <-]. split; [exists w2|]; reflexivity.
Qed.

(** A successful loop over the values files: for each file, in order,
    its secret is read, marshalled and written under its name. *)
Lemma values_loop_ok manifestDir valuesFiles :
  forall i hrValues (s : ZarfManifest.t * World) hrValues',
    eff.out (eff.foldRange
               (fun (_ : nat) hrValues path =>
                  let* data :=
                    eff.call (impl.EvValuesFile path)
                      (fun s : ZarfManifest.t * World =>
                         let '(r, w) := impl.manifestValuesFile Y path (snd s) in
                         (r, (fst s, w))) in
                  let path := impl.secret_Name Y data +:+ ".yaml" in
                  run impl.addManifest Y manifestDir path data in
                  eff.ret (hrValues
                           ++ [impl.mkValuesReference "Secret" (impl.secret_Name Y data)]))
               i hrValues valuesFiles s) = Ok hrValues' ->
    exists entries : list (string * Doc * string),
      map (fun e => fst (fst e)) entries = valuesFiles
      /\ Forall (fun e =>
                   (exists w1 w2,
                      impl.manifestValuesFile Y (fst (fst e)) w1 = (Ok (snd (fst e)), w2))
                   /\ impl.yaml_Marshal Y (snd (fst e)) = Ok (snd e)) entries
      /\ hrValues'
         = hrValues
           ++ map (impl.mkValuesReference "Secret")
                (map (fun e => impl.secret_Name Y (snd (fst e))) entries)
      /\ eff.trace (eff.foldRange
               (fun (_ : nat) hrValues path =>
                  let* data :=
                    eff.call (impl.EvValuesFile path)
                      (fun s : ZarfManifest.t * World =>
                         let '(r, w) := impl.manifestValuesFile Y path (snd s) in
                         (r, (fst s, w))) in
                  let path := impl.secret_Name Y data +:+ ".yaml" in
                  run impl.addManifest Y manifestDir path data in
                  eff.ret (hrValues
                           ++ [impl.mkValuesReference "Secret" (impl.secret_Name Y data)]))
               i hrValues valuesFiles s)
         = flat_map
             (fun e =>
                [impl.EvValuesFile (fst (fst e)) true;
                 impl.EvWriteFile
                   (impl.path_Join Y manifestDir
                      (impl.secret_Name Y (snd (fst e)) +:+ ".yaml"))
                   (snd e) true]) entries.
Proof.
  induction valuesFiles as [|path valuesFiles IH]; intros i hrValues s hrValues';
    cbn [eff.foldRange].
  - intros [= <-]. exists []. rewrite app_nil_r. repeat split. constructor.
  - intros H. apply eff_facts.bind_ok_split in H as (hr1 & Hhead & Htail & _ & ->).
    apply IH in Htail as (entries & Hpaths & Hall & -> & Htrace).
    cbv zeta in Htrace |- *. rewrite Htrace. clear Htrace.
    apply eff_facts.bind_ok_split in Hhead as (data & Hdata & Hhead & _ & ->).
    cbv zeta in Hhead.
    apply eff_facts.bind_ok_split in Hhead as ([] & Hadd & Hret & _ & ->).
    injection Hret as <-.
    apply addManifest_ok in Hadd as (out & Hmarshal & ->).
    apply valuesFile_ok in Hdata as ([w2 Hread] & ->).
    exists ((path, data, out) :: entries).
    split; [cbn; rewrite Hpaths; reflexivity|].
    split; [constructor; [split; [exists (snd s), w2; exact Hread | exact Hmarshal] | exact Hall]|].
    split; [cbn [map fst snd]; rewrite <- app_assoc; reflexivity|].
    cbn [flat_map fst snd eff.ret eff.trace app]. rewrite ?app_nil_r. reflexivity.
Qed.

(** The files written by the steps of the loop. *)
Lemma written_entries manifestDir (entries : list (string * Doc * string)) :
  omap impl.written
    (flat_map
       (fun e =>
          [impl.EvValuesFile (fst (fst e)) true;
           impl.EvWriteFile
             (impl.path_Join Y manifestDir (impl.secret_Name Y (snd (fst e)) +:+ ".yaml"))
             (snd e) true]) entries)
  = map (fun name => impl.path_Join Y manifestDir (name +:+ ".yaml"))
      (map (fun e => impl.secret_Name Y (snd (fst e))) entries).
Proof.
  induction entries as [|e entries IH]; [reflexivity|].
  cbn [flat_map map app]. rewrite <- IH. reflexivity.
Qed.

End Manifests.

(** X14.  The manifest that [addBigBangManifests] returns, with or
    without an error, is named bigbang in the namespace bigbang and
    lists exactly the files written so far, in the order they were
    written.  When there is no error, the run was: gitrepository.yaml
    written, zarf-credentials.yaml written, then for each values file
    of the configuration, in order, its secret read with
    [manifestValuesFile] and written to the file named after the secret,
    and last helmrepository.yaml written, all in the manifest directory.
    What is written is each document as [yaml.Marshal] gives it, and the
    last document is the HelmRelease whose values come from
    zarf-credentials first and then from these secrets in the order of
    the values files. *)
Theorem addBigBangManifests_files
    {World Doc : Type} (Y : impl.Collaborators World Doc)
    (manifestDir : string) (cfg : BigBang.t) (w : World) :
  let done := impl.addBigBangManifests Y manifestDir cfg w in
  let manifest := fst (eff.world done) in
  ZarfManifest.Name manifest = "bigbang"
  /\ ZarfManifest.Namespace manifest = "bigbang"
  /\ ZarfManifest.Files manifest = omap impl.written (eff.trace done)
  /\ (eff.out done = Ok tt ->
      exists (entries : list (string * Doc * string)) outGit outCredentials out,
        let names := map (fun e => impl.secret_Name Y (snd (fst e))) entries in
        map (fun e => fst (fst e)) entries = BigBang.ValuesFiles cfg
        /\ Forall (fun e =>
                     (exists w1 w2,
                        impl.manifestValuesFile Y (fst (fst e)) w1 = (Ok (snd (fst e)), w2))
                     /\ impl.yaml_Marshal Y (snd (fst e)) = Ok (snd e)) entries
        /\ impl.yaml_Marshal Y (impl.manifestGitRepo Y cfg) = Ok outGit
        /\ impl.yaml_Marshal Y (impl.manifestZarfCredentials Y) = Ok outCredentials
        /\ impl.yaml_Marshal Y (impl.manifestHelmRelease Y (impl.valuesFrom names)) = Ok out
        /\ eff.trace done
           = [impl.EvWriteFile (impl.path_Join Y manifestDir "gitrepository.yaml")
                outGit true;
              impl.EvWriteFile (impl.path_Join Y manifestDir "zarf-credentials.yaml")
                outCredentials true]
             ++ flat_map
                  (fun e =>
                     [impl.EvValuesFile (fst (fst e)) true;
                      impl.EvWriteFile
                        (impl.path_Join Y manifestDir
                           (impl.secret_Name Y (snd (fst e)) +:+ ".yaml"))
                        (snd e) true]) entries
             ++ [impl.EvWriteFile (impl.path_Join Y manifestDir "helmrepository.yaml")
                   out true]
        /\ ZarfManifest.Files manifest
           = map (impl.path_Join Y manifestDir) (impl.manifestNames names)).
Proof.
  intros done manifest.
  destruct (filesFollow_all Y manifestDir cfg (ZarfManifest.mk bb bb [] false [], w))
    as (Hfiles & Hname & Hns).
  fold (impl.addBigBangManifests Y manifestDir cfg w) in Hfiles, Hname, Hns.
  fold done in Hfiles, Hname, Hns. fold manifest in Hfiles, Hname, Hns.
  split; [exact Hname|]. split; [exact Hns|]. split; [exact Hfiles|].
  intros Hok. rewrite Hfiles. clear Hfiles Hname Hns. cbn [fst ZarfManifest.Files app].
  subst manifest done. revert Hok.
  unfold impl.addBigBangManifests, impl.addBigBangManifestsFrom, impl.addValuesManifests.
  intros Hok.
  apply eff_facts.bind_ok_split in Hok as ([] & Hgit & Hok & _ & ->).
  apply addManifest_ok in Hgit as (outGit & HmarshalGit & ->).
  apply eff_facts.bind_ok_split in Hok as ([] & Hcreds & Hok & _ & ->).
  apply addManifest_ok in Hcreds as (outCreds & HmarshalCreds & ->).
  cbv zeta in Hok |- *.
  apply eff_facts.bind_ok_split in Hok as (hrValues & Hloop & Hok & _ & ->).
  pose proof Hloop as Hnames.
  apply values_loop_ok in Hnames as (entries & Hpaths & Hall & -> & Htrace).
  cbv zeta in Htrace |- *. rewrite Htrace. clear Htrace.
  apply addManifest_ok in Hok as (out & Hmarshal & ->).
  exists entries, outGit, outCreds, out.
  split; [exact Hpaths|]. split; [exact Hall|]. split; [exact HmarshalGit|].
  split; [exact HmarshalCreds|]. split; [exact Hmarshal|].
  split; [reflexivity|].
  rewrite !omap_app, written_entries. unfold impl.manifestNames.
  rewrite !map_app, !map_map. reflexivity.
Qed.

Lemma addBigBangManifests_files_witness :
  ZarfManifest.Files
    (fst (eff.world (impl.addBigBangManifests impl.sampleHelpers "manifests"
                       (BigBang.mk "1.52.0" "" ["ingress"; "kyverno"] false) ∅)))
  = ["manifests/gitrepository.yaml"; "manifests/zarf-credentials.yaml";
     "manifests/ingress.yaml"; "manifests/kyverno.yaml"; "manifests/helmrepository.yaml"].
Proof.
  destruct (addBigBangManifests_files impl.sampleHelpers "manifests"
              (BigBang.mk "1.52.0" "" ["ingress"; "kyverno"] false) ∅)
    as (_ & _ & Hfiles & Hok).
  destruct (Hok eq_refl) as (entries & outGit & outCredentials & out & Hpaths & _).
  rewrite Hfiles. vm_compute. reflexivity.
Defined.

End bigbang_spec.

(** ** The [generate package] command *)

Module generate_spec.

Import types generate.

Section Cmd.
Context {World : Type} (X : @Collaborators World).

Lemma Run_existing (filePath name : string) (w : World) (loaded : ZarfPackage.t) (w1 : World) :
  os_Stat X (destOf filePath) w = None ->
  utils_ReadYaml X (destOf filePath) ZarfPackage.zero w = (Ok loaded, w1) ->
  let written := ZarfPackage.setMetadata
                   (ZarfMetadata.setName name (ZarfPackage.Metadata loaded)) loaded in
  let r := utils_WriteYaml X (destOf filePath) written 420 w1 in
  generatePackageCmd_Run X filePath [name] w =
    eff.Outcome (fst r) (snd r)
      [EvStat (destOf filePath) true; EvReadYaml (destOf filePath) true;
       EvWriteYaml (destOf filePath) written 420 (go.is_ok (fst r))].
Proof.
  intros Hstat Hread written r. subst r.
  unfold generatePackageCmd_Run, eff.bind, stat, eff.call, eff.ret, destOf in *.
  cbn. rewrite Hstat. cbn. rewrite Hread. cbn.
  fold written. destruct (utils_WriteYaml X _ written 420 w1) as [r w2].
  reflexivity.
Qed.

Lemma Run_fresh (filePath name : string) (w : World) (e : error) :
  os_Stat X (destOf filePath) w = Some (ErrNotExist e) ->
  let written := ZarfPackage.setKind "ZarfPackageConfig"
                   (ZarfPackage.setMetadata
                      (ZarfMetadata.setName name (ZarfPackage.Metadata ZarfPackage.zero))
                      ZarfPackage.zero) in
  let r := utils_WriteYaml X (destOf filePath) written 420 w in
  generatePackageCmd_Run X filePath [name] w =
    eff.Outcome (fst r) (snd r)
      [EvStat (destOf filePath) true;
       EvWriteYaml (destOf filePath) written 420 (go.is_ok (fst r))].
Proof.
  intros Hstat written r. subst r.
  unfold generatePackageCmd_Run, eff.bind, stat, eff.call, eff.ret, destOf in *.
  subst written. cbn. rewrite Hstat. cbn.
  destruct (utils_WriteYaml X _ _ 420 w) as [r w2].
  reflexivity.
Qed.

End Cmd.

(** C10.  When the destination exists and decodes to [loaded], the
    command makes exactly one write, to the destination, of a package
    that has the given name and agrees with [loaded] on the kind, on
    every other metadata field, and on the build data, components,
    variables and constants.  When the destination does not exist, the
    one write is of the zero package with only the name and the kind
    "ZarfPackageConfig" set. *)
Theorem generate_package_frame
    {World : Type} (X : @Collaborators World)
    (filePath name : string) (w : World) :
  let dest := if String.eqb filePath "" then "zarf.yaml" else filePath in
  (forall loaded w1,
      os_Stat X dest w = None ->
      utils_ReadYaml X dest ZarfPackage.zero w = (Ok loaded, w1) ->
      exists written ok,
        List.filter isWrite
               (eff.trace (generatePackageCmd_Run X filePath [name] w))
          = [EvWriteYaml dest written 420 ok]
        /\ utils_WriteYaml X dest written 420 w1
           = (eff.out (generatePackageCmd_Run X filePath [name] w),
              eff.world (generatePackageCmd_Run X filePath [name] w))
        /\ ZarfMetadata.Name (ZarfPackage.Metadata written) = name
        /\ ZarfPackage.Kind written = ZarfPackage.Kind loaded
        /\ ZarfMetadata.Description (ZarfPackage.Metadata written)
           = ZarfMetadata.Description (ZarfPackage.Metadata loaded)
        /\ ZarfMetadata.Version (ZarfPackage.Metadata written)
           = ZarfMetadata.Version (ZarfPackage.Metadata loaded)
        /\ ZarfMetadata.Architecture (ZarfPackage.Metadata written)
           = ZarfMetadata.Architecture (ZarfPackage.Metadata loaded)
        /\ ZarfMetadata.AggregateChecksum (ZarfPackage.Metadata written)
           = ZarfMetadata.AggregateChecksum (ZarfPackage.Metadata loaded)
        /\ ZarfPackage.Build written = ZarfPackage.Build loaded
        /\ ZarfPackage.Components written = ZarfPackage.Components loaded
        /\ ZarfPackage.Variables written = ZarfPackage.Variables loaded
        /\ ZarfPackage.Constants written = ZarfPackage.Constants loaded)
  /\ (forall e,
      os_Stat X dest w = Some (ErrNotExist e) ->
      exists ok,
        let written :=
          ZarfPackage.mk "ZarfPackageConfig" (ZarfMetadata.mk name "" "" "" "")
            (ZarfBuildData.mk "" false []) [] [] [] in
        List.filter isWrite
               (eff.trace (generatePackageCmd_Run X filePath [name] w))
          = [EvWriteYaml dest written 420 ok]
        /\ utils_WriteYaml X dest written 420 w
           = (eff.out (generatePackageCmd_Run X filePath [name] w),
              eff.world (generatePackageCmd_Run X filePath [name] w))).
Proof.
  intros dest. split.
  - intros loaded w1 Hstat Hread.
    pose proof (Run_existing X filePath name w loaded w1 Hstat Hread) as Hrun.
    cbv zeta in Hrun. fold dest in Hrun. unfold destOf in Hrun. fold dest in Hrun.
    eexists _, _. rewrite Hrun. cbn.
    split; [reflexivity|]. split; [apply surjective_pairing|].
    repeat split.
  - intros e Hstat.
    pose proof (Run_fresh X filePath name w e Hstat) as Hrun.
    cbv zeta in Hrun. unfold destOf in Hrun. fold dest in Hrun.
    eexists. rewrite Hrun. cbn.
    split; [reflexivity|]. apply surjective_pairing.
Qed.

Lemma generate_package_frame_witness :
  eff.world (generatePackageCmd_Run store "" ["new"] {["zarf.yaml" := samplePackage]})
    !! "zarf.yaml"
  = Some (ZarfPackage.mk "ZarfInitConfig"
            (ZarfMetadata.mk "new" "a package" "1.2.3" "amd64" "")
            (ZarfBuildData.mk "amd64" false [])
            [] [ZarfPackageVariable.mk "V" "1"] [ZarfPackageConstant.mk "C" "2"])
  /\ eff.world (generatePackageCmd_Run store "pkg.yaml" ["new"] ∅) !! "pkg.yaml"
     = Some (ZarfPackage.mk "ZarfPackageConfig" (ZarfMetadata.mk "new" "" "" "" "")
               (ZarfBuildData.mk "" false []) [] [] []).
Proof.
  split.
  - destruct (generate_package_frame store "" "new" {["zarf.yaml" := samplePackage]})
      as [Hex _].
    destruct (Hex samplePackage {["zarf.yaml" := samplePackage]} eq_refl eq_refl)
      as (written & ok & _ & Hw & _).
    reflexivity.
  - destruct (generate_package_frame store "pkg.yaml" "new" ∅) as [_ Hfresh].
    destruct (Hfresh (go.New "no such file") eq_refl) as (ok & _ & Hw).
    reflexivity.
Defined.

(** *** When the command stops *)

Section Failures.
Context {World : Type} (X : @Collaborators World).

(** Every write of the command is of a package with the given name, to
    the destination, with mode 0644; there is at most one. *)
Lemma Run_writes (filePath name : string) (w : World) :
  exists t,
    List.filter isWrite (eff.trace (generatePackageCmd_Run X filePath [name] w)) = t
    /\ (t = []
        \/ exists pkg ok,
             t = [EvWriteYaml (destOf filePath) pkg 420 ok]
             /\ ZarfMetadata.Name (ZarfPackage.Metadata pkg) = name).
Proof.
  eexists. split; [reflexivity|].
  unfold generatePackageCmd_Run, eff.bind, stat, eff.call, eff.ret, eff.fail.
  fold (destOf filePath). cbn.
  destruct (os_Stat X (destOf filePath) w) as [[e|e]|]; cbn.
  - destruct (utils_WriteYaml X _ _ 420 w) as [r w2]. cbn. right. eauto.
  - left. reflexivity.
  - destruct (utils_ReadYaml X _ _ w) as [[loaded|e] w1]; cbn.
    + destruct (utils_WriteYaml X _ _ 420 w1) as [r w2]. cbn. right. eauto.
    + left. reflexivity.
Qed.

End Failures.

(** X18.  The command never overwrites what it could not read.  When
    the destination exists but does not decode, the command stops with
    the decoding error after the stat and the read, and when the stat
    fails for another reason than a missing file it stops with "Unkown
    error when checking for specified zarf file: " and the error: in
    both cases nothing is written.  In every run there is at most one
    write, and it is to the destination, with mode 0644, of a package
    that carries the given name. *)
Theorem generate_package_never_clobbers
    {World : Type} (X : @Collaborators World)
    (filePath name : string) (w : World) :
  let dest := destOf filePath in
  let cmd := generatePackageCmd_Run X filePath [name] w in
  (forall e w1,
      os_Stat X dest w = None ->
      utils_ReadYaml X dest ZarfPackage.zero w = (Err e, w1) ->
      cmd = eff.Outcome (Err e) w1 [EvStat dest true; EvReadYaml dest false])
  /\ (forall e,
        os_Stat X dest w = Some (StatFailed e) ->
        cmd = eff.Outcome
                (Err (go.Wrap "Unkown error when checking for specified zarf file: " e))
                w [EvStat dest true])
  /\ (List.filter isWrite (eff.trace cmd) = []
      \/ exists pkg ok,
           List.filter isWrite (eff.trace cmd) = [EvWriteYaml dest pkg 420 ok]
           /\ ZarfMetadata.Name (ZarfPackage.Metadata pkg) = name).
Proof.
  intros dest cmd. subst dest cmd. split; [|split].
  - intros e w1 Hstat Hread.
    unfold generatePackageCmd_Run, eff.bind, stat, eff.call, eff.ret.
    fold (destOf filePath). cbn. rewrite Hstat. cbn. rewrite Hread. reflexivity.
  - intros e Hstat.
    unfold generatePackageCmd_Run, eff.bind, stat, eff.call, eff.ret, eff.fail.
    fold (destOf filePath). cbn. rewrite Hstat. reflexivity.
  - destruct (Run_writes X filePath name w) as (t & <- & Ht). exact Ht.
Qed.

Lemma generate_package_never_clobbers_witness :
  let broken : @Collaborators (gmap string ZarfPackage.t) :=
    {| os_Stat := os_Stat store;
       utils_ReadYaml := fun p _ w => (Err (go.New ("yaml: " +:+ p +:+ " cannot be decoded")), w);
       utils_WriteYaml := utils_WriteYaml store |} in
  eff.world (generatePackageCmd_Run broken "" ["new"] {["zarf.yaml" := samplePackage]})
  = {["zarf.yaml" := samplePackage]}.
Proof.
  intros broken.
  destruct (generate_package_never_clobbers broken "" "new" {["zarf.yaml" := samplePackage]})
    as (Hread & _).
  rewrite (Hread _ _ eq_refl eq_refl). reflexivity.
Defined.

End generate_spec.

(** ** The package creator *)

Module creator_spec.

Import types creator.

(** *** Loading a differential package definition *)

Section Load.
Context {Env : Type} (X : Collaborators Env).

Local Abbreviation stagesSucceed := (creator.stagesSucceed X).
Local Abbreviation differential_as_stated := (creator.differential_as_stated X).

Lemma Load_differential_branch s extendedPkg s1 diffData s2 :
  stagesSucceed s extendedPkg s1 ->
  differentialOf s1 = true ->
  loadDifferentialData X s1 = (Ok diffData, s2) ->
  eff.out (LoadPackageDefinition X s) =
    (if String.eqb (diffVersionOf s2) (versionOf s2) then
       Err (go.New (lang_PkgCreateErrDifferentialSameVersion X))
     else if String.eqb (diffVersionOf s2) "" || String.eqb (versionOf s2) "" then
       Err (go.New (lang_PkgCreateErrDifferentialNoVersion X))
     else
       match fst (removeCopiesFromDifferentialPackage X extendedPkg diffData s2) with
       | Ok diffPkg => Ok (diffPkg, [])
       | Err e => Err e
       end)
  /\ eff.world (LoadPackageDefinition X s) =
    (if String.eqb (diffVersionOf s2) (versionOf s2)
        || String.eqb (diffVersionOf s2) "" || String.eqb (versionOf s2) ""
     then s2
     else snd (removeCopiesFromDifferentialPackage X extendedPkg diffData s2)).
Proof.
  intros (configuredPkg & err & sa & composedPkg & cw & sb & filledPkg & tw & sc
          & Hmeta & Hcompose & Hfill & Hext) Hflag Hload.
  unfold differentialOf, diffVersionOf, versionOf in *.
  unfold LoadPackageDefinition.
  erewrite eff_facts.bind_eq_ok
    by (apply eff_facts.lift_eq; rewrite Hmeta; reflexivity).
  cbv beta iota.
  erewrite eff_facts.bind_eq_ok with (t := match err with Some e => _ | None => _ end)
    by (destruct err; reflexivity).
  erewrite eff_facts.bind_eq_ok by (apply eff_facts.lift_eq, Hcompose).
  cbv beta iota.
  erewrite eff_facts.bind_eq_ok
    by (apply eff_facts.wrapErr_eq_ok, eff_facts.lift_eq, Hfill).
  cbv beta iota.
  erewrite eff_facts.bind_eq_ok by (apply eff_facts.lift_eq, Hext).
  erewrite eff_facts.bind_eq_ok by reflexivity.
  rewrite Hflag.
  erewrite eff_facts.bind_eq_ok by (apply eff_facts.lift_eq, Hload).
  erewrite eff_facts.bind_eq_ok by reflexivity.
  erewrite eff_facts.bind_eq_ok by reflexivity.
  cbn [eff.after eff.out eff.world].
  destruct (String.eqb _ _); cbn [orb]; [split; reflexivity|].
  destruct (String.eqb _ ""); cbn [orb]; [split; reflexivity|].
  destruct (String.eqb _ ""); cbn [orb]; [split; reflexivity|].
  unfold eff.bind, eff.lift.
  destruct (removeCopiesFromDifferentialPackage X extendedPkg diffData s2) as [[diffPkg|e] s3];
    split; reflexivity.
Qed.

End Load.

(** C1, as stated, fails where both versions are empty: the versions
    are compared first, so the error is the same-version one. *)
Lemma differential_both_empty :
  ~ differential_as_stated sample (sampleConfig true "" "" [], mkWorld ∅ 0%nat).
Proof.
  intros H.
  destruct (H (PackagerConfig.Pkg (sampleConfig true "" "" []))
              (sampleConfig true "" "" [], mkWorld ∅ 0%nat)
              (DifferentialData.mk "old.tar.zst" "" ["a:1"] [])
              (sampleConfig true "" "" [], mkWorld ∅ 0%nat)) as [Hsame Hnone].
  - unfold stagesSucceed. cbn. repeat eexists.
  - reflexivity.
  - reflexivity.
  - specialize (Hsame eq_refl). specialize (Hnone (or_introl eq_refl)).
    rewrite Hsame in Hnone. discriminate.
Qed.

(** C1, amended.  With the differential flag set and the earlier stages
    and [loadDifferentialData] successful: equal versions (both empty
    included) give the same-version error; distinct versions of which
    one is empty give the no-version error; in both cases nothing more
    is done.  Two distinct non-empty versions reach
    [removeCopiesFromDifferentialPackage], whose result is returned. *)
Theorem LoadPackageDefinition_differential
    {Env : Type} (X : Collaborators Env)
    (s : PackagerConfig.t * World Env) (extendedPkg : ZarfPackage.t)
    (s1 : PackagerConfig.t * World Env) (diffData : DifferentialData.t)
    (s2 : PackagerConfig.t * World Env)
    (Hstages : stagesSucceed X s extendedPkg s1)
    (Hflag : differentialOf s1 = true)
    (Hload : loadDifferentialData X s1 = (Ok diffData, s2)) :
  (diffVersionOf s2 = versionOf s2 ->
   eff.out (LoadPackageDefinition X s)
     = Err (go.New (lang_PkgCreateErrDifferentialSameVersion X))
   /\ eff.world (LoadPackageDefinition X s) = s2)
  /\ (diffVersionOf s2 <> versionOf s2 ->
      diffVersionOf s2 = "" \/ versionOf s2 = "" ->
      eff.out (LoadPackageDefinition X s)
        = Err (go.New (lang_PkgCreateErrDifferentialNoVersion X))
      /\ eff.world (LoadPackageDefinition X s) = s2)
  /\ (diffVersionOf s2 <> versionOf s2 ->
      diffVersionOf s2 <> "" -> versionOf s2 <> "" ->
      let removed := removeCopiesFromDifferentialPackage X extendedPkg diffData s2 in
      eff.out (LoadPackageDefinition X s)
        = match fst removed with
          | Ok diffPkg => Ok (diffPkg, [])
          | Err e => Err e
          end
      /\ eff.world (LoadPackageDefinition X s) = snd removed).
Proof.
  destruct (Load_differential_branch X s extendedPkg s1 diffData s2 Hstages Hflag Hload)
    as [Hout Hworld].
  rewrite Hout, Hworld. clear Hout Hworld.
  split; [|split].
  - intros Heq. apply String.eqb_eq in Heq. rewrite Heq. split; reflexivity.
  - intros Hne Hempty. apply String.eqb_neq in Hne. rewrite Hne. cbn.
    assert (Hor : String.eqb (diffVersionOf s2) "" || String.eqb (versionOf s2) "" = true).
    { apply orb_true_iff. destruct Hempty as [H|H]; [left|right]; now apply String.eqb_eq. }
    rewrite Hor. split; reflexivity.
  - intros Hne Hd Hv. apply String.eqb_neq in Hne, Hd, Hv.
    rewrite Hne, Hd, Hv. cbn. split; reflexivity.
Qed.

Lemma LoadPackageDefinition_differential_witness :
  eff.out (LoadPackageDefinition sample (sampleConfig true "1.0.0" "1.0.0" [], mkWorld ∅ 0%nat))
    = Err (go.New "same version")
  /\ eff.out (LoadPackageDefinition sample (sampleConfig true "" "1.0.0" [], mkWorld ∅ 0%nat))
    = Err (go.New "no version set")
  /\ eff.out (LoadPackageDefinition sample
                (sampleConfig true "1.0.0" "1.1.0" overlapping, mkWorld ∅ 0%nat))
    = Ok (PackagerConfig.Pkg
            (sampleConfig true "1.0.0" "1.1.0" [sampleComponent "app" [] ["b:2"] []]), []).
Proof.
  assert (Hst : forall c : PackagerConfig.t,
             stagesSucceed sample (c, mkWorld ∅ 0%nat) (PackagerConfig.Pkg c)
               (c, mkWorld ∅ 0%nat))
    by (intros c; unfold stagesSucceed; cbn; repeat eexists).
  pose (at_ := fun c : PackagerConfig.t =>
    LoadPackageDefinition_differential sample (c, mkWorld ∅ 0%nat) (PackagerConfig.Pkg c)
      (c, mkWorld ∅ 0%nat)
      (ZarfCreateOptions.DifferentialData (PackagerConfig.CreateOpts c))
      (c, mkWorld ∅ 0%nat) (Hst c)).
  split; [|split].
  - apply (at_ (sampleConfig true "1.0.0" "1.0.0" []) eq_refl eq_refl). reflexivity.
  - apply (at_ (sampleConfig true "" "1.0.0" []) eq_refl eq_refl).
    + cbn. discriminate.
    + left. reflexivity.
  - apply (at_ (sampleConfig true "1.0.0" "1.1.0" overlapping) eq_refl eq_refl);
      cbn; discriminate.
Defined.

(** *** The files of a component: checksum gate and final mode *)

Section Files.
Context {Env : Type} (X : Collaborators Env).

Local Abbreviation beforeFiles := (creator.beforeFiles X).
Local Abbreviation afterFiles := (creator.afterFiles X).

Lemma addComponent_split cfg component w :
  addComponent X cfg component w
  = eff.bind (beforeFiles cfg component)
      (fun componentPaths =>
         run eff.forRange (addFile X component componentPaths) 0%nat
               (ZarfComponent.Files component) in
         afterFiles cfg component componentPaths) w.
Proof.
  unfold addComponent, beforeFiles. symmetry.
  rewrite eff_facts.bind_bind. apply eff_facts.bind_ext. intros cp w1.
  rewrite eff_facts.bind_bind. apply eff_facts.bind_ext. intros _ w2.
  rewrite eff_facts.bind_bind. apply eff_facts.bind_ext. intros _ w3.
  rewrite eff_facts.ret_bind. reflexivity.
Qed.

(** [sealFile] when the gate is open: the one effect is the chmod. *)
Lemma sealFile_open cp i file w :
  (ZarfFile.Shasum file = ""
   \/ exists content,
       os.ReadFile (fs w) (fileDst X cp i file) = Ok content
       /\ sha256_Sum X content = ZarfFile.Shasum file) ->
  let dst := fileDst X cp i file in
  let mode := finalMode file (os.IsDir (fs w) dst) in
  sealFile X cp i file w
  = eff.Outcome (Ok tt) (setFS (chmodFS dst mode (fs w)) w)
      ((if String.eqb (ZarfFile.Shasum file) "" then []
        else [EvSHAsMatch dst (ZarfFile.Shasum file) true])
       ++ [EvChmod dst mode (bool_decide (is_Some (fs w !! dst)))]).
Proof.
  intros Hgate dst mode. unfold sealFile. fold dst.
  assert (Hsum : (if negb (String.eqb (ZarfFile.Shasum file) "")
                  then SHAsMatch X dst (ZarfFile.Shasum file) else eff.ret tt) w
                 = eff.Outcome (Ok tt) w
                     (if String.eqb (ZarfFile.Shasum file) "" then []
                      else [EvSHAsMatch dst (ZarfFile.Shasum file) true])).
  { destruct (String.eqb (ZarfFile.Shasum file) "") eqn:Hempty; cbn [negb]; [reflexivity|].
    destruct Hgate as [Hgate|(content & Hread & Hsha)].
    - apply String.eqb_neq in Hempty. contradiction.
    - unfold SHAsMatch. apply eff_facts.call_eq with (r := Ok tt).
      fold dst in Hread. rewrite Hread, Hsha, String.eqb_refl. reflexivity. }
  erewrite eff_facts.bind_eq_ok by exact Hsum.
  erewrite eff_facts.bind_eq_ok by reflexivity.
  fold (finalMode file (os.IsDir (fs w) dst)). fold mode.
  assert (Hmode : (if ZarfFile.Executable file || os.IsDir (fs w) dst
                   then @chmod Env dst (os.perm 7 0 0) else chmod dst (os.perm 6 0 0))
                  = chmod dst mode)
    by (unfold mode, finalMode; destruct (_ || _); reflexivity).
  rewrite Hmode. unfold eff.after, eff.bind, eff.attempt, chmod, eff.call, eff.ret,
    os.Chmod, chmodFS.
  destruct (fs w !! dst) as [n|] eqn:Hn; cbn.
  - reflexivity.
  - destruct w. reflexivity.
Qed.

(** [sealFile] when the declared checksum is not the file's. *)
Lemma sealFile_mismatch cp i file w content :
  ZarfFile.Shasum file <> "" ->
  os.ReadFile (fs w) (fileDst X cp i file) = Ok content ->
  sha256_Sum X content <> ZarfFile.Shasum file ->
  let dst := fileDst X cp i file in
  sealFile X cp i file w
  = eff.Outcome
      (Err (go.New ("expected sha256 of " +:+ dst +:+ " to be " +:+ ZarfFile.Shasum file
                      +:+ ", found " +:+ sha256_Sum X content)))
      w [EvSHAsMatch dst (ZarfFile.Shasum file) false].
Proof.
  intros Hdeclared Hread Hsha dst. unfold sealFile. fold dst.
  apply String.eqb_neq in Hdeclared, Hsha. rewrite Hdeclared. cbn [negb].
  apply eff_facts.bind_eq_err. unfold SHAsMatch, eff.call.
  fold dst in Hread. rewrite Hread, Hsha. reflexivity.
Qed.

Lemma forRange_reaches {A} (body : nat -> A -> @eff.M (World Env) Event unit)
    (pre post : list A) (x : A) (w : World Env) :
  eff.out (eff.forRange body 0 pre w) = Ok tt ->
  eff.forRange body 0 (pre ++ x :: post) w
  = eff.after (eff.trace (eff.forRange body 0 pre w))
      (eff.bind (body (length pre) x)
                (fun _ => eff.forRange body (S (length pre)) post)
                (eff.world (eff.forRange body 0 pre w))).
Proof.
  intros Hpre. rewrite eff_facts.forRange_app.
  rewrite (eff_facts.bind_ok _ _ _ _ Hpre). reflexivity.
Qed.

Lemma addComponent_mismatch cfg c pre file post w cp w1 w2 content :
  ZarfComponent.Files c = pre ++ file :: post ->
  eff.out (beforeFiles cfg c w) = Ok cp ->
  eff.out (eff.forRange (addFile X c cp) 0 pre (eff.world (beforeFiles cfg c w))) = Ok tt ->
  eff.world (eff.forRange (addFile X c cp) 0 pre (eff.world (beforeFiles cfg c w))) = w1 ->
  eff.out (materializeFile X c cp (length pre) file w1) = Ok tt ->
  eff.world (materializeFile X c cp (length pre) file w1) = w2 ->
  ZarfFile.Shasum file <> "" ->
  os.ReadFile (fs w2) (fileDst X cp (length pre) file) = Ok content ->
  sha256_Sum X content <> ZarfFile.Shasum file ->
  let dst := fileDst X cp (length pre) file in
  addComponent X cfg c w
  = eff.Outcome
      (Err (go.New ("expected sha256 of " +:+ dst +:+ " to be " +:+ ZarfFile.Shasum file
                      +:+ ", found " +:+ sha256_Sum X content)))
      w2
      (eff.trace (beforeFiles cfg c w)
       ++ eff.trace (eff.forRange (addFile X c cp) 0 pre (eff.world (beforeFiles cfg c w)))
       ++ eff.trace (materializeFile X c cp (length pre) file w1)
       ++ [EvSHAsMatch dst (ZarfFile.Shasum file) false]).
Proof.
  intros Hfiles Hbefore Hpre Hw1 Hmat Hw2 Hdeclared Hread Hsha dst.
  rewrite addComponent_split, (eff_facts.bind_ok _ _ _ _ Hbefore), Hfiles.
  assert (Hloop :
    eff.forRange (addFile X c cp) 0 (pre ++ file :: post) (eff.world (beforeFiles cfg c w))
    = eff.Outcome
        (Err (go.New ("expected sha256 of " +:+ dst +:+ " to be " +:+ ZarfFile.Shasum file
                        +:+ ", found " +:+ sha256_Sum X content)))
        w2
        (eff.trace (eff.forRange (addFile X c cp) 0 pre (eff.world (beforeFiles cfg c w)))
         ++ eff.trace (materializeFile X c cp (length pre) file w1)
         ++ [EvSHAsMatch dst (ZarfFile.Shasum file) false])).
  { rewrite (forRange_reaches _ _ _ _ _ Hpre), Hw1.
    assert (Hfile : addFile X c cp (length pre) file w1
                    = eff.Outcome
                        (Err (go.New ("expected sha256 of " +:+ dst +:+ " to be "
                                        +:+ ZarfFile.Shasum file
                                        +:+ ", found " +:+ sha256_Sum X content)))
                        w2
                        (eff.trace (materializeFile X c cp (length pre) file w1)
                         ++ [EvSHAsMatch dst (ZarfFile.Shasum file) false])).
    { unfold addFile. rewrite (eff_facts.bind_ok _ _ _ _ Hmat), Hw2.
      rewrite (sealFile_mismatch cp (length pre) file w2 content Hdeclared Hread Hsha).
      reflexivity. }
    rewrite (eff_facts.bind_eq_err _ _ _ _ _ _ Hfile). reflexivity. }
  rewrite (eff_facts.bind_eq_err _ _ _ _ _ _ Hloop). reflexivity.
Qed.

End Files.

(** C2.  A file entry with a declared checksum whose materialized
    content hashes to something else makes [addComponent] return the
    integrity error: the world is left as the materialization left it
    (no mode is set, no later entry is touched), the checksum
    comparison is the last call made, and [Assemble] returns the error
    wrapped with the component's name.  A file entry without a declared
    checksum passes without any comparison. *)
Theorem addComponent_checksum_gate
    {Env : Type} (X : Collaborators Env) (cfg : PackagerConfig.t)
    (c : ZarfComponent.t) (pre : list ZarfFile.t) (file : ZarfFile.t)
    (post : list ZarfFile.t) (w : World Env) (cp : ComponentPaths.t)
    (w1 w2 : World Env) (content : string)
    (Hfiles : ZarfComponent.Files c = pre ++ file :: post)
    (Hbefore : eff.out (beforeFiles X cfg c w) = Ok cp)
    (Hpre : eff.out (eff.forRange (addFile X c cp) 0 pre
                       (eff.world (beforeFiles X cfg c w))) = Ok tt)
    (Hw1 : eff.world (eff.forRange (addFile X c cp) 0 pre
                        (eff.world (beforeFiles X cfg c w))) = w1)
    (Hmat : eff.out (materializeFile X c cp (length pre) file w1) = Ok tt)
    (Hw2 : eff.world (materializeFile X c cp (length pre) file w1) = w2)
    (Hdeclared : ZarfFile.Shasum file <> "")
    (Hread : os.ReadFile (fs w2) (fileDst X cp (length pre) file) = Ok content)
    (Hsha : sha256_Sum X content <> ZarfFile.Shasum file) :
  let dst := fileDst X cp (length pre) file in
  let e := go.New ("expected sha256 of " +:+ dst +:+ " to be " +:+ ZarfFile.Shasum file
                     +:+ ", found " +:+ sha256_Sum X content) in
  eff.out (addComponent X cfg c w) = Err e
  /\ eff.world (addComponent X cfg c w) = w2
  /\ (exists t, eff.trace (addComponent X cfg c w)
                = t ++ [EvSHAsMatch dst (ZarfFile.Shasum file) false])
  /\ (forall rest,
        ZarfPackage.Components (PackagerConfig.Pkg cfg) = c :: rest ->
        eff.out (Assemble X cfg w)
        = Err (go.Wrap ("unable to add component "
                          +:+ strconv_Quote X (ZarfComponent.Name c) +:+ ": ") e))
  /\ (forall i f w',
        ZarfFile.Shasum f = "" ->
        eff.out (sealFile X cp i f w') = Ok tt
        /\ List.filter isChecksumEvent (eff.trace (sealFile X cp i f w')) = []).
Proof.
  intros dst e.
  pose proof (addComponent_mismatch X cfg c pre file post w cp w1 w2 content
                Hfiles Hbefore Hpre Hw1 Hmat Hw2 Hdeclared Hread Hsha) as Hadd.
  cbv zeta in Hadd. fold dst in Hadd. fold e in Hadd.
  split; [|split; [|split; [|split]]].
  - rewrite Hadd. reflexivity.
  - rewrite Hadd. reflexivity.
  - rewrite Hadd. cbn [eff.trace]. eexists. rewrite !app_assoc. reflexivity.
  - intros rest Hcomponents. unfold Assemble. rewrite Hcomponents.
    apply eff_facts.bind_out_err. cbn [eff.foldRange].
    apply eff_facts.bind_out_err. unfold assembleComponent.
    apply eff_facts.bind_out_err. unfold eff.onError. rewrite Hadd. reflexivity.
  - intros i f w' Hnone.
    rewrite (sealFile_open X cp i f w' (or_introl Hnone)).
    cbn [eff.out eff.trace]. rewrite Hnone. split; reflexivity.
Qed.

Lemma addComponent_checksum_gate_witness :
  let c := sampleComponent "app" [sampleFile "deadbeef" false] [] [] in
  let done := addComponent sample (sampleConfig false "" "1.0.0" [c]) c (sampleWorld 0) in
  eff.out done
    = Err (go.New "expected sha256 of pkg/app/files/0/a.txt to be deadbeef, found sha256:hi")
  /\ fs (eff.world done) !! "pkg/app/files/0/a.txt" = Some (os.File "hi" (os.perm 6 4 4))
  /\ eff.out (Assemble sample (sampleConfig false "" "1.0.0" [c]) (sampleWorld 0))
     = Err (go.Wrap "unable to add component 'app': "
              (go.New "expected sha256 of pkg/app/files/0/a.txt to be deadbeef, found sha256:hi")).
Proof.
  intros c done.
  pose proof (addComponent_checksum_gate sample (sampleConfig false "" "1.0.0" [c]) c
                [] (sampleFile "deadbeef" false) [] (sampleWorld 0) (samplePaths "app")
                (sampleWorld 0)
                (eff.world (materializeFile sample c (samplePaths "app") 0
                              (sampleFile "deadbeef" false) (sampleWorld 0)))
                "hi" eq_refl eq_refl eq_refl eq_refl eq_refl eq_refl)
    as Hgate.
  destruct Hgate as (Hout & Hworld & _ & Hassemble & _).
  - discriminate.
  - vm_compute. reflexivity.
  - cbn. discriminate.
  - split; [exact Hout|]. split.
    + unfold done. rewrite Hworld. vm_compute. reflexivity.
    + apply (Hassemble []). reflexivity.
Defined.

(** C7.  Once a file entry is materialized, and its checksum has
    matched when one is declared, the loop body succeeds and its last
    call is [os.Chmod] on the destination with mode 0700 when the entry
    is executable or the destination is a directory and 0600 otherwise;
    the destination then has that mode and nothing else on disk has
    changed. *)
Theorem addFile_final_mode
    {Env : Type} (X : Collaborators Env) (c : ZarfComponent.t) (cp : ComponentPaths.t)
    (i : nat) (file : ZarfFile.t) (w1 w2 : World Env)
    (Hmat : eff.out (materializeFile X c cp i file w1) = Ok tt)
    (Hw2 : eff.world (materializeFile X c cp i file w1) = w2)
    (Hgate : ZarfFile.Shasum file = ""
             \/ exists content,
                 os.ReadFile (fs w2) (fileDst X cp i file) = Ok content
                 /\ sha256_Sum X content = ZarfFile.Shasum file) :
  let dst := fileDst X cp i file in
  let mode := if ZarfFile.Executable file || os.IsDir (fs w2) dst
              then 7 * 64 + 0 * 8 + 0 else 6 * 64 + 0 * 8 + 0 in
  let done := addFile X c cp i file w1 in
  eff.out done = Ok tt
  /\ (exists t, eff.trace done = t ++ [EvChmod dst mode (bool_decide (is_Some (fs w2 !! dst)))])
  /\ (forall n, fs w2 !! dst = Some n ->
                fs (eff.world done) !! dst = Some (os.withMode mode n))
  /\ (forall n, fs (eff.world done) !! dst = Some n -> os.modeOf n = mode)
  /\ (forall p, p <> dst -> fs (eff.world done) !! p = fs w2 !! p)
  /\ env (eff.world done) = env w2.
Proof.
  intros dst mode done.
  assert (Hdone : done = eff.after (eff.trace (materializeFile X c cp i file w1))
                           (sealFile X cp i file w2)).
  { unfold done, addFile. rewrite (eff_facts.bind_ok _ _ _ _ Hmat), Hw2. reflexivity. }
  rewrite (sealFile_open X cp i file w2 Hgate) in Hdone.
  change (finalMode file (os.IsDir (fs w2) (fileDst X cp i file))) with mode in Hdone.
  fold dst in Hdone. rewrite Hdone. cbn [eff.after eff.out eff.world eff.trace fs env setFS].
  split; [reflexivity|]. split; [eexists; rewrite !app_assoc; reflexivity|].
  unfold chmodFS.
  split; [|split; [|split]].
  - intros n Hn. rewrite Hn. apply lookup_insert_eq.
  - intros n. destruct (fs w2 !! dst) as [n0|] eqn:Hn0.
    + rewrite lookup_insert_eq. intros [= <-]. destruct n0; reflexivity.
    + rewrite Hn0. discriminate.
  - intros p Hp. destruct (fs w2 !! dst); [|reflexivity].
    apply lookup_insert_ne. congruence.
  - reflexivity.
Qed.

Lemma addFile_final_mode_witness :
  let c := sampleComponent "app" [sampleFile "sha256:hi" false] [] [] in
  let done := addFile sample c (samplePaths "app") 0 (sampleFile "sha256:hi" false)
                (sampleWorld 0) in
  eff.out done = Ok tt
  /\ fs (eff.world done) !! "pkg/app/files/0/a.txt" = Some (os.File "hi" 384)
  /\ fs (eff.world
           (addFile sample c (samplePaths "app") 0 (sampleFile "" true) (sampleWorld 0)))
       !! "pkg/app/files/0/a.txt" = Some (os.File "hi" 448).
Proof.
  intros c done.
  split; [|split].
  - apply (addFile_final_mode sample c (samplePaths "app") 0 (sampleFile "sha256:hi" false)
             (sampleWorld 0) _ eq_refl eq_refl).
    right. exists "hi". split; vm_compute; reflexivity.
  - refine (proj1 (proj2 (proj2
             (addFile_final_mode sample c (samplePaths "app") 0 (sampleFile "sha256:hi" false)
                (sampleWorld 0) _ eq_refl eq_refl _))) (os.File "hi" (os.perm 6 4 4)) _).
    + right. exists "hi". split; vm_compute; reflexivity.
    + vm_compute. reflexivity.
  - refine (proj1 (proj2 (proj2
             (addFile_final_mode sample c (samplePaths "app") 0 (sampleFile "" true)
                (sampleWorld 0) _ eq_refl eq_refl _))) (os.File "hi" (os.perm 6 4 4)) _).
    + left. reflexivity.
    + vm_compute. reflexivity.
Defined.

(** *** The aggregated image list *)

Section Images.
Context {Env : Type} (X : Collaborators Env).

Local Abbreviation parseAll := (creator.parseAll X).

Lemma parseAll_app l1 l2 r1 r2 :
  parseAll l1 = Some r1 -> parseAll l2 = Some r2 -> parseAll (l1 ++ l2) = Some (r1 ++ r2).
Proof.
  revert r1. induction l1 as [|src l1 IH]; intros r1; cbn.
  - intros [= <-]. tauto.
  - destruct (transform_ParseImageRef X src); [|discriminate].
    destruct (parseAll l1) as [refs|]; [|discriminate].
    intros [= <-] H2. rewrite (IH refs eq_refl H2). reflexivity.
Qed.

Lemma parseAll_length l r : parseAll l = Some r -> length r = length l.
Proof.
  revert r. induction l as [|src l IH]; intros r; cbn.
  - intros [= <-]. reflexivity.
  - destruct (transform_ParseImageRef X src); [|discriminate].
    destruct (parseAll l) as [refs|]; [|discriminate].
    intros [= <-]. cbn. rewrite (IH refs eq_refl). reflexivity.
Qed.

Lemma collectImages_out srcs :
  forall i acc (w : World Env) imgs,
    eff.out (@eff.foldRange (World Env) Event _ _
               (fun (_ : nat) imageList src =>
                  match transform_ParseImageRef X src with
                  | Err e =>
                      eff.fail (go.Wrap ("failed to create ref for image " +:+ src +:+ ": ") e)
                  | Ok refInfo => eff.ret (imageList ++ [refInfo])
                  end) i acc srcs w) = Ok imgs ->
    exists refs, parseAll srcs = Some refs /\ imgs = acc ++ refs.
Proof.
  induction srcs as [|src srcs IH]; intros i acc w imgs; cbn [eff.foldRange parseAll].
  - intros [= <-]. exists []. rewrite app_nil_r. tauto.
  - intros H. apply eff_facts.bind_out_ok_inv in H as (acc' & Hhead & Htail).
    destruct (transform_ParseImageRef X src) as [ref|e]; [|discriminate].
    injection Hhead as <-.
    apply IH in Htail as (refs & -> & ->).
    exists (ref :: refs). rewrite <- app_assoc. tauto.
Qed.

Lemma assembleComponent_out cfg imgs0 sb0 c w imgs sb :
  eff.out (assembleComponent X cfg (imgs0, sb0) c w) = Ok (imgs, sb) ->
  exists refs, parseAll (ZarfComponent.Images c) = Some refs /\ imgs = imgs0 ++ refs.
Proof.
  unfold assembleComponent. intros H.
  apply eff_facts.bind_out_ok_inv in H as (_ & _ & H).
  apply eff_facts.bind_out_ok_inv in H as (_ & _ & H).
  apply eff_facts.bind_out_ok_inv in H as (sb' & _ & H).
  apply eff_facts.bind_out_ok_inv in H as (imgs' & Hc & H).
  injection H as <- <-. unfold collectImages in Hc.
  exact (collectImages_out _ _ _ _ _ Hc).
Qed.

Lemma components_out cfg components :
  forall i imgs0 sb0 w imgs sb,
    eff.out (eff.foldRange (fun _ => assembleComponent X cfg) i (imgs0, sb0) components w)
    = Ok (imgs, sb) ->
    exists refs, parseAll (declaredImages components) = Some refs /\ imgs = imgs0 ++ refs.
Proof.
  induction components as [|c components IH]; intros i imgs0 sb0 w imgs sb;
    cbn [eff.foldRange].
  - intros [= <- <-]. exists []. rewrite app_nil_r. tauto.
  - intros H. apply eff_facts.bind_out_ok_inv in H as ([imgs1 sb1] & Hhead & Htail).
    apply assembleComponent_out in Hhead as (r1 & Hr1 & ->).
    apply IH in Htail as (r2 & Hr2 & ->).
    exists (r1 ++ r2). split; [|symmetry; apply app_assoc].
    unfold declaredImages. cbn. apply parseAll_app; assumption.
Qed.

Lemma ofComponent_not_pull (ev : Event) : ofComponent ev = true -> isPull ev = false.
Proof. destruct ev; cbn; intros; congruence. Qed.

Lemma ofComponent_no_step (ev : Event) : ofComponent ev = true -> stepOf ev = None.
Proof. destruct ev; cbn; intros; congruence. Qed.

Lemma addComponent_events (P : Event -> Prop) cfg c :
  (forall ev, ofComponent ev = true -> P ev) ->
  eff.traceAll P (addComponent X cfg c).
Proof.
  intros HP.
  unfold addComponent, addFile, materializeFile, sealFile, addDataInjection, addManifest,
    runActions, download, extract, copy, SHAsMatch, chmod.
  eff_facts.trace_all; intros; apply HP; reflexivity.
Qed.

Lemma assembleComponent_events (P : Event -> Prop) cfg acc c :
  (forall ev, ofComponent ev = true -> P ev) ->
  eff.traceAll P (assembleComponent X cfg acc c).
Proof.
  intros HP. unfold assembleComponent. destruct acc as [imageList componentSBOMs].
  unfold onFailure, getFilesToSBOM, appendSBOMFiles, collectImages, runActions.
  eff_facts.trace_all; try (apply addComponent_events; exact HP);
    intros; apply HP; reflexivity.
Qed.

Lemma afterComponents_events cfg sb imageList :
  eff.traceAll (pullsOnly imageList)
    (let* sbomImageList :=
       if (0 <? length imageList)%nat then
         run eff.update EvAddImages (AddImages X) in
         let* pulled :=
           eff.wrapErr (go.Wrap "unable to pull images after 3 attempts: ")
             (helpers.Retry (sleep X) warnf (doPull X cfg imageList) 3 (5 * time_Second) []) in
         addPulled X pulled
       else eff.ret [] in
     catalog X cfg sb sbomImageList).
Proof.
  unfold addPulled, catalog, doPull, sleep, warnf.
  eff_facts.trace_all; intros; intros imgConfig ok' [=]; subst; reflexivity.
Qed.

Lemma Assemble_pulls cfg w imgConfig ok :
  In (EvPullAll imgConfig ok) (eff.trace (Assemble X cfg w)) ->
  exists refs,
    parseAll (declaredImages (ZarfPackage.Components (PackagerConfig.Pkg cfg))) = Some refs
    /\ images.ImageList imgConfig = helpers.Unique refs.
Proof.
  intros Hpull. unfold Assemble in Hpull.
  pose proof (eff_facts.traceAll_foldRange (fun ev => isPull ev = false)
                (fun _ => assembleComponent X cfg)
                (ZarfPackage.Components (PackagerConfig.Pkg cfg))
                (fun _ acc c => assembleComponent_events _ cfg acc c ofComponent_not_pull)
                0%nat ([], ∅) w) as Hquiet.
  rewrite Forall_forall in Hquiet.
  destruct (eff.out (eff.foldRange (fun _ => assembleComponent X cfg) 0 ([], ∅)
                       (ZarfPackage.Components (PackagerConfig.Pkg cfg)) w))
    as [[imgs sb]|e] eqn:Hloop.
  - rewrite (eff_facts.bind_ok _ _ _ _ Hloop) in Hpull.
    cbn [eff.after eff.trace] in Hpull. apply in_app_or in Hpull as [Hpull|Hpull].
    + apply list_elem_of_In, Hquiet in Hpull. discriminate.
    + cbv beta iota in Hpull.
      pose proof (afterComponents_events cfg sb (helpers.Unique imgs)
                    (eff.world (eff.foldRange (fun _ => assembleComponent X cfg) 0 ([], ∅)
                       (ZarfPackage.Components (PackagerConfig.Pkg cfg)) w))) as Hafter.
      rewrite Forall_forall in Hafter. apply list_elem_of_In, Hafter in Hpull.
      apply components_out in Hloop as (refs & Hrefs & ->).
      exists refs. split; [exact Hrefs|]. exact (Hpull _ _ eq_refl).
  - rewrite (eff_facts.bind_err _ _ _ _ Hloop) in Hpull.
    apply list_elem_of_In, Hquiet in Hpull. discriminate.
Qed.

Lemma Assemble_pull_attempted cfg w imgs sb :
  eff.out (eff.foldRange (fun _ => assembleComponent X cfg) 0 ([], ∅)
             (ZarfPackage.Components (PackagerConfig.Pkg cfg)) w) = Ok (imgs, sb) ->
  imgs <> [] ->
  exists imgConfig ok,
    In (EvPullAll imgConfig ok) (eff.trace (Assemble X cfg w))
    /\ images.ImageList imgConfig = helpers.Unique imgs.
Proof.
  intros Hloop Hne.
  assert (Hlen : (0 <? length (helpers.Unique imgs))%nat = true).
  { apply Nat.ltb_lt. destruct imgs as [|x imgs]; [contradiction|].
    assert (Hx : x ∈ helpers.Unique (x :: imgs))
      by (apply unique_facts.elem_of_Unique; left).
    destruct (helpers.Unique (x :: imgs)); [inversion Hx | cbn; lia]. }
  set (w1 := AddImages X
               (eff.world (eff.foldRange (fun _ => assembleComponent X cfg) 0 ([], ∅)
                             (ZarfPackage.Components (PackagerConfig.Pkg cfg)) w))).
  set (imgConfig :=
         images.mkImageConfig (Images_Base X w1) (helpers.Unique imgs) (config_Insecure X)
           [ZarfMetadata.Architecture (ZarfPackage.Metadata (PackagerConfig.Pkg cfg));
            ZarfBuildData.Architecture (ZarfPackage.Build (PackagerConfig.Pkg cfg))]
           (ZarfCreateOptions.RegistryOverrides (PackagerConfig.CreateOpts cfg))).
  exists imgConfig, (go.is_ok (fst (images_PullAll X imgConfig w1))).
  split; [|reflexivity].
  unfold Assemble. rewrite (eff_facts.bind_ok _ _ _ _ Hloop).
  cbn [eff.after eff.trace]. apply in_or_app. right. cbv beta iota. rewrite Hlen.
  eapply list_elem_of_In, elem_of_prefix; [|apply eff_facts.bind_trace_prefix].
  erewrite eff_facts.bind_eq_ok by reflexivity.
  cbn [eff.after eff.trace]. apply elem_of_app. right.
  eapply elem_of_prefix; [|apply eff_facts.bind_trace_prefix].
  rewrite eff_facts.wrapErr_trace.
  eapply elem_of_prefix; [|apply eff_facts.Retry_trace_prefix].
  unfold doPull, eff.bind, eff.read, eff.call. cbn. fold w1. fold imgConfig.
  destruct (images_PullAll X imgConfig w1). cbn. apply list_elem_of_here.
Qed.

End Images.


(** *** The bounded retry of the image pull *)

Lemma failedResolver_isResolver (ev : Event) : failedResolver ev = true -> isResolver ev = true.
Proof. destruct ev; cbn; congruence. Qed.

Section Retry.
Context {Env : Type} (X : Collaborators Env).

Local Abbreviation pullConfig := (creator.pullConfig X).
Local Abbreviation finish := (creator.finish X).
Local Abbreviation components := (creator.components X).

Lemma Assemble_Good cfg :
  eff.Good isResolver failedResolver (Assemble X cfg).
Proof.
  unfold Assemble, assembleComponent, addComponent, addFile, materializeFile, sealFile,
    addDataInjection, addManifest, onFailure, getFilesToSBOM, appendSBOMFiles, collectImages,
    addPulled, catalog, doPull, sleep, warnf, runActions, download, extract, copy, SHAsMatch,
    chmod.
  eff_facts.good_all failedResolver_isResolver;
    try reflexivity;
    eff_facts.trace_all; intros; try reflexivity.
Qed.

Lemma steps_none t : Forall (fun ev => stepOf ev = None) t -> steps t = [].
Proof.
  induction 1 as [|ev t Hev _ IH]; [reflexivity|].
  unfold steps in *. cbn. rewrite Hev. exact IH.
Qed.

Lemma steps_app t1 t2 : steps (t1 ++ t2) = steps t1 ++ steps t2.
Proof. apply omap_app. Qed.

Lemma doPull_eq cfg imageList w r w' :
  images_PullAll X (pullConfig cfg imageList w) w = (r, w') ->
  doPull X cfg imageList w
  = eff.Outcome r w' [EvPullAll (pullConfig cfg imageList w) (go.is_ok r)].
Proof.
  intros H. unfold doPull.
  erewrite eff_facts.bind_eq_ok by reflexivity.
  fold (pullConfig cfg imageList w).
  erewrite eff_facts.call_eq by exact H. reflexivity.
Qed.

(** Two failed attempts: the third one decides. *)
Lemma Retry_third cfg imageList w1 e1 w1' e2 w2' r3 w3' :
  images_PullAll X (pullConfig cfg imageList w1) w1 = (Err e1, w1') ->
  images_PullAll X (pullConfig cfg imageList (time_Sleep X backoff w1'))
    (time_Sleep X backoff w1') = (Err e2, w2') ->
  images_PullAll X (pullConfig cfg imageList (time_Sleep X backoff w2'))
    (time_Sleep X backoff w2') = (r3, w3') ->
  helpers.Retry (sleep X) warnf (doPull X cfg imageList) 3 backoff [] w1
  = eff.Outcome r3 w3'
      [EvPullAll (pullConfig cfg imageList w1) false;
       EvWarn (go.Error e1); EvSleep backoff;
       EvPullAll (pullConfig cfg imageList (time_Sleep X backoff w1')) false;
       EvWarn (go.Error e2); EvSleep backoff;
       EvPullAll (pullConfig cfg imageList (time_Sleep X backoff w2')) (go.is_ok r3)].
Proof.
  intros H1 H2 H3. cbn [helpers.Retry].
  erewrite eff_facts.bind_eq_ok
    by (apply eff_facts.attempt_eq, doPull_eq, H1).
  cbv beta iota.
  erewrite eff_facts.bind_eq_ok by reflexivity.
  erewrite eff_facts.bind_eq_ok by reflexivity.
  erewrite eff_facts.bind_eq_ok
    by (apply eff_facts.attempt_eq, doPull_eq, H2).
  cbv beta iota.
  erewrite eff_facts.bind_eq_ok by reflexivity.
  erewrite eff_facts.bind_eq_ok by reflexivity.
  rewrite (doPull_eq _ _ _ _ _ H3). reflexivity.
Qed.

Lemma Assemble_after_components cfg w imgs sb :
  eff.out (components cfg w) = Ok (imgs, sb) ->
  imgs <> [] ->
  Assemble X cfg w
  = eff.after (eff.trace (components cfg w) ++ [EvAddImages])
      (eff.bind
         (eff.wrapErr (go.Wrap "unable to pull images after 3 attempts: ")
            (helpers.Retry (sleep X) warnf (doPull X cfg (helpers.Unique imgs)) 3 backoff []))
         (finish cfg sb)
         (AddImages X (eff.world (components cfg w)))).
Proof.
  intros Hloop Hne. unfold Assemble. fold (components cfg).
  rewrite (eff_facts.bind_ok _ _ _ _ Hloop). cbv beta iota.
  assert (Hlen : (0 <? length (helpers.Unique imgs))%nat = true).
  { apply Nat.ltb_lt. destruct imgs as [|x imgs]; [contradiction|].
    assert (Hx : x ∈ helpers.Unique (x :: imgs))
      by (apply unique_facts.elem_of_Unique; left).
    destruct (helpers.Unique (x :: imgs)); [inversion Hx | cbn; lia]. }
  rewrite Hlen. rewrite eff_facts.bind_bind.
  erewrite eff_facts.bind_eq_ok by reflexivity.
  rewrite eff_facts.bind_bind. unfold eff.after. cbn [eff.out eff.world eff.trace].
  rewrite <- app_assoc. reflexivity.
Qed.

Lemma Retry_first cfg imageList w1 pulled w1' :
  images_PullAll X (pullConfig cfg imageList w1) w1 = (Ok pulled, w1') ->
  helpers.Retry (sleep X) warnf (doPull X cfg imageList) 3 backoff [] w1
  = eff.Outcome (Ok pulled) w1' [EvPullAll (pullConfig cfg imageList w1) true].
Proof.
  intros H1. cbn [helpers.Retry].
  erewrite eff_facts.bind_eq_ok
    by (apply eff_facts.attempt_eq, doPull_eq, H1).
  reflexivity.
Qed.

Lemma Retry_second cfg imageList w1 e1 w1' pulled w2' :
  images_PullAll X (pullConfig cfg imageList w1) w1 = (Err e1, w1') ->
  images_PullAll X (pullConfig cfg imageList (time_Sleep X backoff w1'))
    (time_Sleep X backoff w1') = (Ok pulled, w2') ->
  helpers.Retry (sleep X) warnf (doPull X cfg imageList) 3 backoff [] w1
  = eff.Outcome (Ok pulled) w2'
      [EvPullAll (pullConfig cfg imageList w1) false;
       EvWarn (go.Error e1); EvSleep backoff;
       EvPullAll (pullConfig cfg imageList (time_Sleep X backoff w1')) true].
Proof.
  intros H1 H2. cbn [helpers.Retry].
  erewrite eff_facts.bind_eq_ok
    by (apply eff_facts.attempt_eq, doPull_eq, H1).
  cbv beta iota.
  erewrite eff_facts.bind_eq_ok by reflexivity.
  erewrite eff_facts.bind_eq_ok by reflexivity.
  erewrite eff_facts.bind_eq_ok
    by (apply eff_facts.attempt_eq, doPull_eq, H2).
  reflexivity.
Qed.

Lemma Retry_schedule cfg imageList w1 :
  In (steps (eff.trace (helpers.Retry (sleep X) warnf (doPull X cfg imageList) 3 backoff [] w1)))
     schedules.
Proof.
  destruct (images_PullAll X (pullConfig cfg imageList w1) w1) as [[pulled|e1] w1'] eqn:H1.
  { rewrite (Retry_first _ _ _ _ _ H1). right. left. reflexivity. }
  destruct (images_PullAll X (pullConfig cfg imageList (time_Sleep X backoff w1'))
              (time_Sleep X backoff w1')) as [[pulled|e2] w2'] eqn:H2.
  { rewrite (Retry_second _ _ _ _ _ _ _ H1 H2). right. right. left. reflexivity. }
  destruct (images_PullAll X (pullConfig cfg imageList (time_Sleep X backoff w2'))
              (time_Sleep X backoff w2')) as [r3 w3'] eqn:H3.
  rewrite (Retry_third _ _ _ _ _ _ _ _ _ H1 H2 H3). right. right. right. left. reflexivity.
Qed.

Lemma components_steps cfg w : steps (eff.trace (components cfg w)) = [].
Proof.
  apply steps_none. unfold components. apply eff_facts.traceAll_foldRange.
  intros i acc c. apply assembleComponent_events, ofComponent_no_step.
Qed.

Lemma finish_steps cfg sb pulled w : steps (eff.trace (finish cfg sb pulled w)) = [].
Proof.
  apply steps_none. revert w. change (eff.traceAll (fun ev => stepOf ev = None)
                                       (finish cfg sb pulled)).
  unfold finish, addPulled, catalog. eff_facts.trace_all; intros; reflexivity.
Qed.

Lemma Assemble_schedule cfg w : In (steps (eff.trace (Assemble X cfg w))) schedules.
Proof.
  destruct (eff.out (components cfg w)) as [[imgs sb]|e] eqn:Hloop.
  - destruct imgs as [|x imgs].
    + unfold Assemble. fold (components cfg).
      rewrite (eff_facts.bind_ok _ _ _ _ Hloop). cbv beta iota.
      cbn [eff.after eff.trace]. rewrite steps_app, components_steps.
      left. symmetry. apply steps_none.
      match goal with
      | |- Forall ?P (eff.trace (?m ?w0)) =>
          cut (eff.traceAll P m); [intros Hcut; apply Hcut|]
      end.
      unfold catalog. cbn [helpers.Unique helpers.uniqueFrom length Nat.ltb Nat.leb].
      eff_facts.trace_all; intros; reflexivity.
    + rewrite (Assemble_after_components cfg w _ sb Hloop) by discriminate.
      cbn [eff.after eff.trace].
      rewrite !steps_app, components_steps.
      change (steps [EvAddImages]) with (@nil step). cbn [app].
      match goal with
      | |- In (steps (eff.trace (eff.bind ?m ?k ?w1))) _ =>
          destruct (eff.out (m w1)) as [pulled|e] eqn:Hretry;
          [ rewrite (eff_facts.bind_ok _ _ _ _ Hretry)
          | rewrite (eff_facts.bind_err _ _ _ _ Hretry) ]
      end;
        cbn [eff.after eff.trace];
        rewrite ?steps_app, ?finish_steps, ?app_nil_r, eff_facts.wrapErr_trace;
        apply Retry_schedule.
  - unfold Assemble. fold (components cfg).
    rewrite (eff_facts.bind_err _ _ _ _ Hloop). cbn [eff.trace].
    rewrite components_steps. left. reflexivity.
Qed.

End Retry.

Lemma append_assoc (a b c : string) : (a +:+ b) +:+ c = a +:+ b +:+ c.
Proof.
  induction a as [|ch a IH]; [reflexivity|].
  change (String ch ((a +:+ b) +:+ c) = String ch (a +:+ b +:+ c)).
  f_equal. exact IH.
Qed.

Lemma substring_append (sub prefix s : string) :
  substring sub s -> substring sub (prefix +:+ s).
Proof.
  intros (a & b & ->). exists (prefix +:+ a), b. symmetry. apply append_assoc.
Qed.

(** Where a string occurs, it can be cut out. *)
Lemma substring_occurs (sub s : string) :
  substring sub s ->
  existsb (fun n => String.eqb (String.substring n (String.length sub) s) sub)
    (seq 0 (S (String.length s))) = true.
Proof.
  intros (a & b & ->). apply existsb_exists. exists (String.length a). split.
  - apply in_seq. split; [lia|]. cbn [Nat.add].
    apply Nat.lt_succ_r. clear. induction a as [|c a IH]; simpl; lia.
  - apply String.eqb_eq. clear. induction a as [|c a IH].
    + simpl. induction sub as [|c sub IH]; simpl.
      * destruct b; reflexivity.
      * f_equal. exact IH.
    + simpl. exact IH.
Qed.

(** C4, as stated, fails twice.  With a third pull that succeeds and an
    SBOM catalog that fails, [Assemble] fails; and with three failed
    pulls whose error names no image, the error of [Assemble] names
    none. *)
Lemma pull_retry_not_as_stated :
  ~ pull_retry_as_stated sampleBroken twoComponents (sampleWorld 2)
  /\ ~ pull_retry_as_stated sampleBroken twoComponents (sampleWorld 3).
Proof.
  pose (imgs := [sampleImage "a:1"; sampleImage "b:2"; sampleImage "a:1"; sampleImage "c:3"]).
  pose (low := go.New "connection reset by peer").
  split; intros Hstated.
  - specialize (Hstated imgs ∅ low (sampleWorld 1) low (sampleWorld 0)
                  (Ok (map (fun i => images.mkImgInfo i (transform.Reference i) true)
                           (helpers.Unique imgs)))
                  (sampleWorld 0)).
    cbv zeta in Hstated.
    assert (Hout : eff.out (Assemble sampleBroken twoComponents (sampleWorld 2)) = Ok tt).
    { apply Hstated; try (vm_compute; reflexivity). discriminate. }
    vm_compute in Hout. discriminate.
  - specialize (Hstated imgs ∅ low (sampleWorld 2) low (sampleWorld 1)
                  (Err low) (sampleWorld 0)).
    cbv zeta in Hstated.
    destruct Hstated as (e & image & Hout & Hin & Hnamed);
      try (vm_compute; reflexivity); [discriminate|].
    vm_compute in Hout. injection Hout as <-.
    apply substring_occurs in Hnamed.
    vm_compute in Hin.
    destruct Hin as [<-|[<-|[<-|[]]]]; vm_compute in Hnamed; discriminate.
Qed.

(** C4, amended.  Along every run of [Assemble] the pull is attempted at
    most three times, with a pause of five seconds between one attempt
    and the next.  After two failed attempts the third decides: if it
    succeeds, [Assemble] goes on and returns what the remaining steps
    return, so that it succeeds exactly when adding the pulled images to
    the layout and the SBOM catalog succeed; if it fails, [Assemble]
    returns its error behind "unable to pull images after 3 attempts: ",
    so what the pull error names is named, and nothing else.  No
    content resolver (download, extraction, copy, git) is called again
    once a resolver call has failed. *)
Theorem Assemble_pull_retry
    {Env : Type} (X : Collaborators Env) (cfg : PackagerConfig.t) (w : World Env) :
  In (steps (eff.trace (Assemble X cfg w)))
     [ [];
       [Pull];
       [Pull; Sleep 5000000000; Pull];
       [Pull; Sleep 5000000000; Pull; Sleep 5000000000; Pull] ]
  /\ (forall imgs sb e1 w1' e2 w2' r3 w3',
        eff.out (components X cfg w) = Ok (imgs, sb) ->
        imgs <> [] ->
        let imageList := helpers.Unique imgs in
        let w1 := AddImages X (eff.world (components X cfg w)) in
        images_PullAll X (pullConfig X cfg imageList w1) w1 = (Err e1, w1') ->
        let w2 := time_Sleep X (5 * time_Second) w1' in
        images_PullAll X (pullConfig X cfg imageList w2) w2 = (Err e2, w2') ->
        let w3 := time_Sleep X (5 * time_Second) w2' in
        images_PullAll X (pullConfig X cfg imageList w3) w3 = (r3, w3') ->
        steps (eff.trace (Assemble X cfg w))
        = [Pull; Sleep 5000000000; Pull; Sleep 5000000000; Pull]
        /\ match r3 with
           | Ok pulled =>
               eff.out (Assemble X cfg w) = eff.out (finish X cfg sb pulled w3')
               /\ eff.world (Assemble X cfg w) = eff.world (finish X cfg sb pulled w3')
               /\ (eff.out (Assemble X cfg w) = Ok tt <->
                   exists sbomImageList,
                     eff.out (addPulled X pulled w3') = Ok sbomImageList
                     /\ eff.out (catalog X cfg sb sbomImageList
                                   (eff.world (addPulled X pulled w3'))) = Ok tt)
           | Err e3 =>
               let err := go.Wrap "unable to pull images after 3 attempts: " e3 in
               eff.out (Assemble X cfg w) = Err err
               /\ eff.world (Assemble X cfg w) = w3'
               /\ go.Error err = "unable to pull images after 3 attempts: " +:+ go.Error e3
               /\ (forall ref, substring ref (go.Error e3) -> substring ref (go.Error err))
           end)
  /\ (forall pre ev post,
        eff.trace (Assemble X cfg w) = pre ++ ev :: post ->
        failedResolver ev = true ->
        Forall (fun later => isResolver later = false) post).
Proof.
  split; [apply Assemble_schedule|]. split.
  - intros imgs sb e1 w1' e2 w2' r3 w3' Hloop Hne imageList w1 H1 w2 H2 w3 H3.
    rewrite (Assemble_after_components X cfg w imgs sb Hloop Hne).
    fold imageList. fold w1.
    pose proof (Retry_third X cfg imageList w1 e1 w1' e2 w2' r3 w3' H1 H2 H3) as Hretry.
    destruct r3 as [pulled|e3].
    + erewrite eff_facts.bind_eq_ok
        by (apply eff_facts.wrapErr_eq_ok, Hretry).
      cbn [eff.after eff.out eff.world eff.trace].
      split; [rewrite !steps_app, components_steps, finish_steps; reflexivity|].
      split; [reflexivity|]. split; [reflexivity|].
      unfold creator.finish.
      destruct (eff.out (addPulled X pulled w3')) as [sbomImageList|e] eqn:Hadd.
      * rewrite (eff_facts.bind_ok _ _ _ _ Hadd). cbn [eff.after eff.out].
        split.
        -- intros Hok. exists sbomImageList. split; [reflexivity | exact Hok].
        -- intros (l & [= <-] & Hok). exact Hok.
      * rewrite (eff_facts.bind_err _ _ _ _ Hadd). cbn [eff.out].
        split; [discriminate|]. intros (l & Hl & _). discriminate.
    + erewrite eff_facts.bind_eq_err
        by (apply eff_facts.wrapErr_eq_err, Hretry).
      cbn [eff.after eff.out eff.world eff.trace].
      split; [rewrite !steps_app, components_steps; reflexivity|].
      split; [reflexivity|]. split; [reflexivity|]. split; [reflexivity|].
      intros ref. apply substring_append.
  - apply (eff_facts.quiet_split isResolver failedResolver).
    apply Assemble_Good.
Qed.


Lemma Assemble_pull_retry_witness :
  eff.out (Assemble sample twoComponents (sampleWorld 2)) = Ok tt
  /\ eff.out (Assemble sample twoComponents (sampleWorld 3))
     = Err (go.Wrap "unable to pull images after 3 attempts: " pullError)
  /\ substring "docker.io/library/a:1"
       (go.Error (go.Wrap "unable to pull images after 3 attempts: " pullError)).
Proof.
  pose (imgs := [sampleImage "a:1"; sampleImage "b:2"; sampleImage "a:1"; sampleImage "c:3"]).
  split; [|split].
  - destruct (Assemble_pull_retry sample twoComponents (sampleWorld 2)) as (_ & Hthird & _).
    destruct (Hthird imgs ∅ pullError (sampleWorld 1) pullError (sampleWorld 0)
                (Ok (map (fun i => images.mkImgInfo i (transform.Reference i) true)
                         (helpers.Unique imgs)))
                (sampleWorld 0))
      as (_ & Hout & _).
    + vm_compute. reflexivity.
    + discriminate.
    + vm_compute. reflexivity.
    + vm_compute. reflexivity.
    + vm_compute. reflexivity.
    + rewrite Hout. vm_compute. reflexivity.
  - destruct (Assemble_pull_retry sample twoComponents (sampleWorld 3)) as (_ & Hthird & _).
    destruct (Hthird imgs ∅ pullError (sampleWorld 2) pullError (sampleWorld 1)
                (Err pullError) (sampleWorld 0))
      as (_ & Hout & _).
    + vm_compute. reflexivity.
    + discriminate.
    + vm_compute. reflexivity.
    + vm_compute. reflexivity.
    + vm_compute. reflexivity.
    + exact Hout.
  - destruct (Assemble_pull_retry sample twoComponents (sampleWorld 3)) as (_ & Hthird & _).
    destruct (Hthird imgs ∅ pullError (sampleWorld 2) pullError (sampleWorld 1)
                (Err pullError) (sampleWorld 0))
      as (_ & _ & _ & _ & Hnames).
    + vm_compute. reflexivity.
    + discriminate.
    + vm_compute. reflexivity.
    + vm_compute. reflexivity.
    + vm_compute. reflexivity.
    + apply Hnames. exists "failed to pull image ", ", docker.io/library/b:2, docker.io/library/c:3".
      reflexivity.
Defined.

(** *** The stages of loading a package definition *)

(** X5.  [LoadPackageDefinition] runs its stages in order and stops at
    the first that fails: an error of [ComposeComponents] or of
    [processExtensions] is returned as it is, an error of
    [FillActiveTemplate] behind "unable to fill values in template: ",
    and the state is left where the failing stage left it.  An error of
    [setPackageMetadata] is only printed as a warning.  When the build
    is not differential, the extended package is returned with the
    warnings of the composition followed by those of the templating. *)
Theorem LoadPackageDefinition_stages
    {Env : Type} (X : Collaborators Env)
    (s : PackagerConfig.t * World Env)
    (configuredPkg : ZarfPackage.t) (err : option error)
    (sa : PackagerConfig.t * World Env)
    (Hmeta : setPackageMetadata X s = ((configuredPkg, err), sa)) :
  let warned := metadataWarning err in
  (forall e sb,
      ComposeComponents X configuredPkg sa = (Err e, sb) ->
      LoadPackageDefinition X s = eff.Outcome (Err e) sb warned)
  /\ (forall composedPkg composeWarnings sb,
        ComposeComponents X configuredPkg sa = (Ok (composedPkg, composeWarnings), sb) ->
        (forall e sc,
            FillActiveTemplate X composedPkg sb = (Err e, sc) ->
            LoadPackageDefinition X s
            = eff.Outcome (Err (go.Wrap "unable to fill values in template: " e)) sc warned)
        /\ (forall filledPkg templateWarnings sc,
              FillActiveTemplate X composedPkg sb = (Ok (filledPkg, templateWarnings), sc) ->
              (forall e s1,
                  processExtensions X filledPkg sc = (Err e, s1) ->
                  LoadPackageDefinition X s = eff.Outcome (Err e) s1 warned)
              /\ (forall extendedPkg s1,
                    processExtensions X filledPkg sc = (Ok extendedPkg, s1) ->
                    differentialOf s1 = false ->
                    LoadPackageDefinition X s
                    = eff.Outcome (Ok (extendedPkg, composeWarnings ++ templateWarnings))
                        s1 warned))).
Proof.
  intros warned.
  assert (Hhead : forall k : ZarfPackage.t -> @eff.M (PackagerConfig.t * World Env) Event
                                                (ZarfPackage.t * list string),
             (let* (configuredPkg, err) :=
                eff.lift (fun s => let '(r, s') := setPackageMetadata X s in (Ok r, s')) in
              run (match err with
                   | Some e => eff.emit (EvWarn (go.Error e))
                   | None => eff.ret tt
                   end) in
              k configuredPkg) s
             = eff.after warned (k configuredPkg sa)).
  { intros k.
    erewrite eff_facts.bind_eq_ok by (apply eff_facts.lift_eq; rewrite Hmeta; reflexivity).
    cbv beta iota.
    erewrite eff_facts.bind_eq_ok with (t := warned) by (destruct err; reflexivity).
    reflexivity. }
  unfold LoadPackageDefinition. rewrite Hhead. clear Hhead.
  split.
  - intros e sb Hcompose.
    erewrite eff_facts.bind_eq_err by (apply eff_facts.lift_eq, Hcompose).
    unfold eff.after. cbn [eff.out eff.world eff.trace]. rewrite app_nil_r. reflexivity.
  - intros composedPkg cw sb Hcompose.
    erewrite eff_facts.bind_eq_ok by (apply eff_facts.lift_eq, Hcompose).
    cbv beta iota. split.
    + intros e sc Hfill.
      erewrite eff_facts.bind_eq_err
        by (apply eff_facts.wrapErr_eq_err, eff_facts.lift_eq, Hfill).
      unfold eff.after. cbn [eff.out eff.world eff.trace]. rewrite app_nil_r. reflexivity.
    + intros filledPkg tw sc Hfill.
      erewrite eff_facts.bind_eq_ok
        by (apply eff_facts.wrapErr_eq_ok, eff_facts.lift_eq, Hfill).
      cbv beta iota. split.
      * intros e s1 Hext.
        erewrite eff_facts.bind_eq_err by (apply eff_facts.lift_eq, Hext).
        unfold eff.after. cbn [eff.out eff.world eff.trace]. rewrite app_nil_r. reflexivity.
      * intros extendedPkg s1 Hext Hflag.
        erewrite eff_facts.bind_eq_ok by (apply eff_facts.lift_eq, Hext).
        erewrite eff_facts.bind_eq_ok by reflexivity.
        unfold differentialOf in Hflag. rewrite Hflag.
        unfold eff.after. cbn [eff.out eff.world eff.trace]. rewrite app_nil_r. reflexivity.
Qed.

Lemma LoadPackageDefinition_stages_witness :
  LoadPackageDefinition sample (sampleConfig false "" "1.0.0" overlapping, mkWorld ∅ 0%nat)
  = eff.Outcome
      (Ok (PackagerConfig.Pkg (sampleConfig false "" "1.0.0" overlapping), []))
      (sampleConfig false "" "1.0.0" overlapping, mkWorld ∅ 0%nat) [].
Proof.
  pose proof (LoadPackageDefinition_stages sample
                (sampleConfig false "" "1.0.0" overlapping, mkWorld ∅ 0%nat)
                _ None _ eq_refl) as [_ Hcompose].
  destruct (Hcompose _ [] _ eq_refl) as [_ Hfill].
  destruct (Hfill _ [] _ eq_refl) as [_ Hext].
  exact (Hext _ _ eq_refl eq_refl).
Defined.

(** *** What assembling does and does not call *)

Section Calls.
Context {Env : Type} (X : Collaborators Env).

Local Abbreviation bySource := (creator.bySource X).
Local Abbreviation addError := (creator.addError X).

Lemma addComponent_bySource cfg c : eff.traceAll bySource (addComponent X cfg c).
Proof.
  unfold addComponent, addFile, materializeFile, sealFile, addDataInjection, addManifest,
    runActions, download, extract, copy, SHAsMatch, chmod.
  eff_facts.trace_cases; intros; cbn; try exact I; assumption.
Qed.

Lemma ofComponent_bySource (ev : Event) :
  ofComponent ev = true -> isImageWork ev = false /\ isSBOMWork ev = false.
Proof. destruct ev; cbn; intros; split; congruence. Qed.

Lemma assembleComponent_bySource cfg acc c :
  eff.traceAll bySource (assembleComponent X cfg acc c).
Proof.
  unfold assembleComponent. destruct acc as [imageList componentSBOMs].
  unfold onFailure, getFilesToSBOM, appendSBOMFiles, collectImages, runActions.
  eff_facts.trace_all; intros; try apply addComponent_bySource; exact I.
Qed.

Lemma Assemble_bySource cfg : eff.traceAll bySource (Assemble X cfg).
Proof.
  unfold Assemble, addPulled, catalog, doPull, sleep, warnf.
  eff_facts.trace_all; intros; try apply assembleComponent_bySource; exact I.
Qed.

Lemma Assemble_no_SBOM cfg :
  ZarfCreateOptions.SkipSBOM (PackagerConfig.CreateOpts cfg) = true ->
  eff.traceAll (fun ev => isSBOMWork ev = false) (Assemble X cfg).
Proof.
  intros Hskip. unfold Assemble, addPulled, catalog, doPull, sleep, warnf.
  rewrite Hskip.
  eff_facts.trace_all; intros;
    try (apply assembleComponent_events; intros ev Hev;
         apply ofComponent_bySource in Hev; tauto);
    reflexivity.
Qed.

Lemma Assemble_no_images cfg w :
  declaredImages (ZarfPackage.Components (PackagerConfig.Pkg cfg)) = [] ->
  Forall (fun ev => isImageWork ev = false) (eff.trace (Assemble X cfg w)).
Proof.
  intros Hnone.
  pose proof (eff_facts.traceAll_foldRange (fun ev => isImageWork ev = false)
                (fun _ => assembleComponent X cfg)
                (ZarfPackage.Components (PackagerConfig.Pkg cfg))
                (fun _ acc c =>
                   assembleComponent_events X _ cfg acc c
                     (fun ev Hev => proj1 (ofComponent_bySource ev Hev)))
                0%nat ([], ∅) w) as Hloop.
  unfold Assemble.
  destruct (eff.out (eff.foldRange (fun _ => assembleComponent X cfg) 0 ([], ∅)
                       (ZarfPackage.Components (PackagerConfig.Pkg cfg)) w))
    as [[imgs sb]|e] eqn:Hout.
  - rewrite (eff_facts.bind_ok _ _ _ _ Hout). cbn [eff.after eff.trace].
    apply Forall_app. split; [exact Hloop|].
    apply (components_out X) in Hout as (refs & Hrefs & ->).
    rewrite Hnone in Hrefs. injection Hrefs as <-.
    cbv beta iota. cbn [app helpers.Unique helpers.uniqueFrom length Nat.ltb Nat.leb].
    rewrite eff_facts.ret_bind.
    assert (Hcat : eff.traceAll (fun ev => isImageWork ev = false) (catalog X cfg sb []))
      by (unfold catalog; eff_facts.trace_all; intros; reflexivity).
    apply Hcat.
  - rewrite (eff_facts.bind_err _ _ _ _ Hout). exact Hloop.
Qed.

Lemma onFailure_eq cfg c w :
  onFailure X cfg (ZarfComponent.OnCreate c) w
  = eff.Outcome (Ok tt) (snd (failureActions X cfg c w)) [EvFailureActions X cfg c w].
Proof.
  unfold onFailure, runActions, EvFailureActions, failureActions,
    eff.bind, eff.attempt, eff.call, eff.ret.
  destruct (actions_Run X cfg _ _ w) as [r w']. reflexivity.
Qed.

Lemma assembleComponent_add_failed cfg acc c w e :
  eff.out (addComponent X cfg c w) = Err e ->
  assembleComponent X cfg acc c w
  = eff.Outcome (Err (addError c e))
      (snd (failureActions X cfg c (eff.world (addComponent X cfg c w))))
      (eff.trace (addComponent X cfg c w)
       ++ [EvFailureActions X cfg c (eff.world (addComponent X cfg c w))]).
Proof.
  intros Hadd. unfold assembleComponent. destruct acc as [imageList componentSBOMs].
  erewrite eff_facts.bind_eq_err; [reflexivity|].
  unfold eff.onError. rewrite Hadd, onFailure_eq. reflexivity.
Qed.

Lemma assembleComponent_success_failed cfg acc c w e w2 :
  eff.out (addComponent X cfg c w) = Ok tt ->
  actions_Run X cfg (ZarfComponentActionSet.Defaults (ZarfComponent.OnCreate c))
    (ZarfComponentActionSet.OnSuccess (ZarfComponent.OnCreate c))
    (eff.world (addComponent X cfg c w)) = (Err e, w2) ->
  assembleComponent X cfg acc c w
  = eff.Outcome (Err (successError e))
      (snd (failureActions X cfg c w2))
      (eff.trace (addComponent X cfg c w)
       ++ [EvActions (ZarfComponentActionSet.Defaults (ZarfComponent.OnCreate c))
             (ZarfComponentActionSet.OnSuccess (ZarfComponent.OnCreate c)) false;
           EvFailureActions X cfg c w2]).
Proof.
  intros Hadd Hsuccess. unfold assembleComponent. destruct acc as [imageList componentSBOMs].
  erewrite eff_facts.bind_eq_ok by (apply eff_facts.onError_ok, Hadd).
  erewrite eff_facts.bind_eq_err; [reflexivity|].
  unfold eff.onError, runActions.
  rewrite (eff_facts.call_eq _ _ _ _ _ Hsuccess). cbn [eff.out eff.world eff.trace].
  rewrite onFailure_eq. reflexivity.
Qed.

Lemma Assemble_reaches cfg w pre c post acc :
  ZarfPackage.Components (PackagerConfig.Pkg cfg) = pre ++ c :: post ->
  eff.out (eff.foldRange (fun _ => assembleComponent X cfg) 0 ([], ∅) pre w) = Ok acc ->
  forall e w' t,
    assembleComponent X cfg acc c
      (eff.world (eff.foldRange (fun _ => assembleComponent X cfg) 0 ([], ∅) pre w))
    = eff.Outcome (Err e) w' t ->
    Assemble X cfg w
    = eff.Outcome (Err e) w'
        (eff.trace (eff.foldRange (fun _ => assembleComponent X cfg) 0 ([], ∅) pre w) ++ t).
Proof.
  intros Hcomps Hpre e w' t Hc. unfold Assemble. rewrite Hcomps.
  erewrite eff_facts.bind_cong; [|apply eff_facts.foldRange_app|reflexivity].
  rewrite eff_facts.bind_bind.
  rewrite (eff_facts.bind_ok _ _ _ _ Hpre). cbn [eff.foldRange].
  rewrite eff_facts.bind_bind.
  erewrite eff_facts.bind_eq_err by exact Hc. reflexivity.
Qed.

End Calls.

(** X6.  Throughout an assembly, every download is of a source that
    [helpers.IsURL] accepts and every local copy is of a source that it
    refuses: a URL is never looked for on the local disk and a local
    path is never asked of the network. *)
Theorem Assemble_resolves_by_source
    {Env : Type} (X : Collaborators Env) (cfg : PackagerConfig.t) (w : World Env) :
  (forall src dst ok,
      In (EvDownload src dst ok) (eff.trace (Assemble X cfg w)) ->
      helpers_IsURL X src = true)
  /\ (forall src dst ok,
        In (EvCopy src dst ok) (eff.trace (Assemble X cfg w)) ->
        helpers_IsURL X src = false).
Proof.
  pose proof (Assemble_bySource X cfg w) as Hall. rewrite Forall_forall in Hall.
  split; intros src dst ok Hin; apply list_elem_of_In in Hin; exact (Hall _ Hin).
Qed.

Lemma Assemble_resolves_by_source_witness :
  helpers_IsURL sample "a.txt" = false.
Proof.
  apply (proj2 (Assemble_resolves_by_source sample
                  (sampleConfig false "" "1.0.0"
                     [sampleComponent "app" [sampleFile "" false] [] []])
                  (sampleWorld 0))
           "a.txt" "pkg/app/files/0/a.txt" true).
  vm_compute. right. right. left. reflexivity.
Defined.

(** X7.  [Assemble] does no work that is not asked for.  When no
    component declares an image, the image directory is not prepared,
    nothing is pulled, nothing is added to the layout and there is no
    pause.  When SBOMs are skipped, the SBOM directory is not prepared
    and no catalog is made. *)
Theorem Assemble_skips
    {Env : Type} (X : Collaborators Env) (cfg : PackagerConfig.t) (w : World Env) :
  (declaredImages (ZarfPackage.Components (PackagerConfig.Pkg cfg)) = [] ->
   Forall (fun ev => isImageWork ev = false) (eff.trace (Assemble X cfg w)))
  /\ (ZarfCreateOptions.SkipSBOM (PackagerConfig.CreateOpts cfg) = true ->
      Forall (fun ev => isSBOMWork ev = false) (eff.trace (Assemble X cfg w))).
Proof.
  split.
  - apply Assemble_no_images.
  - intros Hskip. apply (Assemble_no_SBOM X cfg Hskip w).
Qed.

Lemma Assemble_skips_witness :
  let cfg := sampleConfig false "" "1.0.0" [sampleComponent "app" [sampleFile "" false] [] []] in
  Forall (fun ev => isImageWork ev = false) (eff.trace (Assemble sample cfg (sampleWorld 0))).
Proof.
  intros cfg. apply (proj1 (Assemble_skips sample cfg (sampleWorld 0))). reflexivity.
Defined.

Section Bracket.
Context {Env : Type} (X : Collaborators Env).

(** The last step of [addComponent], when it succeeds. *)
Lemma afterActions_ok cfg onCreate (w : World Env) :
  eff.out (eff.wrapErr (go.Wrap "unable to run component after action: ")
             (runActions X cfg (ZarfComponentActionSet.Defaults onCreate)
                (ZarfComponentActionSet.After onCreate)) w) = Ok tt ->
  eff.trace (eff.wrapErr (go.Wrap "unable to run component after action: ")
               (runActions X cfg (ZarfComponentActionSet.Defaults onCreate)
                  (ZarfComponentActionSet.After onCreate)) w)
  = [EvActions (ZarfComponentActionSet.Defaults onCreate)
       (ZarfComponentActionSet.After onCreate) true].
Proof.
  unfold eff.wrapErr, runActions, eff.call.
  destruct (actions_Run X cfg _ _ w) as [[[]|e] w']; cbn; [reflexivity | discriminate].
Qed.

End Bracket.

(** X9.  The actions of a component bracket its content.  When the
    paths of the component cannot be created, nothing else is called;
    when a before action fails, [addComponent] returns its error behind
    "unable to run component before action: " and no chart, file, data
    injection, manifest or repository has been touched.  When
    [addComponent] returns without error, the before actions were its
    second call, the after actions its last, and no action ran in
    between. *)
Theorem addComponent_actions_bracket
    {Env : Type} (X : Collaborators Env) (cfg : PackagerConfig.t)
    (c : ZarfComponent.t) (w : World Env) :
  let onCreate := ZarfComponent.OnCreate c in
  let defaults := ZarfComponentActionSet.Defaults onCreate in
  let created := EvCreatePaths (ZarfComponent.Name c) in
  (forall e w1,
      Components_Create X c w = (Err e, w1) ->
      addComponent X cfg c w = eff.Outcome (Err e) w1 [created false])
  /\ (forall cp w1 e w2,
        Components_Create X c w = (Ok cp, w1) ->
        actions_Run X cfg defaults (ZarfComponentActionSet.Before onCreate) w1 = (Err e, w2) ->
        addComponent X cfg c w
        = eff.Outcome (Err (go.Wrap "unable to run component before action: " e)) w2
            [created true; EvActions defaults (ZarfComponentActionSet.Before onCreate) false])
  /\ (eff.out (addComponent X cfg c w) = Ok tt ->
      exists t,
        eff.trace (addComponent X cfg c w)
        = created true
          :: EvActions defaults (ZarfComponentActionSet.Before onCreate) true
          :: t ++ [EvActions defaults (ZarfComponentActionSet.After onCreate) true]
        /\ Forall (fun ev => isBracket ev = false) t).
Proof.
  intros onCreate defaults created.
  assert (Hfail : forall e w1,
             Components_Create X c w = (Err e, w1) ->
             addComponent X cfg c w = eff.Outcome (Err e) w1 [created false]).
  { intros e w1 Hcreate. unfold addComponent.
    erewrite eff_facts.bind_eq_err by (apply eff_facts.call_eq, Hcreate). reflexivity. }
  assert (Hbefore : forall cp w1 e w2,
             Components_Create X c w = (Ok cp, w1) ->
             actions_Run X cfg defaults (ZarfComponentActionSet.Before onCreate) w1
             = (Err e, w2) ->
             addComponent X cfg c w
             = eff.Outcome (Err (go.Wrap "unable to run component before action: " e)) w2
                 [created true;
                  EvActions defaults (ZarfComponentActionSet.Before onCreate) false]).
  { intros cp w1 e w2 Hcreate Hact. unfold addComponent.
    erewrite eff_facts.bind_eq_ok by (apply eff_facts.call_eq, Hcreate).
    erewrite eff_facts.bind_eq_err
      by (apply eff_facts.wrapErr_eq_err, eff_facts.call_eq, Hact).
    reflexivity. }
  split; [exact Hfail|]. split; [exact Hbefore|].
  intros Hok.
  destruct (Components_Create X c w) as [[cp|e] w1] eqn:Hcreate;
    [|rewrite (Hfail _ _ eq_refl) in Hok; discriminate].
  destruct (actions_Run X cfg defaults (ZarfComponentActionSet.Before onCreate) w1)
    as [[[]|e] w2] eqn:Hact;
    [|rewrite (Hbefore _ _ _ _ eq_refl Hact) in Hok; discriminate].
  revert Hok. unfold addComponent.
  erewrite eff_facts.bind_eq_ok by (apply eff_facts.call_eq, Hcreate).
  erewrite eff_facts.bind_eq_ok
    by (apply eff_facts.wrapErr_eq_ok, eff_facts.call_eq, Hact).
  cbn [eff.after eff.out eff.trace app go.is_ok]. intros Hok.
  apply eff_facts.bind_ok_split in Hok as ([] & _ & Hok & _ & ->).
  apply eff_facts.bind_ok_split in Hok as ([] & _ & Hok & _ & ->).
  apply eff_facts.bind_ok_split in Hok as ([] & _ & Hok & _ & ->).
  apply eff_facts.bind_ok_split in Hok as ([] & _ & Hok & _ & ->).
  apply eff_facts.bind_ok_split in Hok as ([] & _ & Hok & _ & ->).
  erewrite afterActions_ok by exact Hok.
  eexists. split.
  - fold created. rewrite !app_assoc. reflexivity.
  - repeat apply Forall_app_2.
    all: match goal with
         | |- Forall _ (eff.trace (?m ?w)) =>
             apply (fun H : eff.traceAll (fun ev => isBracket ev = false) m => H w)
         end.
    all: unfold addFile, materializeFile, sealFile, addDataInjection, addManifest,
           download, extract, copy, SHAsMatch, chmod.
    all: eff_facts.trace_all; intros; reflexivity.
Qed.

Lemma addComponent_actions_bracket_witness :
  exists t,
    eff.trace (addComponent sample (sampleConfig false "" "1.0.0" [])
                 (sampleComponent "app" [sampleFile "" false] [] []) (sampleWorld 0))
    = EvCreatePaths "app" true :: EvActions "" [] true :: t ++ [EvActions "" [] true]
    /\ Forall (fun ev => isBracket ev = false) t.
Proof.
  destruct (addComponent_actions_bracket sample (sampleConfig false "" "1.0.0" [])
              (sampleComponent "app" [sampleFile "" false] [] []) (sampleWorld 0))
    as (_ & _ & Hok).
  exact (Hok eq_refl).
Defined.

(** X8.  When a component cannot be added, its failure actions are run
    once, as the last call of the assembly, and [Assemble] returns the
    error behind "unable to add component" and the quoted name; what the
    failure actions themselves return is dropped.  The success actions
    are not run, and no later component, image or SBOM is touched.  When
    the component is added but its success actions fail, the failure
    actions follow them in the same way and the error is returned behind
    "unable to run component success action: ". *)
Theorem Assemble_component_failure
    {Env : Type} (X : Collaborators Env) (cfg : PackagerConfig.t) (w : World Env)
    (pre : list ZarfComponent.t) (c : ZarfComponent.t) (post : list ZarfComponent.t)
    (acc : list transform.Image * gmap string layout.ComponentSBOM)
    (Hcomps : ZarfPackage.Components (PackagerConfig.Pkg cfg) = pre ++ c :: post)
    (Hpre : eff.out (eff.foldRange (fun _ => assembleComponent X cfg) 0 ([], ∅) pre w)
            = Ok acc) :
  let before := eff.foldRange (fun _ => assembleComponent X cfg) 0 ([], ∅) pre w in
  let added := addComponent X cfg c (eff.world before) in
  let onCreate := ZarfComponent.OnCreate c in
  (forall e,
      eff.out added = Err e ->
      Assemble X cfg w
      = eff.Outcome (Err (addError X c e))
          (snd (failureActions X cfg c (eff.world added)))
          (eff.trace before ++ eff.trace added
           ++ [EvFailureActions X cfg c (eff.world added)]))
  /\ (forall e w2,
        eff.out added = Ok tt ->
        actions_Run X cfg (ZarfComponentActionSet.Defaults onCreate)
          (ZarfComponentActionSet.OnSuccess onCreate) (eff.world added) = (Err e, w2) ->
        Assemble X cfg w
        = eff.Outcome (Err (successError e))
            (snd (failureActions X cfg c w2))
            (eff.trace before ++ eff.trace added
             ++ [EvActions (ZarfComponentActionSet.Defaults onCreate)
                   (ZarfComponentActionSet.OnSuccess onCreate) false;
                 EvFailureActions X cfg c w2])).
Proof.
  intros before added onCreate. split.
  - intros e Hadd.
    apply (Assemble_reaches X cfg w pre c post acc Hcomps Hpre).
    apply assembleComponent_add_failed, Hadd.
  - intros e w2 Hadd Hsuccess.
    apply (Assemble_reaches X cfg w pre c post acc Hcomps Hpre).
    apply assembleComponent_success_failed; assumption.
Qed.

Lemma Assemble_component_failure_witness :
  let cfg := sampleConfig false "" "1.0.0"
               [sampleComponent "app" [] [] ["https://git.example/repo.git"]] in
  eff.out (Assemble sample cfg (sampleWorld 0))
  = Err (go.Wrap "unable to add component 'app': "
           (go.Wrap "unable to pull git repo https://git.example/repo.git: "
              (go.New "no route to https://git.example/repo.git"))).
Proof.
  intros cfg.
  destruct (Assemble_component_failure sample cfg (sampleWorld 0) []
              (sampleComponent "app" [] [] ["https://git.example/repo.git"]) []
              ([], ∅) eq_refl eq_refl) as [Hadd _].
  rewrite (Hadd _ eq_refl). reflexivity.
Defined.

(** *** Output *)

Section OutputFacts.
Context {Env : Type} (Y : OutputCollaborators Env).

Local Abbreviation sealed := (creator.sealed Y).

(** The loop over the components: its calls are archive calls, and when
    it succeeds every component was archived and the package is as it
    was. *)
Lemma archive_loop (components : list ZarfComponent.t) :
  forall (i : nat) (s : ZarfPackage.t * World Env),
    let loop :=
      eff.forRange
        (fun (_ : nat) component =>
           eff.wrapErr (fun e => go.New ("unable to archive component: " +:+ go.Error e))
             (eff.call (EvArchive component)
                (onWorld (Components_Archive Y component true))))
        i components s in
    Forall (fun ev => isWriteYaml ev = false) (eff.trace loop)
    /\ fst (eff.world loop) = fst s
    /\ (eff.out loop = Ok tt ->
        eff.trace loop = map (fun c => EvArchive c true) components).
Proof.
  induction components as [|c components IH]; intros i s; cbn [eff.forRange map].
  - cbn. repeat split. constructor.
  - destruct (Components_Archive Y c true (snd s)) as [[[]|e] w'] eqn:Harchive.
    + erewrite eff_facts.bind_eq_ok
        by (apply eff_facts.wrapErr_eq_ok, eff_facts.call_eq;
            unfold onWorld; rewrite Harchive; reflexivity).
      cbn [eff.after eff.out eff.world eff.trace go.is_ok app].
      destruct (IH (S i) (fst s, w')) as (Hall & Hpkg & Hok).
      cbv zeta in Hall, Hpkg, Hok. cbn [fst] in Hpkg.
      split; [constructor; [reflexivity | exact Hall]|]. split; [exact Hpkg|].
      intros H. rewrite (Hok H). reflexivity.
    + erewrite eff_facts.bind_eq_err
        by (apply eff_facts.wrapErr_eq_err, eff_facts.call_eq;
            unfold onWorld; rewrite Harchive; reflexivity).
      cbn [eff.out eff.world eff.trace go.is_ok fst].
      repeat split; [repeat constructor | discriminate].
Qed.

(** What follows the write of zarf.yaml writes no zarf.yaml. *)
Lemma after_write_no_write createOpts more :
  eff.traceAll (fun ev => isWriteYaml ev = false)
    (run signConfig Y more in
     run publishOrArchive Y createOpts more in
     outputSBOMs Y more).
Proof.
  unfold signConfig, publishOrArchive, outputSBOMs. cbv zeta.
  eff_facts.trace_all; intros; reflexivity.
Qed.

Local Abbreviation keepsPkg := (@creator.keepsPkg Env _).
Local Abbreviation MO := (@eff.M (ZarfPackage.t * World Env) OutputEvent).

Lemma keepsPkg_ret {A} (a : A) : keepsPkg (eff.ret a).
Proof. intros s. reflexivity. Qed.

Lemma keepsPkg_read {A} (f : ZarfPackage.t * World Env -> A) : keepsPkg (eff.read f).
Proof. intros s. reflexivity. Qed.

Lemma keepsPkg_emit (ev : OutputEvent) : keepsPkg (eff.emit ev).
Proof. intros s. reflexivity. Qed.

Lemma keepsPkg_onWorld {A} (ev : bool -> OutputEvent)
    (f : World Env -> result A * World Env) :
  keepsPkg (eff.call ev (onWorld f)).
Proof. intros s. unfold eff.call, onWorld. destruct (f (snd s)). reflexivity. Qed.

Lemma keepsPkg_pure {A} (ev : bool -> OutputEvent) (r : result A) :
  keepsPkg (eff.call ev (fun s => (r, s))).
Proof. intros s. reflexivity. Qed.

Lemma keepsPkg_update (ev : OutputEvent) (f : World Env -> World Env) :
  keepsPkg (eff.update ev (fun s => (fst s, f (snd s)))).
Proof. intros s. reflexivity. Qed.

Lemma keepsPkg_wrapErr {A} (wrap : error -> error) (m : MO A) :
  keepsPkg m -> keepsPkg (eff.wrapErr wrap m).
Proof.
  intros Hm s. unfold eff.wrapErr. specialize (Hm s).
  destruct (eff.out (m s)); exact Hm.
Qed.

Lemma keepsPkg_bind {A B} (m : MO A) (k : A -> MO B) :
  keepsPkg m -> (forall a, keepsPkg (k a)) -> keepsPkg (eff.bind m k).
Proof.
  intros Hm Hk s. unfold eff.bind. specialize (Hm s).
  destruct (eff.out (m s)) as [a|e]; cbn; [|exact Hm].
  rewrite Hk. exact Hm.
Qed.

Ltac keeps_pkg :=
  repeat
    (intros;
     match goal with
     | |- creator.keepsPkg (eff.bind _ _) => apply keepsPkg_bind
     | |- creator.keepsPkg (eff.wrapErr _ _) => apply keepsPkg_wrapErr
     | |- creator.keepsPkg (eff.ret _) => apply keepsPkg_ret
     | |- creator.keepsPkg (eff.read _) => apply keepsPkg_read
     | |- creator.keepsPkg (eff.emit _) => apply keepsPkg_emit
     | |- creator.keepsPkg (eff.call _ (onWorld _)) => apply keepsPkg_onWorld
     | |- creator.keepsPkg (eff.call _ _) => apply keepsPkg_pure
     | |- creator.keepsPkg (eff.update _ _) => apply keepsPkg_update
     | |- creator.keepsPkg (if ?b then _ else _) => destruct b
     end).

Lemma after_write_keepsPkg createOpts more :
  keepsPkg (run signConfig Y more in
            run publishOrArchive Y createOpts more in
            outputSBOMs Y more).
Proof.
  unfold signConfig, publishOrArchive, outputSBOMs. cbv zeta. keeps_pkg.
Qed.

Lemma sealed_eq checksumChecksum pkg :
  ZarfPackage.setBuild
    (ZarfBuildData.setMigrations
       [deprecated_ScriptsToActionsMigrated Y; deprecated_PluralizeSetVariable Y]
       (ZarfPackage.Build
          (ZarfPackage.setMetadata
             (ZarfMetadata.setAggregateChecksum checksumChecksum (ZarfPackage.Metadata pkg))
             pkg)))
    (ZarfPackage.setMetadata
       (ZarfMetadata.setAggregateChecksum checksumChecksum (ZarfPackage.Metadata pkg)) pkg)
  = sealed checksumChecksum pkg.
Proof. reflexivity. Qed.

(** [Output] from the write of zarf.yaml on. *)
Lemma Output_reaches_write createOpts more (s : ZarfPackage.t * World Env) :
  let loop := archiveComponents Y s in
  (exists e, eff.out (Output Y createOpts more s) = Err e
             /\ Forall (fun ev => isWriteYaml ev = false)
                  (eff.trace (Output Y createOpts more s))
             /\ fst (eff.world (Output Y createOpts more s)) = fst s)
  \/ (exists checksumChecksum w2 ok rest,
        generateChecksums Y (snd (eff.world loop)) = (Ok checksumChecksum, w2)
        /\ ok = go.is_ok (fst (utils_WriteYaml Y (dst_ZarfYAML Y)
                                 (sealed checksumChecksum (fst s)) (os.perm 4 0 0) w2))
        /\ eff.trace (Output Y createOpts more s)
           = map (fun c => EvArchive c true) (ZarfPackage.Components (fst s))
             ++ EvChecksums true
             :: EvWriteYaml (dst_ZarfYAML Y) (sealed checksumChecksum (fst s)) (os.perm 4 0 0) ok
             :: rest
        /\ Forall (fun ev => isWriteYaml ev = false) rest
        /\ fst (eff.world (Output Y createOpts more s)) = sealed checksumChecksum (fst s)).
Proof.
  intros loop. unfold Output.
  assert (Hloop : loop
                  = eff.forRange
                      (fun (_ : nat) component =>
                         eff.wrapErr
                           (fun e => go.New ("unable to archive component: " +:+ go.Error e))
                           (eff.call (EvArchive component)
                              (onWorld (Components_Archive Y component true))))
                      0%nat (ZarfPackage.Components (fst s)) s).
  { unfold loop, archiveComponents. rewrite eff_facts.bind_ok with (a := ZarfPackage.Components (fst s)) by reflexivity.
    apply eff_facts.after_nil. }
  destruct (archive_loop (ZarfPackage.Components (fst s)) 0%nat s) as (Hall & Hpkg & Hok).
  cbv zeta in Hall, Hpkg, Hok. rewrite <- Hloop in Hall, Hpkg, Hok. clear Hloop.
  destruct (eff.out loop) as [[]|e] eqn:Hout.
  2:{ left. exists e. rewrite (eff_facts.bind_err _ _ _ _ Hout). cbn. auto. }
  rewrite (eff_facts.bind_ok _ _ _ _ Hout). fold loop. rewrite (Hok eq_refl).
  set (s1 := eff.world loop) in *.
  unfold writeConfig.
  destruct (generateChecksums Y (snd s1)) as [[checksumChecksum|e] w2] eqn:Hsum.
  2:{ left. eexists.
      erewrite eff_facts.bind_eq_err
        by (apply eff_facts.bind_eq_err, eff_facts.wrapErr_eq_err, eff_facts.call_eq;
            unfold onWorld; rewrite Hsum; reflexivity).
      cbn [eff.after eff.out eff.world eff.trace go.is_ok fst]. split; [reflexivity|].
      split; [|exact Hpkg].
      apply Forall_app. split; [|repeat constructor].
      apply List.Forall_map, Forall_true. reflexivity. }
  right. exists checksumChecksum, w2.
  rewrite eff_facts.bind_bind.
  erewrite eff_facts.bind_eq_ok
    by (apply eff_facts.wrapErr_eq_ok, eff_facts.call_eq;
        unfold onWorld; rewrite Hsum; reflexivity).
  rewrite eff_facts.bind_bind. erewrite eff_facts.bind_eq_ok by reflexivity.
  rewrite eff_facts.bind_bind. erewrite eff_facts.bind_eq_ok by reflexivity.
  rewrite eff_facts.bind_bind. erewrite eff_facts.bind_eq_ok by reflexivity.
  cbn [fst snd eff.after app]. rewrite Hpkg, sealed_eq.
  set (pkg := sealed checksumChecksum (fst s)).
  destruct (utils_WriteYaml Y (dst_ZarfYAML Y) pkg (os.perm 4 0 0) w2) as [[[]|e] w3] eqn:Hw.
  - erewrite eff_facts.bind_eq_ok
      by (apply eff_facts.wrapErr_eq_ok, eff_facts.call_eq;
          unfold onWorld; cbn [snd fst]; rewrite Hw; reflexivity).
    eexists true, _.
    cbn [eff.after eff.out eff.world eff.trace go.is_ok app].
    split; [reflexivity|]. split; [reflexivity|]. split; [reflexivity|]. split.
    + apply after_write_no_write.
    + rewrite after_write_keepsPkg. reflexivity.
  - erewrite eff_facts.bind_eq_err
      by (apply eff_facts.wrapErr_eq_err, eff_facts.call_eq;
          unfold onWorld; cbn [snd fst]; rewrite Hw; reflexivity).
    exists false, [].
    cbn [eff.after eff.out eff.world eff.trace go.is_ok app fst].
    split; [reflexivity|]. split; [reflexivity|].
    split; [reflexivity|]. split; [constructor | reflexivity].
Qed.

Lemma setPkg_trace (P : OutputEvent -> Prop) (f : ZarfPackage.t -> ZarfPackage.t) :
  eff.traceAll P (@setPkg Env f).
Proof. intros s. constructor. Qed.

Lemma Output_unsigned createOpts more :
  SigningKeyPath more = "" ->
  eff.traceAll (fun ev => isSign ev = false) (Output Y createOpts more).
Proof.
  intros Hkey.
  unfold Output, archiveComponents, writeConfig, signConfig, publishOrArchive, outputSBOMs.
  cbv zeta. rewrite Hkey. cbn [negb String.eqb].
  eff_facts.trace_all; intros; try apply setPkg_trace; reflexivity.
Qed.

Lemma Output_published createOpts more :
  helpers_IsOCIURL Y (ZarfCreateOptions.Output createOpts) = true ->
  eff.traceAll (fun ev => isTarball ev = false) (Output Y createOpts more).
Proof.
  intros Hoci.
  unfold Output, archiveComponents, writeConfig, signConfig, publishOrArchive, outputSBOMs.
  cbv zeta. rewrite Hoci. cbv iota.
  eff_facts.trace_all; intros; try apply setPkg_trace; reflexivity.
Qed.

Lemma Output_archived createOpts more :
  helpers_IsOCIURL Y (ZarfCreateOptions.Output createOpts) = false ->
  eff.traceAll (fun ev => isPublishing ev = false) (Output Y createOpts more).
Proof.
  intros Hoci.
  unfold Output, archiveComponents, writeConfig, signConfig, publishOrArchive, outputSBOMs.
  cbv zeta. rewrite Hoci. cbv iota.
  eff_facts.trace_all; intros; try apply setPkg_trace; reflexivity.
Qed.

Lemma Output_without_SBOMs createOpts more :
  ViewSBOM more = false -> SBOMOutputDir more = "" ->
  eff.traceAll (fun ev => isSBOMOutput ev = false) (Output Y createOpts more).
Proof.
  intros Hview Hdir.
  unfold Output, archiveComponents, writeConfig, signConfig, publishOrArchive, outputSBOMs.
  cbv zeta. rewrite Hview, Hdir. cbn [orb negb String.eqb].
  eff_facts.trace_all; intros; try apply setPkg_trace; reflexivity.
Qed.

End OutputFacts.

(** X10.  Whenever [Output] writes zarf.yaml, it writes to the layout's
    zarf.yaml path with mode 0400, and what it writes is the package with
    the aggregate checksum set to what [generateChecksums] returned once
    the components were archived, the two migrations recorded, and
    nothing else changed.  Every component has been archived and the
    checksums generated before, and these are the only calls before the
    write; whatever else [Output] does (signing, publishing, the
    tarball, the SBOMs) comes after it and writes no second zarf.yaml.
    The configuration is left holding the package that was written. *)
Theorem Output_writes_sealed_config
    {Env : Type} (Y : OutputCollaborators Env)
    (createOpts : ZarfCreateOptions.t) (more : OutputOptions)
    (s : ZarfPackage.t * World Env)
    (path : string) (pkg : ZarfPackage.t) (mode : Z) (ok : bool)
    (Hwrite : In (EvWriteYaml path pkg mode ok) (eff.trace (Output Y createOpts more s))) :
  path = dst_ZarfYAML Y
  /\ mode = 4 * 64 + 0 * 8 + 0
  /\ (exists checksumChecksum w2,
        generateChecksums Y (snd (eff.world (archiveComponents Y s)))
        = (Ok checksumChecksum, w2)
        /\ ok = go.is_ok (fst (utils_WriteYaml Y path pkg mode w2))
        /\ pkg = sealed Y checksumChecksum (fst s)
        /\ ZarfMetadata.AggregateChecksum (ZarfPackage.Metadata pkg) = checksumChecksum)
  /\ (exists rest,
        eff.trace (Output Y createOpts more s)
        = map (fun c => EvArchive c true) (ZarfPackage.Components (fst s))
          ++ EvChecksums true :: EvWriteYaml path pkg mode ok :: rest
        /\ Forall (fun ev => isWriteYaml ev = false) rest)
  /\ fst (eff.world (Output Y createOpts more s)) = pkg.
Proof.
  destruct (Output_reaches_write Y createOpts more s)
    as [(e & _ & Hnone & _) | (sum & w2 & ok' & rest & Hsum & Hok & Htrace & Hrest & Hpkg)].
  - rewrite Forall_forall in Hnone. apply list_elem_of_In, Hnone in Hwrite. discriminate.
  - rewrite Htrace in Hwrite. apply in_app_or in Hwrite as [Hin|Hin].
    { apply in_map_iff in Hin as (c & [=] & _). }
    destruct Hin as [[=]|[Heq|Hin]].
    + injection Heq as <- <- <- <-.
      split; [reflexivity|]. split; [reflexivity|].
      split; [exists sum, w2; repeat split; [exact Hsum | exact Hok]|].
      split; [exists rest; split; [exact Htrace | exact Hrest] | exact Hpkg].
    + rewrite Forall_forall in Hrest. apply list_elem_of_In, Hrest in Hin. discriminate.
Qed.

Lemma Output_writes_sealed_config_witness :
  let pkg := PackagerConfig.Pkg twoComponents in
  fst (eff.world (Output sampleOutput (PackagerConfig.CreateOpts twoComponents)
                    sampleOutputOptions (pkg, sampleWorld 0)))
  = sealed sampleOutput "cafe" pkg.
Proof.
  intros pkg.
  destruct (Output_writes_sealed_config sampleOutput (PackagerConfig.CreateOpts twoComponents)
              sampleOutputOptions (pkg, sampleWorld 0)
              "pkg/zarf.yaml" (sealed sampleOutput "cafe" pkg) 256 true)
    as (_ & _ & _ & _ & Hpkg).
  - vm_compute. right. right. right. left. reflexivity.
  - exact Hpkg.
Defined.

(** X11.  [Output] does only what the options ask for.  Without a
    signing key nothing is signed.  When the output is an OCI URL the
    package is published and no local tarball is removed or made; when
    it is not, a tarball is made and nothing is resolved, published or
    advertised.  With the SBOM view off and no SBOM output directory,
    the SBOMs are neither unarchived, nor written out, nor shown. *)
Theorem Output_only_what_is_asked
    {Env : Type} (Y : OutputCollaborators Env)
    (createOpts : ZarfCreateOptions.t) (more : OutputOptions)
    (s : ZarfPackage.t * World Env) :
  let trace := eff.trace (Output Y createOpts more s) in
  (SigningKeyPath more = "" -> Forall (fun ev => isSign ev = false) trace)
  /\ (helpers_IsOCIURL Y (ZarfCreateOptions.Output createOpts) = true ->
      Forall (fun ev => isTarball ev = false) trace)
  /\ (helpers_IsOCIURL Y (ZarfCreateOptions.Output createOpts) = false ->
      Forall (fun ev => isPublishing ev = false) trace)
  /\ (ViewSBOM more = false -> SBOMOutputDir more = "" ->
      Forall (fun ev => isSBOMOutput ev = false) trace).
Proof.
  intros trace. subst trace. repeat split; intros.
  - apply Output_unsigned; assumption.
  - apply Output_published; assumption.
  - apply Output_archived; assumption.
  - apply Output_without_SBOMs; assumption.
Qed.

Lemma Output_only_what_is_asked_witness :
  Forall (fun ev => isPublishing ev = false)
    (eff.trace (Output sampleOutput (PackagerConfig.CreateOpts twoComponents)
                  sampleOutputOptions (PackagerConfig.Pkg twoComponents, sampleWorld 0))).
Proof.
  destruct (Output_only_what_is_asked sampleOutput (PackagerConfig.CreateOpts twoComponents)
              sampleOutputOptions (PackagerConfig.Pkg twoComponents, sampleWorld 0))
    as (_ & _ & Hlocal & _).
  apply Hlocal. reflexivity.
Defined.

End creator_spec.

(** ** Pulling a package from a registry *)

Module packager_spec.

Import packager.

Section Pull.
Context {Net : Type} (X : Collaborators Net).

Local Abbreviation pathOf := (packager.pathOf X).
Local Abbreviation present := (packager.present X).
Local Abbreviation prepared := (packager.prepared X).

Lemma pullLayer_skip repo out layer w short :
  shortDigest X layer = Ok short ->
  present w out layer = true ->
  pullLayer X repo out layer w = eff.Outcome (Ok tt) w [].
Proof.
  intros Hshort Hp. unfold pullLayer, present, pathOf in *.
  erewrite eff_facts.bind_eq_ok by reflexivity.
  rewrite Hp, Hshort. reflexivity.
Qed.

(** A digest whose first twelve characters cannot be taken stops the
    pull at the layer, present or not, before any call. *)
Lemma pullLayer_panics repo out layer w e :
  shortDigest X layer = Err e ->
  pullLayer X repo out layer w = eff.Outcome (Err e) w [].
Proof.
  intros Hshort. unfold pullLayer.
  erewrite eff_facts.bind_eq_ok by reflexivity.
  rewrite Hshort. cbn [eff.after app].
  match goal with |- context [if ?b then _ else _] => destruct b end; reflexivity.
Qed.

Lemma pullLayer_fetch_failed repo out layer w short e w1 :
  shortDigest X layer = Ok short ->
  present w out layer = false ->
  content_FetchAll X repo layer w = (Err e, w1) ->
  pullLayer X repo out layer w = eff.Outcome (Err e) w1 [EvFetch layer false].
Proof.
  intros Hshort Hp Hfetch. unfold pullLayer, present, pathOf in *.
  erewrite eff_facts.bind_eq_ok by reflexivity.
  rewrite Hp, Hshort. cbn [eff.after app].
  erewrite eff_facts.bind_eq_ok by reflexivity. cbn [eff.after app].
  erewrite eff_facts.bind_eq_err; [reflexivity|].
  unfold eff.call. rewrite Hfetch. reflexivity.
Qed.

Lemma pullLayer_fetched repo out layer w short bytes w1 :
  shortDigest X layer = Ok short ->
  present w out layer = false ->
  content_FetchAll X repo layer w = (Ok bytes, w1) ->
  os.IsDir (fs (prepared out layer w1)) (pathOf out layer) = false ->
  os_canCreate X (prepared out layer w1) (pathOf out layer) = true ->
  (forall w2, os_canWrite X w2 (pathOf out layer) bytes = true) ->
  let done := pullLayer X repo out layer w in
  eff.out done = Ok tt
  /\ (exists mode, fs (eff.world done) !! pathOf out layer = Some (os.File bytes mode))
  /\ (forall p, p <> pathOf out layer ->
                fs (eff.world done) !! p = fs (prepared out layer w1) !! p)
  /\ net (eff.world done) = net w1
  /\ exists t, eff.trace done
               = EvFetch layer true :: t ++ [EvCreate (pathOf out layer) true;
                                             EvWrite (pathOf out layer) bytes true].
Proof.
  intros Hshort Hp Hfetch Hdir Hcreate Hwrite done. subst done.
  unfold pullLayer, present in *. fold (pathOf out layer) in *.
  erewrite eff_facts.bind_eq_ok by reflexivity.
  rewrite Hp, Hshort.
  erewrite eff_facts.bind_eq_ok by reflexivity.
  erewrite eff_facts.bind_eq_ok by (apply eff_facts.call_eq, Hfetch).
  assert (Hprep : exists t,
             (if negb (String.eqb (filepath_Dir X (pathOf out layer)) ".")
              then eff.update (EvMkdirAll (filepath_Dir X (pathOf out layer)) (os.perm 7 5 5))
                     (fun w => setFS (os_MkdirAll X (filepath_Dir X (pathOf out layer))
                                        (os.perm 7 5 5) (fs w)) w)
              else eff.ret tt) w1
             = eff.Outcome (Ok tt) (prepared out layer w1) t).
  { unfold prepared. destruct (negb _); eexists; reflexivity. }
  destruct Hprep as [t Hprep].
  erewrite eff_facts.bind_eq_ok by exact Hprep.
  set (w2 := prepared out layer w1) in *.
  unfold os.IsDir in Hdir.
  assert (Hcr : exists mode,
             os.Create (os_canCreate X w2 (pathOf out layer)) (os_newFileMode X)
               (pathOf out layer) (fs w2)
             = Ok (<[pathOf out layer := os.File "" mode]> (fs w2))).
  { unfold os.Create. rewrite Hcreate.
    destruct (fs w2 !! pathOf out layer) as [[c m|m]|]; [| discriminate |]; eexists; reflexivity. }
  destruct Hcr as [mode Hcr].
  erewrite eff_facts.bind_eq_ok by (apply eff_facts.call_eq; rewrite Hcr; reflexivity).
  set (w3 := setFS (<[pathOf out layer := os.File "" mode]> (fs w2)) w2).
  assert (Hwr : os.Write (os_canWrite X w3 (pathOf out layer) bytes) (pathOf out layer) bytes
                  (fs w3)
                = Ok (<[pathOf out layer := os.File bytes mode]> (fs w3))).
  { unfold os.Write. rewrite Hwrite. unfold w3. cbn [fs setFS].
    rewrite lookup_insert_eq. reflexivity. }
  erewrite eff_facts.bind_eq_ok by (apply eff_facts.call_eq; rewrite Hwr; reflexivity).
  cbn [eff.after eff.out eff.world eff.trace fs net setFS go.is_ok app printed eff.ret].
  split; [reflexivity|]. split; [exists mode; apply lookup_insert_eq|].
  split; [|split].
  - intros p Hne. rewrite lookup_insert_ne by congruence.
    unfold w3. cbn [fs setFS]. rewrite lookup_insert_ne by congruence. reflexivity.
  - clear. subst w3 w2. unfold prepared. cbn [net setFS].
    destruct (negb _); reflexivity.
  - exists t. reflexivity.
Qed.

Lemma pull_reaches ref out w repo pre layer post :
  eff.out (resolveLayers X ref out w) = Ok (repo, pre ++ layer :: post) ->
  eff.out (eff.forRange (fun _ l => pullLayer X repo out l) 0 pre
             (eff.world (resolveLayers X ref out w))) = Ok tt ->
  pullOCIZarfPackage X ref out w
  = eff.after
      (eff.trace (resolveLayers X ref out w)
       ++ eff.trace (eff.forRange (fun _ l => pullLayer X repo out l) 0 pre
                       (eff.world (resolveLayers X ref out w))))
      (eff.bind (pullLayer X repo out layer)
         (fun _ => eff.forRange (fun _ l => pullLayer X repo out l) (S (length pre)) post)
         (eff.world (eff.forRange (fun _ l => pullLayer X repo out l) 0 pre
                       (eff.world (resolveLayers X ref out w))))).
Proof.
  intros Hresolve Hpre. unfold pullOCIZarfPackage.
  rewrite (eff_facts.bind_ok _ _ _ _ Hresolve). cbv beta iota.
  rewrite eff_facts.forRange_app, (eff_facts.bind_ok _ _ _ _ Hpre).
  unfold eff.after. cbn [eff.out eff.world eff.trace eff.forRange].
  rewrite app_assoc. reflexivity.
Qed.

End Pull.

(** [afterSeparator] finds the first colon. *)
Lemma afterSeparator_append (algorithm encoded : string) :
  afterSeparator algorithm = None ->
  afterSeparator (algorithm +:+ ":" +:+ encoded) = Some encoded.
Proof.
  induction algorithm as [|c algorithm IH]; intros Hnone; [reflexivity|].
  change (afterSeparator (String c (algorithm +:+ ":" +:+ encoded)) = Some encoded).
  cbn [afterSeparator] in *.
  destruct (Ascii.eqb c ":"); [discriminate|]. apply IH, Hnone.
Qed.




(** *** The media type of a layer *)

Lemma list_ascii_of_string_app (a b : string) :
  list_ascii_of_string (a +:+ b) = list_ascii_of_string a ++ list_ascii_of_string b.
Proof.
  induction a as [|c a IH]; [reflexivity|].
  change (c :: list_ascii_of_string (a +:+ b) = c :: (list_ascii_of_string a ++ list_ascii_of_string b)).
  f_equal. exact IH.
Qed.

Lemma string_append_nil (a : string) : a +:+ "" = a.
Proof.
  induction a as [|ch a IH]; [reflexivity|].
  change (String ch (a +:+ "") = String ch a). f_equal. exact IH.
Qed.

(** The loop passes over bytes that are neither dots nor slashes. *)
Lemma extLoop_plain (b : string) :
  plainName b ->
  forall before suffix,
    go.extLoop (rev (list_ascii_of_string b) ++ before) suffix
    = go.extLoop before (b +:+ suffix).
Proof.
  unfold plainName. induction b as [|c b IH]; intros Hplain before suffix; [reflexivity|].
  cbn [list_ascii_of_string rev] in *. apply Forall_cons in Hplain as [[Hdot Hslash] Hplain].
  rewrite <- app_assoc. cbn [app]. rewrite (IH Hplain).
  cbn [go.extLoop].
  destruct (Ascii.eqb_spec c "/"); [contradiction|].
  destruct (Ascii.eqb_spec c "."); [contradiction|].
  reflexivity.
Qed.

Lemma Ext_of_extension (name ext : string) :
  plainName ext -> go.filepath_Ext (name +:+ "." +:+ ext) = "." +:+ ext.
Proof.
  intros Hplain. unfold go.filepath_Ext.
  rewrite !list_ascii_of_string_app, !rev_app_distr.
  rewrite <- app_assoc, (extLoop_plain ext Hplain), string_append_nil. reflexivity.
Qed.

Lemma Ext_without_dot (dir base : string) :
  plainName base -> dir = "" \/ (exists d, dir = d +:+ "/") ->
  go.filepath_Ext (dir +:+ base) = "".
Proof.
  intros Hplain Hdir. unfold go.filepath_Ext.
  rewrite list_ascii_of_string_app, rev_app_distr, (extLoop_plain base Hplain).
  rewrite string_append_nil.
  destruct Hdir as [->|[d ->]]; [reflexivity|].
  rewrite list_ascii_of_string_app, rev_app_distr. reflexivity.
Qed.

Ltac plain_name := unfold plainName; cbn; repeat constructor; discriminate.

(** X1.  The media type of a layer is decided by the extension of the
    last path element alone: whatever comes before the last dot does
    not matter.  Names ending in .zst, .gz, .yaml, .json and .txt get
    the tar+zstd, tar+gzip, yaml, json and txt types; a name whose last
    element has no dot, and every other extension, gets the unknown
    type; no other media type is ever returned. *)
Theorem parseZarfLayerMediaType_by_extension :
  (forall name ext,
      plainName ext ->
      parseZarfLayerMediaType (name +:+ "." +:+ ext)
      = parseZarfLayerMediaType ("." +:+ ext))
  /\ (forall name,
        parseZarfLayerMediaType (name +:+ ".zst") = ZarfLayerMediaTypeTarZstd
        /\ parseZarfLayerMediaType (name +:+ ".gz") = ZarfLayerMediaTypeTarGzip
        /\ parseZarfLayerMediaType (name +:+ ".yaml") = ZarfLayerMediaTypeYaml
        /\ parseZarfLayerMediaType (name +:+ ".json") = ZarfLayerMediaTypeJSON
        /\ parseZarfLayerMediaType (name +:+ ".txt") = ZarfLayerMediaTypeTxt)
  /\ (forall dir base,
        plainName base -> dir = "" \/ (exists d, dir = d +:+ "/") ->
        parseZarfLayerMediaType (dir +:+ base) = ZarfLayerMediaTypeUnknown)
  /\ (forall name ext,
        plainName ext ->
        ~ In ext ["zst"; "gz"; "yaml"; "json"; "txt"] ->
        parseZarfLayerMediaType (name +:+ "." +:+ ext) = ZarfLayerMediaTypeUnknown)
  /\ (forall filename, In (parseZarfLayerMediaType filename) layerMediaTypes).
Proof.
  assert (Hext : forall name ext, plainName ext ->
                   parseZarfLayerMediaType (name +:+ "." +:+ ext)
                   = parseZarfLayerMediaType ("." +:+ ext)).
  { intros name ext Hplain. unfold parseZarfLayerMediaType.
    rewrite (Ext_of_extension name ext Hplain).
    pose proof (Ext_of_extension "" ext Hplain) as Hbare.
    change ("" +:+ "." +:+ ext) with ("." +:+ ext) in Hbare.
    rewrite Hbare. reflexivity. }
  split; [exact Hext|]. split; [|split; [|split]].
  - intros name. repeat split.
    + apply (Hext name "zst"). plain_name.
    + apply (Hext name "gz"). plain_name.
    + apply (Hext name "yaml"). plain_name.
    + apply (Hext name "json"). plain_name.
    + apply (Hext name "txt"). plain_name.
  - intros dir base Hplain Hdir. unfold parseZarfLayerMediaType.
    rewrite (Ext_without_dot dir base Hplain Hdir). reflexivity.
  - intros name ext Hplain Hother. unfold parseZarfLayerMediaType.
    rewrite (Ext_of_extension name ext Hplain).
    change ("." +:+ ext) with (String "." ext). cbn [String.eqb Ascii.eqb Bool.eqb].
    repeat match goal with
           | |- context [String.eqb ext ?k] =>
               destruct (String.eqb_spec ext k) as [->|_];
                 [exfalso; apply Hother; cbn; tauto|]
           end.
    reflexivity.
  - intros filename. unfold parseZarfLayerMediaType, layerMediaTypes.
    repeat match goal with
           | |- context [if ?b then _ else _] => destruct b
           end; cbn; tauto.
Qed.

Lemma parseZarfLayerMediaType_by_extension_witness :
  parseZarfLayerMediaType "components/app.tar.zst" = ZarfLayerMediaTypeTarZstd
  /\ parseZarfLayerMediaType "images.d/index" = ZarfLayerMediaTypeUnknown
  /\ parseZarfLayerMediaType "zarf.YAML" = ZarfLayerMediaTypeUnknown.
Proof.
  destruct parseZarfLayerMediaType_by_extension as (Hext & _ & Hplain & Hother & _).
  split; [|split].
  - change (parseZarfLayerMediaType ("components/app.tar" +:+ "." +:+ "zst")
            = ZarfLayerMediaTypeTarZstd).
    rewrite (Hext "components/app.tar" "zst"); [reflexivity | plain_name].
  - apply (Hplain "images.d/" "index"); [plain_name | right; exists "images.d"; reflexivity].
  - apply (Hother "zarf" "YAML"); [plain_name | cbn; intuition discriminate].
Defined.

(** *** Pulling into a directory that already holds layers *)

Section Again.
Context {Net : Type} (X : Collaborators Net).

Local Abbreviation pathOf := (packager.pathOf X).
Local Abbreviation present := (packager.present X).
Local Abbreviation prepared := (packager.prepared X).

Lemma pull_loop_present repo out layers :
  forall i w,
    Forall (fun l => go.is_ok (shortDigest X l) = true) layers ->
    Forall (fun l => present w out l = true) layers ->
    eff.forRange (fun _ l => pullLayer X repo out l) i layers w = eff.Outcome (Ok tt) w [].
Proof.
  induction layers as [|l layers IH]; intros i w Hdigests Hall; [reflexivity|].
  apply Forall_cons in Hall as [Hl Hall].
  apply Forall_cons in Hdigests as [Hd Hdigests]. cbn [eff.forRange].
  destruct (shortDigest X l) as [short|e] eqn:Hshort; [|discriminate].
  erewrite eff_facts.bind_eq_ok by (apply (pullLayer_skip X repo out l w short Hshort), Hl).
  rewrite (IH _ _ Hdigests Hall). reflexivity.
Qed.

(** The calls before the loop: the directory, the reference, the
    manifest. *)
Lemma resolveLayers_trace ref out w repo layers :
  eff.out (resolveLayers X ref out w) = Ok (repo, layers) ->
  exists descriptor,
    eff.trace (resolveLayers X ref out w)
    = [EvMkdir out (os.perm 7 5 5); EvResolve (Ref ref) true; EvFetch descriptor true].
Proof.
  unfold resolveLayers, orasRemote, eff.bind, eff.update, eff.call, eff.lift, eff.fail, eff.ret.
  cbn.
  repeat match goal with
         | |- context [match ?x with _ => _ end] =>
             lazymatch x with
             | context [match _ with _ => _ end] => fail
             | _ => destruct x eqn:?
             end; cbn
         end; try discriminate; intros _; eauto.
Qed.

(** X2.  A pull into a directory that already holds every layer of the
    manifest at the size its descriptor declares, each layer with a
    digest whose first twelve characters after the colon can be taken,
    makes three calls (the output directory, the reference, the
    manifest) and then returns without error: no layer is fetched, no
    file is created or written, and the disk is left as it was when the
    layers were known. *)
Theorem pull_of_complete_directory
    (ref : Reference) (out : string) (w0 : World Net) (repo : Repo)
    (layers : list Descriptor)
    (Hresolve : eff.out (resolveLayers X ref out w0) = Ok (repo, layers))
    (Hdigests : Forall (fun l => go.is_ok (shortDigest X l) = true) layers)
    (Hall : Forall (fun l => present (eff.world (resolveLayers X ref out w0)) out l = true)
              layers) :
  eff.out (pullOCIZarfPackage X ref out w0) = Ok tt
  /\ eff.world (pullOCIZarfPackage X ref out w0) = eff.world (resolveLayers X ref out w0)
  /\ exists descriptor,
       eff.trace (pullOCIZarfPackage X ref out w0)
       = [EvMkdir out (os.perm 7 5 5); EvResolve (Ref ref) true; EvFetch descriptor true].
Proof.
  destruct (resolveLayers_trace _ _ _ _ _ Hresolve) as [descriptor Htrace].
  unfold pullOCIZarfPackage.
  rewrite (eff_facts.bind_ok _ _ _ _ Hresolve). cbv beta iota.
  rewrite (pull_loop_present _ _ _ _ _ Hdigests Hall).
  cbn [eff.after eff.out eff.world eff.trace]. rewrite app_nil_r.
  split; [reflexivity|]. split; [reflexivity|]. exists descriptor. exact Htrace.
Qed.

(** X3.  A layer that was missing and has been fetched and written is
    there at the size of its descriptor, so that the next pull skips it
    without any call.  This holds for a layer with a digest whose first
    twelve characters after the colon can be taken, a registry that
    delivers as many bytes as the descriptor declares, and a file that
    can be created and written. *)
Theorem pullLayer_resumes
    (repo : Repo) (out : string) (layer : Descriptor) (w : World Net)
    (short bytes : string) (w1 : World Net)
    (Hshort : shortDigest X layer = Ok short)
    (Habsent : present w out layer = false)
    (Hfetch : content_FetchAll X repo layer w = (Ok bytes, w1))
    (Hsize : Z.of_nat (String.length bytes) = Size layer)
    (Hdir : os.IsDir (fs (prepared out layer w1)) (pathOf out layer) = false)
    (Hcreate : os_canCreate X (prepared out layer w1) (pathOf out layer) = true)
    (Hwrite : forall w2, os_canWrite X w2 (pathOf out layer) bytes = true) :
  let w' := eff.world (pullLayer X repo out layer w) in
  eff.out (pullLayer X repo out layer w) = Ok tt
  /\ present w' out layer = true
  /\ pullLayer X repo out layer w' = eff.Outcome (Ok tt) w' [].
Proof.
  intros w'.
  destruct (pullLayer_fetched X repo out layer w short bytes w1
              Hshort Habsent Hfetch Hdir Hcreate Hwrite)
    as (Hout & [mode Hfile] & _).
  fold w' in Hfile.
  assert (Hpresent : present w' out layer = true).
  { unfold packager.present, os.Stat. fold (pathOf out layer). rewrite Hfile.
    apply Z.eqb_eq, Hsize. }
  split; [exact Hout|]. split; [exact Hpresent|].
  apply (pullLayer_skip X repo out layer w' short Hshort Hpresent).
Qed.

(** X4.  Docker Hub goes by two names: a reference whose registry is
    docker.io is treated as the same reference at registry-1.docker.io,
    by [orasRemote] and so by the whole pull.  The repository that
    [orasRemote] returns carries the pull and push scopes of the
    reference's repository; when the repository cannot be made from the
    reference, no credentials are asked for and the world is untouched. *)
Theorem orasRemote_docker_hub (ref : Reference) (out : string) (w : World Net) :
  (Registry ref = "docker.io" ->
   let hub := mkReference "registry-1.docker.io" (Repository ref) (Ref ref) in
   orasRemote X ref w = orasRemote X hub w
   /\ pullOCIZarfPackage X ref out w = pullOCIZarfPackage X hub out w)
  /\ (forall repo, eff.out (orasRemote X ref w) = Ok repo ->
                   Scopes repo = ["repository:" +:+ Repository ref +:+ ":pull,push"]
                   /\ eff.trace (orasRemote X ref w) = [])
  /\ (forall e,
        remote_NewRepository X
          (Reference_String X
             (if String.eqb (Registry ref) "docker.io"
              then mkReference "registry-1.docker.io" (Repository ref) (Ref ref)
              else ref)) = Err e ->
        orasRemote X ref w = eff.Outcome (Err e) w []).
Proof.
  split; [|split].
  - intros Hhub hub.
    assert (Hremote : forall w', orasRemote X ref w' = orasRemote X hub w').
    { intros w'. unfold orasRemote. rewrite Hhub. reflexivity. }
    split; [apply Hremote|].
    unfold pullOCIZarfPackage, resolveLayers.
    apply eff_facts.bind_cong; [|reflexivity].
    apply eff_facts.bind_cong; [reflexivity|]. intros _ w1.
    apply eff_facts.bind_cong; [apply Hremote|]. reflexivity.
  - intros repo. unfold orasRemote.
    destruct (remote_NewRepository X _) as [target|e]; [|discriminate].
    unfold eff.bind, eff.lift, eff.ret.
    destruct (orasAuthClient X _ w) as [[client|e] w']; cbn; [|discriminate].
    intros [= <-]. cbn. split; [|reflexivity].
    unfold orasCtxWithScopes. destruct (String.eqb (Registry ref) "docker.io"); reflexivity.
  - intros e He. unfold orasRemote. rewrite He. reflexivity.
Qed.

End Again.

Lemma pull_of_complete_directory_witness :
  let w := mkWorld {["out/zarf.yaml" := os.File "12345" 420]} sampleBlobs in
  eff.out (pullOCIZarfPackage sampleRegistry sampleRef "out" w) = Ok tt
  /\ exists descriptor,
       eff.trace (pullOCIZarfPackage sampleRegistry sampleRef "out" w)
       = [EvMkdir "out" 493; EvResolve "1" true; EvFetch descriptor true].
Proof.
  intros w.
  destruct (pull_of_complete_directory sampleRegistry sampleRef "out" w
              sampleRepo [sampleLayer] eq_refl)
    as (Hout & _ & Htrace).
  - repeat constructor.
  - repeat constructor.
  - split; [exact Hout | exact Htrace].
Defined.

Lemma pullLayer_resumes_witness :
  let w := mkWorld {["out" := os.Dir 493]} sampleBlobs in
  let w' := eff.world (pullLayer sampleRegistry sampleRepo "out" sampleLayer w) in
  pullLayer sampleRegistry sampleRepo "out" sampleLayer w' = eff.Outcome (Ok tt) w' [].
Proof.
  intros w w'.
  pose proof (pullLayer_resumes sampleRegistry sampleRepo "out" sampleLayer w
                "2cf24dba5fb0" "hello" w
                eq_refl eq_refl eq_refl eq_refl eq_refl eq_refl (fun _ => eq_refl))
    as (_ & _ & Hsame).
  exact Hsame.
Defined.

Lemma orasRemote_docker_hub_witness :
  let w := mkWorld (∅ : os.FS) sampleBlobs in
  pullOCIZarfPackage sampleRegistry (mkReference "docker.io" "library/pkg" "1") "out" w
  = pullOCIZarfPackage sampleRegistry (mkReference "registry-1.docker.io" "library/pkg" "1")
      "out" w.
Proof.
  intros w.
  destruct (orasRemote_docker_hub sampleRegistry (mkReference "docker.io" "library/pkg" "1")
              "out" w) as [Hhub _].
  apply (Hhub eq_refl).
Defined.

End packager_spec.

(** ** The composer's cache of remote skeletons *)

Module composer_spec.

Import types composer.

Section Cache.
Context {Env Manifest : Type} (X : Collaborators Env Manifest).

Local Abbreviation still := (@composer.still Env _).
Local Abbreviation view := (@composer.view Env _).
Local Abbreviation cached := (composer.cached X).
Local Abbreviation resolved := (composer.resolved X).

Lemma still_ret {A} (a : A) : still (eff.ret a).
Proof. intros w. split; reflexivity. Qed.

Lemma still_read {A} (f : World Env -> A) : still (eff.read f).
Proof. intros w. split; reflexivity. Qed.

Lemma still_outside {A} (ev : bool -> Event) (f : Env -> result A * Env) :
  (forall b, relevant (ev b) = false) -> still (outside ev f).
Proof.
  intros Hev w. unfold outside, eff.call. destruct (f (env w)) as [r e].
  cbn. rewrite Hev. split; reflexivity.
Qed.

Lemma still_bind {A B} (m : @eff.M (World Env) Event A) (k : A -> @eff.M (World Env) Event B) :
  still m -> (forall a, still (k a)) -> still (eff.bind m k).
Proof.
  intros Hm Hk w. unfold eff.bind. destruct (Hm w) as [Hb Ht].
  destruct (eff.out (m w)) as [a|e]; cbn; [|split; assumption].
  destruct (Hk a (eff.world (m w))) as [Hb' Ht'].
  rewrite List.filter_app, Ht, Ht', Hb', Hb. split; reflexivity.
Qed.

Lemma still_wrapErr {A} (wrap : error -> error) (m : @eff.M (World Env) Event A) :
  still m -> still (eff.wrapErr wrap m).
Proof.
  intros Hm w. unfold eff.wrapErr. destruct (Hm w) as [Hb Ht].
  destruct (eff.out (m w)); cbn; split; assumption.
Qed.

Lemma still_attempt {A} (m : @eff.M (World Env) Event A) : still m -> still (eff.attempt m).
Proof. intros Hm w. exact (Hm w). Qed.

Lemma still_getRemote url : still (getRemote X url).
Proof.
  unfold getRemote. apply still_bind; [apply still_read|].
  intros [r|]; [apply still_ret|].
  apply still_bind; [apply still_attempt, still_outside; reflexivity|].
  intros [[]|e]; [|intros w; split; reflexivity].
  apply still_bind; [intros w; split; reflexivity|]. intros _.
  apply still_bind; [apply still_wrapErr, still_outside; reflexivity|]. intros _.
  apply still_ret.
Qed.

Lemma view_bind_l {A B} (m : @eff.M (World Env) Event A)
    (k : A -> @eff.M (World Env) Event B) (w : World Env) :
  still m ->
  view (eff.bind m k w) = (false, blobs w, [])
  \/ exists a w', blobs w' = blobs w /\ view (eff.bind m k w) = view (k a w').
Proof.
  intros Hm. destruct (Hm w) as [Hb Ht]. unfold view, eff.bind.
  destruct (eff.out (m w)) as [a|e]; cbn.
  - right. exists a, (eff.world (m w)). split; [exact Hb|].
    rewrite List.filter_app, Ht. reflexivity.
  - left. rewrite Hb, Ht. reflexivity.
Qed.

Lemma view_bind_r {A B} (m : @eff.M (World Env) Event A)
    (k : A -> @eff.M (World Env) Event B) (w : World Env) :
  (forall a, still (k a)) ->
  exists ok, (ok = true -> go.is_ok (eff.out (m w)) = true)
             /\ view (eff.bind m k w)
                = (ok, blobs (eff.world (m w)), List.filter relevant (eff.trace (m w))).
Proof.
  intros Hk. unfold view, eff.bind.
  destruct (eff.out (m w)) as [a|e]; cbn.
  - destruct (Hk a (eff.world (m w))) as [Hb Ht].
    exists (go.is_ok (eff.out (k a (eff.world (m w))))). split; [reflexivity|].
    rewrite List.filter_app, Ht, Hb, app_nil_r. reflexivity.
  - exists false. split; [discriminate | reflexivity].
Qed.

Lemma cached_failed B d : cached B d (false, B, []).
Proof.
  unfold cached. split; [reflexivity|]. split; [left; reflexivity|].
  split; [reflexivity | discriminate].
Qed.

Lemma ensureCached_cached cache remote url name d w :
  cached (blobs w) d (view (ensureCached X cache remote url name d w)).
Proof.
  unfold ensureCached.
  destruct (oci_IsEmptyDescriptor X d) eqn:Hempty.
  { unfold cached, view. cbn. split; [reflexivity|]. split; [left; reflexivity|].
    split; [reflexivity | intros _ H; congruence]. }
  destruct (view_bind_l (outside (EvStoreNew cache) (ocistore_New X cache))
              (fun _ => let* exists_ := storeExists X d in
                        run (if negb exists_ then copyToStore X remote d else eff.ret tt) in
                        eff.ret (filepath_Join X [cache; "blobs"; "sha256";
                                                  Digest_Encoded X (packager.Digest d)],
                                 filepath_Join X [cache; "dirs";
                                                  Digest_Encoded X (packager.Digest d)])) w)
    as [Hv|([] & w1 & Hb & Hv)]; [apply still_outside; reflexivity | | ];
    rewrite Hv; [apply cached_failed|].
  rewrite <- Hb. clear Hv Hb w. rename w1 into w.
  unfold view, eff.bind, storeExists, eff.call.
  destruct (store_ExistsError X d (env w)) as [e|]; cbn.
  { unfold cached. split; [reflexivity|]. split; [left; reflexivity|].
    split; [reflexivity | discriminate]. }
  case_bool_decide as Hin; cbn.
  { unfold cached. split; [reflexivity|]. split; [left; reflexivity|].
    split; [reflexivity|]. intros _ _. split; [exact Hin | contradiction]. }
  unfold copyToStore, eff.call.
  destruct (remote_Transfer X remote d (env w)) as [[[]|err] e]; cbn.
  - unfold cached. split; [set_solver|]. split; [right; eauto|].
    split; [contradiction|]. intros _ _. split; [set_solver | reflexivity].
  - unfold cached. split; [reflexivity|]. split; [right; eauto|].
    split; [contradiction | discriminate].
Qed.

Lemma cached_weaken B d ok ok' B' t :
  (ok' = true -> ok = true) -> cached B d (ok, B', t) -> cached B d (ok', B', t).
Proof.
  unfold cached. intros Hok (H1 & H2 & H3 & H4).
  split; [exact H1|]. split; [exact H2|]. split; [exact H3|].
  intros Hok'. apply H4, Hok, Hok'.
Qed.

Lemma still_lift_read {A} (f : World Env -> result A) :
  still (eff.lift (fun w => (f w, w))).
Proof. intros w. split; reflexivity. Qed.

Lemma fetchOCISkeleton_resolved w :
  resolved (blobs w) (view (fetchOCISkeleton X w)).
Proof.
  unfold fetchOCISkeleton.
  erewrite eff_facts.bind_eq_ok by reflexivity. rewrite eff_facts.after_nil.
  destruct (negb (ContainsOCIImport (chain w))); [left; split; reflexivity|].
  destruct (prevs (chain w)) as [|node rest]; [left; split; reflexivity|].
  match goal with
  | |- resolved _ (view (eff.bind ?m ?k w)) =>
      destruct (view_bind_l m k w (still_getRemote _)) as [Hv|(remote & w1 & Hb & Hv)]
  end; rewrite Hv; [left; split; reflexivity|]. clear Hv.
  rewrite <- Hb. clear Hb w. rename w1 into w.
  match goal with
  | |- resolved _ (view (eff.bind ?m ?k w)) =>
      destruct (view_bind_l m k w) as [Hv|(manifest & w1 & Hb & Hv)];
        [apply still_outside; reflexivity | | ]
  end; rewrite Hv; [left; split; reflexivity|]. clear Hv.
  rewrite <- Hb. clear Hb w. rename w1 into w.
  erewrite eff_facts.bind_eq_ok by reflexivity.
  set (p := filepath_Join X [layout_ComponentsDir X; ImportName node +:+ ".tar"]).
  set (d := manifest_Locate X manifest p).
  unfold view at 1. cbn [eff.after eff.out eff.world eff.trace app List.filter relevant].
  right. exists p, d. eexists. split; [reflexivity|].
  match goal with
  | |- cached _ _ (go.is_ok (eff.out ?r), blobs (eff.world ?r), List.filter relevant (eff.trace ?r)) =>
      change (cached (blobs w) d (view r))
  end.
  match goal with
  | |- cached _ _ (view (eff.bind ?m ?k w)) =>
      destruct (view_bind_l m k w) as [Hv|([] & w1 & Hb & Hv)];
        [apply still_outside; reflexivity | | ]
  end; rewrite Hv; [apply cached_failed|]. clear Hv.
  rewrite <- Hb. clear Hb w. rename w1 into w.
  match goal with
  | |- cached _ _ (view (eff.bind ?m ?k w)) =>
      destruct (view_bind_r m k w) as (ok & Hok & Hv)
  end.
  { intros [tb dir].
    apply still_bind; [apply still_outside; reflexivity|]. intros _.
    apply still_bind; [apply still_lift_read|]. intros cwd.
    apply still_bind; [apply still_lift_read|]. intros rel.
    apply still_bind; [intros w'; split; reflexivity|]. intros _.
    destruct (oci_IsEmptyDescriptor X d); [apply still_ret | apply still_outside; reflexivity]. }
  rewrite Hv. eapply cached_weaken; [exact Hok|]. apply ensureCached_cached.
Qed.

Lemma filter_isCopy_relevant (t : list Event) :
  List.filter isCopy t = List.filter isCopy (List.filter relevant t).
Proof.
  induction t as [|ev t IH]; [reflexivity|].
  destruct ev; cbn; rewrite ?IH; reflexivity.
Qed.

Lemma filter_isCopyOf_isCopy (digest : string) (t : list Event) :
  List.filter (isCopyOf digest) t = List.filter (isCopyOf digest) (List.filter isCopy t).
Proof.
  induction t as [|ev t IH]; [reflexivity|].
  destruct ev; cbn; rewrite ?IH; try reflexivity.
  all: try (destruct (String.eqb _ _); cbn; rewrite ?IH; reflexivity).
Qed.

Lemma In_relevant (ev : Event) (t : list Event) :
  relevant ev = true -> In ev t -> In ev (List.filter relevant t).
Proof. intros Hev Hin. apply List.filter_In. split; assumption. Qed.

End Cache.

(** *** The shape of a resolved chain *)

Section Chain.
Context {Env Manifest : Type} (X : Collaborators Env Manifest).

Lemma afterRemote_false prevs :
  afterRemote prevs = false -> settled prevs -> Forall remoteFree prevs.
Proof.
  destruct prevs as [|prev older]; [constructor|].
  unfold afterRemote, settled. cbn. intros Hprev Holder.
  constructor; [|exact Holder].
  apply negb_false_iff, String.eqb_eq in Hprev. exact Hprev.
Qed.

Lemma resolveFrom_settled fuel :
  forall prevs node (w : World Env) ic,
    settled prevs ->
    eff.out (resolveFrom X fuel prevs node w) = Ok ic ->
    remoteFree (tail ic) /\ settled (composer.prevs ic).
Proof.
  induction fuel as [|fuel IH]; intros prevs node w ic Hsettled Hok;
    cbn [resolveFrom] in Hok;
    destruct (negb (String.eqb (ZarfComponentImport.Path (ImportOf node)) "")) eqn:Hlocal;
    destruct (negb (String.eqb (ZarfComponentImport.URL (ImportOf node)) "")) eqn:Hremote;
    destruct (afterRemote prevs) eqn:Hafter;
    cbn [negb andb] in Hok; try discriminate.
  all: try (injection Hok as <-; cbn [tail composer.prevs]; split; [|exact Hsettled];
            apply negb_false_iff, String.eqb_eq in Hremote; exact Hremote).
  all: apply eff_facts.bind_out_ok_inv in Hok as (pkg & _ & Hok);
    destruct (findComponent (ImportName node) pkg) as [c|]; [|discriminate];
    apply IH in Hok; [exact Hok|];
    unfold settled; cbn [List.tl]; apply afterRemote_false; assumption.
Qed.

Lemma NewImportChain_shape fuel head (w : World Env) ic :
  eff.out (NewImportChain X fuel head w) = Ok ic ->
  (forall i n, nodes ic !! i = Some n -> urlOf n <> "" -> S (S i) = length (nodes ic))
  /\ (ContainsOCIImport ic = true <-> exists n, In n (nodes ic) /\ urlOf n <> "").
Proof.
  intros Hok. apply resolveFrom_settled in Hok as [Htail Holder]; [|constructor].
  unfold nodes, settled, ContainsOCIImport in *.
  destruct (composer.prevs ic) as [|prev older]; cbn [List.tl rev app] in *.
  - split.
    + intros [|i] n Hn Hurl; [|discriminate]. injection Hn as <-. contradiction.
    + split; [discriminate|]. intros (n & [<-|[]] & Hurl). contradiction.
  - rewrite Forall_forall in Holder. split.
    + intros i n Hn Hurl. rewrite <- app_assoc in Hn. cbn [app] in Hn.
      apply lookup_app_Some in Hn as [Hn|[Hle Hn]].
      * apply list_elem_of_lookup_2, list_elem_of_In, in_rev, list_elem_of_In, Holder in Hn.
        contradiction.
      * rewrite !length_app, length_rev in *. cbn [length].
        destruct (i - length older)%nat as [|[|k]] eqn:Hi; cbn in Hn.
        -- lia.
        -- injection Hn as <-. contradiction.
        -- discriminate.
    + split.
      * intros Hprev. exists prev. split.
        -- apply in_or_app. left. apply in_or_app. right. left. reflexivity.
        -- apply negb_true_iff, String.eqb_neq in Hprev. exact Hprev.
      * intros (n & Hin & Hurl).
        apply in_app_or in Hin as [Hin|[<-|[]]]; [|contradiction].
        apply in_app_or in Hin as [Hin|[<-|[]]].
        -- apply in_rev, list_elem_of_In, Holder in Hin. contradiction.
        -- apply negb_true_iff, String.eqb_neq. exact Hurl.
Qed.

Lemma resolveFrom_after_remote fuel prevs node c rel (w : World Env) :
  urlOf node <> "" ->
  ZarfComponentImport.URL (ZarfComponent.Import c) <> "" ->
  resolveFrom X fuel (node :: prevs) (mkNode c rel) w
  = eff.Outcome (Err ErrNestedRemoteImport) w [].
Proof.
  unfold urlOf, ImportOf. intros Hurl Hnested.
  apply String.eqb_neq in Hurl, Hnested.
  destruct fuel; cbn [resolveFrom afterRemote]; unfold ImportOf; cbn [Component];
    rewrite Hnested, Hurl; cbn [negb andb];
    destruct (negb (String.eqb _ "")); reflexivity.
Qed.

Lemma resolveFrom_nested fuel prevs node (w : World Env) skeleton e' c :
  afterRemote prevs = false ->
  urlOf node <> "" ->
  ZarfComponentImport.Path (ImportOf node) = "" ->
  loadRemoteSkeleton X (urlOf node) (env w) = (Ok skeleton, e') ->
  findComponent (ImportName node) skeleton = Some c ->
  ZarfComponentImport.URL (ZarfComponent.Import c) <> "" ->
  resolveFrom X (S fuel) prevs node w
  = eff.Outcome (Err ErrNestedRemoteImport) (setEnv e' w) [EvLoadRemote (urlOf node) true].
Proof.
  intros Hafter Hurl Hpath Hload Hfound Hnested. unfold urlOf in *.
  cbn [resolveFrom]. rewrite Hpath, Hafter.
  apply String.eqb_neq in Hurl. rewrite Hurl. cbn [String.eqb negb andb].
  erewrite eff_facts.bind_eq_ok
    by (unfold outside; apply eff_facts.call_eq; rewrite Hload; reflexivity).
  rewrite Hfound.
  assert (Hnext := resolveFrom_after_remote fuel prevs node c "" (setEnv e' w)
                     ltac:(unfold urlOf, ImportOf; apply String.eqb_neq, Hurl) Hnested).
  rewrite Hnext. reflexivity.
Qed.

End Chain.

(** C6.  In a chain that resolution returns, a node that references a
    remote import is the second-to-last one, and [ContainsOCIImport]
    holds exactly when some node references a remote import.  A
    component that imports from a remote package whose component itself
    declares a remote import makes resolution fail with the
    nested-remote-import error, at the head of a chain and behind any
    local imports alike; nothing is returned for the first level. *)
Theorem nested_remote_import_rejected
    {Env Manifest : Type} (X : Collaborators Env Manifest)
    (fuel : nat) (prevs : list Node) (node : Node) (w : World Env)
    (skeleton : ZarfPackage.t) (e' : Env) (c : ZarfComponent.t)
    (Hafter : afterRemote prevs = false)
    (Hurl : ZarfComponentImport.URL (ImportOf node) <> "")
    (Hpath : ZarfComponentImport.Path (ImportOf node) = "")
    (Hload : loadRemoteSkeleton X (ZarfComponentImport.URL (ImportOf node)) (env w)
             = (Ok skeleton, e'))
    (Hfound : findComponent (ImportName node) skeleton = Some c)
    (Hnested : ZarfComponentImport.URL (ZarfComponent.Import c) <> "") :
  eff.out (resolveFrom X (S fuel) prevs node w) = Err ErrNestedRemoteImport
  /\ (prevs = [] ->
      eff.out (NewImportChain X (S fuel) (Component node) w) = Err ErrNestedRemoteImport)
  /\ (forall fuel0 head0 (w0 : World Env) ic,
        eff.out (NewImportChain X fuel0 head0 w0) = Ok ic ->
        (forall i n, nodes ic !! i = Some n ->
                     ZarfComponentImport.URL (ImportOf n) <> "" ->
                     S (S i) = length (nodes ic))
        /\ (ContainsOCIImport ic = true
            <-> exists n, In n (nodes ic) /\ ZarfComponentImport.URL (ImportOf n) <> "")).
Proof.
  split; [|split].
  - rewrite (resolveFrom_nested X fuel prevs node w skeleton e' c); auto.
  - intros ->. unfold NewImportChain.
    rewrite (resolveFrom_nested X fuel [] (mkNode (Component node) "") w skeleton e' c); auto.
  - intros fuel0 head0 w0 ic. apply NewImportChain_shape.
Qed.

Lemma nested_remote_import_rejected_witness :
  (* x imports base from a skeleton whose base imports from another remote *)
  eff.out (NewImportChain sampleComposer 5
             (importing "x" "base" "" "oci://registry/skeleton:1") (mkWorld sampleChain ∅ 0%nat))
    = Err ErrNestedRemoteImport
  (* the same behind a local import *)
  /\ eff.out (NewImportChain sampleComposer 5
                (importing "x" "" "sub" "") (mkWorld sampleChain ∅ 0%nat))
     = Err ErrNestedRemoteImport
  (* a skeleton whose base imports nothing resolves, with the remote
     import on the second-to-last node *)
  /\ (exists ic,
        eff.out (NewImportChain sampleComposer 5
                   (importing "x" "base" "" "oci://registry/plain:1")
                   (mkWorld sampleChain ∅ 0%nat)) = Ok ic
        /\ ContainsOCIImport ic = true /\ length (nodes ic) = 2%nat).
Proof.
  split; [|split].
  - apply (nested_remote_import_rejected sampleComposer 4 []
             (mkNode (importing "x" "base" "" "oci://registry/skeleton:1") "")
             (mkWorld sampleChain ∅ 0%nat)
             (packageOf [importing "base" "" "" "oci://registry/other:1"]) 0%nat
             (importing "base" "" "" "oci://registry/other:1"));
      try reflexivity; discriminate.
  - pose proof (nested_remote_import_rejected sampleComposer 3
                  [mkNode (importing "x" "" "sub" "") ""]
                  (mkNode (importing "x" "base" "" "oci://registry/skeleton:1") "")
                  (mkWorld sampleChain ∅ 0%nat)
                  (packageOf [importing "base" "" "" "oci://registry/other:1"]) 0%nat
                  (importing "base" "" "" "oci://registry/other:1")
                  eq_refl) as Hdeep.
    destruct Hdeep as [Hdeep _];
      [discriminate | reflexivity | reflexivity | reflexivity | discriminate |].
    rewrite <- Hdeep. vm_compute. reflexivity.
  - eexists. split; [vm_compute; reflexivity|]. split; reflexivity.
Defined.

(** C5.  A resolution copies at most once, and only a non-empty
    descriptor whose digest is not yet in the blob store; the store only
    grows.  If the digest of the located descriptor is in the store, no
    copy is made.  After a successful resolution of a non-empty
    descriptor its digest is in the store, so a second resolution that
    locates the same digest copies nothing, and the two resolutions
    together have copied that digest once if it was missing at the start
    and not at all otherwise. *)
Theorem fetchOCISkeleton_copies_once
    {Env Manifest : Type} (X : Collaborators Env Manifest) (w : World Env)
    (p : string) (d : packager.Descriptor)
    (Hlocated : In (EvLocate p d) (eff.trace (fetchOCISkeleton X w))) :
  let first := fetchOCISkeleton X w in
  let second := fetchOCISkeleton X (eff.world first) in
  (forall d' ok, In (EvCopy d' ok) (eff.trace first) ->
                 d' = d /\ (packager.Digest d ∉ blobs w) /\ oci_IsEmptyDescriptor X d = false)
  /\ (length (List.filter isCopy (eff.trace first)) <= 1)%nat
  /\ blobs w ⊆ blobs (eff.world first)
  /\ (packager.Digest d ∈ blobs w -> List.filter isCopy (eff.trace first) = [])
  /\ (eff.out first = Ok tt -> oci_IsEmptyDescriptor X d = false ->
      (packager.Digest d ∈ blobs (eff.world first))
      /\ (forall p' d',
            In (EvLocate p' d') (eff.trace second) ->
            packager.Digest d' = packager.Digest d ->
            List.filter isCopy (eff.trace second) = []
            /\ length (List.filter (isCopyOf (packager.Digest d))
                         (eff.trace first ++ eff.trace second))
               = if bool_decide (packager.Digest d ∈ blobs w) then 0%nat else 1%nat)).
Proof.
  intros first second.
  pose proof (fetchOCISkeleton_resolved X w) as H1. fold first in H1.
  unfold view, resolved in H1.
  apply (In_relevant (EvLocate p d) _ eq_refl) in Hlocated. fold first in Hlocated.
  destruct H1 as [[Ht _]|(p1 & d1 & t1 & Ht & HB & Hcopy & Hin & Hok)];
    [rewrite Ht in Hlocated; contradiction|].
  assert (Hd : d1 = d).
  { rewrite Ht in Hlocated. destruct Hlocated as [Heq|Hin1]; [congruence|].
    destruct Hcopy as [->|(b & -> & _)]; [contradiction|].
    destruct Hin1 as [|[]]; discriminate. }
  subst d1.
  assert (Hcopies : List.filter isCopy (eff.trace first) = List.filter isCopy t1).
  { rewrite filter_isCopy_relevant, Ht. reflexivity. }
  split.
  { intros d' ok Hev.
    assert (Hev' : In (EvCopy d' ok) (List.filter isCopy (eff.trace first)))
      by (apply List.filter_In; split; [exact Hev | reflexivity]).
    rewrite Hcopies in Hev'.
    destruct Hcopy as [->|(b & -> & Hnot & Hne)]; [contradiction|].
    destruct Hev' as [Heq|[]]. injection Heq as <- <-. tauto. }
  split.
  { rewrite Hcopies. destruct Hcopy as [->|(b & -> & _)]; cbn; lia. }
  split; [exact HB|].
  split.
  { intros Hthere. rewrite Hcopies, (Hin Hthere). reflexivity. }
  intros Hsuccess Hne.
  assert (Hok' : go.is_ok (eff.out first) = true) by (rewrite Hsuccess; reflexivity).
  destruct (Hok Hok' Hne) as [Hstored Hone].
  split; [exact Hstored|].
  intros p' d' Hlocated' Hsame.
  pose proof (fetchOCISkeleton_resolved X (eff.world first)) as H2. fold second in H2.
  unfold view, resolved in H2.
  apply (In_relevant (EvLocate p' d') _ eq_refl) in Hlocated'.
  destruct H2 as [[Ht2 _]|(p2 & d2 & t2 & Ht2 & _ & Hcopy2 & Hin2 & _)];
    [rewrite Ht2 in Hlocated'; contradiction|].
  assert (Hd2 : d2 = d').
  { rewrite Ht2 in Hlocated'. destruct Hlocated' as [Heq|Hin1]; [congruence|].
    destruct Hcopy2 as [->|(b & -> & _)]; [contradiction|].
    destruct Hin1 as [|[]]; discriminate. }
  subst d2. rewrite Hsame in Hin2. specialize (Hin2 Hstored).
  assert (Hnone : List.filter isCopy (eff.trace second) = []).
  { rewrite filter_isCopy_relevant, Ht2. cbn. rewrite Hin2. reflexivity. }
  split; [exact Hnone|].
  rewrite List.filter_app, (filter_isCopyOf_isCopy _ (eff.trace second)), Hnone, app_nil_r.
  rewrite filter_isCopyOf_isCopy, Hcopies.
  case_bool_decide as Hwas.
  - rewrite (Hin Hwas). reflexivity.
  - rewrite (Hone Hwas). cbn. rewrite String.eqb_refl. reflexivity.
Qed.

Lemma fetchOCISkeleton_copies_once_witness :
  let start := mkWorld sampleChain ∅ 0%nat in
  let first := fetchOCISkeleton sampleComposer start in
  let second := fetchOCISkeleton sampleComposer (eff.world first) in
  eff.out first = Ok tt /\ eff.out second = Ok tt
  (* the registry has made one transfer after the first resolution, and
     still one after the second *)
  /\ env (eff.world first) = 1%nat /\ env (eff.world second) = 1%nat
  /\ length (List.filter (isCopyOf "sha256:base") (eff.trace first ++ eff.trace second)) = 1%nat.
Proof.
  intros start first second.
  assert (Hlocated : In (EvLocate "components/base.tar" baseTarball) (eff.trace first))
    by (vm_compute; tauto).
  destruct (fetchOCISkeleton_copies_once sampleComposer start "components/base.tar"
              baseTarball Hlocated) as (_ & _ & _ & _ & Htwice).
  destruct Htwice as [_ Hsecond]; [vm_compute; reflexivity | reflexivity |].
  destruct (Hsecond "components/base.tar" baseTarball) as [_ Hcount];
    [vm_compute; tauto | reflexivity |].
  split; [vm_compute; reflexivity|]. split; [vm_compute; reflexivity|].
  split; [vm_compute; reflexivity|]. split; [vm_compute; reflexivity|].
  exact Hcount.
Defined.

(** *** What resolution changes in the chain *)

Section Frame.
Context {Env Manifest : Type} (X : Collaborators Env Manifest).

Local Abbreviation keepsNodes := (@composer.keepsNodes Env _).
Local Abbreviation keepsChain := (@composer.keepsChain Env _).
Local Abbreviation M := (@eff.M (World Env) Event).

Lemma keepsChain_keepsNodes {A} (m : M A) : keepsChain m -> keepsNodes m.
Proof. intros H w. rewrite H. split; reflexivity. Qed.

Lemma keepsChain_ret {A} (a : A) : keepsChain (eff.ret a).
Proof. intros w. reflexivity. Qed.

Lemma keepsChain_read {A} (f : World Env -> A) : keepsChain (eff.read f).
Proof. intros w. reflexivity. Qed.

Lemma keepsChain_emit (ev : Event) : keepsChain (eff.emit ev).
Proof. intros w. reflexivity. Qed.

Lemma keepsChain_outside {A} (ev : bool -> Event) (f : Env -> result A * Env) :
  keepsChain (outside ev f).
Proof. intros w. unfold outside, eff.call. destruct (f (env w)). reflexivity. Qed.

Lemma keepsChain_lift_read {A} (f : World Env -> result A) :
  keepsChain (eff.lift (fun w => (f w, w))).
Proof. intros w. reflexivity. Qed.

Lemma keepsChain_storeExists d : keepsChain (storeExists X d).
Proof.
  intros w. unfold storeExists, eff.call.
  destruct (store_ExistsError X d (env w)); reflexivity.
Qed.

Lemma keepsChain_copyToStore r d : keepsChain (copyToStore X r d).
Proof.
  intros w. unfold copyToStore, eff.call.
  destruct (remote_Transfer X r d (env w)) as [[[]|e] e']; reflexivity.
Qed.

Lemma keepsChain_bind {A B} (m : M A) (k : A -> M B) :
  keepsChain m -> (forall a, keepsChain (k a)) -> keepsChain (eff.bind m k).
Proof.
  intros Hm Hk w. unfold eff.bind. specialize (Hm w).
  destruct (eff.out (m w)) as [a|e]; cbn; [|exact Hm].
  rewrite Hk. exact Hm.
Qed.

Lemma keepsNodes_bind {A B} (m : M A) (k : A -> M B) :
  keepsNodes m -> (forall a, keepsNodes (k a)) -> keepsNodes (eff.bind m k).
Proof.
  intros Hm Hk w. unfold eff.bind. destruct (Hm w) as [Hp Ht].
  destruct (eff.out (m w)) as [a|e]; cbn; [|split; assumption].
  destruct (Hk a (eff.world (m w))) as [Hp' Ht'].
  rewrite Hp', Ht'. split; assumption.
Qed.

Lemma keepsNodes_wrapErr {A} (wrap : error -> error) (m : M A) :
  keepsNodes m -> keepsNodes (eff.wrapErr wrap m).
Proof.
  intros Hm w. unfold eff.wrapErr. specialize (Hm w).
  destruct (eff.out (m w)); exact Hm.
Qed.

Lemma keepsNodes_getRemote url : keepsNodes (getRemote X url).
Proof.
  unfold getRemote.
  apply keepsNodes_bind; [apply keepsChain_keepsNodes, keepsChain_read|].
  intros [r|]; [apply keepsChain_keepsNodes, keepsChain_ret|].
  apply keepsNodes_bind.
  { apply keepsChain_keepsNodes. intros w. apply (keepsChain_outside _ _ w). }
  intros [[]|e]; [|intros w; split; reflexivity].
  apply keepsNodes_bind; [intros w; split; reflexivity|]. intros _.
  apply keepsNodes_bind;
    [apply keepsNodes_wrapErr, keepsChain_keepsNodes, keepsChain_outside|]. intros _.
  apply keepsChain_keepsNodes, keepsChain_ret.
Qed.

Lemma keepsChain_ensureCached cache r url name d :
  keepsChain (ensureCached X cache r url name d).
Proof.
  unfold ensureCached. destruct (oci_IsEmptyDescriptor X d); [apply keepsChain_ret|].
  apply keepsChain_bind; [apply keepsChain_outside|]. intros _.
  apply keepsChain_bind; [apply keepsChain_storeExists|]. intros exists_.
  apply keepsChain_bind; [|intros _; apply keepsChain_ret].
  destruct (negb exists_); [apply keepsChain_copyToStore | apply keepsChain_ret].
Qed.

Lemma keepsNodes_fetchOCISkeleton : keepsNodes (fetchOCISkeleton X).
Proof.
  unfold fetchOCISkeleton.
  apply keepsNodes_bind; [apply keepsChain_keepsNodes, keepsChain_read|]. intros ic.
  destruct (negb (ContainsOCIImport ic)); [apply keepsChain_keepsNodes, keepsChain_ret|].
  destruct (prevs ic) as [|node rest]; [apply keepsChain_keepsNodes, keepsChain_ret|].
  apply keepsNodes_bind; [apply keepsNodes_getRemote|]. intros r.
  apply keepsNodes_bind; [apply keepsChain_keepsNodes, keepsChain_outside|]. intros manifest.
  apply keepsNodes_bind; [apply keepsChain_keepsNodes, keepsChain_emit|]. intros _.
  apply keepsNodes_bind; [apply keepsChain_keepsNodes, keepsChain_outside|]. intros _.
  apply keepsNodes_bind; [apply keepsChain_keepsNodes, keepsChain_ensureCached|].
  intros [tb dir].
  apply keepsNodes_bind; [apply keepsChain_keepsNodes, keepsChain_outside|]. intros _.
  apply keepsNodes_bind; [apply keepsChain_keepsNodes, keepsChain_lift_read|]. intros cwd.
  apply keepsNodes_bind; [apply keepsChain_keepsNodes, keepsChain_lift_read|]. intros rel.
  apply keepsNodes_bind; [intros w; split; reflexivity|]. intros _.
  destruct (oci_IsEmptyDescriptor X _);
    apply keepsChain_keepsNodes; [apply keepsChain_ret | apply keepsChain_outside].
Qed.

(** [fetchOCISkeleton] on a chain with a remote import. *)
Lemma fetchOCISkeleton_locate (w : World Env) node rest :
  prevs (chain w) = node :: rest ->
  ContainsOCIImport (chain w) = true ->
  fetchOCISkeleton X w = locate X node w.
Proof.
  intros Hprevs Hc. unfold fetchOCISkeleton.
  erewrite eff_facts.bind_eq_ok by reflexivity. rewrite eff_facts.after_nil.
  rewrite Hc, Hprevs. reflexivity.
Qed.

Lemma ContainsOCIImport_node (ic : ImportChain) :
  ContainsOCIImport ic = true -> exists node rest, prevs ic = node :: rest.
Proof. unfold ContainsOCIImport. destruct (prevs ic); [discriminate | eauto]. Qed.

Lemma traceAll_getRemote (P : Event -> Prop) url :
  (forall b, P (EvNewRemote url b)) -> (forall b, P (EvResolveRoot url b)) ->
  eff.traceAll P (getRemote X url).
Proof.
  intros Hnew Hres. unfold getRemote.
  apply eff_facts.traceAll_bind; [apply eff_facts.traceAll_read|].
  intros [r|]; [apply eff_facts.traceAll_ret|].
  apply eff_facts.traceAll_bind;
    [apply eff_facts.traceAll_attempt, eff_facts.traceAll_call, Hnew|].
  intros [[]|e]; [|intros w; constructor].
  apply eff_facts.traceAll_bind; [intros w; constructor|]. intros _.
  apply eff_facts.traceAll_bind;
    [apply eff_facts.traceAll_wrapErr, eff_facts.traceAll_call, Hres|]. intros _.
  apply eff_facts.traceAll_ret.
Qed.

Lemma traceAll_setTail (P : Event -> Prop) rel :
  eff.traceAll P
    (fun w : World Env =>
       eff.Outcome (Ok tt) (setChain (setTailRelativeToHead rel (chain w)) w) []).
Proof. intros w. constructor. Qed.

Lemma traceAll_ensureCached (P : Event -> Prop) cache r url name d :
  (oci_IsEmptyDescriptor X d = false ->
   (forall b, P (EvStoreNew cache b)) /\ (forall b, P (EvExists d b))
   /\ (forall b, P (EvCopy d b))) ->
  eff.traceAll P (ensureCached X cache r url name d).
Proof.
  intros HP. unfold ensureCached.
  destruct (oci_IsEmptyDescriptor X d); [apply eff_facts.traceAll_ret|].
  destruct (HP eq_refl) as (Hnew & Hex & Hcp).
  unfold storeExists, copyToStore, outside.
  eff_facts.trace_all; auto.
Qed.

(** Once the descriptor is located there is no second look. *)
Lemma settle_no_locate url r name d :
  eff.traceAll (fun ev => isLocate ev = false) (settle X url r name d).
Proof.
  unfold settle. cbv zeta.
  apply eff_facts.traceAll_bind; [apply eff_facts.traceAll_call; reflexivity|]. intros _.
  apply eff_facts.traceAll_bind; [apply traceAll_ensureCached; auto|]. intros [tb dir].
  apply eff_facts.traceAll_bind; [apply eff_facts.traceAll_call; reflexivity|]. intros _.
  apply eff_facts.traceAll_bind; [apply eff_facts.traceAll_lift|]. intros cwd.
  apply eff_facts.traceAll_bind; [apply eff_facts.traceAll_lift|]. intros rel.
  apply eff_facts.traceAll_bind; [apply traceAll_setTail|]. intros _.
  destruct (oci_IsEmptyDescriptor X d);
    [apply eff_facts.traceAll_ret | apply eff_facts.traceAll_call; reflexivity].
Qed.

(** A component without a tarball needs neither the store nor the
    archiver. *)
Lemma settle_empty url r name d :
  oci_IsEmptyDescriptor X d = true ->
  eff.traceAll (fun ev => isStoreWork ev = false) (settle X url r name d).
Proof.
  intros Hempty. unfold settle. cbv zeta. rewrite Hempty.
  apply eff_facts.traceAll_bind; [apply eff_facts.traceAll_call; reflexivity|]. intros _.
  apply eff_facts.traceAll_bind;
    [apply traceAll_ensureCached; congruence|]. intros [tb dir].
  apply eff_facts.traceAll_bind; [apply eff_facts.traceAll_call; reflexivity|]. intros _.
  apply eff_facts.traceAll_bind; [apply eff_facts.traceAll_lift|]. intros cwd.
  apply eff_facts.traceAll_bind; [apply eff_facts.traceAll_lift|]. intros rel.
  apply eff_facts.traceAll_bind; [apply traceAll_setTail|]. intros _.
  apply eff_facts.traceAll_ret.
Qed.

(** The run up to the located descriptor, whenever one is located. *)
Lemma locate_reaches node (w : World Env) p d :
  In (EvLocate p d) (eff.trace (locate X node w)) ->
  exists r (w1 : World Env) t,
    Forall (fun ev => isStoreWork ev = false /\ isLocate ev = false) t
    /\ locate X node w
       = eff.after (t ++ [EvLocate p d])
           (settle X (ZarfComponentImport.URL (ImportOf node)) r (ImportName node) d w1).
Proof.
  intros Hin. unfold locate in *. cbv zeta in *.
  set (url := ZarfComponentImport.URL (ImportOf node)) in *.
  pose proof (traceAll_getRemote (fun ev => isStoreWork ev = false /\ isLocate ev = false) url
                (fun b => conj eq_refl eq_refl) (fun b => conj eq_refl eq_refl) w) as Hget.
  destruct (eff.out (getRemote X url w)) as [r|e] eqn:Hout.
  2:{ rewrite (eff_facts.bind_err _ _ _ _ Hout) in Hin. cbn [eff.trace] in Hin.
      rewrite Forall_forall in Hget. apply list_elem_of_In, Hget in Hin.
      destruct Hin as [_ Hin]. discriminate. }
  rewrite (eff_facts.bind_ok _ _ _ _ Hout) in Hin |- *.
  set (w1 := eff.world (getRemote X url w)) in *.
  destruct (remote_FetchRoot X r (env w1)) as [[manifest|e] e1] eqn:Hfetch.
  2:{ erewrite eff_facts.bind_eq_err in Hin
        by (unfold outside; apply eff_facts.call_eq; rewrite Hfetch; reflexivity).
      cbn [eff.after eff.trace go.is_ok] in Hin. apply in_app_or in Hin as [Hin|Hin].
      - rewrite Forall_forall in Hget. apply list_elem_of_In, Hget in Hin.
        destruct Hin as [_ Hin]. discriminate.
      - destruct Hin as [[=]|[]]. }
  erewrite eff_facts.bind_eq_ok in Hin |- *
    by (unfold outside; apply eff_facts.call_eq; rewrite Hfetch; reflexivity).
  erewrite eff_facts.bind_eq_ok in Hin |- * by reflexivity.
  cbn [eff.after eff.trace go.is_ok app] in Hin.
  apply in_app_or in Hin as [Hin|Hin].
  { rewrite Forall_forall in Hget. apply list_elem_of_In, Hget in Hin.
    destruct Hin as [_ Hin]. discriminate. }
  destruct Hin as [[=]|[Heq|Hin]].
  2:{ pose proof (settle_no_locate url r (ImportName node)
                    (manifest_Locate X manifest
                       (filepath_Join X [layout_ComponentsDir X; ImportName node +:+ ".tar"]))
                    (setEnv e1 w1)) as Hnone.
      rewrite Forall_forall in Hnone. apply list_elem_of_In, Hnone in Hin. discriminate. }
  injection Heq as <- <-.
  exists r, (setEnv e1 w1), (eff.trace (getRemote X url w) ++ [EvFetchRoot r true]).
  split.
  - apply Forall_app. split; [exact Hget | repeat constructor].
  - unfold eff.after. cbn [eff.out eff.world eff.trace app].
    rewrite <- !app_assoc. reflexivity.
Qed.

(** A successful [settle]: where the component is kept and where the
    tail of the chain points. *)
Lemma settle_ok url r name d (w : World Env) :
  eff.out (settle X url r name d w) = Ok tt ->
  exists dir cwd e,
    os_Getwd X e = Ok cwd
    /\ filepath_Rel X cwd dir
       = Ok (relativeToHead (tail (chain (eff.world (settle X url r name d w)))))
    /\ In (EvCreateDirectory dir true) (eff.trace (settle X url r name d w))
    /\ (oci_IsEmptyDescriptor X d = true -> dir = emptyDir X url name).
Proof.
  unfold settle. cbv zeta. intros Hok.
  apply eff_facts.bind_ok_split in Hok as ([] & _ & Hok & -> & ->).
  apply eff_facts.bind_ok_split in Hok as ([tb dir] & Hcached & Hok & -> & ->).
  apply eff_facts.bind_ok_split in Hok as ([] & Hmk & Hok & -> & ->).
  apply eff_facts.bind_ok_split in Hok as (cwd & Hcwd & Hok & -> & ->).
  apply eff_facts.bind_ok_split in Hok as (rel & Hrel & Hok & -> & ->).
  apply eff_facts.bind_ok_split in Hok as ([] & _ & Hok & -> & ->).
  exists dir, cwd. eexists. split; [|split; [|split]].
  - unfold eff.lift in Hcwd. cbn in Hcwd. exact Hcwd.
  - unfold eff.lift in Hrel. cbn in Hrel. rewrite Hrel. f_equal.
    assert (Hlast : forall w',
               chain (eff.world
                        ((if oci_IsEmptyDescriptor X d then eff.ret tt
                          else outside (EvUnarchive tb dir) (archiver_Unarchive X tb dir)) w'))
               = chain w').
    { intros w'. destruct (oci_IsEmptyDescriptor X d);
        [reflexivity | apply keepsChain_outside]. }
    rewrite Hlast. reflexivity.
  - apply in_or_app. right. apply in_or_app. right. apply in_or_app. left.
    revert Hmk. unfold outside, eff.call.
    destruct (utils_CreateDirectory X dir _ _) as [[[]|e] e']; cbn; [auto | discriminate].
  - intros Hempty. revert Hcached. unfold ensureCached. rewrite Hempty.
    cbn. intros [= _ <-]. reflexivity.
Qed.

Lemma locate_ok node (w : World Env) :
  eff.out (locate X node w) = Ok tt ->
  exists p d, In (EvLocate p d) (eff.trace (locate X node w)).
Proof.
  unfold locate. cbv zeta. intros Hok.
  apply eff_facts.bind_ok_split in Hok as (r & _ & Hok & _ & ->).
  apply eff_facts.bind_ok_split in Hok as (manifest & _ & Hok & _ & ->).
  apply eff_facts.bind_ok_split in Hok as ([] & _ & Hok & _ & ->).
  do 2 eexists. apply in_or_app. right. apply in_or_app. right.
  apply in_or_app. left. left. reflexivity.
Qed.

End Frame.



(** X17.  A remote component that has no tarball in the published
    package (its located descriptor is empty) is settled without the
    blob store: no store is opened, nothing is looked up or copied, and
    nothing is unarchived.  When the resolution succeeds, the directory
    it has created for the component is the one named after the SHA-256
    of the import URL followed by the component name. *)
Theorem fetchOCISkeleton_without_tarball
    {Env Manifest : Type} (X : Collaborators Env Manifest) (w : World Env)
    (p : string) (d : packager.Descriptor)
    (Hlocated : In (EvLocate p d) (eff.trace (fetchOCISkeleton X w)))
    (Hempty : oci_IsEmptyDescriptor X d = true) :
  Forall (fun ev => isStoreWork ev = false) (eff.trace (fetchOCISkeleton X w))
  /\ (forall node rest,
        prevs (chain w) = node :: rest ->
        eff.out (fetchOCISkeleton X w) = Ok tt ->
        In (EvCreateDirectory
              (emptyDir X (ZarfComponentImport.URL (ImportOf node)) (ImportName node)) true)
           (eff.trace (fetchOCISkeleton X w))).
Proof.
  destruct (ContainsOCIImport (chain w)) eqn:Hc.
  2:{ exfalso. revert Hlocated. unfold fetchOCISkeleton.
      erewrite eff_facts.bind_eq_ok by reflexivity. rewrite Hc. cbn. tauto. }
  destruct (ContainsOCIImport_node _ Hc) as (node & rest & Hnode).
  rewrite (fetchOCISkeleton_locate X w node rest Hnode Hc) in Hlocated |- *.
  destruct (locate_reaches X node w p d Hlocated) as (r & w1 & t & Ht & Hrun).
  rewrite Hrun. cbn [eff.after eff.out eff.world eff.trace]. split.
  - apply Forall_app. split; [apply Forall_app; split|].
    + eapply Forall_impl; [exact Ht|]. intros ev [Hev _]. exact Hev.
    + repeat constructor.
    + apply settle_empty, Hempty.
  - intros node' rest' Hnode' Hok. rewrite Hnode in Hnode'. injection Hnode' as <- <-.
    destruct (settle_ok X _ r _ d w1 Hok) as (dir & cwd & e & _ & _ & Hdir & Hname).
    rewrite <- (Hname Hempty). apply in_or_app. right. exact Hdir.
Qed.

Lemma fetchOCISkeleton_without_tarball_witness :
  let chain := mkChain (mkNode (importing "other" "" "" "") "")
                 [mkNode (importing "x" "other" "" "oci://registry/plain:1") ""] None in
  Forall (fun ev => isStoreWork ev = false)
    (eff.trace (fetchOCISkeleton sampleComposer (mkWorld chain ∅ 0%nat))).
Proof.
  intros chain.
  destruct (fetchOCISkeleton_without_tarball sampleComposer (mkWorld chain ∅ 0%nat)
              "components/other.tar" emptyDescriptor) as [Hnone _].
  - vm_compute. tauto.
  - reflexivity.
  - exact Hnone.
Defined.

(** *** The client of the chain *)

(** X15.  The chain keeps one client.  With a client on the chain,
    [getRemote] returns it without any call, whatever URL is asked for.
    Without one, a client is made for the URL and kept on the chain even
    when the root of the package cannot then be resolved: that call
    returns the "does not exist" error, and the next call of [getRemote]
    returns the kept client with no error and no further check.  When
    the client cannot be made, the error is returned as it is. *)
Theorem getRemote_once
    {Env Manifest : Type} (X : Collaborators Env Manifest)
    (url url' : string) (w : World Env) :
  let first := getRemote X url w in
  (forall r, remote (chain w) = Some r -> first = eff.Outcome (Ok r) w [])
  /\ (forall e1,
        remote (chain w) = None ->
        ocizarf_NewZarfOrasRemote X url (env w) = (Ok tt, e1) ->
        remote (chain (eff.world first)) = Some url
        /\ getRemote X url' (eff.world first) = eff.Outcome (Ok url) (eff.world first) []
        /\ (forall e e2,
              remote_ResolveRoot X url e1 = (Err e, e2) ->
              eff.out first = Err (notPublished X url e)))
  /\ (forall e e1,
        remote (chain w) = None ->
        ocizarf_NewZarfOrasRemote X url (env w) = (Err e, e1) ->
        eff.out first = Err e).
Proof.
  intros first. subst first. split; [|split].
  - intros r Hr. unfold getRemote.
    erewrite eff_facts.bind_eq_ok by reflexivity. rewrite Hr. reflexivity.
  - intros e1 Hnone Hnew.
    assert (Hkept : remote (chain (eff.world (getRemote X url w))) = Some url
                    /\ (forall e e2,
                          remote_ResolveRoot X url e1 = (Err e, e2) ->
                          eff.out (getRemote X url w) = Err (notPublished X url e))).
    { unfold getRemote.
      erewrite eff_facts.bind_eq_ok by reflexivity. rewrite Hnone.
      erewrite eff_facts.bind_eq_ok
        by (apply eff_facts.attempt_eq; unfold outside;
            apply eff_facts.call_eq; rewrite Hnew; reflexivity).
      cbv beta iota.
      erewrite eff_facts.bind_eq_ok by reflexivity.
      unfold eff.bind, eff.wrapErr, outside, eff.call. cbn [env setChain setEnv chain].
      destruct (remote_ResolveRoot X url e1) as [[[]|e] e2]; cbn.
      - split; [reflexivity|]. discriminate.
      - split; [reflexivity|]. intros e0 e3 [= <- <-]. reflexivity. }
    destruct Hkept as [Hkept Hfailed]. split; [exact Hkept|]. split; [|exact Hfailed].
    unfold getRemote at 1.
    erewrite eff_facts.bind_eq_ok by reflexivity. rewrite Hkept. reflexivity.
  - intros e e1 Hnone Hnew. unfold getRemote.
    erewrite eff_facts.bind_eq_ok by reflexivity. rewrite Hnone.
    erewrite eff_facts.bind_eq_ok
      by (apply eff_facts.attempt_eq; unfold outside;
          apply eff_facts.call_eq; rewrite Hnew; reflexivity).
    reflexivity.
Qed.

Lemma getRemote_once_witness :
  let w := mkWorld sampleChain ∅ 0%nat in
  getRemote sampleComposer "oci://registry/other:1"
    (eff.world (getRemote sampleComposer "oci://registry/plain:1" w))
  = eff.Outcome (Ok "oci://registry/plain:1")
      (eff.world (getRemote sampleComposer "oci://registry/plain:1" w)) [].
Proof.
  intros w.
  destruct (getRemote_once sampleComposer "oci://registry/plain:1" "oci://registry/other:1" w)
    as (_ & Hkept & _).
  destruct (Hkept 0%nat eq_refl eq_refl) as (_ & Hsecond & _).
  exact Hsecond.
Defined.

End composer_spec.

(** ** The multispinner *)

Module message_spec.

Import message.

(** One step of the animation of a row. *)
Lemma nextFrame_cases (status : string) :
  (exists i, (i < 10)%nat /\ sequence !! i = Some status
             /\ nextFrame 0 sequence status = nth ((i + 1) mod 10) sequence "")
  \/ (~ In status sequence /\ nextFrame 0 sequence status = status).
Proof.
  unfold sequence. cbn [nextFrame length].
  repeat match goal with
         | |- context [String.eqb ?s status] =>
             destruct (String.eqb_spec s status) as [<-|?]
         end.
  all: try (left;
            first [ exists 0%nat; split; [lia|split; reflexivity]
                  | exists 1%nat; split; [lia|split; reflexivity]
                  | exists 2%nat; split; [lia|split; reflexivity]
                  | exists 3%nat; split; [lia|split; reflexivity]
                  | exists 4%nat; split; [lia|split; reflexivity]
                  | exists 5%nat; split; [lia|split; reflexivity]
                  | exists 6%nat; split; [lia|split; reflexivity]
                  | exists 7%nat; split; [lia|split; reflexivity]
                  | exists 8%nat; split; [lia|split; reflexivity]
                  | exists 9%nat; split; [lia|split; reflexivity] ]).
  right. split; [|reflexivity]. cbn. intuition congruence.
Qed.

Lemma nextFrame_of_frame (i : nat) :
  (i < 10)%nat ->
  nextFrame 0 sequence (nth i sequence "") = nth ((i + 1) mod 10) sequence "".
Proof.
  intros Hi. do 10 (destruct i as [|i]; [vm_compute; reflexivity|]). lia.
Qed.

(** Ten steps bring every status back. *)
Lemma nextFrame_period (status : string) :
  Nat.iter 10 (nextFrame 0 sequence) status = status.
Proof.
  destruct (nextFrame_cases status) as [(i & Hi & Hat & _)|[Hnot Hsame]].
  - apply nth_lookup_Some with (d := "") in Hat. subst status.
    do 10 (destruct i as [|i]; [vm_compute; reflexivity|]). lia.
  - cbv [Nat.iter nat_rect]. rewrite !Hsame. reflexivity.
Qed.

Section Frames.
Variable FgLightGreen_Sprint FgLightRed_Sprint : string -> string.
Variable timer : nat -> string.

Local Abbreviation renderText := (message.renderText FgLightGreen_Sprint FgLightRed_Sprint timer).
Local Abbreviation renderRows := (message.renderRows FgLightGreen_Sprint FgLightRed_Sprint timer).
Local Abbreviation rendered := (message.rendered FgLightGreen_Sprint FgLightRed_Sprint timer).

Lemma renderRows_rows (rows : list MultiSpinnerRow) :
  forall idx,
    fst (renderRows idx rows)
    = map (fun row => mkRow (nextFrame 0 sequence (Status row)) (Text row)) rows.
Proof.
  induction rows as [|row rows IH]; intros idx; cbn [message.renderRows map]; [reflexivity|].
  specialize (IH (S idx)). destruct (renderRows (S idx) rows) as [rest lines].
  cbn [fst] in *. rewrite IH. reflexivity.
Qed.

Lemma renderText_rows (rows : list MultiSpinnerRow) :
  fst (renderText rows)
  = map (fun row => mkRow (nextFrame 0 sequence (Status row)) (Text row)) rows.
Proof.
  unfold message.renderText. rewrite <- (renderRows_rows rows 0).
  destruct (renderRows 0 rows). reflexivity.
Qed.

Lemma rendered_rows (n : nat) :
  forall rows,
    rendered n rows
    = map (fun row => mkRow (Nat.iter n (nextFrame 0 sequence) (Status row)) (Text row)) rows.
Proof.
  induction n as [|n IH]; intros rows; cbn [message.rendered].
  - cbn [Nat.iter]. induction rows as [|[status text] rows IHr]; [reflexivity|].
    cbn [map Status Text]. rewrite <- IHr. reflexivity.
  - rewrite IH, renderText_rows, map_map. apply map_ext. intros [status text].
    cbn [Status Text]. rewrite Nat.iter_succ_r. reflexivity.
Qed.

End Frames.

(** The two loops of [Update]. *)
Section Loops.
Variable FgLightRed_Sprint : string -> string.
Variable rows : list MultiSpinnerRow.

Local Abbreviation RowStatusError := (message.RowStatusError FgLightRed_Sprint).

(** The body of the first loop of [Update]. *)
Local Abbreviation compare :=
  (fun (i : nat) (row : MultiSpinnerRow) =>
     match rows !! i with
     | None => eff.fail (indexOutOfRange (Z.of_nat i) (length rows))
     | Some new =>
         if negb (String.eqb (Status row) (Status new)) then
           if String.eqb (Status new) RowStatusError
           then eff.emit (EvSuccessf (Text new))
           else if String.eqb (Status new) RowStatusError
                then eff.emit (EvWarn (Text new))
                else eff.ret tt
         else eff.ret tt
     end : @eff.M (list MultiSpinnerRow) Event unit).

Local Abbreviation turned :=
  (fun p : MultiSpinnerRow * MultiSpinnerRow =>
     negb (String.eqb (Status (fst p)) (Status (snd p)))
     && String.eqb (Status (snd p)) RowStatusError).

Lemma compare_loop (current : list MultiSpinnerRow) :
  forall (i : nat) (w : list MultiSpinnerRow),
    (i <= length rows)%nat ->
    eff.forRange compare i current w
    = eff.Outcome
        (if (length current <=? length rows - i)%nat then Ok tt
         else Err (indexOutOfRange (Z.of_nat (length rows)) (length rows)))
        w
        (map (fun p => EvSuccessf (Text (snd p)))
           (List.filter turned (combine current (drop i rows)))).
Proof.
  induction current as [|old rest IH]; intros i w Hi; cbn [eff.forRange].
  - reflexivity.
  - destruct (rows !! i) as [new|] eqn:Hlk.
    + pose proof (lookup_lt_Some _ _ _ Hlk) as Hlt.
      rewrite (drop_S _ _ _ Hlk). cbn [combine List.filter fst snd].
      unfold eff.bind.
      assert (Hlen : (length (old :: rest) <=? length rows - i)%nat
                     = (length rest <=? length rows - S i)%nat).
      { cbn [length]. destruct (Nat.leb_spec (length rest) (length rows - S i));
          [apply Nat.leb_le|apply Nat.leb_gt]; lia. }
      rewrite Hlen.
      destruct (negb (Status old =? Status new)%string);
        destruct (Status new =? RowStatusError)%string;
        cbn [andb eff.emit eff.ret eff.out eff.world eff.trace map];
        rewrite (IH (S i) w) by lia;
        cbn [eff.out eff.world eff.trace app];
        destruct (length rest <=? length rows - S i)%nat; reflexivity.
    + apply lookup_ge_None in Hlk. assert (i = length rows) by lia. subst i.
      rewrite drop_all. rewrite Nat.sub_diag. cbn [combine List.filter map length Nat.leb].
      unfold eff.bind. reflexivity.
Qed.

Lemma announce_loop (added : list MultiSpinnerRow) :
  forall (i : nat) (w : list MultiSpinnerRow),
    eff.forRange (fun _ new => eff.emit (EvInfo (Text new))) i added w
    = eff.Outcome (Ok tt) w (map (fun new => EvInfo (Text new)) added).
Proof.
  induction added as [|new added IH]; intros i w; cbn [eff.forRange map]; [reflexivity|].
  unfold eff.bind. cbn [eff.emit eff.out eff.world eff.trace]. rewrite IH. reflexivity.
Qed.

End Loops.

(** Finished rows. *)
Lemma nextFrame_other (status : string) (n : nat) :
  ~ In status sequence -> Nat.iter n (nextFrame 0 sequence) status = status.
Proof.
  intros Hnot. induction n as [|n IH]; [reflexivity|].
  cbn [Nat.iter nat_rect]. fold (Nat.iter n (nextFrame 0 sequence) status). rewrite IH.
  destruct (nextFrame_cases status) as [(i & _ & Hat & _)|[_ Hsame]]; [|exact Hsame].
  exfalso. apply Hnot. apply list_elem_of_In. eapply list_elem_of_lookup_2, Hat.
Qed.

Lemma rowAt_cases (index : Z) (rows : list MultiSpinnerRow) :
  (0 <= index < Z.of_nat (length rows)
   /\ exists row, rows !! Z.to_nat index = Some row /\ rowAt index rows = Ok row)
  \/ (~ 0 <= index < Z.of_nat (length rows)
      /\ rowAt index rows = Err (indexOutOfRange index (length rows))).
Proof.
  unfold rowAt. destruct (Z.ltb_spec index 0) as [Hneg|Hpos].
  - right. split; [lia|reflexivity].
  - destruct (rows !! Z.to_nat index) as [row|] eqn:Hlk.
    + left. apply lookup_lt_Some in Hlk as Hlt. split; [lia|]. exists row. split; reflexivity.
    + right. apply lookup_ge_None in Hlk. split; [lia|reflexivity].
Qed.

Section Finished.
Variable FgLightGreen_Sprint FgLightRed_Sprint : string -> string.
Variable timer : nat -> string.

Local Abbreviation renderRow := (message.renderRow FgLightGreen_Sprint FgLightRed_Sprint timer).
Local Abbreviation renderRows := (message.renderRows FgLightGreen_Sprint FgLightRed_Sprint timer).
Local Abbreviation rendered := (message.rendered FgLightGreen_Sprint FgLightRed_Sprint timer).
Local Abbreviation RowStatusSuccess := (message.RowStatusSuccess FgLightGreen_Sprint).
Local Abbreviation RowStatusError := (message.RowStatusError FgLightRed_Sprint).

Lemma renderRows_lines (rows : list MultiSpinnerRow) :
  forall idx j, snd (renderRows idx rows) !! j = renderRow (idx + j) <$> rows !! j.
Proof.
  induction rows as [|row rows IH]; intros idx j; cbn [message.renderRows]; [reflexivity|].
  specialize (IH (S idx)). destruct (renderRows (S idx) rows) as [rest lines].
  cbn [snd] in *. destruct j as [|j].
  - cbn. rewrite Nat.add_0_r. reflexivity.
  - rewrite !lookup_cons. rewrite (IH j). replace (idx + S j)%nat with (S idx + j)%nat by lia.
    reflexivity.
Qed.

(** A row set at [i] whose status is the success or the error status
    is rendered without a timer, and no rendering changes it. *)
Lemma finished_row (status text : string) (i : nat) (rows : list MultiSpinnerRow) :
  (i < length rows)%nat ->
  status = RowStatusSuccess \/ status = RowStatusError ->
  let rows' := <[i := mkRow status text]> rows in
  snd (renderRows 0 rows') !! i = Some (status +:+ " " +:+ text)
  /\ (~ In status sequence -> forall n, rendered n rows' !! i = Some (mkRow status text)).
Proof.
  intros Hi Hstatus rows'.
  assert (Hat : rows' !! i = Some (mkRow status text)).
  { apply list_lookup_insert_eq. exact Hi. }
  split.
  - rewrite renderRows_lines, Hat. cbn [fmap option_fmap option_map]. f_equal.
    unfold message.renderRow. cbn [Status Text].
    assert (Htest : negb (status =? RowStatusSuccess)%string
                    && negb (status =? RowStatusError)%string = false).
    { destruct Hstatus as [-> | ->]; rewrite String.eqb_refl; cbn [negb andb];
        [reflexivity|apply andb_false_r]. }
    rewrite Htest. rewrite packager_spec.string_append_nil. reflexivity.
  - intros Hnot n. rewrite rendered_rows.
    change (map ?f ?l) with (f <$> l). rewrite list_lookup_fmap, Hat.
    cbn [fmap option_fmap option_map Status Text]. rewrite (nextFrame_other _ n Hnot).
    reflexivity.
Qed.

End Finished.

(** X19.  [renderText] moves every row that shows a frame of the
    spinner to the next frame, the last frame going back to the first,
    and leaves every other row (a finished one) as it is; it changes
    neither the number of rows nor any text.  So after ten renderings
    every row shows what it showed at the start. *)
Theorem renderText_frames
    (FgLightGreen_Sprint FgLightRed_Sprint : string -> string) (timer : nat -> string)
    (rows : list MultiSpinnerRow) :
  let rows' := fst (renderText FgLightGreen_Sprint FgLightRed_Sprint timer rows) in
  length rows' = length rows
  /\ map Text rows' = map Text rows
  /\ (forall idx row i,
        rows !! idx = Some row -> sequence !! i = Some (Status row) ->
        exists row',
          rows' !! idx = Some row'
          /\ sequence !! ((i + 1) mod 10)%nat = Some (Status row'))
  /\ (forall idx row,
        rows !! idx = Some row -> ~ In (Status row) sequence -> rows' !! idx = Some row)
  /\ rendered FgLightGreen_Sprint FgLightRed_Sprint timer 10 rows = rows.
Proof.
  intros rows'. subst rows'. rewrite renderText_rows.
  split; [apply length_map|]. split; [rewrite map_map; reflexivity|].
  split; [|split].
  - intros idx row i Hrow Hframe.
    exists (mkRow (nextFrame 0 sequence (Status row)) (Text row)).
    split.
    + change (map ?f ?l) with (f <$> l). rewrite list_lookup_fmap, Hrow. reflexivity.
    + cbn [Status].
      assert (Hi : (i < 10)%nat) by (apply lookup_lt_Some in Hframe; exact Hframe).
      apply nth_lookup_Some with (d := "") in Hframe. rewrite <- Hframe.
      rewrite (nextFrame_of_frame i Hi). clear Hframe.
      do 10 (destruct i as [|i]; [reflexivity|]). lia.
  - intros idx [status text] Hrow Hnot. cbn [Status] in Hnot.
    change (map ?f ?l) with (f <$> l). rewrite list_lookup_fmap, Hrow.
    destruct (nextFrame_cases status) as [(i & _ & Hat & _)|[_ Hsame]].
    + exfalso. apply Hnot. apply list_elem_of_In. eapply list_elem_of_lookup_2, Hat.
    + cbn [fmap option_fmap option_map Status Text]. rewrite Hsame. reflexivity.
  - rewrite rendered_rows. induction rows as [|[status text] rows IH]; [reflexivity|].
    cbn [map Status Text]. rewrite IH, nextFrame_period. reflexivity.
Qed.

Lemma renderText_frames_witness :
  let rows' := fst (renderText green red (fun _ => " (3s)") sampleRows) in
  (exists row', rows' !! 0%nat = Some row' /\ sequence !! 3%nat = Some (Status row'))
  /\ rows' !! 1%nat = Some (mkRow (green "  ✔ ") (green "pulling b")).
Proof.
  intros rows'.
  destruct (renderText_frames green red (fun _ => " (3s)") sampleRows)
    as (_ & _ & Hnext & Hkept & _).
  split.
  - exact (Hnext 0%nat (mkRow "  ⠹ " "pulling a") 2%nat eq_refl eq_refl).
  - apply (Hkept 1%nat (mkRow (green "  ✔ ") (green "pulling b")) eq_refl).
    vm_compute. intuition discriminate.
Defined.

(** X20.  With [NoProgress] unset [Update] only replaces the rows.  With
    it set, and at least as many new rows as there were, it prints
    a success message for every row whose status changed to the error
    status, then an info message for every added row, and replaces the
    rows; with fewer new rows than there were it panics at the first
    missing index, after the messages for the rows before it, and keeps
    the old rows.  It never prints a warning. *)
Theorem Update_messages
    (FgLightRed_Sprint : string -> string) (NoProgress : bool)
    (rows current : list MultiSpinnerRow) :
  let r := Update FgLightRed_Sprint NoProgress rows current in
  let turned := fun p : MultiSpinnerRow * MultiSpinnerRow =>
    negb (String.eqb (Status (fst p)) (Status (snd p)))
    && String.eqb (Status (snd p)) (RowStatusError FgLightRed_Sprint) in
  let announced :=
    map (fun p => EvSuccessf (Text (snd p))) (List.filter turned (combine current rows)) in
  (NoProgress = false -> r = eff.Outcome (Ok tt) rows [])
  /\ (NoProgress = true -> (length current <= length rows)%nat ->
      r = eff.Outcome (Ok tt) rows
            (announced
             ++ map (fun new => EvInfo (Text new)) (drop (length current) rows)))
  /\ (NoProgress = true -> (length rows < length current)%nat ->
      r = eff.Outcome (Err (indexOutOfRange (Z.of_nat (length rows)) (length rows)))
            current announced)
  /\ Forall (fun ev => isWarning ev = false) (eff.trace r).
Proof.
  intros r turned announced.
  assert (Hloop := compare_loop FgLightRed_Sprint rows current 0 current (Nat.le_0_l _)).
  rewrite drop_0, Nat.sub_0_r in Hloop.
  assert (Hquiet : Forall (fun ev => isWarning ev = false) announced).
  { apply List.Forall_map, Forall_true. intros p. reflexivity. }
  assert (Hinfo : forall l : list MultiSpinnerRow,
             Forall (fun ev => isWarning ev = false) (map (fun new => EvInfo (Text new)) l)).
  { intros l. apply List.Forall_map, Forall_true. intros p. reflexivity. }
  assert (Hfalse : NoProgress = false -> r = eff.Outcome (Ok tt) rows []).
  { intros ->. reflexivity. }
  assert (Hlong : NoProgress = true -> (length current <= length rows)%nat ->
                  r = eff.Outcome (Ok tt) rows
                        (announced
                         ++ map (fun new => EvInfo (Text new)) (drop (length current) rows))).
  { intros -> Hle. subst r. unfold Update.
    apply Nat.leb_le in Hle. rewrite Hle in Hloop.
    unfold eff.bind, eff.read. cbv zeta. cbn [eff.out eff.world eff.trace].
    rewrite Hloop. cbn [eff.out eff.world eff.trace].
    rewrite announce_loop. cbn [eff.out eff.world eff.trace app].
    rewrite app_nil_r. reflexivity. }
  assert (Hshort : NoProgress = true -> (length rows < length current)%nat ->
                   r = eff.Outcome
                         (Err (indexOutOfRange (Z.of_nat (length rows)) (length rows)))
                         current announced).
  { intros -> Hlt. subst r. unfold Update.
    apply Nat.leb_gt in Hlt. rewrite Hlt in Hloop.
    unfold eff.bind, eff.read. cbv zeta. cbn [eff.out eff.world eff.trace].
    rewrite Hloop. cbn [eff.out eff.world eff.trace app].
    reflexivity. }
  split; [exact Hfalse|]. split; [exact Hlong|]. split; [exact Hshort|].
  destruct NoProgress.
  - destruct (Nat.le_gt_cases (length current) (length rows)) as [Hle|Hlt].
    + rewrite (Hlong eq_refl Hle). cbn [eff.trace]. apply Forall_app. split; [exact Hquiet|apply Hinfo].
    + rewrite (Hshort eq_refl Hlt). exact Hquiet.
  - rewrite (Hfalse eq_refl). constructor.
Qed.

Lemma Update_messages_witness :
  Update red true
    [mkRow (red "  ✖ ") (red "pulling a"); mkRow "  ⠋ " "pulling b"]
    [mkRow "  ⠹ " "pulling a"]
  = eff.Outcome (Ok tt)
      [mkRow (red "  ✖ ") (red "pulling a"); mkRow "  ⠋ " "pulling b"]
      [EvSuccessf (red "pulling a"); EvInfo "pulling b"].
Proof.
  destruct (Update_messages red true
              [mkRow (red "  ✖ ") (red "pulling a"); mkRow "  ⠋ " "pulling b"]
              [mkRow "  ⠹ " "pulling a"]) as (_ & Hlong & _).
  apply (Hlong eq_refl). cbn. lia.
Defined.

(** X21.  [RowSuccess] with an index of a row gives that row the success
    status and its text in light green, leaves the other rows, and
    prints the text as a success message when [NoProgress] is set.
    [renderText] then renders the row without a timer, and, the success
    status being no frame of the spinner, no number of renderings
    changes the row.  With any other index [RowSuccess] panics with
    the rows as they were and nothing printed. *)
Theorem RowSuccess_finishes
    (FgLightGreen_Sprint FgLightRed_Sprint : string -> string) (NoProgress : bool)
    (timer : nat -> string) (index : Z) (rows : list MultiSpinnerRow) :
  let r := RowSuccess FgLightGreen_Sprint NoProgress index rows in
  let status := RowStatusSuccess FgLightGreen_Sprint in
  (0 <= index < Z.of_nat (length rows) ->
   exists row,
     rows !! Z.to_nat index = Some row
     /\ r = eff.Outcome (Ok tt)
              (<[Z.to_nat index := mkRow status (FgLightGreen_Sprint (Text row))]> rows)
              (if NoProgress then [EvSuccessf (FgLightGreen_Sprint (Text row))] else [])
     /\ snd (renderRows FgLightGreen_Sprint FgLightRed_Sprint timer 0 (eff.world r))
          !! Z.to_nat index
        = Some (status +:+ " " +:+ FgLightGreen_Sprint (Text row))
     /\ (~ In status sequence ->
         forall n,
           rendered FgLightGreen_Sprint FgLightRed_Sprint timer n (eff.world r)
             !! Z.to_nat index
           = Some (mkRow status (FgLightGreen_Sprint (Text row)))))
  /\ (~ 0 <= index < Z.of_nat (length rows) ->
      r = eff.Outcome (Err (indexOutOfRange index (length rows))) rows []).
Proof.
  intros r status.
  destruct (rowAt_cases index rows) as [(Hin & row & Hrow & Hat)|(Hout & Hat)].
  - split; [|intros Hno; contradiction].
    intros _. exists row. split; [exact Hrow|].
    assert (Hr : r = eff.Outcome (Ok tt)
                       (<[Z.to_nat index := mkRow status (FgLightGreen_Sprint (Text row))]> rows)
                       (if NoProgress then [EvSuccessf (FgLightGreen_Sprint (Text row))] else [])).
    { subst r. unfold RowSuccess, eff.bind, eff.read. cbv zeta.
      cbn [eff.out eff.world eff.trace]. rewrite Hat.
      unfold setRow. cbn [eff.out eff.world eff.trace].
      destruct NoProgress; reflexivity. }
    split; [exact Hr|]. rewrite Hr. cbn [eff.world].
    apply finished_row; [lia|left; reflexivity].
  - split; [intros Hyes; contradiction|].
    intros _. subst r. unfold RowSuccess, eff.bind, eff.read. cbv zeta.
    cbn [eff.out eff.world eff.trace]. rewrite Hat. reflexivity.
Qed.

Lemma RowSuccess_finishes_witness :
  rendered green red (fun _ => " (3s)") 7
    (eff.world (RowSuccess green false 0 [mkRow "  ⠹ " "pulling a"])) !! 0%nat
  = Some (mkRow (green "  ✔ ") (green "pulling a")).
Proof.
  destruct (RowSuccess_finishes green red false (fun _ => " (3s)") 0
              [mkRow "  ⠹ " "pulling a"]) as (Hin & _).
  destruct Hin as (row & Hrow & _ & _ & Hstays); [cbn; lia|].
  cbn in Hrow. injection Hrow as <-.
  apply (Hstays); vm_compute; intuition discriminate.
Defined.

(** X22.  [RowError] with an index of a row gives that row the error
    status and its text in light red, leaves the other rows, and prints
    the text as a warning when [NoProgress] is set.  [renderText] then
    renders the row without a timer, and, the error status being no
    frame of the spinner, no number of renderings changes the row.  With
    any other index [RowError] panics with the rows as they were and
    nothing printed. *)
Theorem RowError_finishes
    (FgLightGreen_Sprint FgLightRed_Sprint : string -> string) (NoProgress : bool)
    (timer : nat -> string) (index : Z) (rows : list MultiSpinnerRow) :
  let r := RowError FgLightRed_Sprint NoProgress index rows in
  let status := RowStatusError FgLightRed_Sprint in
  (0 <= index < Z.of_nat (length rows) ->
   exists row,
     rows !! Z.to_nat index = Some row
     /\ r = eff.Outcome (Ok tt)
              (<[Z.to_nat index := mkRow status (FgLightRed_Sprint (Text row))]> rows)
              (if NoProgress then [EvWarnf (FgLightRed_Sprint (Text row))] else [])
     /\ snd (renderRows FgLightGreen_Sprint FgLightRed_Sprint timer 0 (eff.world r))
          !! Z.to_nat index
        = Some (status +:+ " " +:+ FgLightRed_Sprint (Text row))
     /\ (~ In status sequence ->
         forall n,
           rendered FgLightGreen_Sprint FgLightRed_Sprint timer n (eff.world r)
             !! Z.to_nat index
           = Some (mkRow status (FgLightRed_Sprint (Text row)))))
  /\ (~ 0 <= index < Z.of_nat (length rows) ->
      r = eff.Outcome (Err (indexOutOfRange index (length rows))) rows []).
Proof.
  intros r status.
  destruct (rowAt_cases index rows) as [(Hin & row & Hrow & Hat)|(Hout & Hat)].
  - split; [|intros Hno; contradiction].
    intros _. exists row. split; [exact Hrow|].
    assert (Hr : r = eff.Outcome (Ok tt)
                       (<[Z.to_nat index := mkRow status (FgLightRed_Sprint (Text row))]> rows)
                       (if NoProgress then [EvWarnf (FgLightRed_Sprint (Text row))] else [])).
    { subst r. unfold RowError, eff.bind, eff.read. cbv zeta.
      cbn [eff.out eff.world eff.trace]. rewrite Hat.
      unfold setRow. cbn [eff.out eff.world eff.trace].
      destruct NoProgress; reflexivity. }
    split; [exact Hr|]. rewrite Hr. cbn [eff.world].
    apply finished_row; [lia|right; reflexivity].
  - split; [intros Hyes; contradiction|].
    intros _. subst r. unfold RowError, eff.bind, eff.read. cbv zeta.
    cbn [eff.out eff.world eff.trace]. rewrite Hat. reflexivity.
Qed.

Lemma RowError_finishes_witness :
  RowError red true (-1) sampleRows
  = eff.Outcome (Err (indexOutOfRange (-1) 2)) sampleRows [].
Proof.
  destruct (RowError_finishes green red true (fun _ => " (3s)") (-1) sampleRows)
    as (_ & Hout).
  apply Hout. cbn. lia.
Defined.

End message_spec.
